(** * Claude-cycling: wire codec, workout controller, zone analyzer, FIT encoder

    A shallow embedding of the Python sources
      - [src/ble_manager.py]     (module [BLE]),
      - [src/workout_manager.py] (module [Workout]),
      - [src/zone_analyzer.py]   (module [Zone]),
      - [src/fit_exporter.py]    (module [Fit]),
      - the data callbacks of [app.py] (module [App]),
    together with the properties of the specification that are settled on it
    and further properties of the code.

    Conventions of the embedding.
      - Python [int] is [Z]; [bytes]/[bytearray] is [list byte].
      - A Python exception is a value [Raise e] of the [result] type; code that
        may raise lives in the [result] monad.  A method that can raise after
        it has changed its object returns the outcome together with the state
        it leaves.
      - Python [float] is modelled by an exact rational ([Q]): readings of
        [time.time()], speeds, averages.  Rounding of binary64 arithmetic is
        not modelled; equalities between floats are stated with [==].
      - [time.time()] is an input: every operation that reads the clock takes
        the reading as an argument, one argument for each read.
      - Python raises OverflowError where an [int] too large for a [float]
        meets one; exact arithmetic does not, and properties of such
        arithmetic are stated for numbers in the range of a float where the
        difference matters.
      - A callback attribute ([on_bike_data], [on_power_change], ...) is
        modelled by the list of events the operation emits. *)

From Stdlib Require Import ZArith QArith Qround Qabs Lia Lqa List Strings.Byte.
From stdpp Require Import base option strings pretty gmap.
Import ListNotations.

Local Open Scope Z_scope.

(** ** Python prelude: exceptions, [struct], slices, [int()] *)

Inductive exn : Type :=
| ValueError (msg : string)
| IndexError
| TypeError
| ZeroDivisionError
| StructError          (* struct.error *)
| OverflowError
| OSError
| FileNotFoundError.

Inductive result (A : Type) : Type :=
| Ok (a : A)
| Raise (e : exn).
Arguments Ok {A} a.
Arguments Raise {A} e.

#[global] Instance result_ret : MRet result := fun _ a => Ok a.
#[global] Instance result_bind : MBind result := fun _ _ f m =>
  match m with
  | Ok a => f a
  | Raise e => Raise e
  end.

Definition is_ok {A} (r : result A) : bool :=
  match r with Ok _ => true | Raise _ => false end.

Definition byte_val (b : byte) : Z := Z.of_N (Byte.to_N b).

Definition byte_of_Z (v : Z) : byte :=
  match Byte.of_N (Z.to_N v) with
  | Some b => b
  | None => x00
  end.

(** [data[a:b]] for [0 <= a <= b]: never raises, may be shorter than [b-a]. *)
Definition slice {A} (data : list A) (a b : nat) : list A :=
  firstn (b - a) (skipn a data).

(** [data[i]] for [0 <= i]. *)
Definition index (data : list byte) (i : nat) : result Z :=
  match nth_error data i with
  | Some b => Ok (byte_val b)
  | None => Raise IndexError
  end.

Definition le_bytes2 (v : Z) : list byte :=
  [byte_of_Z (Z.land v 255); byte_of_Z (Z.land (Z.shiftr v 8) 255)].

Definition le_bytes4 (v : Z) : list byte :=
  [byte_of_Z (Z.land v 255); byte_of_Z (Z.land (Z.shiftr v 8) 255);
   byte_of_Z (Z.land (Z.shiftr v 16) 255); byte_of_Z (Z.land (Z.shiftr v 24) 255)].

(** [struct.pack('<B', v)], [struct.pack('<H', v)], [struct.pack('<I', v)]:
    [struct.error] when [v] does not fit the unsigned field. *)
Definition pack_B (v : Z) : result (list byte) :=
  if (0 <=? v) && (v <=? 255) then Ok [byte_of_Z v] else Raise StructError.

Definition pack_H (v : Z) : result (list byte) :=
  if (0 <=? v) && (v <=? 65535) then Ok (le_bytes2 v) else Raise StructError.

Definition pack_I (v : Z) : result (list byte) :=
  if (0 <=? v) && (v <=? 4294967295) then Ok (le_bytes4 v) else Raise StructError.

(** [struct.pack('<h', v)]: signed 16-bit. *)
Definition pack_h (v : Z) : result (list byte) :=
  if (-32768 <=? v) && (v <=? 32767) then Ok (le_bytes2 (v mod 65536))
  else Raise StructError.

(** [struct.unpack('<H', b)[0]] and [struct.unpack('<h', b)[0]]:
    [struct.error] unless [b] has exactly two bytes. *)
Definition unpack_H (b : list byte) : result Z :=
  match b with
  | [lo; hi] => Ok (byte_val lo + 256 * byte_val hi)
  | _ => Raise StructError
  end.

Definition unpack_h (b : list byte) : result Z :=
  u ← unpack_H b;
  mret (if 32768 <=? u then u - 65536 else u).

(** Python truthiness of an [int]. *)
Definition truthy (v : Z) : bool := negb (v =? 0).

(** [int(x)] on a float: truncation toward zero. *)
Definition py_int (x : Q) : Z := Z.quot (Qnum x) (Zpos (Qden x)).

Definition Qltb (x y : Q) : bool := negb (Qle_bool y x).

Definition sumZ (l : list Z) : Z := fold_right Z.add 0 l.

(** ** ble_manager.py *)
Module BLE.

Record BikeData := mkBikeData {
  power : Z;        (* Watts *)
  cadence : Z;      (* RPM *)
  speed : Q;        (* km/h *)
  timestamp : Q
}.

Record HRData := mkHRData {
  heart_rate : Z;   (* BPM *)
  hr_timestamp : Q
}.

Definition BikeData_default : BikeData := mkBikeData 0 0 0 0.
Definition HRData_default : HRData := mkHRData 0 0.

(** What a notification handler hands to the registered callback. *)
Inductive event : Type :=
| BikeEvent (d : BikeData)
| HREvent (d : HRData).

(** The part of [BLEManager] the notification handlers read and write. *)
Record BLEManager := mkBLEManager {
  on_bike_data : bool;            (* a callback is registered *)
  on_hr_data : bool;
  _last_bike_data : BikeData;
  _last_hr_data : HRData
}.

Definition init : BLEManager :=
  mkBLEManager false false BikeData_default HRData_default.

Definition notify (registered : bool) (e : event) : list event :=
  if registered then [e] else [].

(** The three guarded reads and four skips of [_handle_indoor_bike_data],
    up to the construction of the sample. *)
Definition decode_indoor_bike_data (data : list byte) (now : Q) : result BikeData :=
  flags ← unpack_H (slice data 0 2);
  let offset := 2%nat in
  let speed := 0%Q in
  let cadence := 0 in
  let power := 0 in
  (* Instantaneous Speed: read whenever two more bytes are there *)
  '(speed, offset) ←
     (if (offset + 1 <? length data)%nat then
        speed_raw ← unpack_H (slice data offset (offset + 2));
        mret ((inject_Z speed_raw / 100)%Q, (offset + 2)%nat)
      else mret (speed, offset));
  let offset := if truthy (Z.land flags 0x02) then (offset + 2)%nat else offset in
  '(cadence, offset) ←
     (if truthy (Z.land flags 0x04) then
        if (offset + 1 <? length data)%nat then
          cadence_raw ← unpack_H (slice data offset (offset + 2));
          mret (cadence_raw / 2, (offset + 2)%nat)
        else mret (cadence, offset)
      else mret (cadence, offset));
  let offset := if truthy (Z.land flags 0x08) then (offset + 2)%nat else offset in
  let offset := if truthy (Z.land flags 0x10) then (offset + 3)%nat else offset in
  let offset := if truthy (Z.land flags 0x20) then (offset + 2)%nat else offset in
  power ←
     (if truthy (Z.land flags 0x40) then
        if (offset + 1 <? length data)%nat then
          unpack_h (slice data offset (offset + 2))
        else mret power
      else mret power);
  mret (mkBikeData (Z.max 0 power) cadence speed now).

Definition _handle_indoor_bike_data (self : BLEManager) (data : list byte) (now : Q)
  : result (BLEManager * list event) :=
  bike_data ← decode_indoor_bike_data data now;
  mret (mkBLEManager (on_bike_data self) (on_hr_data self) bike_data (_last_hr_data self),
        notify (on_bike_data self) (BikeEvent bike_data)).

(** [_handle_cycling_power]: the flags are read (and must be there), the power
    is read at the fixed offset 2 and written into the cached sample. *)
Definition _handle_cycling_power (self : BLEManager) (data : list byte) (now : Q)
  : result (BLEManager * list event) :=
  flags ← unpack_H (slice data 0 2);
  power ← unpack_h (slice data 2 4);
  let last := _last_bike_data self in
  let bike_data := mkBikeData (Z.max 0 power) (cadence last) (speed last) now in
  mret (mkBLEManager (on_bike_data self) (on_hr_data self) bike_data (_last_hr_data self),
        notify (on_bike_data self) (BikeEvent bike_data)).

Definition _handle_hr_measurement (self : BLEManager) (data : list byte) (now : Q)
  : result (BLEManager * list event) :=
  flags ← index data 0;
  hr ← (if truthy (Z.land flags 0x01) then unpack_H (slice data 1 3)
        else index data 1);
  let hr_data := mkHRData hr now in
  mret (mkBLEManager (on_bike_data self) (on_hr_data self) (_last_bike_data self) hr_data,
        notify (on_hr_data self) (HREvent hr_data)).

(** FTMS Control Point op codes. *)
Definition FTMS_REQUEST_CONTROL : Z := 0x00.
Definition FTMS_RESET : Z := 0x01.
Definition FTMS_SET_TARGET_POWER : Z := 0x05.

(** The part of [BLEManager] the ERG commands read and write.
    [trainer_client] is [None] or the [is_connected] flag of the client;
    [written] lists the commands that were written to the control point
    characteristic, oldest first. *)
Record TrainerLink := mkTrainerLink {
  trainer_client : option bool;
  _has_control : bool;
  _erg_mode_active : bool;
  _current_target_power : Z;
  written : list (list byte)
}.

(** The ERG state [__init__] sets up. *)
Definition init_link : TrainerLink := mkTrainerLink None false false 0 [].

Definition is_trainer_connected (self : TrainerLink) : bool :=
  match trainer_client self with
  | Some connected => connected
  | None => false
  end.

(** [_request_control]; [write_ok] tells whether [write_gatt_char] goes
    through (it raises otherwise, and the handler returns [False]). *)
Definition _request_control (self : TrainerLink) (write_ok : bool) : TrainerLink * bool :=
  if negb (is_trainer_connected self) then (self, false)
  else
    match pack_B FTMS_REQUEST_CONTROL with
    | Ok command =>
        if write_ok
        then (mkTrainerLink (trainer_client self) true (_erg_mode_active self)
                (_current_target_power self) (written self ++ [command]), true)
        else (self, false)
    | Raise _ => (self, false)
    end.

(** [set_target_power]: [struct.pack('<Bh', FTMS_SET_TARGET_POWER, watts)];
    [control_ok] and [power_ok] are the outcomes of the two writes. *)
Definition set_target_power (self : TrainerLink) (watts : Z) (control_ok power_ok : bool)
  : TrainerLink * bool :=
  if negb (is_trainer_connected self) then (self, false)
  else
    let self := if _has_control self then self
                else fst (_request_control self control_ok) in
    match (op ← pack_B FTMS_SET_TARGET_POWER; power ← pack_h watts; mret (op ++ power)) with
    | Ok command =>
        if power_ok
        then (mkTrainerLink (trainer_client self) (_has_control self) true watts
                (written self ++ [command]), true)
        else (self, false)
    | Raise _ => (self, false)
    end.

Definition stop_erg_mode (self : TrainerLink) (write_ok : bool) : TrainerLink * bool :=
  if negb (is_trainer_connected self) then (self, false)
  else
    match pack_B FTMS_RESET with
    | Ok command =>
        if write_ok
        then (mkTrainerLink (trainer_client self) (_has_control self) false 0
                (written self ++ [command]), true)
        else (self, false)
    | Raise _ => (self, false)
    end.

(** [connect_trainer], as far as the ERG state goes: a fresh client is
    stored, then connected; the subscriptions follow, then the request for
    control.  [address_set] is the truth value of [trainer_address];
    [connect_ok], [subscribe_ok] and [control_ok] tell whether the connection,
    the subscriptions and the control write go through. *)
Definition connect_trainer (self : TrainerLink) (address_set connect_ok subscribe_ok
    control_ok : bool) : TrainerLink * bool :=
  if negb address_set then (self, false)
  else
    let fresh (connected : bool) :=
      mkTrainerLink (Some connected) (_has_control self) (_erg_mode_active self)
        (_current_target_power self) (written self) in
    if negb connect_ok then (fresh false, false)
    else if negb subscribe_ok then (fresh true, false)
    else (fst (_request_control (fresh true) control_ok), true).

(** [disconnect_trainer]; the client's [disconnect()] is assumed to return. *)
Definition disconnect_trainer (self : TrainerLink) (write_ok : bool) : TrainerLink :=
  let self := if _erg_mode_active self then fst (stop_erg_mode self write_ok) else self in
  mkTrainerLink None false (_erg_mode_active self) (_current_target_power self)
    (written self).

End BLE.

(** Arithmetic on floats, as rationals. *)
Definition Qmin2 (x y : Q) : Q := if Qltb y x then y else x.   (* min(x, y) *)
Definition Qeqb (x y : Q) : bool := Qeq_bool x y.

(** [sum(l) / len(l)] and [np.mean(l)] of a list of ints. *)
Definition mean (l : list Z) : Q := (inject_Z (sumZ l) / inject_Z (Z.of_nat (length l)))%Q.

(** ** workout_manager.py *)
Module Workout.

Inductive WorkoutPhase : Type :=
| NOT_STARTED | WARMUP | MAIN | INTERVAL | RECOVERY | COOLDOWN | COMPLETED.

Definition WorkoutPhase_eqb (a b : WorkoutPhase) : bool :=
  match a, b with
  | NOT_STARTED, NOT_STARTED | WARMUP, WARMUP | MAIN, MAIN | INTERVAL, INTERVAL
  | RECOVERY, RECOVERY | COOLDOWN, COOLDOWN | COMPLETED, COMPLETED => true
  | _, _ => false
  end.

(** The keys of [WORKOUT_LIBRARY]. *)
Definition WORKOUT_LIBRARY : list string := ["zone2"; "vo2max"; "sweet_spot"; "tempo"]%string.

Record WorkoutSegment := mkSegment {
  name : string;
  duration_seconds : Z;
  target_power_start : Z;
  target_power_end : Z;
  phase : WorkoutPhase
}.

(** [WorkoutSegment.get_power_at_time]; the division raises on a ramp of
    duration 0. *)
Definition get_power_at_time (self : WorkoutSegment) (elapsed_seconds : Z) : result Z :=
  if target_power_start self =? target_power_end self then Ok (target_power_start self)
  else if duration_seconds self =? 0 then Raise ZeroDivisionError
  else
    let progress := Qmin2 1 (inject_Z elapsed_seconds / inject_Z (duration_seconds self))%Q in
    let power := (inject_Z (target_power_start self)
                  + inject_Z (target_power_end self - target_power_start self) * progress)%Q in
    Ok (py_int power).

Record WorkoutConfig := mkConfig {
  ftp : Z;
  hr_zone2_low : Z;
  hr_zone2_high : Z
}.

Definition pct (ftp : Z) (f : Q) : Z := py_int (inject_Z ftp * f)%Q.   (* int(ftp * f) *)

Definition zone2_power (c : WorkoutConfig) : Z := pct (ftp c) 0.65.
Definition zone2_low (c : WorkoutConfig) : Z := pct (ftp c) 0.50.
Definition zone2_high (c : WorkoutConfig) : Z := pct (ftp c) 0.80.
Definition warmup_start_power (c : WorkoutConfig) : Z := pct (ftp c) 0.40.
Definition cooldown_end_power (c : WorkoutConfig) : Z := pct (ftp c) 0.40.
Definition hr_target (c : WorkoutConfig) : Z := (hr_zone2_low c + hr_zone2_high c) / 2.

(** What [update], [start] hand to the callbacks [on_phase_change],
    [on_power_change], [on_workout_complete] (when one is registered). *)
Inductive event : Type :=
| PhaseChange (p : WorkoutPhase) (segment_name : string)
| PowerChange (watts : Z)
| WorkoutComplete.

Record WorkoutManager := mkManager {
  config : WorkoutConfig;
  segments : list WorkoutSegment;
  current_segment_index : Z;
  workout_start_time : option Q;
  segment_start_time : option Q;
  _last_target_power : Z;
  _is_running : bool;
  _current_workout_type : string;
  _hr_target_mode : bool;
  _current_adaptive_power : Z;
  _last_hr_adjustment_time : Q;
  _hr_adjustment_interval : Q;
  _power_step : Z;
  _hr_samples : list Z
}.

Definition zone2_segments (c : WorkoutConfig) : list WorkoutSegment :=
  [ mkSegment "Warmup" (5 * 60) (warmup_start_power c) (zone2_power c) WARMUP;
    mkSegment "Zone 2" (50 * 60) (zone2_power c) (zone2_power c) MAIN;
    mkSegment "Cooldown" (5 * 60) (zone2_power c) (cooldown_end_power c) COOLDOWN ].

Definition vo2max_segments (c : WorkoutConfig) : list WorkoutSegment :=
  let vo2_power := pct (ftp c) 1.20 in
  let recovery_power := pct (ftp c) 0.50 in
  [ mkSegment "Warmup" (5 * 60) (warmup_start_power c) (pct (ftp c) 0.65) WARMUP ]
  ++ flat_map (fun i : Z =>
       mkSegment ("Interval " +:+ pretty (i + 1)) (3 * 60) vo2_power vo2_power INTERVAL
       :: (if i <? 4
           then [mkSegment ("Recovery " +:+ pretty (i + 1)) (3 * 60)
                   recovery_power recovery_power RECOVERY]
           else []))
       [0; 1; 2; 3; 4]
  ++ [ mkSegment "Cooldown" (5 * 60) recovery_power (cooldown_end_power c) COOLDOWN ].

Definition sweet_spot_segments (c : WorkoutConfig) : list WorkoutSegment :=
  let ss_power := pct (ftp c) 0.90 in
  let recovery_power := pct (ftp c) 0.55 in
  [ mkSegment "Warmup" (5 * 60) (warmup_start_power c) (pct (ftp c) 0.65) WARMUP;
    mkSegment "Sweet Spot 1" (20 * 60) ss_power ss_power MAIN;
    mkSegment "Recovery" (5 * 60) recovery_power recovery_power RECOVERY;
    mkSegment "Sweet Spot 2" (20 * 60) ss_power ss_power MAIN;
    mkSegment "Cooldown" (5 * 60) recovery_power (cooldown_end_power c) COOLDOWN ].

Definition tempo_segments (c : WorkoutConfig) : list WorkoutSegment :=
  let tempo_power := pct (ftp c) 0.97 in
  let recovery_power := pct (ftp c) 0.55 in
  [ mkSegment "Warmup" (5 * 60) (warmup_start_power c) (pct (ftp c) 0.65) WARMUP;
    mkSegment "Tempo 1" (15 * 60) tempo_power tempo_power MAIN;
    mkSegment "Recovery" (5 * 60) recovery_power recovery_power RECOVERY;
    mkSegment "Tempo 2" (15 * 60) tempo_power tempo_power MAIN;
    mkSegment "Cooldown" (5 * 60) recovery_power (cooldown_end_power c) COOLDOWN ].

Definition set_segments (self : WorkoutManager) (ty : string) (segs : list WorkoutSegment)
  : WorkoutManager :=
  mkManager (config self) segs (current_segment_index self) (workout_start_time self)
    (segment_start_time self) (_last_target_power self) (_is_running self) ty
    (_hr_target_mode self) (_current_adaptive_power self) (_last_hr_adjustment_time self)
    (_hr_adjustment_interval self) (_power_step self) (_hr_samples self).

(** [_build_workout]: the type is recorded first; an unknown type leaves the
    segments as they are. *)
Definition _build_workout (self : WorkoutManager) (workout_type : string) : WorkoutManager :=
  let c := config self in
  if String.eqb workout_type "zone2" then set_segments self workout_type (zone2_segments c)
  else if String.eqb workout_type "vo2max" then set_segments self workout_type (vo2max_segments c)
  else if String.eqb workout_type "sweet_spot"
       then set_segments self workout_type (sweet_spot_segments c)
  else if String.eqb workout_type "tempo" then set_segments self workout_type (tempo_segments c)
  else set_segments self workout_type (segments self).

(** [WorkoutManager.__init__] *)
Definition init (ftp hr_zone2_low hr_zone2_high : Z) : WorkoutManager :=
  _build_workout
    (mkManager (mkConfig ftp hr_zone2_low hr_zone2_high) [] (-1) None None
       0 false "zone2" false 0 0 30 5 [])
    "zone2".

Definition set_workout_type (self : WorkoutManager) (workout_type : string) : WorkoutManager :=
  if existsb (String.eqb workout_type) WORKOUT_LIBRARY
  then _build_workout self workout_type else self.

Definition set_config (self : WorkoutManager) (c : WorkoutConfig) : WorkoutManager :=
  mkManager c (segments self) (current_segment_index self) (workout_start_time self)
    (segment_start_time self) (_last_target_power self) (_is_running self)
    (_current_workout_type self)
    (_hr_target_mode self) (_current_adaptive_power self) (_last_hr_adjustment_time self)
    (_hr_adjustment_interval self) (_power_step self) (_hr_samples self).

Definition set_ftp (self : WorkoutManager) (ftp : Z) : WorkoutManager :=
  let self := set_config self
                (mkConfig ftp (hr_zone2_low (config self)) (hr_zone2_high (config self))) in
  _build_workout self (_current_workout_type self).

Definition set_hr_zones (self : WorkoutManager) (hr_low hr_high : Z) : WorkoutManager :=
  set_config self (mkConfig (ftp (config self)) hr_low hr_high).

(** [segments[i]] for an index [i >= 0]. *)
Definition segment_at (segs : list WorkoutSegment) (i : Z) : result WorkoutSegment :=
  match nth_error segs (Z.to_nat i) with
  | Some s => Ok s
  | None => Raise IndexError
  end.

(** [start]: the clock is read three times. *)
Definition start (self : WorkoutManager) (t_workout t_segment t_adjust : Q)
  : result (WorkoutManager * list event) :=
  segment ← segment_at (segments self) 0;
  initial_power ← get_power_at_time segment 0;
  mret (mkManager (config self) (segments self) 0 (Some t_workout) (Some t_segment)
          initial_power true (_current_workout_type self)
          false (zone2_power (config self)) t_adjust
          (_hr_adjustment_interval self) (_power_step self) [],
        [PhaseChange (phase segment) (name segment); PowerChange initial_power]).

Definition stop (self : WorkoutManager) : WorkoutManager :=
  mkManager (config self) (segments self) (-1) (workout_start_time self)
    (segment_start_time self) (_last_target_power self) false (_current_workout_type self)
    false (_current_adaptive_power self) (_last_hr_adjustment_time self)
    (_hr_adjustment_interval self) (_power_step self) [].

Definition set_hr_samples (self : WorkoutManager) (l : list Z) : WorkoutManager :=
  mkManager (config self) (segments self) (current_segment_index self)
    (workout_start_time self) (segment_start_time self) (_last_target_power self)
    (_is_running self) (_current_workout_type self) (_hr_target_mode self)
    (_current_adaptive_power self) (_last_hr_adjustment_time self)
    (_hr_adjustment_interval self) (_power_step self) l.

Definition add_hr_sample (self : WorkoutManager) (hr : Z) : WorkoutManager :=
  if _hr_target_mode self then
    let samples := _hr_samples self ++ [hr] in
    set_hr_samples self (if (30 <? length samples)%nat then tl samples else samples)
  else self.

(** The adjustment of [get_hr_adjusted_power] once it is due: the new power
    before it is compared with the old one. *)
Definition adjusted_power (self : WorkoutManager) : Z :=
  let avg_hr := mean (_hr_samples self) in
  let target_hr := hr_target (config self) in
  let hr_low := hr_zone2_low (config self) in
  let hr_high := hr_zone2_high (config self) in
  let old_power := _current_adaptive_power self in
  let new_power :=
    if Qltb (inject_Z (hr_high + 5)) avg_hr then old_power - _power_step self * 2
    else if Qltb (inject_Z hr_high) avg_hr then old_power - _power_step self
    else if Qltb avg_hr (inject_Z (hr_low - 5)) then old_power + _power_step self * 2
    else if Qltb avg_hr (inject_Z hr_low) then old_power + _power_step self
    else if Qltb (inject_Z (target_hr + 3)) avg_hr then old_power - _power_step self
    else if Qltb avg_hr (inject_Z (target_hr - 3)) then old_power + _power_step self
    else old_power in
  Z.max (zone2_low (config self)) (Z.min (zone2_high (config self)) new_power).

Definition set_adjustment (self : WorkoutManager) (now : Q) (adaptive last_target : Z)
  : WorkoutManager :=
  mkManager (config self) (segments self) (current_segment_index self)
    (workout_start_time self) (segment_start_time self) last_target
    (_is_running self) (_current_workout_type self) (_hr_target_mode self)
    adaptive now
    (_hr_adjustment_interval self) (_power_step self) (_hr_samples self).

Definition get_hr_adjusted_power (self : WorkoutManager) (now : Q)
  : WorkoutManager * option Z :=
  if negb (_hr_target_mode self) || (length (_hr_samples self) <? 10)%nat then (self, None)
  else if Qltb (now - _last_hr_adjustment_time self) (_hr_adjustment_interval self)
  then (self, None)
  else
    let old_power := _current_adaptive_power self in
    let new_power := adjusted_power self in
    if negb (new_power =? old_power)
    then (set_adjustment self now new_power new_power, Some new_power)
    else (set_adjustment self now old_power (_last_target_power self), None).

Definition set_running (self : WorkoutManager) (running : bool) : WorkoutManager :=
  mkManager (config self) (segments self) (current_segment_index self)
    (workout_start_time self) (segment_start_time self) (_last_target_power self)
    running (_current_workout_type self) (_hr_target_mode self)
    (_current_adaptive_power self) (_last_hr_adjustment_time self)
    (_hr_adjustment_interval self) (_power_step self) (_hr_samples self).

(** The state after [update] has advanced to the segment [idx] at time [now];
    [arm] says whether HR-target mode is (re-)entered. *)
Definition enter_segment (self : WorkoutManager) (idx : Z) (now : Q) (arm : bool)
  : WorkoutManager :=
  mkManager (config self) (segments self) idx (workout_start_time self) (Some now)
    (_last_target_power self) (_is_running self) (_current_workout_type self)
    arm
    (if arm then zone2_power (config self) else _current_adaptive_power self)
    (if arm then now else _last_hr_adjustment_time self)
    (_hr_adjustment_interval self) (_power_step self)
    (if arm then [] else _hr_samples self).

(** The state after [update] has run off the last segment. *)
Definition complete (self : WorkoutManager) (idx : Z) (now : Q) : WorkoutManager :=
  mkManager (config self) (segments self) idx (workout_start_time self) (Some now)
    (_last_target_power self) false (_current_workout_type self)
    false (_current_adaptive_power self) (_last_hr_adjustment_time self)
    (_hr_adjustment_interval self) (_power_step self) (_hr_samples self).

Definition set_last_target_power (self : WorkoutManager) (p : Z) : WorkoutManager :=
  mkManager (config self) (segments self) (current_segment_index self)
    (workout_start_time self) (segment_start_time self) p
    (_is_running self) (_current_workout_type self) (_hr_target_mode self)
    (_current_adaptive_power self) (_last_hr_adjustment_time self)
    (_hr_adjustment_interval self) (_power_step self) (_hr_samples self).

(** The tail of [update]: choose the target power, notify only on a change. *)
Definition retarget (self : WorkoutManager) (segment : WorkoutSegment) (segment_elapsed : Q)
    (evs : list event) : result (WorkoutManager * option Z * list event) :=
  target_power ← (if _hr_target_mode self then Ok (_current_adaptive_power self)
                  else get_power_at_time segment (py_int segment_elapsed));
  if negb (target_power =? _last_target_power self)
  then mret (set_last_target_power self target_power, Some target_power,
             evs ++ [PowerChange target_power])
  else mret (self, None, evs).

Definition update (self : WorkoutManager) (now : Q)
  : result (WorkoutManager * option Z * list event) :=
  if negb (_is_running self) || (current_segment_index self <? 0) then mret (self, None, [])
  else if (Z.of_nat (length (segments self)) <=? current_segment_index self) then
    mret (set_running self false, None, [WorkoutComplete; PhaseChange COMPLETED "Complete"])
  else
    segment ← segment_at (segments self) (current_segment_index self);
    start_time ← (match segment_start_time self with
                  | Some t => Ok t
                  | None => Raise TypeError
                  end);
    let segment_elapsed := (now - start_time)%Q in
    if Qle_bool (inject_Z (duration_seconds segment)) segment_elapsed then
      let idx := current_segment_index self + 1 in
      if (Z.of_nat (length (segments self)) <=? idx) then
        mret (complete self idx now, None,
              [WorkoutComplete; PhaseChange COMPLETED "Complete"])
      else
        segment ← segment_at (segments self) idx;
        let arm := String.eqb (_current_workout_type self) "zone2"
                   && WorkoutPhase_eqb (phase segment) MAIN in
        retarget (enter_segment self idx now arm) segment 0
          [PhaseChange (phase segment) (name segment)]
    else retarget self segment segment_elapsed [].

Definition is_running (self : WorkoutManager) : bool := _is_running self.

Definition current_phase (self : WorkoutManager) : WorkoutPhase :=
  if current_segment_index self <? 0 then NOT_STARTED
  else if Z.of_nat (length (segments self)) <=? current_segment_index self then COMPLETED
  else match nth_error (segments self) (Z.to_nat (current_segment_index self)) with
       | Some s => phase s
       | None => COMPLETED
       end.

Definition total_duration_seconds (self : WorkoutManager) : Z :=
  sumZ (map duration_seconds (segments self)).

Definition current_segment_name (self : WorkoutManager) : string :=
  if (current_segment_index self <? 0)
     || (Z.of_nat (length (segments self)) <=? current_segment_index self) then ""
  else match nth_error (segments self) (Z.to_nat (current_segment_index self)) with
       | Some s => name s
       | None => ""
       end.

Definition target_power (self : WorkoutManager) : Z := _last_target_power self.

(** [WorkoutPhase.value] *)
Definition phase_value (p : WorkoutPhase) : string :=
  match p with
  | NOT_STARTED => "not_started"
  | WARMUP => "warmup"
  | MAIN => "main"
  | INTERVAL => "interval"
  | RECOVERY => "recovery"
  | COOLDOWN => "cooldown"
  | COMPLETED => "completed"
  end.

(** [WORKOUT_LIBRARY[workout_type]["duration_minutes"]] *)
Definition library_duration_minutes (workout_type : string) : option Z :=
  if String.eqb workout_type "zone2" then Some 60
  else if String.eqb workout_type "vo2max" then Some 35
  else if String.eqb workout_type "sweet_spot" then Some 55
  else if String.eqb workout_type "tempo" then Some 45
  else None.

End Workout.

(** [deque(maxlen=n).append(x)]: a full deque drops its oldest element. *)
Definition deque_append {A} (maxlen : nat) (d : list A) (x : A) : list A :=
  if (maxlen <=? length d)%nat then tl d ++ [x] else d ++ [x].

(** [l[-n:]] for [n > 0]. *)
Definition lastn {A} (n : nat) (l : list A) : list A := skipn (length l - n) l.

(** ** zone_analyzer.py *)
Module Zone.

(** The f-string of an alert, kept as its template and the values it formats. *)
Inductive message : Type :=
| HrTooHigh (hr zone2_high : Z)
| HrTooLow (hr zone2_low : Z)
| CardiacDrift (drift_percent : Q)
| Decoupling (abs_power_change : Q).

(** [timestamp] defaults to [time.time()], read when the alert is built: a
    reading of its own, after the one [update] takes on entry. *)
Record Alert := mkAlert {
  type : string;          (* 'hr_high', 'hr_low', 'cardiac_drift', 'decoupling' *)
  msg : message;
  severity : string;      (* 'warning', 'critical' *)
  timestamp : Q
}.

Record ZoneAnalyzer := mkAnalyzer {
  zone2_low : Z;
  zone2_high : Z;
  drift_threshold : Q;
  decoupling_threshold : Q;
  hr_alert_delay : Q;
  _hr_history : list Z;
  _power_history : list Z;
  _cadence_history : list Z;
  _timestamps : list Q;
  _hr_out_of_zone_start : option Q;
  _last_alert_time : gmap string Q;
  _alert_cooldown : Q;
  _time_in_zone : Q;
  _time_above : Q;
  _time_below : Q;
  _last_update_time : option Q;
  _workout_start : option Q
}.

(** [ZoneAnalyzer.__init__] *)
Definition init (zone2_low zone2_high : Z) (drift_threshold decoupling_threshold
    hr_alert_delay : Q) : ZoneAnalyzer :=
  mkAnalyzer zone2_low zone2_high drift_threshold decoupling_threshold hr_alert_delay
    [] [] [] [] None ∅ 30 0 0 0 None None.

Definition reset (self : ZoneAnalyzer) : ZoneAnalyzer :=
  mkAnalyzer (zone2_low self) (zone2_high self) (drift_threshold self)
    (decoupling_threshold self) (hr_alert_delay self)
    [] [] [] [] None ∅ (_alert_cooldown self) 0 0 0 None None.

Definition update_zones (self : ZoneAnalyzer) (low high : Z) : ZoneAnalyzer :=
  mkAnalyzer low high (drift_threshold self)
    (decoupling_threshold self) (hr_alert_delay self)
    (_hr_history self) (_power_history self) (_cadence_history self) (_timestamps self)
    (_hr_out_of_zone_start self) (_last_alert_time self) (_alert_cooldown self)
    (_time_in_zone self) (_time_above self) (_time_below self)
    (_last_update_time self) (_workout_start self).

Definition set_out_of_zone_start (self : ZoneAnalyzer) (t : option Q) : ZoneAnalyzer :=
  mkAnalyzer (zone2_low self) (zone2_high self) (drift_threshold self)
    (decoupling_threshold self) (hr_alert_delay self)
    (_hr_history self) (_power_history self) (_cadence_history self) (_timestamps self)
    t (_last_alert_time self) (_alert_cooldown self)
    (_time_in_zone self) (_time_above self) (_time_below self)
    (_last_update_time self) (_workout_start self).

(** [self._last_alert_time[alert_type] = now] *)
Definition set_last_alert (self : ZoneAnalyzer) (alert_type : string) (now : Q)
  : ZoneAnalyzer :=
  mkAnalyzer (zone2_low self) (zone2_high self) (drift_threshold self)
    (decoupling_threshold self) (hr_alert_delay self)
    (_hr_history self) (_power_history self) (_cadence_history self) (_timestamps self)
    (_hr_out_of_zone_start self) (<[alert_type := now]> (_last_alert_time self))
    (_alert_cooldown self)
    (_time_in_zone self) (_time_above self) (_time_below self)
    (_last_update_time self) (_workout_start self).

Definition _can_alert (self : ZoneAnalyzer) (alert_type : string) (now : Q) : bool :=
  let last := default 0%Q (_last_alert_time self !! alert_type) in
  Qltb (_alert_cooldown self) (now - last).

(** The checks of [update].  [alert_time ty] is the clock reading made when an
    alert of type [ty] is built. *)
Definition _check_hr_zone (self : ZoneAnalyzer) (hr : Z) (now : Q) (alert_time : string -> Q)
  : ZoneAnalyzer * option Alert :=
  let in_zone := (zone2_low self <=? hr) && (hr <=? zone2_high self) in
  if in_zone then (set_out_of_zone_start self None, None)
  else
    let start := match _hr_out_of_zone_start self with
                 | None => now
                 | Some t => t
                 end in
    let self := set_out_of_zone_start self (Some start) in
    let time_out := (now - start)%Q in
    if Qltb time_out (hr_alert_delay self) then (self, None)
    else
      let alert_type := if zone2_high self <? hr then "hr_high" else "hr_low" in
      if negb (_can_alert self alert_type now) then (self, None)
      else
        let self := set_last_alert self alert_type now in
        if zone2_high self <? hr
        then (self, Some (mkAlert "hr_high" (HrTooHigh hr (zone2_high self))
                            (if hr <? zone2_high self + 10 then "warning" else "critical")
                            (alert_time "hr_high")))
        else (self, Some (mkAlert "hr_low" (HrTooLow hr (zone2_low self)) "warning"
                            (alert_time "hr_low"))).

(** [np.mean(l) if l else 0] *)
Definition mean_or_0 (l : list Z) : Q :=
  match l with
  | [] => 0%Q
  | _ => mean l
  end.

Definition _check_cardiac_drift (self : ZoneAnalyzer) (now : Q) (alert_time : string -> Q)
  : ZoneAnalyzer * option Alert :=
  if negb (_can_alert self "cardiac_drift" now) then (self, None)
  else
    let n := length (_hr_history self) in
    let half := (n / 2)%nat in
    let first_half_hr := firstn half (_hr_history self) in
    let first_half_power := firstn half (_power_history self) in
    let second_half_hr := skipn half (_hr_history self) in
    let second_half_power := skipn half (_power_history self) in
    let avg_hr_1 := mean_or_0 first_half_hr in
    let avg_hr_2 := mean_or_0 second_half_hr in
    let avg_power_1 := mean_or_0 first_half_power in
    let avg_power_2 := mean_or_0 second_half_power in
    if Qeqb avg_hr_1 0 || Qeqb avg_power_1 0 then (self, None)
    else
      let ef_1 := (avg_power_1 / avg_hr_1)%Q in
      let ef_2 := if Qltb 0 avg_hr_2 then (avg_power_2 / avg_hr_2)%Q else 0%Q in
      if Qltb 0 ef_1 then
        let drift_percent := ((ef_1 - ef_2) / ef_1 * 100)%Q in
        if Qltb (drift_threshold self) drift_percent then
          (set_last_alert self "cardiac_drift" now,
           Some (mkAlert "cardiac_drift" (CardiacDrift drift_percent)
                   (if Qltb drift_percent 10 then "warning" else "critical")
                   (alert_time "cardiac_drift")))
        else (self, None)
      else (self, None).

Definition _check_decoupling (self : ZoneAnalyzer) (now : Q) (alert_time : string -> Q)
  : ZoneAnalyzer * option Alert :=
  if negb (_can_alert self "decoupling" now) then (self, None)
  else
    let recent_hr := lastn 300 (_hr_history self) in
    let recent_power := lastn 300 (_power_history self) in
    let older_hr := if (600 <? length (_hr_history self))%nat
                    then firstn 300 (lastn 600 (_hr_history self)) else [] in
    let older_power := if (600 <? length (_power_history self))%nat
                       then firstn 300 (lastn 600 (_power_history self)) else [] in
    match older_hr, older_power with
    | [], _ | _, [] => (self, None)
    | _, _ =>
        let avg_hr_recent := mean recent_hr in
        let avg_power_recent := mean recent_power in
        let avg_hr_older := mean older_hr in
        let avg_power_older := mean older_power in
        if Qeqb avg_hr_older 0 || Qeqb avg_power_older 0 then (self, None)
        else
          let power_change :=
            ((avg_power_recent - avg_power_older) / avg_power_older * 100)%Q in
          let hr_change := ((avg_hr_recent - avg_hr_older) / avg_hr_older * 100)%Q in
          if Qltb power_change (-5) && Qltb (-2) hr_change then
            let decoupling := Qabs (power_change - hr_change) in
            if Qltb (decoupling_threshold self) decoupling then
              (set_last_alert self "decoupling" now,
               Some (mkAlert "decoupling" (Decoupling (Qabs power_change)) "warning"
                       (alert_time "decoupling")))
            else (self, None)
          else (self, None)
    end.

(** The first half of [update]: histories, zone-time accounting. *)
Definition record_sample (self : ZoneAnalyzer) (hr power cadence : Z) (phase : string)
    (now : Q) : ZoneAnalyzer :=
  let workout_start := match _workout_start self with
                       | None => Some now
                       | Some t => Some t
                       end in
  let in_main := String.eqb phase "main" in
  let dt := match _last_update_time self with
            | Some t => Some (now - t)%Q
            | None => None
            end in
  let in_zone := (zone2_low self <=? hr) && (hr <=? zone2_high self) in
  let above := zone2_high self <? hr in
  let add (cond : bool) (acc : Q) : Q :=
    match dt with
    | Some d => if in_main && cond then (acc + d)%Q else acc
    | None => acc
    end in
  mkAnalyzer (zone2_low self) (zone2_high self) (drift_threshold self)
    (decoupling_threshold self) (hr_alert_delay self)
    (deque_append 3600 (_hr_history self) hr)
    (deque_append 3600 (_power_history self) power)
    (deque_append 3600 (_cadence_history self) cadence)
    (deque_append 3600 (_timestamps self) now)
    (_hr_out_of_zone_start self) (_last_alert_time self) (_alert_cooldown self)
    (add in_zone (_time_in_zone self))
    (add (negb in_zone && above) (_time_above self))
    (add (negb in_zone && negb above) (_time_below self))
    (Some now) workout_start.

Definition opt_list {A} (o : option A) : list A :=
  match o with
  | Some a => [a]
  | None => []
  end.

(** [update]: [now] is the clock reading it takes on entry. *)
Definition update (self : ZoneAnalyzer) (hr power cadence : Z) (phase : string) (now : Q)
    (alert_time : string -> Q) : ZoneAnalyzer * list Alert :=
  let self := record_sample self hr power cadence phase now in
  if String.eqb phase "main" then
    let '(self, hr_alert) := _check_hr_zone self hr now alert_time in
    let '(self, drift_alert) :=
      if (300 <? length (_hr_history self))%nat then _check_cardiac_drift self now alert_time
      else (self, None) in
    let '(self, decoupling_alert) :=
      if (300 <? length (_hr_history self))%nat then _check_decoupling self now alert_time
      else (self, None) in
    (self, opt_list hr_alert ++ opt_list drift_alert ++ opt_list decoupling_alert)
  else (self, []).

(** [get_zone_status]: the status text; the colour goes with it. *)
Definition get_zone_status (self : ZoneAnalyzer) (hr : Z) : string * string :=
  if hr <? zone2_low self then ("BELOW ZONE 2", "blue")
  else if zone2_high self <? hr then ("ABOVE ZONE 2", "red")
  else ("IN ZONE 2", "green").

(** [np.mean(l)]: [None] stands for the NaN of an empty list. *)
Definition np_mean (l : list Z) : option Q :=
  match l with
  | [] => None
  | _ => Some (mean l)
  end.

Record WorkoutStats := mkStats {
  avg_hr : Q;
  avg_power : Q;
  avg_cadence : Q;
  time_in_zone : Q;
  time_above_zone : Q;
  time_below_zone : Q;
  efficiency_factor : Q;
  cardiac_drift_percent : option Q     (* [None]: NaN *)
}.

(** [np.mean(p) / np.mean(h) if np.mean(h) > 0 else 0]; a comparison with
    NaN is false, a quotient with NaN is NaN. *)
Definition half_efficiency (p h : list Z) : option Q :=
  match np_mean h with
  | Some mh =>
      if Qltb 0 mh then
        match np_mean p with
        | Some mp => Some (mp / mh)%Q
        | None => None
        end
      else Some 0%Q
  | None => Some 0%Q
  end.

Definition get_stats (self : ZoneAnalyzer) : WorkoutStats :=
  let hr_list := _hr_history self in
  let power_list := _power_history self in
  let cadence_list := _cadence_history self in
  let avg_hr := mean_or_0 hr_list in
  let avg_power := mean_or_0 power_list in
  let avg_cadence := mean_or_0 cadence_list in
  let ef := if Qltb 0 avg_hr then (avg_power / avg_hr)%Q else 0%Q in
  let n := length hr_list in
  let drift :=
    if (300 <? n)%nat then
      let half := (n / 2)%nat in
      let ef_1 := half_efficiency (firstn half power_list) (firstn half hr_list) in
      let ef_2 := half_efficiency (skipn half power_list) (skipn half hr_list) in
      match ef_1 with
      | Some e1 =>
          if Qltb 0 e1 then
            match ef_2 with
            | Some e2 => Some ((e1 - e2) / e1 * 100)%Q
            | None => None
            end
          else Some 0%Q
      | None => Some 0%Q
      end
    else Some 0%Q in
  mkStats avg_hr avg_power avg_cadence (_time_in_zone self) (_time_above self)
    (_time_below self) ef drift.

End Zone.

(** [round(x)]: nearest integer, ties to even. *)
Definition round_half_even (x : Q) : Z :=
  let f := Qfloor x in
  let r := (x - inject_Z f)%Q in
  if Qltb r (1 # 2) then f
  else if Qltb (1 # 2) r then f + 1
  else if Z.even f then f else f + 1.

(** A sequence of [struct.pack] calls whose results are concatenated: the
    first one that raises ends the sequence. *)
Definition packs (l : list (result (list byte))) : result (list byte) :=
  fold_right (fun r acc => b ← r; rest ← acc; mret (b ++ rest)) (mret []) l.

Definition pack_BBB (a b c : Z) : result (list byte) :=
  packs [pack_B a; pack_B b; pack_B c].

(** [s.endswith(suffix)] *)
Definition endswith (s suffix : string) : bool :=
  let n := String.length s in
  let k := String.length suffix in
  (k <=? n)%nat && String.eqb (String.substring (n - k) k s) suffix.

(** ** fit_exporter.py *)
Module Fit.

Record FitRecord := mkFitRecord {
  timestamp : Q;     (* Unix timestamp *)
  heart_rate : Z;    (* bpm *)
  power : Z;         (* watts *)
  cadence : Z;       (* rpm *)
  speed : Q          (* m/s *)
}.

(** What a file of the model holds: the bytes of a FIT file, or the data a
    backup serializes to JSON. *)
Inductive file_content : Type :=
| FitFile (data : list byte)
| BackupJson (start_time end_time : option Q) (records : list FitRecord).

Record FitExporter := mkExporter {
  _records : list FitRecord;
  _start_time : option Q;
  _end_time : option Q;
  _backup_dir : string;
  _backup_file : option string;
  _last_backup_count : nat
}.

Definition FIT_PROTOCOL_VERSION : Z := 0x20.
Definition FIT_PROFILE_VERSION : Z := 0x0814.
Definition MSG_FILE_ID : Z := 0.
Definition MSG_EVENT : Z := 21.
Definition MSG_RECORD : Z := 20.
Definition MSG_LAP : Z := 19.
Definition MSG_SESSION : Z := 18.
Definition MSG_ACTIVITY : Z := 34.
Definition TYPE_ENUM : Z := 0.
Definition TYPE_UINT8 : Z := 2.
Definition TYPE_UINT16 : Z := 132.
Definition TYPE_UINT32 : Z := 134.
Definition TYPE_UINT32Z : Z := 140.

Definition init (backup_dir : string) : FitExporter :=
  mkExporter [] None None backup_dir None 0.

(** [os.path.join(dir, name)] for a relative [name]. *)
Definition path_join (dir name : string) : string :=
  if String.eqb dir "" then name
  else if endswith dir "/" then dir +:+ name
  else dir +:+ "/" +:+ name.

Definition nonempty_path (p : option string) : option string :=
  match p with
  | Some s => if String.eqb s "" then None else Some s
  | None => None
  end.

(** [_save_backup]: the write is assumed to succeed. *)
Definition _save_backup (self : FitExporter) (fs : gmap string file_content)
  : FitExporter * gmap string file_content :=
  match nonempty_path (_backup_file self), _records self with
  | Some path, _ :: _ =>
      (mkExporter (_records self) (_start_time self) (_end_time self) (_backup_dir self)
         (_backup_file self) (length (_records self)),
       <[path := BackupJson (_start_time self) (_end_time self) (_records self)]> fs)
  | _, _ => (self, fs)
  end.

(** [os.makedirs(path, exist_ok=True)]: the empty path raises
    FileNotFoundError; any other directory is assumed to exist or to be
    creatable. *)
Definition makedirs (path : string) : result unit :=
  if String.eqb path "" then Raise FileNotFoundError else Ok tt.

Definition set_start_time (self : FitExporter) (t : Q) : FitExporter :=
  mkExporter (_records self) (Some t) (_end_time self) (_backup_dir self)
    (_backup_file self) (_last_backup_count self).

Definition set_backup_file (self : FitExporter) (path : string) : FitExporter :=
  mkExporter (_records self) (_start_time self) (_end_time self) (_backup_dir self)
    (Some path) (_last_backup_count self).

(** [add_record]: the outcome, and the exporter and file system it leaves
    behind; [stamp] is [datetime.now().strftime('%Y%m%d_%H%M%S')].  When
    [os.makedirs] raises, the start time is set and nothing else is done. *)
Definition add_record (self : FitExporter) (fs : gmap string file_content) (stamp : string)
    (timestamp : Q) (heart_rate power cadence : Z) (speed : Q)
  : result unit * (FitExporter * gmap string file_content) :=
  let '(started, self) :=
    match _start_time self with
    | None =>
        let self := set_start_time self timestamp in
        match makedirs (_backup_dir self) with
        | Ok _ =>
            (Ok tt,
             set_backup_file self
               (path_join (_backup_dir self) (".backup_" +:+ stamp +:+ ".json")))
        | Raise e => (Raise e, self)
        end
    | Some _ => (Ok tt, self)
    end in
  match started with
  | Raise e => (Raise e, (self, fs))
  | Ok _ =>
      let self := mkExporter
                    (_records self ++ [mkFitRecord timestamp heart_rate power cadence speed])
                    (_start_time self) (Some timestamp) (_backup_dir self)
                    (_backup_file self) (_last_backup_count self) in
      (Ok tt,
       if (30 <=? length (_records self) - _last_backup_count self)%nat
       then _save_backup self fs else (self, fs))
  end.

Definition cleanup_backup (self : FitExporter) (fs : gmap string file_content)
  : FitExporter * gmap string file_content :=
  (mkExporter (_records self) (_start_time self) (_end_time self) (_backup_dir self) None 0,
   match nonempty_path (_backup_file self) with
   | Some path => delete path fs
   | None => fs
   end).

Definition clear (self : FitExporter) (fs : gmap string file_content)
  : FitExporter * gmap string file_content :=
  cleanup_backup (mkExporter [] None None (_backup_dir self) (_backup_file self)
                    (_last_backup_count self)) fs.

(** [_calculate_crc] *)
Definition crc_table : list Z :=
  [0x0000; 0xCC01; 0xD801; 0x1400; 0xF001; 0x3C00; 0x2800; 0xE401;
   0xA001; 0x6C00; 0x7800; 0xB401; 0x5000; 0x9C01; 0x8801; 0x4400].

Definition crc_table_at (i : Z) : Z := nth (Z.to_nat i) crc_table 0.

Definition crc_byte (crc : Z) (byte : Z) : Z :=
  let tmp := crc_table_at (Z.land crc 0xF) in
  let crc := Z.land (Z.shiftr crc 4) 0x0FFF in
  let crc := Z.lxor (Z.lxor crc tmp) (crc_table_at (Z.land byte 0xF)) in
  let tmp := crc_table_at (Z.land crc 0xF) in
  let crc := Z.land (Z.shiftr crc 4) 0x0FFF in
  Z.lxor (Z.lxor crc tmp) (crc_table_at (Z.land (Z.shiftr byte 4) 0xF)).

Definition _calculate_crc (data : list byte) : Z :=
  fold_left (fun crc b => crc_byte crc (byte_val b)) data 0.

(** Seconds from the Unix epoch to the FIT epoch, 1989-12-31T00:00:00Z. *)
Definition fit_epoch : Z := 631065600.

(** The proleptic Gregorian year of the day [days] days after 1970-01-01. *)
Definition year_of_day (days : Z) : Z :=
  let z := days + 719468 in
  let era := z / 146097 in
  let doe := z - era * 146097 in
  let yoe := (doe - doe / 1460 + doe / 36524 - doe / 146096) / 365 in
  let doy := doe - (365 * yoe + yoe / 4 - yoe / 100) in
  let mp := (5 * doy + 2) / 153 in
  yoe + era * 400 + (if mp <? 10 then 0 else 1).

Definition year_out_of_range (year : Z) : string :=
  "year " +:+ pretty year +:+ " is out of range".

(** What [datetime.fromtimestamp] raises for [us] microseconds outside the
    years 1..9999 (CPython, 64-bit [time_t]): OverflowError when the seconds
    do not fit [time_t], OSError when [gmtime] cannot hold the year in an
    [int], and otherwise ValueError('year ... is out of range'). *)
Definition timestamp_error (us : Z) : exn :=
  let seconds := us / 1000000 in
  if (seconds <? - 2 ^ 63) || (2 ^ 63 <=? seconds) then OverflowError
  else
    let year := year_of_day (seconds / 86400) in
    if (year - 1900 <? - 2 ^ 31) || (2 ^ 31 <=? year - 1900) then OSError
    else ValueError (year_out_of_range year).

(** [datetime.fromtimestamp(ts, tz=utc)] as microseconds since the Unix
    epoch: [ts] is rounded half-even to microseconds; a date outside the
    years 1..9999, that is before 0001-01-01 or from 10000-01-01 on, raises. *)
Definition fromtimestamp (ts : option Q) : result Z :=
  match ts with
  | None => Raise TypeError
  | Some t =>
      let us := round_half_even (t * 1000000)%Q in
      if (us <? -62135596800 * 1000000) || (253402300800 * 1000000 <=? us)
      then Raise (timestamp_error us) else Ok us
  end.

(** [int((datetime.fromtimestamp(ts, tz=utc) - fit_epoch).total_seconds())] *)
Definition fit_timestamp (ts : option Q) : result Z :=
  us ← fromtimestamp ts;
  mret (py_int (inject_Z (us - fit_epoch * 1000000) / 1000000)%Q).

(** [int((self._end_time - self._start_time) * 1000)] *)
Definition elapsed_ms (self : FitExporter) : result Z :=
  match _end_time self, _start_time self with
  | Some e, Some s => Ok (py_int ((e - s) * 1000)%Q)
  | _, _ => Raise TypeError
  end.

(** [int(sum(f(r) for r in records) / len(records)) if records else 0] *)
Definition average (f : FitRecord -> Z) (records : list FitRecord) : Z :=
  match records with
  | [] => 0
  | _ => py_int (mean (map f records))
  end.

Definition definition_header (local_type global_msg nfields : Z) : result (list byte) :=
  packs [pack_B (0x40 + local_type); pack_B 0; pack_B 0; pack_H global_msg; pack_B nfields].

Definition _build_file_id : result (list byte) :=
  definition ← packs [definition_header 0 MSG_FILE_ID 4;
                      pack_BBB 0 1 TYPE_ENUM; pack_BBB 1 2 TYPE_UINT16;
                      pack_BBB 2 2 TYPE_UINT16; pack_BBB 3 4 TYPE_UINT32Z];
  data ← packs [pack_B 0x00; pack_B 4; pack_H 1; pack_H 1; pack_I 12345];
  mret (definition ++ data).

Definition _build_record_definition : result (list byte) :=
  packs [definition_header 1 MSG_RECORD 5;
         pack_BBB 253 4 TYPE_UINT32; pack_BBB 3 1 TYPE_UINT8; pack_BBB 4 1 TYPE_UINT8;
         pack_BBB 7 2 TYPE_UINT16; pack_BBB 6 2 TYPE_UINT16].

Definition speed_mms (record : FitRecord) : Z := py_int (speed record * 1000)%Q.

Definition _build_record_data (record : FitRecord) : result (list byte) :=
  fit_ts ← fit_timestamp (Some (timestamp record));
  packs [pack_B 0x01;
         pack_I fit_ts;
         pack_B (Z.min 255 (heart_rate record));
         pack_B (Z.min 255 (cadence record));
         pack_H (Z.min 65535 (power record));
         pack_H (Z.min 65535 (speed_mms record))].

Definition _build_event (self : FitExporter) (event_type event : Z) : result (list byte) :=
  definition ← packs [definition_header 2 MSG_EVENT 3;
                      pack_BBB 253 4 TYPE_UINT32; pack_BBB 0 1 TYPE_ENUM;
                      pack_BBB 1 1 TYPE_ENUM];
  fit_ts ← fit_timestamp (if event_type =? 0 then _start_time self else _end_time self);
  data ← packs [pack_B 0x02; pack_I fit_ts; pack_B event; pack_B event_type];
  mret (definition ++ data).

Definition _build_lap (self : FitExporter) : result (list byte) :=
  definition ← packs [definition_header 3 MSG_LAP 6;
                      pack_BBB 253 4 TYPE_UINT32; pack_BBB 2 4 TYPE_UINT32;
                      pack_BBB 7 4 TYPE_UINT32; pack_BBB 8 4 TYPE_UINT32;
                      pack_BBB 15 1 TYPE_UINT8; pack_BBB 19 2 TYPE_UINT16];
  fit_start ← fit_timestamp (_start_time self);
  fit_end ← fit_timestamp (_end_time self);
  elapsed ← elapsed_ms self;
  let avg_hr := average heart_rate (_records self) in
  let avg_power := average power (_records self) in
  data ← packs [pack_B 0x03; pack_I fit_end; pack_I fit_start; pack_I elapsed;
                pack_I elapsed; pack_B (Z.min 255 avg_hr); pack_H (Z.min 65535 avg_power)];
  mret (definition ++ data).

Definition _build_session (self : FitExporter) : result (list byte) :=
  definition ← packs [definition_header 4 MSG_SESSION 7;
                      pack_BBB 253 4 TYPE_UINT32; pack_BBB 2 4 TYPE_UINT32;
                      pack_BBB 7 4 TYPE_UINT32; pack_BBB 8 4 TYPE_UINT32;
                      pack_BBB 5 1 TYPE_ENUM; pack_BBB 16 1 TYPE_UINT8;
                      pack_BBB 20 2 TYPE_UINT16];
  fit_start ← fit_timestamp (_start_time self);
  fit_end ← fit_timestamp (_end_time self);
  elapsed ← elapsed_ms self;
  let avg_hr := average heart_rate (_records self) in
  let avg_power := average power (_records self) in
  data ← packs [pack_B 0x04; pack_I fit_end; pack_I fit_start; pack_I elapsed;
                pack_I elapsed; pack_B 2; pack_B (Z.min 255 avg_hr);
                pack_H (Z.min 65535 avg_power)];
  mret (definition ++ data).

Definition _build_activity (self : FitExporter) : result (list byte) :=
  definition ← packs [definition_header 5 MSG_ACTIVITY 4;
                      pack_BBB 253 4 TYPE_UINT32; pack_BBB 0 4 TYPE_UINT32;
                      pack_BBB 1 2 TYPE_UINT16; pack_BBB 2 1 TYPE_ENUM];
  fit_end ← fit_timestamp (_end_time self);
  elapsed ← elapsed_ms self;
  data ← packs [pack_B 0x05; pack_I fit_end; pack_I elapsed; pack_H 1; pack_B 0];
  mret (definition ++ data).

Definition _build_data_records (self : FitExporter) : result (list byte) :=
  packs ([_build_file_id;
          _build_event self 0 0;
          _build_record_definition]
         ++ map _build_record_data (_records self)
         ++ [_build_event self 1 0;
             _build_lap self;
             _build_session self;
             _build_activity self]).

Definition _build_header (data_size : Z) : result (list byte) :=
  header_no_crc ← packs [pack_B 14; pack_B FIT_PROTOCOL_VERSION;
                         pack_H FIT_PROFILE_VERSION; pack_I data_size;
                         Ok [x2e; x46; x49; x54]];
  crc ← pack_H (_calculate_crc header_no_crc);
  mret (header_no_crc ++ crc).

Definition _build_fit_file (self : FitExporter) : result (list byte) :=
  data_records ← _build_data_records self;
  header ← _build_header (Z.of_nat (length data_records));
  let full_data := header ++ data_records in
  crc ← pack_H (_calculate_crc full_data);
  mret (full_data ++ crc).

(** [export]: the outcome, and the exporter and file system it leaves behind.
    [abspath] stands for [os.path.abspath]; the write is assumed to succeed. *)
Definition export (abspath : string -> string) (self : FitExporter)
    (fs : gmap string file_content) (filename : string)
  : result string * (FitExporter * gmap string file_content) :=
  match _records self with
  | [] => (Raise (ValueError "No records to export"), (self, fs))
  | _ :: _ =>
      let filename := if endswith filename ".fit" then filename
                      else filename +:+ ".fit" in
      match _build_fit_file self with
      | Raise e => (Raise e, (self, fs))
      | Ok data =>
          (Ok (abspath filename), cleanup_backup self (<[filename := FitFile data]> fs))
      end
  end.

Definition record_count (self : FitExporter) : nat := length (_records self).

(** [load_backup]: a file that holds a backup replaces start, end and
    records; a missing file or one that is no backup makes the call return
    [False]. *)
Definition load_backup (self : FitExporter) (fs : gmap string file_content)
    (backup_file : string) : FitExporter * bool :=
  match fs !! backup_file with
  | Some (BackupJson start_time end_time records) =>
      (mkExporter records start_time end_time (_backup_dir self) (_backup_file self)
         (_last_backup_count self), true)
  | _ => (self, false)
  end.

End Fit.

(** ** app.py: the data callbacks *)
Module App.

(** The module-level objects the BLE callbacks read and write; [files] is the
    file system the exporter writes its backups to. *)
Record App := mkApp {
  workout_active : bool;
  ble_manager : BLE.BLEManager;
  workout_manager : Workout.WorkoutManager;
  zone_analyzer : Zone.ZoneAnalyzer;
  fit_exporter : Fit.FitExporter;
  files : gmap string Fit.file_content
}.

(** [on_bike_data]: during a workout every trainer sample is recorded, with
    the last heart rate and the speed converted from km/h to m/s.  [stamp] is
    the wall-clock stamp [add_record] may use for the backup file.  The
    outcome is that of [add_record]. *)
Definition on_bike_data (app : App) (stamp : string) (data : BLE.BikeData)
  : result unit * App :=
  if workout_active app then
    let hr_data := BLE._last_hr_data (ble_manager app) in
    let '(outcome, (fit, fs)) :=
      Fit.add_record (fit_exporter app) (files app) stamp
        (BLE.timestamp data) (BLE.heart_rate hr_data) (BLE.power data) (BLE.cadence data)
        (BLE.speed data / 3.6)%Q in
    (outcome,
     mkApp (workout_active app) (ble_manager app) (workout_manager app) (zone_analyzer app)
       fit fs)
  else (Ok tt, app).

(** [on_hr_data]: during a workout the analyzer is updated with the phase of
    the workout manager (the alerts it returns are passed on), and a record
    without trainer data is added when the last trainer sample has power 0.
    [now] is the clock reading of the analyzer's update and [alert_time] the
    readings of the alerts it builds.  The alerts are passed on before
    [add_record] is called, whose outcome is the outcome of the callback. *)
Definition on_hr_data (app : App) (stamp : string) (now : Q) (alert_time : string -> Q)
    (data : BLE.HRData) : result unit * (App * list Zone.Alert) :=
  if workout_active app then
    let bike_data := BLE._last_bike_data (ble_manager app) in
    let current_phase := Workout.phase_value (Workout.current_phase (workout_manager app)) in
    let '(analyzer, alerts) :=
      Zone.update (zone_analyzer app) (BLE.heart_rate data) (BLE.power bike_data)
        (BLE.cadence bike_data) current_phase now alert_time in
    let '(outcome, (fit, fs)) :=
      if BLE.power bike_data =? 0 then
        Fit.add_record (fit_exporter app) (files app) stamp
          (BLE.hr_timestamp data) (BLE.heart_rate data) 0 0 0
      else (Ok tt, (fit_exporter app, files app)) in
    (outcome,
     (mkApp (workout_active app) (ble_manager app) (workout_manager app) analyzer fit fs,
      alerts))
  else (Ok tt, (app, [])).

(** A notification of one of the three subscribed characteristics. *)
Inductive notification : Type :=
| IndoorBikeData (data : list byte)
| CyclingPowerMeasurement (data : list byte)
| HeartRateMeasurement (data : list byte).

Definition with_ble (app : App) (ble : BLE.BLEManager) : App :=
  mkApp (workout_active app) ble (workout_manager app) (zone_analyzer app)
    (fit_exporter app) (files app).

(** What a handler's callback does with the event it is handed. *)
Definition on_event (app : App) (stamp : string) (now : Q) (alert_time : string -> Q)
    (e : BLE.event) : result unit * (App * list Zone.Alert) :=
  match e with
  | BLE.BikeEvent d =>
      let '(outcome, app) := on_bike_data app stamp d in (outcome, (app, []))
  | BLE.HREvent d => on_hr_data app stamp now alert_time d
  end.

(** Delivery of a notification: the handler subscribed to the characteristic
    runs at clock reading [t_handler] and calls the registered callback, whose
    analyzer update reads the clock at [t_update] and stamps its alerts at
    [alert_time].  A handler that raises has changed nothing; a callback that
    raises leaves the state it has reached. *)
Definition deliver (app : App) (stamp : string) (t_handler t_update : Q)
    (alert_time : string -> Q) (n : notification)
  : result unit * (App * list Zone.Alert) :=
  match
    match n with
    | IndoorBikeData data => BLE._handle_indoor_bike_data (ble_manager app) data t_handler
    | CyclingPowerMeasurement data => BLE._handle_cycling_power (ble_manager app) data t_handler
    | HeartRateMeasurement data => BLE._handle_hr_measurement (ble_manager app) data t_handler
    end
  with
  | Raise e => (Raise e, (app, []))
  | Ok (ble, events) =>
      fold_left (fun acc e =>
                   match acc.1 with
                   | Raise _ => acc
                   | Ok _ =>
                       let '(outcome, (app, alerts)) :=
                         on_event acc.2.1 stamp t_update alert_time e in
                       (outcome, (app, acc.2.2 ++ alerts))
                   end)
        events (Ok tt, (with_ble app ble, []))
  end.

End App.

(* ===================================================================== *)
(** * Properties *)
(* ===================================================================== *)

(** ** Bytes and [struct] *)

Lemma byte_val_range (b : byte) : 0 <= byte_val b < 256.
Proof.
  unfold byte_val. pose proof (Byte.to_N_bounded b). lia.
Qed.

Lemma slice_two_available {A} (data : list A) (off : nat) :
  (off + 1 < length data)%nat ->
  exists x y, slice data off (off + 2) = [x; y].
Proof.
  intros Hlen. unfold slice.
  replace (off + 2 - off)%nat with 2%nat by lia.
  assert (Hs : (2 <= length (skipn off data))%nat) by (rewrite length_skipn; lia).
  destruct (skipn off data) as [|x [|y tl]]; simpl in Hs; try lia.
  exists x, y. reflexivity.
Qed.

Lemma unpack_H_available (data : list byte) (off : nat) :
  (off + 1 < length data)%nat ->
  exists v, unpack_H (slice data off (off + 2)) = Ok v /\ 0 <= v < 65536.
Proof.
  intros Hlen. destruct (slice_two_available data off Hlen) as (x & y & ->).
  simpl. eexists; split; [reflexivity|].
  pose proof (byte_val_range x). pose proof (byte_val_range y). lia.
Qed.

Lemma unpack_h_available (data : list byte) (off : nat) :
  (off + 1 < length data)%nat ->
  exists v, unpack_h (slice data off (off + 2)) = Ok v /\ -32768 <= v < 32768.
Proof.
  intros Hlen. destruct (unpack_H_available data off Hlen) as (u & Hu & Hr).
  unfold unpack_h. rewrite Hu. simpl.
  eexists; split; [reflexivity|].
  destruct (32768 <=? u) eqn:E; [apply Z.leb_le in E | apply Z.leb_gt in E]; lia.
Qed.

Lemma unpack_H_short (data : list byte) :
  (length data < 2)%nat -> unpack_H (slice data 0 2) = Raise StructError.
Proof.
  destruct data as [|a [|b tl]]; simpl; intros; try reflexivity; lia.
Qed.

(** ** ble_manager.py: the notification decoders *)

Ltac run_result :=
  cbn [mbind result_bind mret result_ret]; unfold mret, result_ret.

Lemma Ok_inj {A} (a b : A) : Ok a = Ok b -> a = b.
Proof. intros [= H]. exact H. Qed.

(** One guarded two-byte read of a decoder: either the bytes are there and the
    read returns a value in range, or the guard fails. *)
Ltac read_field :=
  match goal with
  | |- context [if (?o + 1 <? ?len)%nat then _ else _] =>
      let E := fresh "E" in
      destruct (o + 1 <? len)%nat eqn:E;
      [ apply Nat.ltb_lt in E;
        first
          [ let H := fresh "H" in
            destruct (unpack_H_available _ o E) as (? & H & ?); rewrite H
          | let H := fresh "H" in
            destruct (unpack_h_available _ o E) as (? & H & ?); rewrite H ]
      | apply Nat.ltb_ge in E ]
  end; run_result.

Section IndoorBikeTotal.
Variables (b0 b1 : byte) (rest : list byte) (now : Q).

Let data := b0 :: b1 :: rest.
Let flags := byte_val b0 + 256 * byte_val b1.

(** Every frame that holds the two flag bytes decodes; the three fields are
    nonnegative, a frame too short for any field gives the all-zero sample,
    and a field that is not flagged keeps its default. *)
Lemma decode_indoor_bike_data_total :
  exists d, BLE.decode_indoor_bike_data data now = Ok d
    /\ BLE.timestamp d = now
    /\ 0 <= BLE.power d /\ 0 <= BLE.cadence d /\ (0 <= BLE.speed d)%Q
    /\ ((length rest < 2)%nat ->
          BLE.power d = 0 /\ BLE.cadence d = 0 /\ BLE.speed d = 0%Q)
    /\ (Z.land flags 0x04 = 0 -> BLE.cadence d = 0)
    /\ (Z.land flags 0x40 = 0 -> BLE.power d = 0).
Proof.
  unfold BLE.decode_indoor_bike_data, data.
  change (unpack_H (slice (b0 :: b1 :: rest) 0 2)) with (Ok flags).
  run_result.
  assert (Hlen : length (b0 :: b1 :: rest) = S (S (length rest))) by reflexivity.
  assert (Hsp : forall v, 0 <= v -> (0 <= inject_Z v / 100)%Q).
  { intros v Hv. apply Qle_shift_div_l; [reflexivity|]. rewrite Qmult_0_l.
    unfold Qle; simpl. lia. }
  destruct (truthy (Z.land flags 2)) eqn:F1, (truthy (Z.land flags 4)) eqn:F2,
           (truthy (Z.land flags 8)) eqn:F3, (truthy (Z.land flags 16)) eqn:F4,
           (truthy (Z.land flags 32)) eqn:F5, (truthy (Z.land flags 64)) eqn:F6;
    repeat read_field;
    (eexists; split; [reflexivity|]);
    cbn [BLE.power BLE.cadence BLE.speed BLE.timestamp];
    unfold truthy in *;
    (split; [reflexivity|]);
    (split; [lia|]);
    (split; [first [lia | apply Z.div_pos; lia]|]);
    (split; [first [apply Hsp; lia | apply Qle_refl]|]);
    (split; [intros; first [lia | repeat split; first [reflexivity | lia]]|]);
    split; intros Hz; first [reflexivity | rewrite Hz in *; discriminate].
Qed.
End IndoorBikeTotal.

(** [struct.unpack('<H', data[off:off+2])[0]] and its signed reading, for a
    frame that holds both bytes. *)
Definition u16_at (data : list byte) (off : nat) : Z :=
  byte_val (nth off data x00) + 256 * byte_val (nth (off + 1) data x00).

Definition s16_at (data : list byte) (off : nat) : Z :=
  if 32768 <=? u16_at data off then u16_at data off - 65536 else u16_at data off.

Lemma slice_two_nth (data : list byte) (off : nat) :
  (off + 1 < length data)%nat ->
  slice data off (off + 2) = [nth off data x00; nth (off + 1) data x00].
Proof.
  revert data. induction off as [|off IH]; intros data Hlen.
  - destruct data as [|x [|y tl]]; cbn [length] in Hlen; try lia. reflexivity.
  - destruct data as [|x tl]; cbn [length] in Hlen; [lia|].
    specialize (IH tl ltac:(lia)). unfold slice in *.
    replace (S off + 2 - S off)%nat with (off + 2 - off)%nat by lia.
    cbn [skipn Nat.add nth]. exact IH.
Qed.

Lemma unpack_H_at (data : list byte) (off : nat) :
  (off + 1 < length data)%nat ->
  unpack_H (slice data off (off + 2)) = Ok (u16_at data off).
Proof. intros H. rewrite slice_two_nth by exact H. reflexivity. Qed.

Lemma unpack_h_at (data : list byte) (off : nat) :
  (off + 1 < length data)%nat ->
  unpack_h (slice data off (off + 2)) = Ok (s16_at data off).
Proof. intros H. unfold unpack_h. rewrite unpack_H_at by exact H. reflexivity. Qed.

(** Where [_handle_indoor_bike_data] looks for the cadence and for the power
    in a frame of [len] bytes: after the speed (when the frame has it) and the
    average speed (bit 1); for the power also after the cadence (bit 2, when
    the frame has it), the average cadence (bit 3), the distance (bit 4) and
    the resistance level (bit 5). *)
Definition cadence_offset (flags : Z) (len : nat) : nat :=
  let offset := 2%nat in
  let offset := if (offset + 1 <? len)%nat then (offset + 2)%nat else offset in
  if truthy (Z.land flags 0x02) then (offset + 2)%nat else offset.

Definition power_offset (flags : Z) (len : nat) : nat :=
  let offset := cadence_offset flags len in
  let offset := if truthy (Z.land flags 0x04) && (offset + 1 <? len)%nat
                then (offset + 2)%nat else offset in
  let offset := if truthy (Z.land flags 0x08) then (offset + 2)%nat else offset in
  let offset := if truthy (Z.land flags 0x10) then (offset + 3)%nat else offset in
  if truthy (Z.land flags 0x20) then (offset + 2)%nat else offset.

Ltac read_at :=
  match goal with
  | |- context [if (?o + 1 <? length ?d)%nat then _ else _] =>
      let E := fresh "E" in
      destruct (o + 1 <? length d)%nat eqn:E;
      [ apply Nat.ltb_lt in E;
        rewrite ?(unpack_H_at d o E), ?(unpack_h_at d o E)
      | ]
  end; run_result.

(** The sample a frame with its two flag bytes decodes to: every field is
    read when it is there (the speed always, cadence and power when flagged)
    and its two bytes lie inside the frame, and is 0 otherwise. *)
Lemma decode_indoor_bike_data_fields (b0 b1 : byte) (rest : list byte) (now : Q) :
  let data := b0 :: b1 :: rest in
  let flags := u16_at data 0 in
  BLE.decode_indoor_bike_data data now
  = Ok (BLE.mkBikeData
          (if truthy (Z.land flags 0x40)
              && (power_offset flags (length data) + 1 <? length data)%nat
           then Z.max 0 (s16_at data (power_offset flags (length data))) else 0)
          (if truthy (Z.land flags 0x04)
              && (cadence_offset flags (length data) + 1 <? length data)%nat
           then u16_at data (cadence_offset flags (length data)) / 2 else 0)
          (if (2 + 1 <? length data)%nat then (inject_Z (u16_at data 2) / 100)%Q else 0%Q)
          now).
Proof.
  intros data flags.
  unfold BLE.decode_indoor_bike_data.
  change (unpack_H (slice data 0 2)) with (Ok flags).
  run_result. unfold power_offset, cadence_offset. cbv zeta.
  generalize dependent flags. intros flags. clearbody data.
  destruct (truthy (Z.land flags 2)) eqn:F1, (truthy (Z.land flags 4)) eqn:F2,
           (truthy (Z.land flags 8)) eqn:F3, (truthy (Z.land flags 16)) eqn:F4,
           (truthy (Z.land flags 32)) eqn:F5, (truthy (Z.land flags 64)) eqn:F6;
    cbn [andb]; repeat read_at; cbn [andb]; try reflexivity.
Qed.

Definition with_bike_data (self : BLE.BLEManager) (d : BLE.BikeData) : BLE.BLEManager :=
  BLE.mkBLEManager (BLE.on_bike_data self) (BLE.on_hr_data self) d (BLE._last_hr_data self).

Definition with_hr_data (self : BLE.BLEManager) (d : BLE.HRData) : BLE.BLEManager :=
  BLE.mkBLEManager (BLE.on_bike_data self) (BLE.on_hr_data self) (BLE._last_bike_data self) d.

Lemma unpack_h_two (lo hi : byte) :
  exists v, unpack_h [lo; hi] = Ok v /\ -32768 <= v < 32768
    /\ v = (if 32768 <=? byte_val lo + 256 * byte_val hi
            then byte_val lo + 256 * byte_val hi - 65536
            else byte_val lo + 256 * byte_val hi).
Proof.
  unfold unpack_h. simpl unpack_H. run_result.
  eexists; split; [reflexivity|]. split; [|reflexivity].
  pose proof (byte_val_range lo). pose proof (byte_val_range hi).
  destruct (32768 <=? _) eqn:E; [apply Z.leb_le in E | apply Z.leb_gt in E]; lia.
Qed.

(** C1, as the code has it.  With only bit 6 of the flags set the "more data"
    bit is clear, so the two bytes after the flags are the instantaneous speed:
    a 4-byte frame yields them as speed (raw/100) and leaves power and cadence
    at 0; the 6-byte frame (flags, speed, signed power) yields cadence 0,
    speed raw/100 and power max(0, raw). *)
Theorem indoor_bike_power_flag_only (s0 s1 p0 p1 : byte) (rest : list byte) (now : Q) :
  BLE.decode_indoor_bike_data [x40; x00; s0; s1] now
    = Ok (BLE.mkBikeData 0 0 (inject_Z (byte_val s0 + 256 * byte_val s1) / 100)%Q now)
  /\ exists raw,
       unpack_h [p0; p1] = Ok raw
       /\ BLE.decode_indoor_bike_data (x40 :: x00 :: s0 :: s1 :: p0 :: p1 :: rest) now
          = Ok (BLE.mkBikeData (Z.max 0 raw) 0
                  (inject_Z (byte_val s0 + 256 * byte_val s1) / 100)%Q now).
Proof.
  split; [reflexivity|].
  destruct (unpack_h_two p0 p1) as (raw & Hraw & _ & _).
  exists raw. split; [exact Hraw|].
  unfold BLE.decode_indoor_bike_data.
  change (unpack_H (slice (x40 :: x00 :: s0 :: s1 :: p0 :: p1 :: rest) 0 2)) with (Ok 64).
  run_result.
  change (2 + 1 <? length (x40 :: x00 :: s0 :: s1 :: p0 :: p1 :: rest))%nat with true.
  cbv iota.
  change (slice (x40 :: x00 :: s0 :: s1 :: p0 :: p1 :: rest) 2 (2 + 2)) with [s0; s1].
  simpl unpack_H. run_result.
  change (truthy (Z.land 64 2)) with false.
  change (truthy (Z.land 64 4)) with false.
  change (truthy (Z.land 64 8)) with false.
  change (truthy (Z.land 64 16)) with false.
  change (truthy (Z.land 64 32)) with false.
  change (truthy (Z.land 64 64)) with true.
  cbv iota. run_result.
  change (2 + 2 + 1 <? length (x40 :: x00 :: s0 :: s1 :: p0 :: p1 :: rest))%nat with true.
  cbv iota.
  change (slice (x40 :: x00 :: s0 :: s1 :: p0 :: p1 :: rest) (2 + 2) (2 + 2 + 2))
    with [p0; p1].
  rewrite Hraw. reflexivity.
Qed.

(** C1, as stated, fails: on the 4-byte frame 40 00 64 00 (flags = bit 6 only,
    then the signed value 100) the decoder returns speed 1.0 km/h and power 0,
    not speed 0.0 and power 100. *)
Lemma indoor_bike_power_flag_only_4byte_counterexample :
  unpack_H [x40; x00] = Ok 64
  /\ unpack_h [x64; x00] = Ok 100
  /\ exists d, BLE.decode_indoor_bike_data [x40; x00; x64; x00] 0 = Ok d
       /\ BLE.power d = 0 /\ (BLE.speed d == 1)%Q
       /\ ~ (BLE.power d = Z.max 0 100 /\ (BLE.speed d == 0)%Q).
Proof.
  split; [reflexivity|]. split; [reflexivity|].
  eexists. split; [vm_compute; reflexivity|].
  cbn [BLE.power BLE.speed].
  split; [reflexivity|]. split; [reflexivity|].
  intros [H _]. discriminate H.
Qed.

(** C2, as the code has it.  The indoor-bike handler decodes every frame that
    holds the two flag bytes: the fields are nonnegative; the speed is read
    from bytes 2..3 when the frame has them; cadence and power are read when
    their flag bit is set and their two bytes, at the offset the flags give,
    lie inside the frame; a field that is not flagged or whose bytes are not
    available, in a frame of any length, keeps its zero default.  The
    cycling-power handler decodes every frame of at least four bytes and
    touches only power and timestamp; the heart-rate handler decodes every
    frame of at least two bytes in the 8-bit format and of at least three
    bytes in the 16-bit format.  No handler guards the bytes it needs first:
    each shorter frame raises. *)
Theorem decode_handlers_total_from_minimum_length
    (self : BLE.BLEManager) (b0 b1 b2 b3 : byte) (rest : list byte) (now : Q) :
  (exists d,
      BLE._handle_indoor_bike_data self (b0 :: b1 :: rest) now
        = Ok (with_bike_data self d, BLE.notify (BLE.on_bike_data self) (BLE.BikeEvent d))
      /\ 0 <= BLE.power d /\ 0 <= BLE.cadence d /\ (0 <= BLE.speed d)%Q
      /\ ((length rest < 2)%nat ->
            BLE.power d = 0 /\ BLE.cadence d = 0 /\ BLE.speed d = 0%Q)
      /\ (Z.land (byte_val b0 + 256 * byte_val b1) 0x04 = 0 -> BLE.cadence d = 0)
      /\ (Z.land (byte_val b0 + 256 * byte_val b1) 0x40 = 0 -> BLE.power d = 0)
      /\ let data := b0 :: b1 :: rest in
         let flags := byte_val b0 + 256 * byte_val b1 in
         let cadence_at := cadence_offset flags (length data) in
         let power_at := power_offset flags (length data) in
         BLE.timestamp d = now
         /\ BLE.speed d
            = (if (2 + 1 <? length data)%nat then (inject_Z (u16_at data 2) / 100)%Q
               else 0%Q)
         /\ BLE.cadence d
            = (if truthy (Z.land flags 0x04) && (cadence_at + 1 <? length data)%nat
               then u16_at data cadence_at / 2 else 0)
         /\ BLE.power d
            = (if truthy (Z.land flags 0x40) && (power_at + 1 <? length data)%nat
               then Z.max 0 (s16_at data power_at) else 0)
         /\ ((length data <= cadence_at + 1)%nat -> BLE.cadence d = 0)
         /\ ((length data <= power_at + 1)%nat -> BLE.power d = 0)
         /\ ((length data <= 2 + 1)%nat -> BLE.speed d = 0%Q))
  /\ BLE._handle_indoor_bike_data self [] now = Raise StructError
  /\ BLE._handle_indoor_bike_data self [b0] now = Raise StructError
  /\ (exists p,
        unpack_h [b2; b3] = Ok p
        /\ BLE._handle_cycling_power self (b0 :: b1 :: b2 :: b3 :: rest) now
           = let d := BLE.mkBikeData (Z.max 0 p) (BLE.cadence (BLE._last_bike_data self))
                        (BLE.speed (BLE._last_bike_data self)) now in
             Ok (with_bike_data self d, BLE.notify (BLE.on_bike_data self) (BLE.BikeEvent d)))
  /\ BLE._handle_cycling_power self [] now = Raise StructError
  /\ BLE._handle_cycling_power self [b0] now = Raise StructError
  /\ BLE._handle_cycling_power self [b0; b1] now = Raise StructError
  /\ BLE._handle_cycling_power self [b0; b1; b2] now = Raise StructError
  /\ BLE._handle_hr_measurement self (b0 :: b1 :: b2 :: rest) now
     = (let d := BLE.mkHRData (if truthy (Z.land (byte_val b0) 0x01)
                               then byte_val b1 + 256 * byte_val b2
                               else byte_val b1) now in
        Ok (with_hr_data self d, BLE.notify (BLE.on_hr_data self) (BLE.HREvent d)))
  /\ BLE._handle_hr_measurement self [b0; b1] now
     = (if truthy (Z.land (byte_val b0) 0x01) then Raise StructError
        else let d := BLE.mkHRData (byte_val b1) now in
             Ok (with_hr_data self d, BLE.notify (BLE.on_hr_data self) (BLE.HREvent d)))
  /\ BLE._handle_hr_measurement self [b0] now
     = (if truthy (Z.land (byte_val b0) 0x01) then Raise StructError
        else Raise IndexError)
  /\ BLE._handle_hr_measurement self [] now = Raise IndexError.
Proof.
  split.
  { destruct (decode_indoor_bike_data_total b0 b1 rest now) as (d & Hd & _ & Hrest).
    exists d. split; [unfold BLE._handle_indoor_bike_data; rewrite Hd; reflexivity|].
    destruct Hrest as (H1 & H2 & H3 & H4 & H5 & H6).
    repeat (split; [assumption|]).
    pose proof (decode_indoor_bike_data_fields b0 b1 rest now) as Hf.
    cbv zeta in Hf |- *. rewrite Hd in Hf. apply Ok_inj in Hf.
    change (u16_at (b0 :: b1 :: rest) 0) with (byte_val b0 + 256 * byte_val b1) in Hf.
    set (data := b0 :: b1 :: rest) in *.
    set (flags := byte_val b0 + 256 * byte_val b1) in *.
    rewrite Hf. cbn [BLE.timestamp BLE.speed BLE.cadence BLE.power].
    split; [reflexivity|]. split; [reflexivity|]. split; [reflexivity|].
    split; [reflexivity|].
    split; [|split].
    - intros Hlen. apply Nat.ltb_ge in Hlen. rewrite Hlen, andb_false_r. reflexivity.
    - intros Hlen. apply Nat.ltb_ge in Hlen. rewrite Hlen, andb_false_r. reflexivity.
    - intros Hlen. apply Nat.ltb_ge in Hlen. rewrite Hlen. reflexivity. }
  split; [reflexivity|]. split; [reflexivity|].
  split.
  { destruct (unpack_h_two b2 b3) as (p & Hp & _ & _).
    exists p. split; [exact Hp|].
    unfold BLE._handle_cycling_power.
    change (slice (b0 :: b1 :: b2 :: b3 :: rest) 0 2) with [b0; b1].
    change (slice (b0 :: b1 :: b2 :: b3 :: rest) 2 4) with [b2; b3].
    rewrite Hp. reflexivity. }
  split; [reflexivity|]. split; [reflexivity|].
  split; [reflexivity|].
  split.
  { unfold BLE._handle_cycling_power.
    change (slice [b0; b1; b2] 0 2) with [b0; b1].
    change (slice [b0; b1; b2] 2 4) with [b2]. reflexivity. }
  split.
  { unfold BLE._handle_hr_measurement, index. cbn [nth_error]. run_result.
    change (slice (b0 :: b1 :: b2 :: rest) 1 3) with [b1; b2].
    destruct (truthy (Z.land (byte_val b0) 1)); reflexivity. }
  split.
  { unfold BLE._handle_hr_measurement, index. cbn [nth_error]. run_result.
    change (slice [b0; b1] 1 3) with [b1].
    destruct (truthy (Z.land (byte_val b0) 1)); reflexivity. }
  split.
  { unfold BLE._handle_hr_measurement, index. cbn [nth_error]. run_result.
    change (slice [b0] 1 3) with (@nil byte).
    destruct (truthy (Z.land (byte_val b0) 1)); reflexivity. }
  reflexivity.
Qed.

(** The four-byte frame 04 00 e8 03: the cadence is flagged but the frame ends
    after the speed, so the sample has speed 10.00 km/h and cadence 0. *)
Lemma indoor_bike_flagged_cadence_missing (self : BLE.BLEManager) (now : Q) :
  BLE._handle_indoor_bike_data self [x04; x00; xe8; x03] now
  = Ok (with_bike_data self (BLE.mkBikeData 0 0 (1000 / 100) now),
        BLE.notify (BLE.on_bike_data self) (BLE.BikeEvent (BLE.mkBikeData 0 0 (1000 / 100) now))).
Proof. reflexivity. Qed.

(** C2, as stated, fails: one-byte frames make all three handlers raise. *)
Lemma decode_handlers_one_byte_counterexample :
  (1 <= length [x00])%nat
  /\ BLE._handle_hr_measurement BLE.init [x00] 0 = Raise IndexError
  /\ BLE._handle_indoor_bike_data BLE.init [x00] 0 = Raise StructError
  /\ BLE._handle_cycling_power BLE.init [x00] 0 = Raise StructError.
Proof.
  split; [simpl; lia|]. repeat split; reflexivity.
Qed.

(** ** Comparisons on rationals *)

Lemma Qltb_lt (x y : Q) : Qltb x y = true <-> (x < y)%Q.
Proof.
  unfold Qltb. rewrite negb_true_iff. split.
  - intros H. apply Qnot_le_lt. intros Hle. apply Qle_bool_iff in Hle. congruence.
  - intros H. destruct (Qle_bool y x) eqn:E; [|reflexivity].
    apply Qle_bool_iff in E. exfalso. apply (Qlt_not_le _ _ H E).
Qed.

Lemma Qltb_ge (x y : Q) : Qltb x y = false <-> (y <= x)%Q.
Proof.
  unfold Qltb. rewrite negb_false_iff. apply Qle_bool_iff.
Qed.

Lemma Qltb_inject_l (a t : Z) (q : Q) :
  (q == inject_Z t)%Q -> Qltb (inject_Z a) q = (a <? t).
Proof.
  intros Hq. destruct (a <? t) eqn:E.
  - apply Z.ltb_lt in E. apply Qltb_lt. rewrite Hq. rewrite <- Zlt_Qlt. exact E.
  - apply Z.ltb_ge in E. apply Qltb_ge. rewrite Hq. rewrite <- Zle_Qle. exact E.
Qed.

Lemma Qltb_inject_r (a t : Z) (q : Q) :
  (q == inject_Z t)%Q -> Qltb q (inject_Z a) = (t <? a).
Proof.
  intros Hq. destruct (t <? a) eqn:E.
  - apply Z.ltb_lt in E. apply Qltb_lt. rewrite Hq. rewrite <- Zlt_Qlt. exact E.
  - apply Z.ltb_ge in E. apply Qltb_ge. rewrite Hq. rewrite <- Zle_Qle. exact E.
Qed.

Ltac Qltb_facts :=
  repeat match goal with
         | H : Qltb _ _ = true |- _ => apply Qltb_lt in H
         | H : Qltb _ _ = false |- _ => apply Qltb_ge in H
         end.

(** ** workout_manager.py: the HR-driven power adjustment *)

Lemma zone2_band_ordered (c : Workout.WorkoutConfig) :
  0 <= Workout.ftp c -> Workout.zone2_low c <= Workout.zone2_high c.
Proof.
  intros H. unfold Workout.zone2_low, Workout.zone2_high, Workout.pct, py_int.
  cbn [Qnum Qden Qmult inject_Z].
  apply Z.quot_le_mono; lia.
Qed.

Lemma clamp_in_band (lo hi p : Z) : lo <= hi -> lo <= Z.max lo (Z.min hi p) <= hi.
Proof. lia. Qed.

Lemma clamp_id (lo hi p : Z) : lo <= p <= hi -> Z.max lo (Z.min hi p) = p.
Proof. lia. Qed.

(** The call is due: armed, ten samples, the interval has passed. *)
Definition adjustment_due (s : Workout.WorkoutManager) (now : Q) : Prop :=
  Workout._hr_target_mode s = true
  /\ (10 <= length (Workout._hr_samples s))%nat
  /\ (Workout._hr_adjustment_interval s <= now - Workout._last_hr_adjustment_time s)%Q.

Lemma get_hr_adjusted_power_due (s : Workout.WorkoutManager) (now : Q) :
  adjustment_due s now ->
  Workout.get_hr_adjusted_power s now =
    let old_power := Workout._current_adaptive_power s in
    let new_power := Workout.adjusted_power s in
    if new_power =? old_power
    then (Workout.set_adjustment s now old_power (Workout._last_target_power s), None)
    else (Workout.set_adjustment s now new_power new_power, Some new_power).
Proof.
  intros (Hmode & Hlen & Hdue). unfold Workout.get_hr_adjusted_power.
  rewrite Hmode. cbn [negb orb].
  assert (E1 : (length (Workout._hr_samples s) <? 10)%nat = false)
    by (apply Nat.ltb_ge; exact Hlen).
  rewrite E1.
  assert (E2 : Qltb (now - Workout._last_hr_adjustment_time s)
                 (Workout._hr_adjustment_interval s) = false)
    by (apply Qltb_ge; exact Hdue).
  rewrite E2. cbv zeta.
  destruct (Workout.adjusted_power s =? Workout._current_adaptive_power s); reflexivity.
Qed.

Lemma get_hr_adjusted_power_not_due (s : Workout.WorkoutManager) (now : Q) :
  forall p, snd (Workout.get_hr_adjusted_power s now) = Some p ->
            p = Workout.adjusted_power s
            /\ fst (Workout.get_hr_adjusted_power s now)
               = Workout.set_adjustment s now p p.
Proof.
  intros p. unfold Workout.get_hr_adjusted_power.
  destruct (negb _ || _); [discriminate|].
  destruct (Qltb _ _); [discriminate|].
  destruct (negb _); [|discriminate].
  cbn [fst snd]. intros [= <-]. split; reflexivity.
Qed.

(** C3, as the code has it.  When the adjustment is due, the mean of the HR
    window is compared in this order: mean > high+5 gives -2*step; mean > high
    gives -step; mean < low-5 gives +2*step; mean < low gives +step; otherwise
    a mean more than 3 above the midpoint target gives -step, a mean more than
    3 below it gives +step, and a mean within +/-3 of the midpoint leaves the
    power as it is.  The stepped power is clamped to [zone2_low, zone2_high]
    and returned only when it differs from the previous adaptive power. *)
Theorem hr_adjusted_power_tiers (s : Workout.WorkoutManager) (now : Q) :
  adjustment_due s now ->
  let cfg := Workout.config s in
  let avg := mean (Workout._hr_samples s) in
  let hi := Workout.hr_zone2_high cfg in
  let lo := Workout.hr_zone2_low cfg in
  let mid := Workout.hr_target cfg in
  let step := Workout._power_step s in
  let old := Workout._current_adaptive_power s in
  exists stepped : Z,
    ((inject_Z (hi + 5) < avg -> (stepped = old - step * 2)%Z)
     /\ (avg <= inject_Z (hi + 5) -> inject_Z hi < avg -> (stepped = old - step)%Z)
     /\ (avg <= inject_Z hi -> avg < inject_Z (lo - 5) -> (stepped = old + step * 2)%Z)
     /\ (avg <= inject_Z hi -> inject_Z (lo - 5) <= avg -> avg < inject_Z lo ->
         (stepped = old + step)%Z)
     /\ (inject_Z lo <= avg <= inject_Z hi -> inject_Z (mid + 3) < avg ->
         (stepped = old - step)%Z)
     /\ (inject_Z lo <= avg <= inject_Z hi -> avg <= inject_Z (mid + 3) ->
         avg < inject_Z (mid - 3) -> (stepped = old + step)%Z)
     /\ (inject_Z lo <= avg <= inject_Z hi ->
         inject_Z (mid - 3) <= avg <= inject_Z (mid + 3) -> (stepped = old)%Z))%Q
    /\ let new_power :=
         Z.max (Workout.zone2_low cfg) (Z.min (Workout.zone2_high cfg) stepped) in
       Workout.get_hr_adjusted_power s now =
         if new_power =? old
         then (Workout.set_adjustment s now old (Workout._last_target_power s), None)
         else (Workout.set_adjustment s now new_power new_power, Some new_power).
Proof.
  intros Hdue cfg avg hi lo mid step old.
  rewrite (get_hr_adjusted_power_due s now Hdue). cbv zeta.
  unfold Workout.adjusted_power.
  fold cfg avg hi lo mid step old.
  assert (Hhi5 : (inject_Z (hi + 5) == inject_Z hi + 5)%Q) by (rewrite inject_Z_plus; reflexivity).
  assert (Hlo5 : (inject_Z (lo - 5) == inject_Z lo - 5)%Q) by (unfold Z.sub; rewrite inject_Z_plus; reflexivity).
  destruct (Qltb (inject_Z (hi + 5)) avg) eqn:T1;
    [|destruct (Qltb (inject_Z hi) avg) eqn:T2;
      [|destruct (Qltb avg (inject_Z (lo - 5))) eqn:T3;
        [|destruct (Qltb avg (inject_Z lo)) eqn:T4;
          [|destruct (Qltb (inject_Z (mid + 3)) avg) eqn:T5;
            [|destruct (Qltb avg (inject_Z (mid - 3))) eqn:T6]]]]];
    Qltb_facts;
    (eexists; split; [|reflexivity]);
    repeat split; intros;
    first [ reflexivity
          | exfalso;
            repeat match goal with H : (_ <= _ <= _)%Q |- _ => destruct H end;
            lra ].
Qed.

(** A zone-2 session on the default configuration (FTP 215, zone 124-143),
    started at clock reading 0 and ticked at 300 s, when the main segment is
    entered and HR-target mode is armed. *)
Definition zone2_armed : Workout.WorkoutManager :=
  match (s1 ← Workout.start (Workout.init 215 124 143) 0 0 0; Workout.update s1.1 300) with
  | Ok (s, _, _) => s
  | Raise _ => Workout.init 215 124 143
  end.

(** Ten HR samples of the same value. *)
Definition feed (s : Workout.WorkoutManager) (hr : Z) : Workout.WorkoutManager :=
  fold_left Workout.add_hr_sample (repeat hr 10) s.

Lemma hr_adjusted_power_tiers_witness :
  adjustment_due (feed zone2_armed 150) 330
  /\ Workout.get_hr_adjusted_power (feed zone2_armed 150) 330
     = (Workout.set_adjustment (feed zone2_armed 150) 330 129 129, Some 129).
Proof.
  assert (H : adjustment_due (feed zone2_armed 150) 330).
  { split; [vm_compute; reflexivity|]. split; [vm_compute; lia|]. vm_compute. discriminate. }
  split; [exact H|].
  destruct (hr_adjusted_power_tiers (feed zone2_armed 150) 330 H)
    as (stepped & (T1 & _) & Hres).
  rewrite Hres, T1; [vm_compute; reflexivity|]. vm_compute. reflexivity.
Defined.

(** C3, as stated, fails in the in-zone tiers.  Zone 124-143, midpoint 133,
    adaptive power 139, step 5: a window of mean 134 (within +/-3 of the
    midpoint) leaves the power unchanged instead of nudging it, and a window
    of mean 140 (in zone, more than 3 above the midpoint) lowers it by one
    step instead of leaving it unchanged. *)
Lemma hr_adjusted_power_in_zone_counterexample :
  Workout.hr_target (Workout.config zone2_armed) = 133
  /\ Workout._current_adaptive_power zone2_armed = 139
  /\ Workout._power_step zone2_armed = 5
  /\ adjustment_due (feed zone2_armed 134) 330
  /\ (mean (Workout._hr_samples (feed zone2_armed 134)) == 134)%Q
  /\ snd (Workout.get_hr_adjusted_power (feed zone2_armed 134) 330) = None
  /\ adjustment_due (feed zone2_armed 140) 330
  /\ (mean (Workout._hr_samples (feed zone2_armed 140)) == 140)%Q
  /\ snd (Workout.get_hr_adjusted_power (feed zone2_armed 140) 330) = Some 134.
Proof.
  assert (D : forall hr, adjustment_due (feed zone2_armed hr) 330).
  { intros hr. split; [vm_compute; reflexivity|]. split; [vm_compute; lia|]. vm_compute. discriminate. }
  repeat split; try apply D; vm_compute; reflexivity.
Qed.

Lemma adjusted_power_at_target (s : Workout.WorkoutManager) :
  (mean (Workout._hr_samples s) == inject_Z (Workout.hr_target (Workout.config s)))%Q ->
  Workout.hr_zone2_low (Workout.config s) <= Workout.hr_zone2_high (Workout.config s) ->
  Workout.adjusted_power s
  = Z.max (Workout.zone2_low (Workout.config s))
      (Z.min (Workout.zone2_high (Workout.config s)) (Workout._current_adaptive_power s)).
Proof.
  intros Hmean Hzone. unfold Workout.adjusted_power. cbv zeta.
  rewrite !(Qltb_inject_l _ _ _ Hmean), !(Qltb_inject_r _ _ _ Hmean).
  assert (Hmid : Workout.hr_zone2_low (Workout.config s)
                 <= Workout.hr_target (Workout.config s)
                 <= Workout.hr_zone2_high (Workout.config s)).
  { unfold Workout.hr_target. Z.div_mod_to_equations. lia. }
  repeat match goal with
         | |- context [?a <? ?b] =>
             let E := fresh "E" in
             assert (E : (a <? b) = false) by (apply Z.ltb_ge; lia); rewrite E; clear E
         end.
  reflexivity.
Qed.

Lemma get_hr_adjusted_power_some (s : Workout.WorkoutManager) (now : Q) (p : Z) :
  snd (Workout.get_hr_adjusted_power s now) = Some p ->
  p = Workout.adjusted_power s /\ p <> Workout._current_adaptive_power s.
Proof.
  unfold Workout.get_hr_adjusted_power.
  destruct (negb _ || _); [discriminate|].
  destruct (Qltb _ _); [discriminate|].
  destruct (Workout.adjusted_power s =? Workout._current_adaptive_power s) eqn:E;
    cbn [negb snd]; [discriminate|].
  intros [= <-]. split; [reflexivity|]. apply Z.eqb_neq. exact E.
Qed.




(** ** workout_manager.py: the segment sequencer *)

Lemma retarget_keeps_index (s s' : Workout.WorkoutManager) seg el evs0 r evs :
  Workout.retarget s seg el evs0 = Ok (s', r, evs) ->
  Workout.current_segment_index s' = Workout.current_segment_index s
  /\ Workout._is_running s' = Workout._is_running s
  /\ Workout.segments s' = Workout.segments s.
Proof.
  unfold Workout.retarget.
  destruct (if Workout._hr_target_mode s then _ else _) as [p|e]; run_result;
    [|discriminate].
  destruct (negb (p =? Workout._last_target_power s)); run_result;
    intros [= <- _ _]; repeat split; reflexivity.
Qed.

(** C9, as the code has it.  An [update] that returns leaves
    [current_segment_index] unchanged or advances it by exactly one, so the
    index never decreases during a run; it does nothing when the workout is
    not running.  The index is -1 after construction and after [stop], and 0
    after [start].  When [update] ends the run (the workout completes) the
    index is not reset: it is at least the number of segments, which is
    what [current_phase] reports as COMPLETED.  It is exactly the number of
    segments when the update ends the last segment of the plan, and it stays
    where it was, at or beyond the number of segments, when the plan was
    already overrun (it was replaced by a shorter one during the run).  An
    index within the plan stays within the plan. *)
Theorem segment_index_never_decreases
    (s s' : Workout.WorkoutManager) (now : Q) (r : option Z) (evs : list Workout.event) :
  Workout.update s now = Ok (s', r, evs) ->
  (Workout.current_segment_index s' = Workout.current_segment_index s
   \/ Workout.current_segment_index s' = Workout.current_segment_index s + 1)
  /\ (Workout._is_running s = false -> s' = s /\ r = None /\ evs = [])
  /\ (Workout._is_running s = true -> Workout._is_running s' = false ->
      Z.of_nat (length (Workout.segments s')) <= Workout.current_segment_index s'
      /\ Workout.current_segment_index s' <> -1
      /\ Workout.current_phase s' = Workout.COMPLETED
      /\ (Workout.current_segment_index s < Z.of_nat (length (Workout.segments s)) ->
          Workout.current_segment_index s' = Z.of_nat (length (Workout.segments s')))
      /\ (Z.of_nat (length (Workout.segments s)) <= Workout.current_segment_index s ->
          Workout.current_segment_index s' = Workout.current_segment_index s))
  /\ Workout.segments s' = Workout.segments s
  /\ (Workout.current_segment_index s <= Z.of_nat (length (Workout.segments s)) ->
      Workout.current_segment_index s' <= Z.of_nat (length (Workout.segments s')))
  /\ (forall ftp lo hi,
        Workout.current_segment_index (Workout.init ftp lo hi) = -1
        /\ Workout._is_running (Workout.init ftp lo hi) = false)
  /\ (Workout.current_segment_index (Workout.stop s) = -1
      /\ Workout._is_running (Workout.stop s) = false)
  /\ (forall t1 t2 t3 s1 evs1,
        Workout.start s t1 t2 t3 = Ok (s1, evs1) ->
        Workout.current_segment_index s1 = 0 /\ Workout._is_running s1 = true).
Proof.
  intros Hup.
  assert (Hstatic :
    (forall ftp lo hi,
        Workout.current_segment_index (Workout.init ftp lo hi) = -1
        /\ Workout._is_running (Workout.init ftp lo hi) = false)
    /\ (Workout.current_segment_index (Workout.stop s) = -1
        /\ Workout._is_running (Workout.stop s) = false)
    /\ (forall t1 t2 t3 s1 evs1,
          Workout.start s t1 t2 t3 = Ok (s1, evs1) ->
          Workout.current_segment_index s1 = 0 /\ Workout._is_running s1 = true)).
  { split; [intros; split; reflexivity|]. split; [split; reflexivity|].
    intros t1 t2 t3 s1 evs1. unfold Workout.start.
    destruct (Workout.segment_at _ 0) as [seg|]; run_result; [|discriminate].
    destruct (Workout.get_power_at_time seg 0); run_result; [|discriminate].
    intros [= <- _]. split; reflexivity. }
  assert (Hcompleted : forall m,
    Z.of_nat (length (Workout.segments m)) <= Workout.current_segment_index m ->
    Z.of_nat (length (Workout.segments m)) <= Workout.current_segment_index m
    /\ Workout.current_segment_index m <> -1
    /\ Workout.current_phase m = Workout.COMPLETED).
  { intros m Hm. split; [exact Hm|]. split; [lia|].
    unfold Workout.current_phase.
    destruct (Workout.current_segment_index m <? 0) eqn:E1; [apply Z.ltb_lt in E1; lia|].
    destruct (Z.of_nat (length (Workout.segments m)) <=? Workout.current_segment_index m)
      eqn:E2; [reflexivity | apply Z.leb_gt in E2; lia]. }
  revert Hup. unfold Workout.update.
  destruct (Workout._is_running s) eqn:Hrun; cbn [negb orb].
  2:{ run_result. intros [= <- <- <-].
      split; [left; reflexivity|]. split; [auto|]. split; [discriminate|].
      split; [reflexivity|]. split; [auto|]. exact Hstatic. }
  destruct (Workout.current_segment_index s <? 0) eqn:Hneg.
  { run_result. intros [= <- <- <-].
    split; [left; reflexivity|]. split; [discriminate|].
    split; [intros _ H; rewrite Hrun in H; discriminate|].
    split; [reflexivity|]. split; [auto|]. exact Hstatic. }
  destruct (Z.of_nat (length (Workout.segments s)) <=? Workout.current_segment_index s)
    eqn:Hlen.
  { run_result. intros [= <- <- <-]. apply Z.leb_le in Hlen.
    split; [left; reflexivity|]. split; [discriminate|].
    split.
    { intros _ _. destruct (Hcompleted (Workout.set_running s false) Hlen) as (H1 & H2 & H3).
      repeat (split; [assumption|]). split; [cbn; lia | reflexivity]. }
    split; [reflexivity|]. split; [auto|]. exact Hstatic. }
  apply Z.leb_gt in Hlen.
  destruct (Workout.segment_at (Workout.segments s) (Workout.current_segment_index s))
    as [seg|]; run_result; [|discriminate].
  destruct (Workout.segment_start_time s) as [t0|]; run_result; [|discriminate].
  destruct (Qle_bool _ _).
  - destruct (Z.of_nat (length (Workout.segments s)) <=? Workout.current_segment_index s + 1)
      eqn:Hend.
    + run_result. intros [= <- <- <-]. apply Z.leb_le in Hend.
      split; [right; reflexivity|]. split; [discriminate|].
      split.
      { intros _ _.
        destruct (Hcompleted (Workout.complete s (Workout.current_segment_index s + 1) now)
                    Hend) as (H1 & H2 & H3).
        repeat (split; [assumption|]). split; [cbn; lia | cbn; lia]. }
      split; [reflexivity|]. split; [cbn; lia|]. exact Hstatic.
    + apply Z.leb_gt in Hend.
      destruct (Workout.segment_at _ _) as [seg'|]; run_result; [|discriminate].
      intros Hre. apply retarget_keeps_index in Hre. destruct Hre as (Hi & Hr & Hs).
      cbn in Hi, Hr, Hs.
      split; [right; exact Hi|]. split; [discriminate|].
      split; [intros _ H; rewrite Hr, Hrun in H; discriminate|].
      split; [exact Hs|]. split; [rewrite Hi, Hs; lia|]. exact Hstatic.
  - intros Hre. apply retarget_keeps_index in Hre. destruct Hre as (Hi & Hr & Hs).
    split; [left; exact Hi|]. split; [discriminate|].
    split; [intros _ H; rewrite Hr, Hrun in H; discriminate|].
    split; [exact Hs|]. split; [rewrite Hi, Hs; lia|]. exact Hstatic.
Qed.

(** The default zone-2 session ticked at 0 (start), 300, 3300 and 3600 s. *)
Definition zone2_run (ticks : list Q) : result Workout.WorkoutManager :=
  s1 ← Workout.start (Workout.init 215 124 143) 0 0 0;
  fold_left (fun acc t => s ← acc; out ← Workout.update s t; mret out.1.1)
    ticks (Ok s1.1).

Definition zone2_started : Workout.WorkoutManager :=
  match Workout.start (Workout.init 215 124 143) 0 0 0 with
  | Ok (s, _) => s
  | Raise _ => Workout.init 215 124 143
  end.

Lemma segment_index_never_decreases_witness :
  Workout.update zone2_started 300
    = Ok (zone2_armed, Some 139,
          [Workout.PhaseChange Workout.MAIN "Zone 2"; Workout.PowerChange 139])
  /\ Workout.current_segment_index zone2_started = 0
  /\ (Workout.current_segment_index zone2_armed
        = Workout.current_segment_index zone2_started
      \/ Workout.current_segment_index zone2_armed
        = Workout.current_segment_index zone2_started + 1).
Proof.
  assert (E : Workout.update zone2_started 300
              = Ok (zone2_armed, Some 139,
                    [Workout.PhaseChange Workout.MAIN "Zone 2"; Workout.PowerChange 139]))
    by (vm_compute; reflexivity).
  split; [exact E|]. split; [vm_compute; reflexivity|].
  exact (proj1 (segment_index_never_decreases _ _ _ _ _ E)).
Defined.

(** A VO2max session (11 segments) that is switched to the zone-2 plan
    (3 segments) while it is in its fifth segment: the next update ends the
    run with the index still 4, beyond the number of segments. *)
Definition shrunk_run : result Workout.WorkoutManager :=
  s1 ← Workout.start (Workout.set_workout_type (Workout.init 215 124 143) "vo2max") 0 0 0;
  s2 ← fold_left (fun acc t => s ← acc; out ← Workout.update s t; mret out.1.1)
         [300; 480; 660; 840]%Q (Ok s1.1);
  out ← Workout.update (Workout.set_workout_type s2 "zone2") 841;
  mret out.1.1.

Lemma segment_index_after_shrunk_plan :
  exists s,
    shrunk_run = Ok s
    /\ Workout._is_running s = false
    /\ Workout.current_segment_index s = 4
    /\ length (Workout.segments s) = 3%nat
    /\ Workout.current_phase s = Workout.COMPLETED.
Proof.
  eexists. split; [vm_compute; reflexivity|]. repeat split; reflexivity.
Qed.

(** C9, as stated, fails twice on the default zone-2 session.  A tick inside
    a segment leaves the index where it was (it is not strictly increasing
    from call to call), and after the tick that completes the workout the
    manager is not running while the index is 3, the number of segments,
    not -1. *)
Lemma segment_index_after_completion_counterexample :
  exists s1 s2,
    zone2_run [1%Q] = Ok s1
    /\ Workout.current_segment_index s1 = 0
    /\ zone2_run [300; 3300; 3600]%Q = Ok s2
    /\ Workout._is_running s2 = false
    /\ Workout.current_segment_index s2 = 3
    /\ Workout.current_segment_index s2 <> -1.
Proof.
  eexists _, _.
  split; [vm_compute; reflexivity|]. split; [reflexivity|].
  split; [vm_compute; reflexivity|]. split; [reflexivity|].
  split; [reflexivity|]. discriminate.
Qed.

(** ** zone_analyzer.py: zone alerts *)

Lemma deque_append_length {A} (n : nat) (d : list A) (x : A) :
  (length d < n)%nat -> length (deque_append n d x) = S (length d).
Proof.
  intros H. unfold deque_append.
  destruct (n <=? length d)%nat eqn:E; [apply Nat.leb_le in E; lia|].
  rewrite length_app. simpl. lia.
Qed.

Lemma check_hr_zone_frame (a : Zone.ZoneAnalyzer) (hr : Z) (now : Q) (alert_time : string -> Q) :
  let a' := fst (Zone._check_hr_zone a hr now alert_time) in
  Zone._hr_history a' = Zone._hr_history a
  /\ Zone._power_history a' = Zone._power_history a
  /\ Zone.zone2_low a' = Zone.zone2_low a
  /\ Zone.zone2_high a' = Zone.zone2_high a
  /\ Zone.hr_alert_delay a' = Zone.hr_alert_delay a
  /\ Zone._alert_cooldown a' = Zone._alert_cooldown a.
Proof.
  unfold Zone._check_hr_zone. cbv zeta.
  repeat match goal with
         | |- context [if ?c then _ else _] => destruct c
         end; cbn; repeat split; reflexivity.
Qed.

(** While fewer than 300 samples are stored neither the drift nor the
    decoupling check runs: a main-phase update is the bookkeeping followed by
    the zone check. *)
Lemma update_main_short (a : Zone.ZoneAnalyzer) (hr power cadence : Z) (now : Q)
    (alert_time : string -> Q) :
  (length (Zone._hr_history a) < 300)%nat ->
  Zone.update a hr power cadence "main" now alert_time
  = (fst (Zone._check_hr_zone (Zone.record_sample a hr power cadence "main" now) hr now alert_time),
     Zone.opt_list
       (snd (Zone._check_hr_zone (Zone.record_sample a hr power cadence "main" now) hr now
           alert_time))).
Proof.
  intros Hlen. unfold Zone.update. cbv zeta.
  change (String.eqb "main" "main") with true. cbv iota.
  pose proof (check_hr_zone_frame (Zone.record_sample a hr power cadence "main" now) hr now
      alert_time)
    as (Hh & _).
  destruct (Zone._check_hr_zone _ hr now alert_time) as [a1 al] eqn:E. cbn [fst snd] in *.
  assert (Hshort : (300 <? length (Zone._hr_history a1))%nat = false).
  { apply Nat.ltb_ge. rewrite Hh. cbn [Zone.record_sample Zone._hr_history].
    rewrite deque_append_length by lia. lia. }
  rewrite Hshort. cbn [Zone._hr_history]. rewrite Hshort.
  rewrite app_nil_r. reflexivity.
Qed.

(** The three outcomes of the zone check for a heart rate above the zone. *)
Lemma check_hr_zone_high (a : Zone.ZoneAnalyzer) (hr : Z) (now : Q) (alert_time : string -> Q) :
  Zone.zone2_high a < hr ->
  let start := match Zone._hr_out_of_zone_start a with None => now | Some t => t end in
  let last := default 0%Q (Zone._last_alert_time a !! "hr_high") in
  let a1 := Zone.set_out_of_zone_start a (Some start) in
  ((now - start < Zone.hr_alert_delay a)%Q -> Zone._check_hr_zone a hr now alert_time = (a1, None))
  /\ ((now - last <= Zone._alert_cooldown a)%Q -> Zone._check_hr_zone a hr now alert_time = (a1, None))
  /\ ((Zone.hr_alert_delay a <= now - start)%Q ->
      (Zone._alert_cooldown a < now - last)%Q ->
      Zone._check_hr_zone a hr now alert_time
      = (Zone.set_last_alert a1 "hr_high" now,
         Some (Zone.mkAlert "hr_high" (Zone.HrTooHigh hr (Zone.zone2_high a))
                 (if hr <? Zone.zone2_high a + 10 then "warning" else "critical")
                 (alert_time "hr_high")))).
Proof.
  intros Hhigh start last a1.
  unfold Zone._check_hr_zone. cbv zeta.
  assert (E1 : (hr <=? Zone.zone2_high a) = false) by (apply Z.leb_gt; lia).
  rewrite E1, andb_false_r.
  fold start. fold a1.
  assert (E2 : (Zone.zone2_high a1 <? hr) = true) by (apply Z.ltb_lt; exact Hhigh).
  change (Zone.hr_alert_delay a1) with (Zone.hr_alert_delay a).
  change (Zone.zone2_high (Zone.set_last_alert a1 "hr_high" now)) with (Zone.zone2_high a).
  rewrite E2.
  change (Zone.zone2_high a1) with (Zone.zone2_high a) in E2. rewrite ?E2.
  unfold Zone._can_alert.
  change (Zone._last_alert_time a1) with (Zone._last_alert_time a).
  change (Zone._alert_cooldown a1) with (Zone._alert_cooldown a).
  fold last.
  split; [|split].
  - intros H. apply Qltb_lt in H. rewrite H. reflexivity.
  - intros H. apply Qltb_ge in H. rewrite H. cbn [negb].
    destruct (Qltb (now - start) (Zone.hr_alert_delay a)); reflexivity.
  - intros H1 H2. apply Qltb_ge in H1. apply Qltb_lt in H2. rewrite H1, H2.
    cbn [negb].
    change (Zone.zone2_high (Zone.set_last_alert a1 "hr_high" now))
      with (Zone.zone2_high a).
    rewrite E2. reflexivity.
Qed.

Lemma check_hr_zone_in_zone (a : Zone.ZoneAnalyzer) (hr : Z) (now : Q) (alert_time : string -> Q) :
  Zone.zone2_low a <= hr <= Zone.zone2_high a ->
  Zone._check_hr_zone a hr now alert_time = (Zone.set_out_of_zone_start a None, None).
Proof.
  intros [H1 H2]. unfold Zone._check_hr_zone. cbv zeta.
  apply Z.leb_le in H1. apply Z.leb_le in H2. rewrite H1, H2. reflexivity.
Qed.

Ltac destruct_ifs :=
  repeat match goal with
         | |- context [if ?c then _ else _] => destruct c
         | |- context [match ?l with [] => _ | _ :: _ => _ end] => destruct l
         end.

Lemma check_cardiac_drift_frame (a : Zone.ZoneAnalyzer) (now : Q) (alert_time : string -> Q) :
  Zone._hr_out_of_zone_start (fst (Zone._check_cardiac_drift a now alert_time))
    = Zone._hr_out_of_zone_start a
  /\ Zone._hr_history (fst (Zone._check_cardiac_drift a now alert_time)) = Zone._hr_history a
  /\ Zone._power_history (fst (Zone._check_cardiac_drift a now alert_time)) = Zone._power_history a
  /\ forall x, snd (Zone._check_cardiac_drift a now alert_time) = Some x ->
               Zone.type x = "cardiac_drift".
Proof.
  unfold Zone._check_cardiac_drift. cbv zeta.
  destruct_ifs; cbn; repeat split; try reflexivity; intros x [= <-]; reflexivity.
Qed.

Lemma check_decoupling_frame (a : Zone.ZoneAnalyzer) (now : Q) (alert_time : string -> Q) :
  Zone._hr_out_of_zone_start (fst (Zone._check_decoupling a now alert_time))
    = Zone._hr_out_of_zone_start a
  /\ forall x, snd (Zone._check_decoupling a now alert_time) = Some x -> Zone.type x = "decoupling".
Proof.
  unfold Zone._check_decoupling. cbv zeta.
  destruct_ifs; cbn; repeat split; try reflexivity; intros x [= <-]; reflexivity.
Qed.

(** The alerts of one update: the zone alert, then drift, then decoupling. *)
Lemma update_alerts (a : Zone.ZoneAnalyzer) (hr power cadence : Z) (phase : string)
    (now : Q) (alert_time : string -> Q) (x : Zone.Alert) :
  In x (snd (Zone.update a hr power cadence phase now alert_time)) ->
  snd (Zone._check_hr_zone (Zone.record_sample a hr power cadence phase now) hr now
      alert_time) = Some x
  \/ Zone.type x = "cardiac_drift" \/ Zone.type x = "decoupling".
Proof.
  unfold Zone.update. cbv zeta.
  destruct (String.eqb phase "main"); [|intros []].
  destruct (Zone._check_hr_zone _ hr now alert_time) as [a1 al]. cbn [snd].
  set (d := if (300 <? length (Zone._hr_history a1))%nat
            then Zone._check_cardiac_drift a1 now alert_time else (a1, None)).
  assert (Hd : forall y, snd d = Some y -> Zone.type y = "cardiac_drift").
  { subst d. destruct (300 <? _)%nat; [apply check_cardiac_drift_frame | discriminate]. }
  destruct d as [a2 dl]. cbn [snd] in Hd.
  set (e := if (300 <? length (Zone._hr_history a2))%nat
            then Zone._check_decoupling a2 now alert_time else (a2, None)).
  assert (He : forall y, snd e = Some y -> Zone.type y = "decoupling").
  { subst e. destruct (300 <? _)%nat; [apply check_decoupling_frame | discriminate]. }
  destruct e as [a3 el]. cbn [snd] in *.
  rewrite !in_app_iff. intros [H|[H|H]].
  - left. destruct al; simpl in H; [destruct H as [->|[]]; reflexivity | destruct H].
  - right; left. destruct dl; simpl in H; [destruct H as [->|[]]; auto | destruct H].
  - right; right. destruct el; simpl in H; [destruct H as [->|[]]; auto | destruct H].
Qed.

Lemma check_hr_zone_alert (a : Zone.ZoneAnalyzer) (hr : Z) (now : Q)
    (alert_time : string -> Q) (x : Zone.Alert) :
  snd (Zone._check_hr_zone a hr now alert_time) = Some x ->
  Zone.type x = "hr_high" ->
  Zone.zone2_high a < hr
  /\ Zone.severity x = (if hr <? Zone.zone2_high a + 10 then "warning" else "critical").
Proof.
  unfold Zone._check_hr_zone. cbv zeta.
  destruct (_ && _); [discriminate|].
  destruct (Qltb _ _); [discriminate|].
  destruct (negb _); [discriminate|].
  cbn [Zone.zone2_high Zone.set_last_alert Zone.set_out_of_zone_start Zone.zone2_low].
  destruct (Zone.zone2_high a <? hr) eqn:E; cbn [snd]; intros [= <-]; cbn.
  - intros _. apply Z.ltb_lt in E. split; [exact E | reflexivity].
  - discriminate.
Qed.

(** C6, as the code has it.  An hr_high alert is emitted only for a heart rate
    above zone2_high; its severity is 'warning' exactly when the heart rate is
    below zone2_high + 10 and 'critical' exactly when it is at least
    zone2_high + 10.  At heart rate exactly zone2_high + 10 the severity is
    'critical'. *)
Theorem hr_high_alert_severity (a : Zone.ZoneAnalyzer) (hr power cadence : Z)
    (phase : string) (now : Q) (alert_time : string -> Q) (x : Zone.Alert) :
  In x (snd (Zone.update a hr power cadence phase now alert_time)) ->
  Zone.type x = "hr_high" ->
  Zone.zone2_high a < hr
  /\ (Zone.severity x = "critical" <-> Zone.zone2_high a + 10 <= hr)
  /\ (Zone.severity x = "warning" <-> hr < Zone.zone2_high a + 10)
  /\ (hr = Zone.zone2_high a + 10 -> Zone.severity x = "critical").
Proof.
  intros Hin Hty.
  destruct (update_alerts _ _ _ _ _ _ _ _ Hin) as [H|[H|H]];
    [|rewrite H in Hty; discriminate..].
  destruct (check_hr_zone_alert _ _ _ _ _ H Hty) as [Hhi Hsev].
  cbn [Zone.record_sample Zone.zone2_high] in Hhi, Hsev.
  split; [exact Hhi|]. rewrite Hsev.
  destruct (hr <? Zone.zone2_high a + 10) eqn:E;
    [apply Z.ltb_lt in E | apply Z.ltb_ge in E];
    repeat split; intros; try reflexivity; try discriminate; try lia.
Qed.

(** An analyzer on the zone 124-143 that has seen one sample of [hr] at clock
    reading 1000. *)
Definition analyzer_after_first (hr : Z) : Zone.ZoneAnalyzer :=
  fst (Zone.update (Zone.init 124 143 5 10 10) hr 200 90 "main" 1000 (fun _ => 1000%Q)).

Lemma hr_high_alert_severity_witness :
  Zone.update (analyzer_after_first 150) 150 200 90 "main" 1010 (fun _ => 1010%Q)
    = (fst (Zone.update (analyzer_after_first 150) 150 200 90 "main" 1010 (fun _ => 1010%Q)),
       [Zone.mkAlert "hr_high" (Zone.HrTooHigh 150 143) "warning" 1010])
  /\ (150 < Zone.zone2_high (analyzer_after_first 150) + 10).
Proof.
  assert (E : snd (Zone.update (analyzer_after_first 150) 150 200 90 "main" 1010 (fun _ => 1010%Q))
              = [Zone.mkAlert "hr_high" (Zone.HrTooHigh 150 143) "warning" 1010])
    by (vm_compute; reflexivity).
  split.
  - rewrite <- E. apply surjective_pairing.
  - apply (hr_high_alert_severity (analyzer_after_first 150) 150 200 90 "main" 1010
      (fun _ => 1010%Q)
             (Zone.mkAlert "hr_high" (Zone.HrTooHigh 150 143) "warning" 1010)).
    + rewrite E. left. reflexivity.
    + reflexivity.
    + reflexivity.
Defined.

(** C6, as stated, fails at the boundary: with zone2_high = 143 a sustained
    heart rate of exactly 153 = zone2_high + 10 raises an hr_high alert of
    severity 'critical', not 'warning'. *)
Lemma hr_high_alert_severity_boundary_counterexample :
  153 = Zone.zone2_high (analyzer_after_first 153) + 10
  /\ snd (Zone.update (analyzer_after_first 153) 153 200 90 "main" 1010 (fun _ => 1010%Q))
     = [Zone.mkAlert "hr_high" (Zone.HrTooHigh 153 143) "critical" 1010].
Proof.
  split; vm_compute; reflexivity.
Qed.

(** One update per second, in main phase, at a constant heart rate: the
    [i]-th update happens at clock reading [t0 + i] and stamps the alerts it
    builds at [alert_time i]; each sample brings its own power and cadence.
    The result lists the alerts of every update. *)
Fixpoint feed_main (a : Zone.ZoneAnalyzer) (hr : Z) (t0 : Q)
    (alert_time : nat -> string -> Q) (i : nat)
    (samples : list (Z * Z)) : Zone.ZoneAnalyzer * list (list Zone.Alert) :=
  match samples with
  | [] => (a, [])
  | (power, cadence) :: rest =>
      let '(a1, alerts) :=
        Zone.update a hr power cadence "main" (t0 + inject_Z (Z.of_nat i))%Q
          (alert_time i) in
      let '(a2, later) := feed_main a1 hr t0 alert_time (S i) rest in
      (a2, alerts :: later)
  end.

Section ZoneAlertScenario.

Variable t0 : Q.
Variable alert_time : nat -> string -> Q.
Hypothesis clock_past_cooldown : (20 < t0)%Q.

Let tick (i : nat) : Q := (t0 + inject_Z (Z.of_nat i))%Q.

Let the_alert : Zone.Alert :=
  Zone.mkAlert "hr_high" (Zone.HrTooHigh 150 143) "warning" (alert_time 10%nat "hr_high").

(** The analyzer state before the [i]-th update of the scenario. *)
Record scenario_inv (i : nat) (a : Zone.ZoneAnalyzer) : Prop := {
  inv_high : Zone.zone2_high a = 143;
  inv_delay : Zone.hr_alert_delay a = 10%Q;
  inv_cooldown : Zone._alert_cooldown a = 30%Q;
  inv_history : length (Zone._hr_history a) = i;
  inv_start_none : i = 0%nat -> Zone._hr_out_of_zone_start a = None;
  inv_start_some : (0 < i)%nat -> Zone._hr_out_of_zone_start a = Some (tick 0);
  inv_last_none : (i <= 10)%nat -> Zone._last_alert_time a !! "hr_high" = None;
  inv_last_some : (10 < i)%nat -> Zone._last_alert_time a !! "hr_high" = Some (tick 10)
}.

Lemma tick_diff (i j : nat) : (tick i - tick j == inject_Z (Z.of_nat i - Z.of_nat j))%Q.
Proof.
  unfold tick, Z.sub. rewrite inject_Z_plus, inject_Z_opp. ring.
Qed.

Lemma scenario_step (i : nat) (a : Zone.ZoneAnalyzer) (power cadence : Z) :
  scenario_inv i a -> (i <= 40)%nat ->
  snd (Zone.update a 150 power cadence "main" (tick i) (alert_time i))
    = (if (i =? 10)%nat then [the_alert] else [])
  /\ scenario_inv (S i) (fst (Zone.update a 150 power cadence "main" (tick i) (alert_time i))).
Proof.
  intros [Hhigh Hdelay Hcool Hhist Hs0 Hs1 Hl0 Hl1] Hi.
  rewrite update_main_short by lia.
  set (ar := Zone.record_sample a 150 power cadence "main" (tick i)).
  assert (Hlen : length (Zone._hr_history ar) = S i).
  { subst ar. cbn [Zone.record_sample Zone._hr_history].
    rewrite deque_append_length by lia. lia. }
  assert (Hhi : Zone.zone2_high ar < 150) by (cbn; lia).
  destruct (check_hr_zone_high ar 150 (tick i) (alert_time i) Hhi) as (Hearly & Hcooling & Hfire).
  cbv zeta in Hearly, Hcooling, Hfire.
  change (Zone._hr_out_of_zone_start ar) with (Zone._hr_out_of_zone_start a) in *.
  change (Zone._last_alert_time ar) with (Zone._last_alert_time a) in *.
  change (Zone.hr_alert_delay ar) with (Zone.hr_alert_delay a) in *.
  change (Zone._alert_cooldown ar) with (Zone._alert_cooldown a) in *.
  change (Zone.zone2_high ar) with (Zone.zone2_high a) in *.
  rewrite Hdelay, Hcool, Hhigh in *.
  assert (Hstart : match Zone._hr_out_of_zone_start a with
                   | Some t => t | None => tick i end = tick 0).
  { destruct i as [|i'].
    - rewrite Hs0 by reflexivity. reflexivity.
    - rewrite Hs1 by lia. reflexivity. }
  rewrite Hstart in *.
  assert (Hd : forall j, (tick i - tick j == inject_Z (Z.of_nat i - Z.of_nat j))%Q)
    by (intros j; apply tick_diff).
  clear Hhist.
  destruct (Nat.lt_trichotomy i 10) as [Hlt|[Heq|Hgt]].
  - (* fewer than ten seconds out of zone *)
    rewrite Hearly.
    2:{ rewrite Hd. change 10%Q with (inject_Z 10). rewrite <- Zlt_Qlt. lia. }
    cbn [fst snd Zone.opt_list].
    assert (E : (i =? 10)%nat = false) by (apply Nat.eqb_neq; lia). rewrite E.
    split; [reflexivity|].
    constructor; cbn; try assumption; try lia; intros; try lia; auto.
    apply Hl0. lia.
  - (* the tenth second: the alert fires *)
    subst i. rewrite Hfire.
    2:{ rewrite Hd. change 10%Q with (inject_Z 10). rewrite <- Zle_Qle. lia. }
    2:{ rewrite Hl0 by lia. cbn [default id]. unfold tick.
        change (inject_Z (Z.of_nat 10)) with 10%Q. lra. }
    cbn [fst snd Zone.opt_list]. split; [reflexivity|].
    constructor; cbn; try assumption; try lia; intros; try lia; auto.
    apply lookup_insert_eq.
  - (* inside the cooldown *)
    rewrite Hcooling.
    2:{ rewrite Hl1 by lia. cbn [default id]. rewrite Hd.
        change 30%Q with (inject_Z 30). rewrite <- Zle_Qle. lia. }
    cbn [fst snd Zone.opt_list].
    assert (E : (i =? 10)%nat = false) by (apply Nat.eqb_neq; lia). rewrite E.
    split; [reflexivity|].
    constructor; cbn; try assumption; try lia; intros; try lia; auto.
Qed.

Lemma scenario_run (samples : list (Z * Z)) :
  forall (i : nat) (a : Zone.ZoneAnalyzer),
    scenario_inv i a -> (i + length samples <= 41)%nat ->
    snd (feed_main a 150 t0 alert_time i samples)
    = map (fun j => if (j =? 10)%nat then [the_alert] else []) (seq i (length samples)).
Proof.
  induction samples as [|[power cadence] rest IH]; intros i a Hinv Hlen.
  - reflexivity.
  - cbn [length] in Hlen. cbn [feed_main length seq map].
    destruct (scenario_step i a power cadence Hinv) as [Hal Hnext]; [lia|].
    fold (tick i).
    destruct (Zone.update a 150 power cadence "main" (tick i) (alert_time i)) as [a1 al].
    cbn [fst snd] in Hal, Hnext.
    specialize (IH (S i) a1 Hnext). 
    destruct (feed_main a1 150 t0 alert_time (S i) rest) as [a2 later]. cbn [snd] in *.
    rewrite Hal, IH by lia. reflexivity.
Qed.

Lemma scenario_init : scenario_inv 0 (Zone.init 124 143 5 10 10).
Proof.
  constructor; try reflexivity; intros; try lia; reflexivity.
Qed.

Lemma scenario_alerts (samples : list (Z * Z)) :
  length samples = 41%nat ->
  snd (feed_main (Zone.init 124 143 5 10 10) 150 t0 alert_time 0 samples)
  = repeat [] 10
    ++ [[Zone.mkAlert "hr_high" (Zone.HrTooHigh 150 143) "warning"
           (alert_time 10%nat "hr_high")]]
    ++ repeat [] 30.
Proof.
  intros Hlen. rewrite (scenario_run samples 0 _ scenario_init) by lia.
  rewrite Hlen. reflexivity.
Qed.

End ZoneAlertScenario.

Lemma update_in_zone_resets (a : Zone.ZoneAnalyzer) (hr power cadence : Z) (now : Q)
    (alert_time : string -> Q) :
  Zone.zone2_low a <= hr <= Zone.zone2_high a ->
  Zone._hr_out_of_zone_start (fst (Zone.update a hr power cadence "main" now alert_time)) = None
  /\ Forall (fun x => Zone.type x <> "hr_high" /\ Zone.type x <> "hr_low")
       (snd (Zone.update a hr power cadence "main" now alert_time)).
Proof.
  intros Hzone. split.
  - unfold Zone.update. cbv zeta. change (String.eqb "main" "main") with true. cbv iota.
    rewrite check_hr_zone_in_zone by exact Hzone.
    set (a1 := Zone.set_out_of_zone_start _ None).
    set (d := if (300 <? length (Zone._hr_history a1))%nat
              then Zone._check_cardiac_drift a1 now alert_time else (a1, None)).
    assert (Hd : Zone._hr_out_of_zone_start (fst d) = None).
    { subst d. destruct (300 <? _)%nat; [|reflexivity].
      rewrite (proj1 (check_cardiac_drift_frame a1 now alert_time)). reflexivity. }
    destruct d as [a2 dl]. cbn [fst] in Hd.
    set (e := if (300 <? length (Zone._hr_history a2))%nat
              then Zone._check_decoupling a2 now alert_time else (a2, None)).
    assert (He : Zone._hr_out_of_zone_start (fst e) = None).
    { subst e. destruct (300 <? _)%nat; [|exact Hd].
      rewrite (proj1 (check_decoupling_frame a2 now alert_time)). exact Hd. }
    destruct e as [a3 el]. exact He.
  - apply List.Forall_forall. intros x Hin.
    destruct (update_alerts _ _ _ _ _ _ _ _ Hin) as [H|[H|H]].
    + rewrite check_hr_zone_in_zone in H by exact Hzone. discriminate.
    + rewrite H. split; discriminate.
    + rewrite H. split; discriminate.
Qed.

(** C5.  On a fresh analyzer with zone 124-143 and hr_alert_delay = 10 s, fed
    in main phase one sample per second at 150 bpm (the clock reads Unix time,
    so it is past the cooldown constant: 20 < t0), the first ten updates
    (out of zone for 0..9 s) produce no alert, the eleventh (out of zone for
    10 s) produces exactly one hr_high alert, and the thirty updates after it
    (1..30 s into the cooldown) produce none.  The alert is stamped with the
    reading of the clock taken when it is built.  One in-zone sample clears
    the persistence timer in the same update and produces no zone alert. *)
Theorem hr_high_alert_after_ten_seconds (t0 : Q) (alert_time : nat -> string -> Q)
    (samples : list (Z * Z)) :
  (20 < t0)%Q ->
  length samples = 41%nat ->
  snd (feed_main (Zone.init 124 143 5 10 10) 150 t0 alert_time 0 samples)
  = repeat [] 10
    ++ [[Zone.mkAlert "hr_high" (Zone.HrTooHigh 150 143) "warning"
           (alert_time 10%nat "hr_high")]]
    ++ repeat [] 30
  /\ forall (a : Zone.ZoneAnalyzer) (hr power cadence : Z) (now : Q)
            (alert_time : string -> Q),
       Zone.zone2_low a <= hr <= Zone.zone2_high a ->
       Zone._hr_out_of_zone_start
         (fst (Zone.update a hr power cadence "main" now alert_time)) = None
       /\ Forall (fun x => Zone.type x <> "hr_high" /\ Zone.type x <> "hr_low")
            (snd (Zone.update a hr power cadence "main" now alert_time)).
Proof.
  intros Hclock Hlen. split.
  - apply scenario_alerts; assumption.
  - intros. apply update_in_zone_resets. assumption.
Qed.

Lemma hr_high_alert_after_ten_seconds_witness :
  snd (feed_main (Zone.init 124 143 5 10 10) 150 1700000000
         (fun i _ => 1700000000 + inject_Z (Z.of_nat i) + 0.001)%Q 0 (repeat (200, 90) 41))
  = repeat [] 10
    ++ [[Zone.mkAlert "hr_high" (Zone.HrTooHigh 150 143) "warning"
           (1700000000 + inject_Z (Z.of_nat 10) + 0.001)]]
    ++ repeat [] 30.
Proof.
  apply (hr_high_alert_after_ten_seconds 1700000000
           (fun i _ => 1700000000 + inject_Z (Z.of_nat i) + 0.001)%Q (repeat (200, 90) 41)).
  - reflexivity.
  - reflexivity.
Defined.

(** ** fit_exporter.py: bytes, packing and the checksum *)

Lemma byte_val_of_Z (v : Z) : 0 <= v <= 255 -> byte_val (byte_of_Z v) = v.
Proof.
  intros Hv. unfold byte_val, byte_of_Z.
  pose proof (Byte.to_of_N_option_map (Z.to_N v)) as H.
  assert (E : (Z.to_N v <=? 255)%N = true) by (apply N.leb_le; lia).
  rewrite E in H.
  destruct (Byte.of_N (Z.to_N v)) as [b|]; [|discriminate].
  cbn in H. injection H as ->. lia.
Qed.

Lemma unpack_H_le_bytes2 (v : Z) : 0 <= v < 65536 -> unpack_H (le_bytes2 v) = Ok v.
Proof.
  intros Hv. unfold le_bytes2, unpack_H.
  change 255 with (Z.ones 8). rewrite !Z.land_ones by lia. rewrite Z.shiftr_div_pow2 by lia.
  change (2 ^ 8) with 256.
  rewrite !byte_val_of_Z.
  - f_equal. rewrite (Z.mod_small (v / 256)) by (split; [apply Z.div_pos; lia|
      apply Z.div_lt_upper_bound; lia]).
    pose proof (Z.div_mod v 256). lia.
  - pose proof (Z.mod_pos_bound (v / 256) 256). lia.
  - pose proof (Z.mod_pos_bound v 256). lia.
Qed.

Lemma lxor_range16 (a b : Z) : 0 <= a < 65536 -> 0 <= b < 65536 -> 0 <= Z.lxor a b < 65536.
Proof.
  intros Ha Hb. split; [apply Z.lxor_nonneg; lia|].
  destruct (Z.eq_dec (Z.lxor a b) 0) as [->|Hnz]; [lia|].
  assert (Hpos : 0 < Z.lxor a b) by (pose proof (proj2 (Z.lxor_nonneg a b)); lia).
  change 65536 with (2 ^ 16). apply Z.log2_lt_pow2; [exact Hpos|].
  pose proof (Z.log2_lxor a b ltac:(lia) ltac:(lia)) as Hl.
  assert (La : Z.log2 a < 16).
  { destruct (Z.eq_dec a 0) as [->|]; [simpl; lia|]. apply Z.log2_lt_pow2; lia. }
  assert (Lb : Z.log2 b < 16).
  { destruct (Z.eq_dec b 0) as [->|]; [simpl; lia|]. apply Z.log2_lt_pow2; lia. }
  lia.
Qed.

Lemma crc_table_at_range (i : Z) : 0 <= Fit.crc_table_at i < 65536.
Proof.
  unfold Fit.crc_table_at.
  assert (H : Forall (fun x => 0 <= x < 65536) Fit.crc_table)
    by (unfold Fit.crc_table; repeat constructor; lia).
  destruct (nth_in_or_default (Z.to_nat i) Fit.crc_table 0) as [Hin| ->]; [|lia].
  rewrite List.Forall_forall in H. apply H. exact Hin.
Qed.

Lemma land_fff_range (x : Z) : 0 <= Z.land x 0x0FFF < 65536.
Proof.
  change 0x0FFF with (Z.ones 12). rewrite Z.land_ones by lia.
  pose proof (Z.mod_pos_bound x (2 ^ 12)). lia.
Qed.

Lemma crc_byte_range (crc byte : Z) : 0 <= Fit.crc_byte crc byte < 65536.
Proof.
  unfold Fit.crc_byte. cbv zeta.
  repeat apply lxor_range16;
    first [apply crc_table_at_range | apply land_fff_range].
Qed.

Lemma calculate_crc_range (data : list byte) : 0 <= Fit._calculate_crc data < 65536.
Proof.
  unfold Fit._calculate_crc.
  assert (H : forall crc, 0 <= crc < 65536 ->
            0 <= fold_left (fun c b => Fit.crc_byte c (byte_val b)) data crc < 65536).
  { induction data as [|b data IH]; intros crc Hc; [exact Hc|].
    cbn [fold_left]. apply IH. apply crc_byte_range. }
  apply H. lia.
Qed.

Lemma pack_B_ok (v : Z) : 0 <= v <= 255 -> pack_B v = Ok [byte_of_Z v].
Proof.
  intros [H1 H2]. unfold pack_B.
  apply Z.leb_le in H1. apply Z.leb_le in H2. rewrite H1, H2. reflexivity.
Qed.

Lemma pack_H_ok (v : Z) : 0 <= v <= 65535 -> pack_H v = Ok (le_bytes2 v).
Proof.
  intros [H1 H2]. unfold pack_H.
  apply Z.leb_le in H1. apply Z.leb_le in H2. rewrite H1, H2. reflexivity.
Qed.

Lemma pack_I_ok (v : Z) : 0 <= v <= 4294967295 -> pack_I v = Ok (le_bytes4 v).
Proof.
  intros [H1 H2]. unfold pack_I.
  apply Z.leb_le in H1. apply Z.leb_le in H2. rewrite H1, H2. reflexivity.
Qed.

Lemma pack_B_neg (v : Z) : v < 0 -> pack_B v = Raise StructError.
Proof.
  intros H. unfold pack_B. apply Z.leb_gt in H. rewrite H. reflexivity.
Qed.

Lemma pack_H_neg (v : Z) : v < 0 -> pack_H v = Raise StructError.
Proof.
  intros H. unfold pack_H. apply Z.leb_gt in H. rewrite H. reflexivity.
Qed.

Lemma pack_I_inv (v : Z) (b : list byte) :
  pack_I v = Ok b -> 0 <= v <= 4294967295 /\ b = le_bytes4 v.
Proof.
  unfold pack_I. destruct (0 <=? v) eqn:E1; [|discriminate].
  destruct (v <=? 4294967295) eqn:E2; [|discriminate].
  cbn. intros [= <-]. apply Z.leb_le in E1. apply Z.leb_le in E2. auto.
Qed.

Lemma bind_ok {A B} (a : A) (f : A -> result B) : (Ok a ≫= f) = f a.
Proof. reflexivity. Qed.

Lemma bind_raise {A B} (e : exn) (f : A -> result B) : (Raise e ≫= f) = Raise e.
Proof. reflexivity. Qed.

Lemma packs_nil : packs [] = Ok [].
Proof. reflexivity. Qed.

Lemma packs_single (b : list byte) : packs [Ok b] = Ok (b ++ []).
Proof. reflexivity. Qed.

Lemma packs_cons_raise (e : exn) (l : list (result (list byte))) :
  packs (Raise e :: l) = Raise e.
Proof. reflexivity. Qed.

(** [packs] on a list whose head is known. *)
Lemma packs_cons_ok (b : list byte) (l : list (result (list byte))) :
  packs (Ok b :: l) = (rest ← packs l; mret (b ++ rest)).
Proof. reflexivity. Qed.

Lemma packs_app_ok (l1 l2 : list (result (list byte))) (b1 : list byte) :
  packs l1 = Ok b1 -> packs (l1 ++ l2) = (rest ← packs l2; mret (b1 ++ rest)).
Proof.
  revert b1. induction l1 as [|r l1 IH]; intros b1.
  - intros H. assert (b1 = []) as -> by (cbv in H; congruence).
    cbn [app]. destruct (packs l2); reflexivity.
  - cbn [app packs fold_right]. fold (packs l1). fold (packs (l1 ++ l2)).
    destruct r as [b|e]; run_result; [|discriminate].
    destruct (packs l1) as [c|e] eqn:E; run_result; [|discriminate].
    intros [= <-]. rewrite (IH c eq_refl).
    destruct (packs l2); run_result; [|reflexivity].
    rewrite app_assoc. reflexivity.
Qed.

(** Every exception of a [packs] is the exception of one of its elements. *)
Lemma packs_raise (P : exn -> Prop) (l : list (result (list byte))) :
  Forall (fun r => forall e, r = Raise e -> P e) l ->
  forall e, packs l = Raise e -> P e.
Proof.
  induction 1 as [|r l Hr Hl IH]; intros e; [discriminate|].
  cbn [packs fold_right]. fold (packs l).
  destruct r as [b|e']; run_result.
  - destruct (packs l) as [c|e'']; run_result; [discriminate|].
    intros [= <-]. apply IH. reflexivity.
  - intros [= <-]. apply Hr. reflexivity.
Qed.

(** A [packs] with a raising element raises. *)
Lemma packs_some_raise (l : list (result (list byte))) :
  Exists (fun r => is_ok r = false) l -> is_ok (packs l) = false.
Proof.
  induction 1 as [r l Hr | r l Hl IH]; cbn [packs fold_right]; fold (packs l).
  - destruct r; [discriminate|reflexivity].
  - destruct r; run_result; [|reflexivity].
    destruct (packs l); [discriminate|reflexivity].
Qed.

(** ** fit_exporter.py: layout of the exported file *)

(** The first twelve bytes of the header of a file whose body has
    [data_size] bytes: header size 14, protocol version 0x20, profile version
    0x0814 (little endian), data size (little endian), ".FIT". *)
Definition header12 (data_size : Z) : list byte :=
  [x0e; x20; x14; x08] ++ le_bytes4 data_size ++ [x2e; x46; x49; x54].

Lemma header_constants :
  pack_B 14 = Ok [x0e]
  /\ pack_B Fit.FIT_PROTOCOL_VERSION = Ok [x20]
  /\ pack_H Fit.FIT_PROFILE_VERSION = Ok [x14; x08].
Proof. repeat split; vm_compute; reflexivity. Qed.

Lemma header12_length (data_size : Z) : length (header12 data_size) = 12%nat.
Proof. reflexivity. Qed.

Lemma build_header_inv (data_size : Z) (header : list byte) :
  Fit._build_header data_size = Ok header ->
  0 <= data_size <= 4294967295
  /\ header = header12 data_size ++ le_bytes2 (Fit._calculate_crc (header12 data_size)).
Proof.
  unfold Fit._build_header.
  destruct header_constants as (-> & -> & ->).
  rewrite !packs_cons_ok.
  destruct (pack_I data_size) as [b|e] eqn:E.
  - apply pack_I_inv in E. destruct E as [Hr ->].
    rewrite packs_cons_ok, packs_single, !bind_ok.
    unfold mret, result_ret. rewrite ?bind_ok, app_nil_r.
    assert (Eh : [x0e] ++ [x20] ++ [x14; x08] ++ le_bytes4 data_size
                 ++ [x2e; x46; x49; x54] = header12 data_size) by reflexivity.
    rewrite Eh.
    rewrite pack_H_ok by (pose proof (calculate_crc_range (header12 data_size)); lia).
    rewrite bind_ok. intros [= <-]. split; [exact Hr | reflexivity].
  - rewrite packs_cons_raise, !bind_raise. discriminate.
Qed.

Lemma build_fit_file_inv (self : Fit.FitExporter) (file : list byte) :
  Fit._build_fit_file self = Ok file ->
  exists body,
    Fit._build_data_records self = Ok body
    /\ let h12 := header12 (Z.of_nat (length body)) in
       let header := h12 ++ le_bytes2 (Fit._calculate_crc h12) in
       file = (header ++ body) ++ le_bytes2 (Fit._calculate_crc (header ++ body)).
Proof.
  unfold Fit._build_fit_file.
  destruct (Fit._build_data_records self) as [body|e];
    [rewrite bind_ok | rewrite bind_raise; discriminate].
  destruct (Fit._build_header (Z.of_nat (length body))) as [header|e] eqn:Eh;
    [rewrite bind_ok | rewrite bind_raise; discriminate].
  apply build_header_inv in Eh. destruct Eh as [_ ->].
  cbv zeta. intros Hfile. exists body. split; [reflexivity|].
  revert Hfile.
  generalize (header12 (Z.of_nat (length body))
              ++ le_bytes2 (Fit._calculate_crc (header12 (Z.of_nat (length body))))).
  intros header.
  rewrite pack_H_ok by (pose proof (calculate_crc_range (header ++ body)); lia).
  rewrite bind_ok. unfold mret, result_ret. intros H. apply Ok_inj in H.
  symmetry. exact H.
Qed.

(** ** fit_exporter.py: the checksum is the CRC-16 of the FIT protocol *)

Lemma land_fff_small (c : Z) : 0 <= c < 4096 -> Z.land c 0x0FFF = c.
Proof.
  intros H. change 0x0FFF with (Z.ones 12). rewrite Z.land_ones by lia.
  apply Z.mod_small. exact H.
Qed.

(** The CRC-16 of the FIT protocol one bit at a time (CRC-16/ARC): the
    polynomial x^16 + x^15 + x^2 + 1, reflected (0xA001), initial value 0, no
    final xor. *)
Definition crc16_shift (crc : Z) : Z :=
  if Z.odd crc then Z.lxor (Z.shiftr crc 1) 0xA001 else Z.shiftr crc 1.

Definition crc16_byte (crc byte : Z) : Z :=
  Nat.iter 8 crc16_shift (Z.lxor crc byte).

Definition crc16 (data : list byte) : Z :=
  fold_left (fun crc b => crc16_byte crc (byte_val b)) data 0.

Lemma odd_shiftl (h k : Z) : 1 <= k -> Z.odd (Z.shiftl h k) = false.
Proof.
  intros Hk. rewrite <- Z.bit0_odd. apply Z.shiftl_spec_low. lia.
Qed.

Lemma odd_lxor (a b : Z) : Z.odd (Z.lxor a b) = xorb (Z.odd a) (Z.odd b).
Proof. rewrite <- !Z.bit0_odd. apply Z.lxor_spec. Qed.

Lemma crc16_shift_high (h k K : Z) :
  1 <= k ->
  crc16_shift (Z.lxor (Z.shiftl h k) K) = Z.lxor (Z.shiftl h (k - 1)) (crc16_shift K).
Proof.
  intros Hk. unfold crc16_shift.
  rewrite odd_lxor, odd_shiftl by exact Hk. cbn [xorb].
  rewrite Z.shiftr_lxor, Z.shiftr_shiftl_l by lia.
  destruct (Z.odd K); [rewrite Z.lxor_assoc|]; reflexivity.
Qed.

Lemma crc16_nibble_high (h m : Z) :
  Nat.iter 4 crc16_shift (Z.lxor (Z.shiftl h 4) m) = Z.lxor h (Nat.iter 4 crc16_shift m).
Proof.
  unfold Nat.iter. cbn [nat_rect].
  rewrite (crc16_shift_high h 4) by lia. rewrite (crc16_shift_high h 3) by lia.
  rewrite (crc16_shift_high h 2) by lia. rewrite (crc16_shift_high h 1) by lia.
  rewrite Z.shiftl_0_r. reflexivity.
Qed.

Lemma crc16_nibble_table (m : Z) :
  0 <= m < 16 -> Nat.iter 4 crc16_shift m = Fit.crc_table_at m.
Proof.
  intros Hm.
  assert (H : m = 0 \/ m = 1 \/ m = 2 \/ m = 3 \/ m = 4 \/ m = 5 \/ m = 6 \/ m = 7
              \/ m = 8 \/ m = 9 \/ m = 10 \/ m = 11 \/ m = 12 \/ m = 13 \/ m = 14 \/ m = 15)
    by lia.
  repeat (destruct H as [->|H]; [reflexivity|]). subst m. reflexivity.
Qed.

Lemma split_nibble (c : Z) : c = Z.lxor (Z.shiftl (Z.shiftr c 4) 4) (Z.land c 15).
Proof.
  apply Z.bits_inj'. intros n Hn.
  rewrite Z.lxor_spec, Z.land_spec. change 15 with (Z.ones 4).
  destruct (Z.ltb_spec n 4) as [Hlt|Hge].
  - rewrite Z.shiftl_spec_low by lia. rewrite Z.ones_spec_low by lia.
    rewrite andb_true_r. reflexivity.
  - rewrite Z.shiftl_spec_high by lia. rewrite Z.shiftr_spec by lia.
    rewrite Z.ones_spec_high by lia. rewrite andb_false_r, xorb_false_r.
    f_equal. lia.
Qed.

Lemma land_15_range (c : Z) : 0 <= Z.land c 15 < 16.
Proof.
  change 15 with (Z.ones 4). rewrite Z.land_ones by lia.
  apply Z.mod_pos_bound. reflexivity.
Qed.

Lemma lxor_range4 (a b : Z) : 0 <= a < 16 -> 0 <= b < 16 -> 0 <= Z.lxor a b < 16.
Proof.
  intros Ha Hb. split; [apply Z.lxor_nonneg; lia|].
  destruct (Z.eq_dec (Z.lxor a b) 0) as [->|Hnz]; [lia|].
  assert (Hpos : 0 < Z.lxor a b) by (pose proof (proj2 (Z.lxor_nonneg a b)); lia).
  change 16 with (2 ^ 4). apply Z.log2_lt_pow2; [exact Hpos|].
  pose proof (Z.log2_lxor a b ltac:(lia) ltac:(lia)) as Hl.
  assert (La : Z.log2 a < 4).
  { destruct (Z.eq_dec a 0) as [->|]; [simpl; lia|]. apply Z.log2_lt_pow2; lia. }
  assert (Lb : Z.log2 b < 4).
  { destruct (Z.eq_dec b 0) as [->|]; [simpl; lia|]. apply Z.log2_lt_pow2; lia. }
  lia.
Qed.

Lemma crc_table_linear (a b : Z) :
  0 <= a < 16 -> 0 <= b < 16 ->
  Fit.crc_table_at (Z.lxor a b) = Z.lxor (Fit.crc_table_at a) (Fit.crc_table_at b).
Proof.
  intros Ha Hb.
  assert (H : forall x, 0 <= x < 16 ->
            x = 0 \/ x = 1 \/ x = 2 \/ x = 3 \/ x = 4 \/ x = 5 \/ x = 6 \/ x = 7
            \/ x = 8 \/ x = 9 \/ x = 10 \/ x = 11 \/ x = 12 \/ x = 13 \/ x = 14 \/ x = 15)
    by (intros; lia).
  destruct (H a Ha) as [->|[->|[->|[->|[->|[->|[->|[->|[->|[->|[->|[->|[->|[->|[->| ->]]]]]]]]]]]]]]];
  destruct (H b Hb) as [->|[->|[->|[->|[->|[->|[->|[->|[->|[->|[->|[->|[->|[->|[->| ->]]]]]]]]]]]]]]];
  reflexivity.
Qed.

(** One half of the table-driven step: four shifts at once. *)
Definition crc_nibble (crc nibble : Z) : Z :=
  Z.lxor (Z.lxor (Z.land (Z.shiftr crc 4) 0x0FFF) (Fit.crc_table_at (Z.land crc 0xF)))
    (Fit.crc_table_at nibble).

Lemma shiftr4_range (c : Z) : 0 <= c < 65536 -> 0 <= Z.shiftr c 4 < 4096.
Proof.
  intros Hc. rewrite Z.shiftr_div_pow2 by lia. change (2 ^ 4) with 16.
  split; [apply Z.div_pos; lia | apply Z.div_lt_upper_bound; lia].
Qed.

Lemma crc_nibble_shifts (c h n : Z) :
  0 <= c < 65536 -> 0 <= n < 16 ->
  Nat.iter 4 crc16_shift (Z.lxor (Z.lxor c (Z.shiftl h 4)) n)
  = Z.lxor (crc_nibble c n) h.
Proof.
  intros Hc Hn. unfold crc_nibble.
  rewrite (land_fff_small _ (shiftr4_range c Hc)).
  rewrite (split_nibble c) at 1.
  replace (Z.lxor (Z.lxor (Z.lxor (Z.shiftl (Z.shiftr c 4) 4) (Z.land c 15)) (Z.shiftl h 4)) n)
    with (Z.lxor (Z.shiftl (Z.lxor (Z.shiftr c 4) h) 4) (Z.lxor (Z.land c 15) n)).
  2:{ rewrite Z.shiftl_lxor. apply Z.bits_inj'. intros i _. rewrite !Z.lxor_spec.
      repeat match goal with
             | |- context [Z.testbit ?a i] =>
                 let b := fresh "b" in generalize (Z.testbit a i); intros b
             end.
      repeat match goal with b : bool |- _ => destruct b end; reflexivity. }
  rewrite crc16_nibble_high.
  rewrite crc16_nibble_table by (apply lxor_range4; [apply land_15_range | exact Hn]).
  rewrite crc_table_linear by first [apply land_15_range | exact Hn].
  apply Z.bits_inj'. intros i _. rewrite !Z.lxor_spec.
  repeat match goal with
         | |- context [Z.testbit ?a i] =>
             let b := fresh "b" in generalize (Z.testbit a i); intros b
         end.
  repeat match goal with b : bool |- _ => destruct b end; reflexivity.
Qed.

Lemma crc_nibble_range (c n : Z) : 0 <= crc_nibble c n < 65536.
Proof.
  unfold crc_nibble.
  apply lxor_range16; [apply lxor_range16|]; first [apply land_fff_range | apply crc_table_at_range].
Qed.

Lemma crc_byte_is_crc16_byte (c b : Z) :
  0 <= c < 65536 -> 0 <= b < 256 -> Fit.crc_byte c b = crc16_byte c b.
Proof.
  intros Hc Hb. unfold crc16_byte.
  change (Nat.iter 8 crc16_shift (Z.lxor c b))
    with (Nat.iter 4 crc16_shift (Nat.iter 4 crc16_shift (Z.lxor c b))).
  assert (Hh : 0 <= Z.shiftr b 4 < 16).
  { rewrite Z.shiftr_div_pow2 by lia. change (2 ^ 4) with 16.
    split; [apply Z.div_pos; lia | apply Z.div_lt_upper_bound; lia]. }
  assert (E : Z.lxor c b = Z.lxor (Z.lxor c (Z.shiftl (Z.shiftr b 4) 4)) (Z.land b 15))
    by (rewrite Z.lxor_assoc, <- split_nibble; reflexivity).
  rewrite E.
  rewrite (crc_nibble_shifts c (Z.shiftr b 4) (Z.land b 15) Hc (land_15_range b)).
  pose proof (crc_nibble_range c (Z.land b 15)) as Hr.
  replace (Z.lxor (crc_nibble c (Z.land b 15)) (Z.shiftr b 4))
    with (Z.lxor (Z.lxor (crc_nibble c (Z.land b 15)) (Z.shiftl 0 4)) (Z.shiftr b 4))
    by (rewrite Z.shiftl_0_l, Z.lxor_0_r; reflexivity).
  rewrite (crc_nibble_shifts _ 0 (Z.shiftr b 4) Hr Hh).
  rewrite Z.lxor_0_r.
  unfold Fit.crc_byte, crc_nibble. cbv zeta.
  replace (Z.land (Z.shiftr b 4) 15) with (Z.shiftr b 4).
  2:{ change 15 with (Z.ones 4). rewrite Z.land_ones by lia.
      symmetry. apply Z.mod_small. exact Hh. }
  reflexivity.
Qed.

Lemma crc16_byte_range (c b : Z) :
  0 <= c < 65536 -> 0 <= b < 256 -> 0 <= crc16_byte c b < 65536.
Proof.
  intros Hc Hb. rewrite <- crc_byte_is_crc16_byte by assumption. apply crc_byte_range.
Qed.

(** The table-driven checksum of the exporter is the CRC-16 of the FIT
    protocol. *)
Lemma calculate_crc_is_crc16 (data : list byte) : Fit._calculate_crc data = crc16 data.
Proof.
  unfold Fit._calculate_crc, crc16.
  assert (H : forall c, 0 <= c < 65536 ->
            fold_left (fun crc b => Fit.crc_byte crc (byte_val b)) data c
            = fold_left (fun crc b => crc16_byte crc (byte_val b)) data c).
  { induction data as [|x data IH]; intros c Hc; [reflexivity|].
    cbn [fold_left]. rewrite <- (crc_byte_is_crc16_byte c (byte_val x) Hc (byte_val_range x)).
    apply IH. apply crc_byte_range. }
  apply H. lia.
Qed.

(** The check value of CRC-16/ARC: the checksum of the ASCII digits 1..9. *)
Lemma crc16_check_value :
  Fit._calculate_crc [x31; x32; x33; x34; x35; x36; x37; x38; x39] = 0xBB3D.
Proof. reflexivity. Qed.

(** ** fit_exporter.py: the messages of the body *)

Definition u32 (v : Z) : Prop := 0 <= v <= 4294967295.

(** The eleven bytes of a record message: only upper clamps are applied. *)
Definition record_bytes (t : Z) (r : Fit.FitRecord) : list byte :=
  [x01] ++ le_bytes4 t
  ++ [byte_of_Z (Z.min 255 (Fit.heart_rate r))]
  ++ [byte_of_Z (Z.min 255 (Fit.cadence r))]
  ++ le_bytes2 (Z.min 65535 (Fit.power r))
  ++ le_bytes2 (Z.min 65535 (Fit.speed_mms r)).

Lemma bind_inv {A B} (m : result A) (f : A -> result B) (b : B) :
  (m ≫= f) = Ok b -> exists a, m = Ok a /\ f a = Ok b.
Proof.
  destruct m as [a|e]; [rewrite bind_ok | rewrite bind_raise; discriminate].
  intros H. exists a. split; [reflexivity | exact H].
Qed.

Lemma packs_cons_inv (r : result (list byte)) (l : list (result (list byte)))
    (b : list byte) :
  packs (r :: l) = Ok b ->
  exists b1 b2, r = Ok b1 /\ packs l = Ok b2 /\ b = b1 ++ b2.
Proof.
  destruct r as [b1|e]; [rewrite packs_cons_ok | rewrite packs_cons_raise; discriminate].
  intros H. apply bind_inv in H. destruct H as (b2 & H2 & H).
  exists b1, b2. split; [reflexivity|]. split; [exact H2|].
  unfold mret, result_ret in H. apply Ok_inj in H. symmetry. exact H.
Qed.

Lemma packs_app_inv (l1 l2 : list (result (list byte))) (b : list byte) :
  packs (l1 ++ l2) = Ok b ->
  exists b1 b2, packs l1 = Ok b1 /\ packs l2 = Ok b2 /\ b = b1 ++ b2.
Proof.
  revert b. induction l1 as [|r l1 IH]; intros b H.
  - exists [], b. rewrite packs_nil. repeat split. exact H.
  - cbn [app] in H. apply packs_cons_inv in H. destruct H as (b1 & b2 & -> & H & ->).
    destruct (IH b2 H) as (c1 & c2 & H1 & H2 & ->).
    exists (b1 ++ c1), c2. rewrite packs_cons_ok, H1, bind_ok.
    split; [reflexivity|]. split; [exact H2|]. apply app_assoc.
Qed.

Lemma pack_B_inv (v : Z) (b : list byte) :
  pack_B v = Ok b -> 0 <= v <= 255 /\ b = [byte_of_Z v].
Proof.
  unfold pack_B. destruct (_ && _) eqn:E; [|discriminate].
  intros [= <-]. split; [lia | reflexivity].
Qed.

Lemma pack_H_inv (v : Z) (b : list byte) :
  pack_H v = Ok b -> 0 <= v <= 65535 /\ b = le_bytes2 v.
Proof.
  unfold pack_H. destruct (_ && _) eqn:E; [|discriminate].
  intros [= <-]. split; [lia | reflexivity].
Qed.

(** A FIT definition message: header byte 0x40 + local type, a reserved
    byte, the architecture (0, little endian), the global message number, the
    number of fields, and for each field its number, size and base type. *)
Definition definition_message (local_type global_msg : Z) (fields : list (Z * Z * Z))
  : list byte :=
  [byte_of_Z (0x40 + local_type); x00; x00] ++ le_bytes2 global_msg
  ++ [byte_of_Z (Z.of_nat (length fields))]
  ++ flat_map (fun f => [byte_of_Z f.1.1; byte_of_Z f.1.2; byte_of_Z f.2]) fields.

(** The messages of the body, byte for byte. *)
Definition file_id_message : list byte :=
  definition_message 0 0 [(0, 1, 0); (1, 2, 132); (2, 2, 132); (3, 4, 140)]
  ++ [x00; x04] ++ le_bytes2 1 ++ le_bytes2 1 ++ le_bytes4 12345.

Definition record_definition_message : list byte :=
  definition_message 1 20 [(253, 4, 134); (3, 1, 2); (4, 1, 2); (7, 2, 132); (6, 2, 132)].

Definition event_message (t event_type : Z) : list byte :=
  definition_message 2 21 [(253, 4, 134); (0, 1, 0); (1, 1, 0)]
  ++ [x02] ++ le_bytes4 t ++ [x00; byte_of_Z event_type].

Definition lap_message (t_end t_start elapsed avg_hr avg_power : Z) : list byte :=
  definition_message 3 19
    [(253, 4, 134); (2, 4, 134); (7, 4, 134); (8, 4, 134); (15, 1, 2); (19, 2, 132)]
  ++ [x03] ++ le_bytes4 t_end ++ le_bytes4 t_start ++ le_bytes4 elapsed ++ le_bytes4 elapsed
  ++ [byte_of_Z (Z.min 255 avg_hr)] ++ le_bytes2 (Z.min 65535 avg_power).

Definition session_message (t_end t_start elapsed avg_hr avg_power : Z) : list byte :=
  definition_message 4 18
    [(253, 4, 134); (2, 4, 134); (7, 4, 134); (8, 4, 134); (5, 1, 0); (16, 1, 2);
     (20, 2, 132)]
  ++ [x04] ++ le_bytes4 t_end ++ le_bytes4 t_start ++ le_bytes4 elapsed ++ le_bytes4 elapsed
  ++ [x02; byte_of_Z (Z.min 255 avg_hr)] ++ le_bytes2 (Z.min 65535 avg_power).

Definition activity_message (t_end elapsed : Z) : list byte :=
  definition_message 5 34 [(253, 4, 134); (0, 4, 134); (1, 2, 132); (2, 1, 0)]
  ++ [x05] ++ le_bytes4 t_end ++ le_bytes4 elapsed ++ le_bytes2 1 ++ [x00].

(** The body of the file of a session whose start, end and record times are
    [t_start], [t_end] and [times] seconds after the FIT epoch and that lasted
    [elapsed] milliseconds. *)
Definition body_layout (self : Fit.FitExporter) (t_start t_end elapsed : Z)
    (times : list Z) : list byte :=
  let avg_hr := Fit.average Fit.heart_rate (Fit._records self) in
  let avg_power := Fit.average Fit.power (Fit._records self) in
  file_id_message
  ++ event_message t_start 0
  ++ record_definition_message
  ++ concat (zip_with record_bytes times (Fit._records self))
  ++ event_message t_end 1
  ++ lap_message t_end t_start elapsed avg_hr avg_power
  ++ session_message t_end t_start elapsed avg_hr avg_power
  ++ activity_message t_end elapsed.

Ltac invert_packs H :=
  repeat (apply packs_cons_inv in H;
          let b1 := fresh "b" in
          let b2 := fresh "b" in
          let P := fresh "P" in
          destruct H as (b1 & b2 & P & H & ->);
          first [apply pack_B_inv in P | apply pack_H_inv in P | apply pack_I_inv in P];
          destruct P as [? ->]);
  rewrite packs_nil in H; apply Ok_inj in H; subst.

Lemma build_record_data_inv (r : Fit.FitRecord) (b : list byte) :
  Fit._build_record_data r = Ok b ->
  exists t, Fit.fit_timestamp (Some (Fit.timestamp r)) = Ok t /\ u32 t
            /\ b = record_bytes t r.
Proof.
  unfold Fit._build_record_data. intros H.
  apply bind_inv in H. destruct H as (t & Ht & H).
  invert_packs H. exists t. split; [exact Ht|]. split; [assumption|].
  unfold record_bytes. rewrite ?app_nil_r. reflexivity.
Qed.

Lemma build_records_inv (records : list Fit.FitRecord) (b : list byte) :
  packs (map Fit._build_record_data records) = Ok b ->
  exists times,
    Forall2 (fun r t => Fit.fit_timestamp (Some (Fit.timestamp r)) = Ok t /\ u32 t)
      records times
    /\ b = concat (zip_with record_bytes times records).
Proof.
  revert b. induction records as [|r records IH]; intros b H.
  - cbn [map] in H. rewrite packs_nil in H. apply Ok_inj in H. subst b.
    exists []. split; [apply List.Forall2_nil | reflexivity].
  - cbn [map] in H. apply packs_cons_inv in H. destruct H as (b1 & b2 & H1 & H2 & ->).
    apply build_record_data_inv in H1. destruct H1 as (t & Ht & Hu & ->).
    destruct (IH b2 H2) as (times & Hall & ->).
    exists (t :: times). split; [apply List.Forall2_cons; [split; assumption | exact Hall]|].
    reflexivity.
Qed.

Lemma build_file_id_bytes : Fit._build_file_id = Ok file_id_message.
Proof. reflexivity. Qed.

Lemma build_record_definition_bytes :
  Fit._build_record_definition = Ok record_definition_message.
Proof. reflexivity. Qed.

Lemma build_event_inv (self : Fit.FitExporter) (event_type : Z) (b : list byte) :
  Fit._build_event self event_type 0 = Ok b ->
  exists t,
    Fit.fit_timestamp (if event_type =? 0 then Fit._start_time self
                       else Fit._end_time self) = Ok t
    /\ u32 t /\ b = event_message t event_type.
Proof.
  unfold Fit._build_event. intros H.
  apply bind_inv in H. destruct H as (d & Hd & H).
  apply bind_inv in H. destruct H as (t & Ht & H).
  apply bind_inv in H. destruct H as (x & Hx & H).
  unfold mret, result_ret in H. apply Ok_inj in H. subst b.
  vm_compute in Hd. apply Ok_inj in Hd. subst d.
  invert_packs Hx.
  exists t. split; [exact Ht|]. split; [assumption|]. rewrite ?app_nil_r. reflexivity.
Qed.

Lemma build_lap_inv (self : Fit.FitExporter) (b : list byte) :
  Fit._build_lap self = Ok b ->
  exists t_start t_end elapsed,
    Fit.fit_timestamp (Fit._start_time self) = Ok t_start /\ u32 t_start
    /\ Fit.fit_timestamp (Fit._end_time self) = Ok t_end /\ u32 t_end
    /\ Fit.elapsed_ms self = Ok elapsed /\ u32 elapsed
    /\ b = lap_message t_end t_start elapsed
             (Fit.average Fit.heart_rate (Fit._records self))
             (Fit.average Fit.power (Fit._records self)).
Proof.
  unfold Fit._build_lap. intros H.
  apply bind_inv in H. destruct H as (d & Hd & H).
  apply bind_inv in H. destruct H as (ts & Hts & H).
  apply bind_inv in H. destruct H as (te & Hte & H).
  apply bind_inv in H. destruct H as (el & Hel & H). cbv zeta in H.
  apply bind_inv in H. destruct H as (x & Hx & H).
  unfold mret, result_ret in H. apply Ok_inj in H. subst b.
  vm_compute in Hd. apply Ok_inj in Hd. subst d.
  invert_packs Hx.
  exists ts, te, el. repeat (split; [assumption|]). rewrite ?app_nil_r. reflexivity.
Qed.

Lemma build_session_inv (self : Fit.FitExporter) (b : list byte) :
  Fit._build_session self = Ok b ->
  exists t_start t_end elapsed,
    Fit.fit_timestamp (Fit._start_time self) = Ok t_start
    /\ Fit.fit_timestamp (Fit._end_time self) = Ok t_end
    /\ Fit.elapsed_ms self = Ok elapsed
    /\ b = session_message t_end t_start elapsed
             (Fit.average Fit.heart_rate (Fit._records self))
             (Fit.average Fit.power (Fit._records self)).
Proof.
  unfold Fit._build_session. intros H.
  apply bind_inv in H. destruct H as (d & Hd & H).
  apply bind_inv in H. destruct H as (ts & Hts & H).
  apply bind_inv in H. destruct H as (te & Hte & H).
  apply bind_inv in H. destruct H as (el & Hel & H). cbv zeta in H.
  apply bind_inv in H. destruct H as (x & Hx & H).
  unfold mret, result_ret in H. apply Ok_inj in H. subst b.
  vm_compute in Hd. apply Ok_inj in Hd. subst d.
  invert_packs Hx.
  exists ts, te, el. repeat (split; [assumption|]). rewrite ?app_nil_r. reflexivity.
Qed.

Lemma build_activity_inv (self : Fit.FitExporter) (b : list byte) :
  Fit._build_activity self = Ok b ->
  exists t_end elapsed,
    Fit.fit_timestamp (Fit._end_time self) = Ok t_end
    /\ Fit.elapsed_ms self = Ok elapsed
    /\ b = activity_message t_end elapsed.
Proof.
  unfold Fit._build_activity. intros H.
  apply bind_inv in H. destruct H as (d & Hd & H).
  apply bind_inv in H. destruct H as (te & Hte & H).
  apply bind_inv in H. destruct H as (el & Hel & H).
  apply bind_inv in H. destruct H as (x & Hx & H).
  unfold mret, result_ret in H. apply Ok_inj in H. subst b.
  vm_compute in Hd. apply Ok_inj in Hd. subst d.
  invert_packs Hx.
  exists te, el. repeat (split; [assumption|]). rewrite ?app_nil_r. reflexivity.
Qed.

(** The timestamps of a session as its file has them. *)
Definition session_times (self : Fit.FitExporter) (t_start t_end elapsed : Z)
    (times : list Z) : Prop :=
  Fit.fit_timestamp (Fit._start_time self) = Ok t_start /\ u32 t_start
  /\ Fit.fit_timestamp (Fit._end_time self) = Ok t_end /\ u32 t_end
  /\ Fit.elapsed_ms self = Ok elapsed /\ u32 elapsed
  /\ Forall2 (fun r t => Fit.fit_timestamp (Some (Fit.timestamp r)) = Ok t /\ u32 t)
       (Fit._records self) times.

Lemma build_data_records_inv (self : Fit.FitExporter) (body : list byte) :
  Fit._build_data_records self = Ok body ->
  exists t_start t_end elapsed times,
    session_times self t_start t_end elapsed times
    /\ body = body_layout self t_start t_end elapsed times.
Proof.
  unfold Fit._build_data_records. intros H. cbn [app] in H.
  apply packs_cons_inv in H. destruct H as (b1 & r1 & H1 & H & ->).
  apply packs_cons_inv in H. destruct H as (b2 & r2 & H2 & H & ->).
  apply packs_cons_inv in H. destruct H as (b3 & r3 & H3 & H & ->).
  apply packs_app_inv in H. destruct H as (b4 & r4 & H4 & H & ->).
  apply packs_cons_inv in H. destruct H as (b5 & r5 & H5 & H & ->).
  apply packs_cons_inv in H. destruct H as (b6 & r6 & H6 & H & ->).
  apply packs_cons_inv in H. destruct H as (b7 & r7 & H7 & H & ->).
  apply packs_cons_inv in H. destruct H as (b8 & r8 & H8 & H & ->).
  rewrite packs_nil in H. apply Ok_inj in H. subst r8.
  rewrite build_file_id_bytes in H1. apply Ok_inj in H1. subst b1.
  rewrite build_record_definition_bytes in H3. apply Ok_inj in H3. subst b3.
  apply build_event_inv in H2. destruct H2 as (ts & Hts & Uts & ->).
  apply build_records_inv in H4. destruct H4 as (times & Htimes & ->).
  apply build_event_inv in H5. destruct H5 as (te & Hte & Ute & ->).
  change (0 =? 0) with true in Hts. change (1 =? 0) with false in Hte. cbv iota in Hts, Hte.
  apply build_lap_inv in H6.
  destruct H6 as (ts' & te' & el & Hts' & _ & Hte' & _ & Hel & Uel & ->).
  apply build_session_inv in H7. destruct H7 as (ts2 & te2 & el2 & Hts2 & Hte2 & Hel2 & ->).
  apply build_activity_inv in H8. destruct H8 as (te3 & el3 & Hte3 & Hel3 & ->).
  rewrite Hts in Hts', Hts2. apply Ok_inj in Hts', Hts2. subst ts' ts2.
  rewrite Hte in Hte', Hte2, Hte3. apply Ok_inj in Hte', Hte2, Hte3. subst te' te2 te3.
  rewrite Hel in Hel2, Hel3. apply Ok_inj in Hel2, Hel3. subst el2 el3.
  exists ts, te, el, times. split.
  - unfold session_times. repeat (split; [assumption|]). exact Htimes.
  - unfold body_layout. cbv zeta. rewrite ?app_nil_r. reflexivity.
Qed.

Lemma zip_with_record_bytes_length (times : list Z) (records : list Fit.FitRecord) :
  length times = length records ->
  length (concat (zip_with record_bytes times records)) = (11 * length records)%nat.
Proof.
  revert records. induction times as [|t times IH]; intros [|r records] H;
    cbn [length] in H; try discriminate; [reflexivity|].
  cbn [zip_with concat]. rewrite length_app, IH by lia.
  change (length (record_bytes t r)) with 11%nat. cbn [length]. lia.
Qed.

Lemma body_layout_length (self : Fit.FitExporter) (t_start t_end elapsed : Z)
    (times : list Z) :
  length times = length (Fit._records self) ->
  length (body_layout self t_start t_end elapsed times)
  = (215 + 11 * length (Fit._records self))%nat.
Proof.
  intros H. unfold body_layout. cbv zeta.
  rewrite !length_app, (zip_with_record_bytes_length _ _ H).
  change (length file_id_message) with 28%nat.
  change (length (event_message t_start 0)) with 22%nat.
  change (length record_definition_message) with 21%nat.
  change (length (event_message t_end 1)) with 22%nat.
  change (length (lap_message t_end t_start elapsed _ _)) with 44%nat.
  change (length (session_message t_end t_start elapsed _ _)) with 48%nat.
  change (length (activity_message t_end elapsed)) with 30%nat.
  lia.
Qed.

(** C8.  Every file [_build_fit_file] produces is the 14-byte header
    [14, 0x20, 0x0814 LE, dataSize u32 LE, ".FIT", CRC16 LE of the first 12
    bytes], then the body of dataSize = 215 + 11 * n bytes for n records (the
    file-id message, the start event, the record definition, one 11-byte
    message for each record in order, the stop event, the lap, the session
    and the activity, each byte given by [body_layout]), then the CRC16 of
    header+body, little endian.  The checksum of the exporter, table driven
    and a nibble at a time, is the CRC-16 of the FIT protocol ([crc16]).
    Re-running it over everything but the last two bytes gives the value
    stored in them, and re-running it over the first 12 bytes gives the value
    stored in bytes 12..13. *)
Theorem fit_file_layout (self : Fit.FitExporter) (file : list byte) :
  Fit._build_fit_file self = Ok file ->
  exists (body : list byte) (t_start t_end elapsed : Z) (times : list Z),
    Fit._build_data_records self = Ok body
    /\ session_times self t_start t_end elapsed times
    /\ body = body_layout self t_start t_end elapsed times
    /\ length body = (215 + 11 * length (Fit._records self))%nat
    /\ (forall data, Fit._calculate_crc data = crc16 data)
    /\ let data_size := Z.of_nat (length body) in
       let header := header12 data_size
                     ++ le_bytes2 (Fit._calculate_crc (header12 data_size)) in
       header12 data_size
         = [x0e; x20; x14; x08] ++ le_bytes4 data_size ++ [x2e; x46; x49; x54]
       /\ data_size <= 4294967295
       /\ length header = 14%nat
       /\ file = (header ++ body) ++ le_bytes2 (Fit._calculate_crc (header ++ body))
       /\ length file = (14 + length body + 2)%nat
       /\ unpack_H (slice file 12 14) = Ok (Fit._calculate_crc (firstn 12 file))
       /\ unpack_H (lastn 2 file)
          = Ok (Fit._calculate_crc (firstn (length file - 2) file)).
Proof.
  intros Hfile.
  assert (Hinv : exists body, Fit._build_data_records self = Ok body
                   /\ Z.of_nat (length body) <= 4294967295).
  { revert Hfile. unfold Fit._build_fit_file.
    destruct (Fit._build_data_records self) as [body|e];
      [rewrite bind_ok | rewrite bind_raise; discriminate].
    destruct (Fit._build_header (Z.of_nat (length body))) as [header|e] eqn:Eh;
      [rewrite bind_ok | rewrite bind_raise; discriminate].
    apply build_header_inv in Eh. destruct Eh as [Hsize _].
    intros _. exists body. split; [reflexivity | lia]. }
  destruct Hinv as (body & Hbody & Hsize).
  destruct (build_data_records_inv self body Hbody)
    as (t_start & t_end & elapsed & times & Htimes & Hlayout).
  exists body, t_start, t_end, elapsed, times.
  split; [exact Hbody|]. split; [exact Htimes|]. split; [exact Hlayout|].
  split.
  { rewrite Hlayout. apply body_layout_length.
    destruct Htimes as (_ & _ & _ & _ & _ & _ & H). symmetry.
    apply (Forall2_length _ _ _ H). }
  split; [exact calculate_crc_is_crc16|].
  apply build_fit_file_inv in Hfile. destruct Hfile as (body' & Hbody' & Hfile).
  rewrite Hbody in Hbody'. apply Ok_inj in Hbody'. subst body'.
  clear Hlayout Htimes Hbody.
  cbv zeta in Hfile |- *.
  set (n := Z.of_nat (length body)) in *.
  pose proof (header12_length n) as H12.
  assert (Hh : header12 n
               = [x0e; x20; x14; x08] ++ le_bytes4 n ++ [x2e; x46; x49; x54])
    by reflexivity.
  revert H12 Hh Hfile. generalize (header12 n). intros h12 H12 Hh.
  pose proof (calculate_crc_range h12) as Rh.
  assert (Hc : length (le_bytes2 (Fit._calculate_crc h12)) = 2%nat) by reflexivity.
  assert (Uh : unpack_H (le_bytes2 (Fit._calculate_crc h12)) = Ok (Fit._calculate_crc h12))
    by (apply unpack_H_le_bytes2; lia).
  revert Hc Uh. generalize (le_bytes2 (Fit._calculate_crc h12)). intros hcrc Hc Uh.
  pose proof (calculate_crc_range ((h12 ++ hcrc) ++ body)) as Rf.
  intros ->.
  assert (Hf : length (le_bytes2 (Fit._calculate_crc ((h12 ++ hcrc) ++ body))) = 2%nat)
    by reflexivity.
  assert (Uf : unpack_H (le_bytes2 (Fit._calculate_crc ((h12 ++ hcrc) ++ body)))
               = Ok (Fit._calculate_crc ((h12 ++ hcrc) ++ body)))
    by (apply unpack_H_le_bytes2; lia).
  revert Hf Uf. generalize (le_bytes2 (Fit._calculate_crc ((h12 ++ hcrc) ++ body))).
  intros fcrc Hf Uf.
  assert (Hlen : length (((h12 ++ hcrc) ++ body) ++ fcrc) = (14 + length body + 2)%nat)
    by (rewrite !length_app; lia).
  split; [exact Hh|]. split; [exact Hsize|].
  split; [rewrite length_app; lia|]. split; [reflexivity|].
  split; [exact Hlen|].
  split.
  - assert (E : ((h12 ++ hcrc) ++ body) ++ fcrc = h12 ++ hcrc ++ (body ++ fcrc))
      by (rewrite <- !app_assoc; reflexivity).
    rewrite E. unfold slice.
    rewrite (take_app_length' h12 _ 12) by (symmetry; exact H12).
    rewrite (drop_app_length' h12 _ 12) by (symmetry; exact H12).
    rewrite (take_app_length' hcrc _ (14 - 12)) by (rewrite Hc; reflexivity).
    exact Uh.
  - unfold lastn. rewrite Hlen.
    rewrite (drop_app_length' ((h12 ++ hcrc) ++ body) fcrc)
      by (rewrite !length_app; lia).
    rewrite (take_app_length' ((h12 ++ hcrc) ++ body) fcrc)
      by (rewrite !length_app; lia).
    exact Uf.
Qed.

(** One sample recorded at Unix time 1700000000: 140 bpm, 200 W, 90 rpm,
    30 km/h = 25/3 m/s. *)
Definition one_record_session : Fit.FitExporter :=
  (Fit.add_record (Fit.init "workouts") ∅ "20260101_000000"
         1700000000 140 200 90 (25 # 3)).2.1.

Lemma fit_file_layout_witness :
  exists file : list byte,
    Fit._build_fit_file one_record_session = Ok file
    /\ file = ([x0e; x20; x14; x08; xe2; x00; x00; x00; x2e; x46; x49; x54; x34; x94]
               ++ body_layout one_record_session 1068934400 1068934400 0 [1068934400])
              ++ [xfa; x39]
    /\ length file = 242%nat
    /\ unpack_H (lastn 2 file) = Ok (crc16 (firstn (length file - 2) file)).
Proof.
  destruct (Fit._build_fit_file one_record_session) as [file|e] eqn:E;
    [|vm_compute in E; discriminate].
  exists file. split; [reflexivity|].
  destruct (fit_file_layout one_record_session file E)
    as (body & t_start & t_end & elapsed & times & _ & _ & _ & Hlen & Hcrc & H).
  cbv zeta in H. destruct H as (_ & _ & _ & _ & Hl & _ & Hu).
  split; [|split].
  - vm_compute in E. apply Ok_inj in E. subst file. vm_compute. reflexivity.
  - rewrite Hl, Hlen. reflexivity.
  - rewrite <- Hcrc. exact Hu.
Defined.

(** ** fit_exporter.py: which sessions encode *)

(** What [datetime.fromtimestamp] raises for a time out of range. *)
Definition date_error (e : exn) : Prop :=
  e = OverflowError \/ e = OSError \/ exists year, e = ValueError (Fit.year_out_of_range year).

(** The exceptions the encoder can raise: struct.error for a field that does
    not fit, TypeError for a time that is missing, and the errors of
    [datetime.fromtimestamp]. *)
Definition encoding_error (e : exn) : Prop :=
  e = StructError \/ e = TypeError \/ date_error e.

Lemma timestamp_error_is_date_error (us : Z) : date_error (Fit.timestamp_error us).
Proof.
  unfold Fit.timestamp_error, date_error. cbv zeta.
  destruct (_ || _); [left; reflexivity|].
  destruct (_ || _); [right; left; reflexivity|].
  right; right. eexists. reflexivity.
Qed.

Lemma year_out_of_range_not_no_records (year : Z) :
  Fit.year_out_of_range year <> "No records to export"%string.
Proof. unfold Fit.year_out_of_range. cbn. discriminate. Qed.

Lemma encoding_error_not_no_records (e : exn) :
  encoding_error e -> e <> ValueError "No records to export".
Proof.
  intros [-> | [-> | [-> | [-> | [year ->]]]]]; discriminate.
Qed.

Lemma bind_err {A B} (P : exn -> Prop) (m : result A) (f : A -> result B) :
  (forall e, m = Raise e -> P e) ->
  (forall a e, f a = Raise e -> P e) ->
  forall e, (m ≫= f) = Raise e -> P e.
Proof.
  intros Hm Hf e. destruct m as [a|e']; [rewrite bind_ok; apply Hf|].
  rewrite bind_raise. intros [= <-]. apply Hm. reflexivity.
Qed.

Lemma pack_B_err (v : Z) (e : exn) : pack_B v = Raise e -> e = StructError.
Proof. unfold pack_B. destruct (_ && _); [discriminate|]. intros [= <-]. reflexivity. Qed.

Lemma pack_H_err (v : Z) (e : exn) : pack_H v = Raise e -> e = StructError.
Proof. unfold pack_H. destruct (_ && _); [discriminate|]. intros [= <-]. reflexivity. Qed.

Lemma pack_I_err (v : Z) (e : exn) : pack_I v = Raise e -> e = StructError.
Proof. unfold pack_I. destruct (_ && _); [discriminate|]. intros [= <-]. reflexivity. Qed.

Lemma fit_timestamp_err (ts : option Q) (e : exn) :
  Fit.fit_timestamp ts = Raise e -> e = TypeError \/ date_error e.
Proof.
  unfold Fit.fit_timestamp, Fit.fromtimestamp.
  destruct ts as [t|]; [|rewrite bind_raise; intros [= <-]; left; reflexivity].
  cbv zeta.
  destruct (_ || _);
    [rewrite bind_raise; intros [= <-]; right; apply timestamp_error_is_date_error|].
  rewrite bind_ok. discriminate.
Qed.

Lemma elapsed_ms_err (self : Fit.FitExporter) (e : exn) :
  Fit.elapsed_ms self = Raise e -> e = TypeError.
Proof.
  unfold Fit.elapsed_ms.
  destruct (Fit._end_time self), (Fit._start_time self);
    first [discriminate | intros [= <-]; reflexivity].
Qed.

(** Leaves and nodes of an encoder: every exception is an encoding error. *)
Ltac encoding_errors :=
  lazymatch goal with
  | |- forall e, (_ ≫= _) = Raise e -> _ =>
      apply bind_err; [encoding_errors | intros ?; encoding_errors]
  | |- forall e, packs _ = Raise e -> _ =>
      apply packs_raise; repeat (apply List.Forall_cons; [encoding_errors|]); apply List.Forall_nil
  | |- forall e, pack_B _ = Raise e -> _ =>
      intros ? H; apply pack_B_err in H; subst; left; reflexivity
  | |- forall e, pack_H _ = Raise e -> _ =>
      intros ? H; apply pack_H_err in H; subst; left; reflexivity
  | |- forall e, pack_I _ = Raise e -> _ =>
      intros ? H; apply pack_I_err in H; subst; left; reflexivity
  | |- forall e, pack_BBB _ _ _ = Raise e -> _ => unfold pack_BBB; encoding_errors
  | |- forall e, Fit.definition_header _ _ _ = Raise e -> _ =>
      unfold Fit.definition_header; encoding_errors
  | |- forall e, Fit.fit_timestamp _ = Raise e -> _ =>
      intros ? H; apply fit_timestamp_err in H; right; exact H
  | |- forall e, Fit.elapsed_ms _ = Raise e -> _ =>
      intros ? H; apply elapsed_ms_err in H; right; left; exact H
  | |- forall e, mret _ = Raise e -> _ => intros ?; discriminate
  | |- forall e, Ok _ = Raise e -> _ => intros ?; discriminate
  end.

Lemma build_record_data_err (r : Fit.FitRecord) :
  forall e, Fit._build_record_data r = Raise e -> encoding_error e.
Proof. unfold Fit._build_record_data, encoding_error. encoding_errors. Qed.

Lemma build_data_records_err (self : Fit.FitExporter) :
  forall e, Fit._build_data_records self = Raise e -> encoding_error e.
Proof.
  unfold Fit._build_data_records. apply packs_raise.
  repeat (apply List.Forall_cons;
          [ unfold Fit._build_file_id, Fit._build_event, Fit._build_record_definition,
              encoding_error; encoding_errors |]).
  apply Forall_app. split.
  - apply List.Forall_forall. intros x Hx. apply in_map_iff in Hx.
    destruct Hx as (r & <- & _). apply build_record_data_err.
  - repeat (apply List.Forall_cons;
            [ unfold Fit._build_event, Fit._build_lap, Fit._build_session,
                Fit._build_activity, encoding_error; encoding_errors |]).
    apply List.Forall_nil.
Qed.

Lemma build_fit_file_err (self : Fit.FitExporter) :
  forall e, Fit._build_fit_file self = Raise e -> encoding_error e.
Proof.
  unfold Fit._build_fit_file. apply bind_err; [apply build_data_records_err|].
  intros body. unfold Fit._build_header, encoding_error. encoding_errors.
Qed.

Ltac closed_packs :=
  repeat match goal with
         | |- context [packs (Fit.definition_header ?a ?b ?c :: ?l)] =>
             let E := fresh "E" in
             let d := fresh "d" in
             destruct (packs (Fit.definition_header a b c :: l)) as [d|] eqn:E;
             vm_compute in E; [apply Ok_inj in E; subst d | discriminate E]
         end.

Ltac run_packs :=
  repeat first [ rewrite pack_B_ok by lia
               | rewrite pack_H_ok by lia
               | rewrite pack_I_ok by (unfold u32 in *; lia) ];
  rewrite ?packs_cons_ok, ?packs_nil, ?bind_ok;
  unfold mret, result_ret; rewrite ?bind_ok.

Lemma py_int_nonneg (q : Q) : (0 <= q)%Q -> 0 <= py_int q.
Proof.
  intros H. unfold py_int. apply Z.quot_pos; [|lia].
  unfold Qle in H. simpl in H. lia.
Qed.

Lemma py_int_neg (q : Q) : py_int q < 0 -> (q < 0)%Q.
Proof.
  intros H. apply Qnot_le_lt. intros Hq. apply py_int_nonneg in Hq. lia.
Qed.

Lemma sumZ_nonneg (l : list Z) : Forall (fun x => 0 <= x) l -> 0 <= sumZ l.
Proof.
  induction 1 as [|x l Hx _ IH]; cbn [sumZ fold_right]; [lia|].
  fold (sumZ l). lia.
Qed.

Lemma mean_nonneg (l : list Z) : Forall (fun x => 0 <= x) l -> (0 <= mean l)%Q.
Proof.
  intros H. apply sumZ_nonneg in H. unfold mean.
  destruct (length l) as [|n].
  - unfold Qdiv. change (/ inject_Z (Z.of_nat 0))%Q with 0%Q.
    rewrite Qmult_0_r. apply Qle_refl.
  - apply Qle_shift_div_l.
    + change 0%Q with (inject_Z 0). rewrite <- Zlt_Qlt. lia.
    + rewrite Qmult_0_l. change 0%Q with (inject_Z 0). rewrite <- Zle_Qle. exact H.
Qed.

Lemma average_nonneg (f : Fit.FitRecord -> Z) (records : list Fit.FitRecord) :
  Forall (fun r => 0 <= f r) records -> 0 <= Fit.average f records.
Proof.
  intros H. unfold Fit.average. destruct records as [|r rs]; [lia|].
  apply py_int_nonneg, mean_nonneg. apply Forall_map. exact H.
Qed.

(** The timestamps of a session fit their FIT fields: start, end and every
    record time convert to an unsigned 32-bit count of seconds since the FIT
    epoch, and the elapsed time to an unsigned 32-bit count of milliseconds. *)
Definition valid_record_time (r : Fit.FitRecord) : Prop :=
  exists t, Fit.fit_timestamp (Some (Fit.timestamp r)) = Ok t /\ u32 t.

Definition valid_timing (self : Fit.FitExporter) : Prop :=
  (exists ts, Fit.fit_timestamp (Fit._start_time self) = Ok ts /\ u32 ts)
  /\ (exists te, Fit.fit_timestamp (Fit._end_time self) = Ok te /\ u32 te)
  /\ (exists el, Fit.elapsed_ms self = Ok el /\ u32 el)
  /\ Forall valid_record_time (Fit._records self)
  /\ Z.of_nat (length (Fit._records self)) <= 300000000.

Definition nonneg_record (r : Fit.FitRecord) : Prop :=
  0 <= Fit.heart_rate r /\ 0 <= Fit.cadence r /\ 0 <= Fit.power r
  /\ (0 <= Fit.speed r)%Q.

(** A field that reaches [struct.pack] below zero; the speed does so when it
    is at most -1 mm/s. *)
Definition negative_record (r : Fit.FitRecord) : Prop :=
  Fit.heart_rate r < 0 \/ Fit.cadence r < 0 \/ Fit.power r < 0 \/ Fit.speed_mms r < 0.

Lemma speed_mms_nonneg (r : Fit.FitRecord) : (0 <= Fit.speed r)%Q -> 0 <= Fit.speed_mms r.
Proof.
  intros H. unfold Fit.speed_mms. apply py_int_nonneg.
  apply Qmult_le_0_compat; [exact H | discriminate].
Qed.

Lemma build_record_data_ok (r : Fit.FitRecord) (t : Z) :
  Fit.fit_timestamp (Some (Fit.timestamp r)) = Ok t -> u32 t ->
  nonneg_record r ->
  Fit._build_record_data r = Ok (record_bytes t r).
Proof.
  intros Ht Hu (Hh & Hc & Hp & Hs). apply speed_mms_nonneg in Hs.
  unfold Fit._build_record_data. rewrite Ht, bind_ok.
  run_packs. unfold record_bytes. rewrite app_nil_r. reflexivity.
Qed.

Lemma build_record_data_negative (r : Fit.FitRecord) :
  valid_record_time r -> negative_record r ->
  Fit._build_record_data r = Raise StructError.
Proof.
  intros (t & Ht & Hu) Hneg. unfold Fit._build_record_data. rewrite Ht, bind_ok.
  set (l := [pack_B 1; _; _; _; _; _]).
  assert (Hraise : is_ok (packs l) = false).
  { apply packs_some_raise. subst l.
    apply Exists_cons_tl, Exists_cons_tl.
    destruct Hneg as [H|[H|[H|H]]].
    - apply Exists_cons_hd. rewrite pack_B_neg by lia. reflexivity.
    - apply Exists_cons_tl, Exists_cons_hd. rewrite pack_B_neg by lia. reflexivity.
    - apply Exists_cons_tl, Exists_cons_tl, Exists_cons_hd.
      rewrite pack_H_neg by lia. reflexivity.
    - apply Exists_cons_tl, Exists_cons_tl, Exists_cons_tl, Exists_cons_hd.
      rewrite pack_H_neg by lia. reflexivity. }
  destruct (packs l) as [b|e] eqn:E; [discriminate|]. clear Hraise.
  f_equal. revert e E. subst l. apply packs_raise.
  repeat (apply List.Forall_cons;
          [first [ apply pack_B_err | apply pack_H_err | apply pack_I_err ]|]).
  apply List.Forall_nil.
Qed.

Lemma build_record_data_struct_only (r : Fit.FitRecord) (e : exn) :
  valid_record_time r -> Fit._build_record_data r = Raise e -> e = StructError.
Proof.
  intros (t & Ht & Hu). unfold Fit._build_record_data. rewrite Ht, bind_ok.
  revert e. apply packs_raise.
  repeat (apply List.Forall_cons;
          [first [ apply pack_B_err | apply pack_H_err | apply pack_I_err ]|]).
  apply List.Forall_nil.
Qed.

Lemma build_file_id_ok :
  exists b, Fit._build_file_id = Ok b /\ length b = 28%nat.
Proof. eexists. split; [vm_compute; reflexivity | reflexivity]. Qed.

Lemma build_record_definition_ok :
  exists b, Fit._build_record_definition = Ok b /\ length b = 21%nat.
Proof. eexists. split; [vm_compute; reflexivity | reflexivity]. Qed.

Lemma build_event_ok (self : Fit.FitExporter) (event_type t : Z) :
  0 <= event_type <= 1 ->
  Fit.fit_timestamp (if event_type =? 0 then Fit._start_time self
                     else Fit._end_time self) = Ok t ->
  u32 t ->
  exists b, Fit._build_event self event_type 0 = Ok b /\ length b = 22%nat.
Proof.
  intros He Ht Hu. unfold Fit._build_event. closed_packs.
  rewrite bind_ok, Ht, bind_ok. run_packs.
  eexists. split; [reflexivity|]. reflexivity.
Qed.

Lemma build_lap_ok (self : Fit.FitExporter) (ts te el : Z) :
  Fit.fit_timestamp (Fit._start_time self) = Ok ts -> u32 ts ->
  Fit.fit_timestamp (Fit._end_time self) = Ok te -> u32 te ->
  Fit.elapsed_ms self = Ok el -> u32 el ->
  Forall nonneg_record (Fit._records self) ->
  exists b, Fit._build_lap self = Ok b /\ length b = 44%nat.
Proof.
  intros Hs Hus He Hue Hel Huel Hnn. unfold Fit._build_lap. closed_packs.
  rewrite bind_ok, Hs, bind_ok, He, bind_ok, Hel, bind_ok.
  assert (Hh : 0 <= Fit.average Fit.heart_rate (Fit._records self)).
  { apply average_nonneg. eapply List.Forall_impl; [|exact Hnn]. intros r H. apply H. }
  assert (Hp : 0 <= Fit.average Fit.power (Fit._records self)).
  { apply average_nonneg. eapply List.Forall_impl; [|exact Hnn]. intros r H. apply H. }
  cbv zeta. run_packs.
  eexists. split; [reflexivity|]. reflexivity.
Qed.

Lemma build_session_ok (self : Fit.FitExporter) (ts te el : Z) :
  Fit.fit_timestamp (Fit._start_time self) = Ok ts -> u32 ts ->
  Fit.fit_timestamp (Fit._end_time self) = Ok te -> u32 te ->
  Fit.elapsed_ms self = Ok el -> u32 el ->
  Forall nonneg_record (Fit._records self) ->
  exists b, Fit._build_session self = Ok b /\ length b = 48%nat.
Proof.
  intros Hs Hus He Hue Hel Huel Hnn. unfold Fit._build_session. closed_packs.
  rewrite bind_ok, Hs, bind_ok, He, bind_ok, Hel, bind_ok.
  assert (Hh : 0 <= Fit.average Fit.heart_rate (Fit._records self)).
  { apply average_nonneg. eapply List.Forall_impl; [|exact Hnn]. intros r H. apply H. }
  assert (Hp : 0 <= Fit.average Fit.power (Fit._records self)).
  { apply average_nonneg. eapply List.Forall_impl; [|exact Hnn]. intros r H. apply H. }
  cbv zeta. run_packs.
  eexists. split; [reflexivity|]. reflexivity.
Qed.

Lemma build_activity_ok (self : Fit.FitExporter) (te el : Z) :
  Fit.fit_timestamp (Fit._end_time self) = Ok te -> u32 te ->
  Fit.elapsed_ms self = Ok el -> u32 el ->
  exists b, Fit._build_activity self = Ok b /\ length b = 30%nat.
Proof.
  intros He Hue Hel Huel. unfold Fit._build_activity. closed_packs.
  rewrite bind_ok, He, bind_ok, Hel, bind_ok. run_packs.
  eexists. split; [reflexivity|]. reflexivity.
Qed.

Lemma packs_records_ok (l : list Fit.FitRecord) :
  Forall valid_record_time l -> Forall nonneg_record l ->
  exists b, packs (map Fit._build_record_data l) = Ok b
            /\ length b = (11 * length l)%nat.
Proof.
  induction l as [|r l IH]; intros Hv Hn.
  - exists []. split; reflexivity.
  - apply List.Forall_cons_iff in Hv. destruct Hv as [(t & Ht & Hu) Hv].
    apply List.Forall_cons_iff in Hn. destruct Hn as [Hr Hn].
    destruct (IH Hv Hn) as (b & Hb & Lb).
    cbn [map]. rewrite (build_record_data_ok r t Ht Hu Hr), packs_cons_ok, Hb, bind_ok.
    eexists. split; [reflexivity|].
    rewrite length_app, Lb. cbn [length]. 
    change (length (record_bytes t r)) with 11%nat. lia.
Qed.

Lemma packs_records_negative (l : list Fit.FitRecord) (rest : list (result (list byte))) :
  Forall valid_record_time l -> Exists negative_record l ->
  packs (map Fit._build_record_data l ++ rest) = Raise StructError.
Proof.
  induction l as [|r l IH]; intros Hv Hn.
  - inversion Hn.
  - apply List.Forall_cons_iff in Hv. destruct Hv as [Hr Hv].
    cbn [map app].
    destruct (Fit._build_record_data r) as [b|e] eqn:E.
    + rewrite packs_cons_ok.
      apply List.Exists_cons in Hn. destruct Hn as [Hn|Hn].
      * rewrite (build_record_data_negative r Hr Hn) in E. discriminate.
      * rewrite (IH Hv Hn), bind_raise. reflexivity.
    + apply (build_record_data_struct_only r e Hr) in E. subst e.
      apply packs_cons_raise.
Qed.

Lemma packs_three (a b c : list byte) : packs [Ok a; Ok b; Ok c] = Ok (a ++ b ++ c ++ []).
Proof. reflexivity. Qed.

Lemma packs_four (a b c d : list byte) :
  packs [Ok a; Ok b; Ok c; Ok d] = Ok (a ++ b ++ c ++ d ++ []).
Proof. reflexivity. Qed.

Lemma build_data_records_ok (self : Fit.FitExporter) :
  valid_timing self -> Forall nonneg_record (Fit._records self) ->
  exists body, Fit._build_data_records self = Ok body
               /\ length body = (215 + 11 * length (Fit._records self))%nat.
Proof.
  intros ((ts & Hs & Hus) & (te & He & Hue) & (el & Hel & Huel) & Hv & _) Hn.
  unfold Fit._build_data_records.
  destruct build_file_id_ok as (b1 & -> & L1).
  destruct (build_event_ok self 0 ts ltac:(lia) Hs Hus) as (b2 & -> & L2).
  destruct build_record_definition_ok as (b3 & -> & L3).
  destruct (build_event_ok self 1 te ltac:(lia) He Hue) as (b4 & -> & L4).
  destruct (build_lap_ok self ts te el Hs Hus He Hue Hel Huel Hn) as (b5 & -> & L5).
  destruct (build_session_ok self ts te el Hs Hus He Hue Hel Huel Hn) as (b6 & -> & L6).
  destruct (build_activity_ok self te el He Hue Hel Huel) as (b7 & -> & L7).
  destruct (packs_records_ok _ Hv Hn) as (br & Hbr & Lr).
  rewrite (packs_app_ok _ _ _ (packs_three b1 b2 b3)).
  rewrite (packs_app_ok _ _ _ Hbr), packs_four, !bind_ok.
  unfold mret, result_ret. rewrite ?bind_ok.
  eexists. split; [reflexivity|].
  rewrite !length_app, L1, L2, L3, L4, L5, L6, L7, Lr. cbn [length]. lia.
Qed.

Lemma build_data_records_negative (self : Fit.FitExporter) :
  valid_timing self -> Exists negative_record (Fit._records self) ->
  Fit._build_data_records self = Raise StructError.
Proof.
  intros ((ts & Hs & Hus) & _ & _ & Hv & _) Hn.
  unfold Fit._build_data_records.
  destruct build_file_id_ok as (b1 & -> & L1).
  destruct (build_event_ok self 0 ts ltac:(lia) Hs Hus) as (b2 & -> & L2).
  destruct build_record_definition_ok as (b3 & -> & L3).
  rewrite (packs_app_ok _ _ _ (packs_three b1 b2 b3)).
  rewrite (packs_records_negative _ _ Hv Hn), bind_raise. reflexivity.
Qed.

Lemma build_fit_file_ok (self : Fit.FitExporter) :
  valid_timing self -> Forall nonneg_record (Fit._records self) ->
  exists data, Fit._build_fit_file self = Ok data.
Proof.
  intros Hv Hn.
  destruct (build_data_records_ok self Hv Hn) as (body & Hb & Lb).
  destruct Hv as (_ & _ & _ & _ & Hcount).
  unfold Fit._build_fit_file, Fit._build_header. rewrite Hb, bind_ok.
  destruct header_constants as (-> & -> & ->).
  rewrite pack_I_ok by lia.
  rewrite !packs_cons_ok, packs_nil.
  repeat first
    [ rewrite bind_ok
    | progress unfold mret, result_ret
    | progress cbv zeta
    | match goal with
      | |- context [pack_H (Fit._calculate_crc ?h)] =>
          rewrite (pack_H_ok (Fit._calculate_crc h))
            by (pose proof (calculate_crc_range h); lia)
      end ].
  eexists. reflexivity.
Qed.

(** The name [export] writes to. *)
Definition fit_name (filename : string) : string :=
  if endswith filename ".fit" then filename else filename +:+ ".fit".

Lemma export_ok (abspath : string -> string) (self : Fit.FitExporter)
    (fs : gmap string Fit.file_content) (filename : string) (data : list byte) :
  Fit._records self <> [] ->
  Fit._build_fit_file self = Ok data ->
  Fit.export abspath self fs filename
  = (Ok (abspath (fit_name filename)),
     Fit.cleanup_backup self (<[fit_name filename := Fit.FitFile data]> fs)).
Proof.
  intros Hne Hd. unfold Fit.export.
  destruct (Fit._records self); [contradiction|]. rewrite Hd. reflexivity.
Qed.

Lemma export_raise (abspath : string -> string) (self : Fit.FitExporter)
    (fs : gmap string Fit.file_content) (filename : string) (e : exn) :
  Fit._records self <> [] ->
  Fit._build_fit_file self = Raise e ->
  Fit.export abspath self fs filename = (Raise e, (self, fs)).
Proof.
  intros Hne Hd. unfold Fit.export.
  destruct (Fit._records self); [contradiction|]. rewrite Hd. reflexivity.
Qed.

(** C10, as the code has it.  Record encoding clamps only from above:
    a record with nonnegative fields and a time in the FIT range is packed as
    its FIT second count, min(255, heart rate), min(255, cadence),
    min(65535, power) and min(65535, speed in whole mm/s).  For a session with
    at least one record whose times fit their FIT fields, export succeeds when
    every record has nonnegative heart rate, cadence, power and speed, and
    raises struct.error, writing no file, when some record has a negative
    heart rate, cadence or power or a speed of -1 mm/s or less. *)
Theorem export_clamps_only_from_above (abspath : string -> string)
    (self : Fit.FitExporter) (fs : gmap string Fit.file_content) (filename : string) :
  valid_timing self ->
  Fit._records self <> [] ->
  (forall r t, Fit.fit_timestamp (Some (Fit.timestamp r)) = Ok t -> u32 t ->
               nonneg_record r ->
               Fit._build_record_data r
               = Ok ([x01] ++ le_bytes4 t
                     ++ [byte_of_Z (Z.min 255 (Fit.heart_rate r))]
                     ++ [byte_of_Z (Z.min 255 (Fit.cadence r))]
                     ++ le_bytes2 (Z.min 65535 (Fit.power r))
                     ++ le_bytes2 (Z.min 65535 (py_int (Fit.speed r * 1000)%Q))))
  /\ (Forall nonneg_record (Fit._records self) ->
      exists data,
        Fit._build_fit_file self = Ok data
        /\ Fit.export abspath self fs filename
           = (Ok (abspath (fit_name filename)),
              Fit.cleanup_backup self (<[fit_name filename := Fit.FitFile data]> fs)))
  /\ (Exists negative_record (Fit._records self) ->
      Fit.export abspath self fs filename = (Raise StructError, (self, fs))).
Proof.
  intros Hv Hne. split; [|split].
  - intros r t Ht Hu Hr. apply (build_record_data_ok r t Ht Hu Hr).
  - intros Hn. destruct (build_fit_file_ok self Hv Hn) as (data & Hd).
    exists data. split; [exact Hd|]. apply export_ok; assumption.
  - intros Hn. apply export_raise; [exact Hne|].
    unfold Fit._build_fit_file.
    rewrite (build_data_records_negative self Hv Hn), bind_raise. reflexivity.
Qed.

Lemma one_record_session_valid : valid_timing one_record_session.
Proof.
  split; [exists 1068934400; split; [vm_compute; reflexivity | unfold u32; lia]|].
  split; [exists 1068934400; split; [vm_compute; reflexivity | unfold u32; lia]|].
  split; [exists 0; split; [vm_compute; reflexivity | unfold u32; lia]|].
  split.
  - apply List.Forall_cons; [|apply List.Forall_nil].
    exists 1068934400. split; [vm_compute; reflexivity | unfold u32; lia].
  - vm_compute. discriminate.
Qed.

Lemma export_clamps_only_from_above_witness :
  valid_timing one_record_session
  /\ Fit._records one_record_session <> []
  /\ exists data,
       Fit.export (fun p => p) one_record_session ∅ "ride"
       = (Ok "ride.fit",
          Fit.cleanup_backup one_record_session (<["ride.fit" := Fit.FitFile data]> ∅)).
Proof.
  assert (Hne : Fit._records one_record_session <> []) by (vm_compute; discriminate).
  split; [exact one_record_session_valid|]. split; [exact Hne|].
  destruct (export_clamps_only_from_above (fun p => p) one_record_session ∅ "ride"
              one_record_session_valid Hne) as (_ & Hok & _).
  destruct Hok as (data & _ & Hex).
  - apply List.Forall_cons; [|apply List.Forall_nil].
    repeat split; vm_compute; discriminate.
  - exists data. exact Hex.
Defined.

(** A session recorded while the clock is unset (Unix time 0, 1970). *)
Definition unset_clock_session : Fit.FitExporter :=
  (Fit.add_record (Fit.init "workouts") ∅ "19700101_000000" 0 140 200 90 (25 # 3)).2.1.

(** A session whose single record has a speed of -0.5 mm/s. *)
Definition creeping_back_session : Fit.FitExporter :=
  (Fit.add_record (Fit.init "workouts") ∅ "20260101_000000"
         1700000000 140 200 90 (-1 # 2000)).2.1.

(** C10, as stated, fails in both directions.  A record with nonnegative heart
    rate, cadence, power and speed but taken at Unix time 0 makes export raise
    struct.error (its FIT timestamp is negative); and a record with the
    negative speed -0.0005 m/s exports, since the speed is truncated to
    0 mm/s before it is packed. *)
Lemma export_clamps_only_from_above_counterexample :
  Forall nonneg_record (Fit._records unset_clock_session)
  /\ Fit._records unset_clock_session <> []
  /\ Fit.export (fun p => p) unset_clock_session ∅ "ride"
     = (Raise StructError, (unset_clock_session, ∅))
  /\ Exists (fun r => (Fit.speed r < 0)%Q) (Fit._records creeping_back_session)
  /\ fst (Fit.export (fun p => p) creeping_back_session ∅ "ride") = Ok "ride.fit".
Proof.
  split.
  { apply List.Forall_cons; [|apply List.Forall_nil].
    repeat split; vm_compute; discriminate. }
  split; [vm_compute; discriminate|].
  split; [vm_compute; reflexivity|].
  split; [apply Exists_cons_hd; vm_compute; reflexivity|].
  vm_compute. reflexivity.
Qed.

Lemma build_fit_file_length (self : Fit.FitExporter) (file : list byte) :
  Fit._build_fit_file self = Ok file ->
  length file = (231 + 11 * length (Fit._records self))%nat.
Proof.
  intros H. apply build_fit_file_inv in H. destruct H as (body & Hb & ->).
  apply build_data_records_inv in Hb.
  destruct Hb as (t_start & t_end & elapsed & times & Htimes & ->).
  destruct Htimes as (_ & _ & _ & _ & _ & _ & Hall).
  rewrite !length_app, header12_length, body_layout_length
    by (symmetry; apply (Forall2_length _ _ _ Hall)).
  unfold le_bytes2. cbn [length]. lia.
Qed.

(** C7, as the code has it.  Export of a session without records raises
    ValueError("No records to export"), returns no buffer and leaves the
    exporter and the file system as they were.  Export of a session with at
    least one record never raises that error.  It succeeds whenever the times
    of the session fit their FIT fields and no record has a negative field:
    it then writes the encoded file, 231 + 11 * n bytes for n records, under
    the name with the .fit extension, drops the backup and returns the path
    (the file system is taken to accept the write).
    Every successful export had at least one record and wrote a file of at
    least 242 bytes, never an empty one.  Every failed export wrote nothing
    and left the exporter as it was: it is either the zero-record error, or,
    with records, an error of the encoding (struct.error, TypeError, or what
    [datetime.fromtimestamp] raises for a time out of range: ValueError
    "year ... is out of range", OverflowError or OSError). *)
Theorem export_requires_records (abspath : string -> string) (self : Fit.FitExporter)
    (fs : gmap string Fit.file_content) (filename : string) :
  let out := Fit.export abspath self fs filename in
  (Fit._records self = [] ->
   out = (Raise (ValueError "No records to export"), (self, fs)))
  /\ (Fit._records self <> [] ->
      out.1 <> Raise (ValueError "No records to export")
      /\ (valid_timing self -> Forall nonneg_record (Fit._records self) ->
          exists data,
            out = (Ok (abspath (fit_name filename)),
                   Fit.cleanup_backup self (<[fit_name filename := Fit.FitFile data]> fs))
            /\ Fit._build_fit_file self = Ok data
            /\ length data = (231 + 11 * length (Fit._records self))%nat))
  /\ (forall path, out.1 = Ok path ->
        Fit._records self <> []
        /\ path = abspath (fit_name filename)
        /\ exists data,
             Fit._build_fit_file self = Ok data
             /\ out.2 = Fit.cleanup_backup self
                          (<[fit_name filename := Fit.FitFile data]> fs)
             /\ length data = (231 + 11 * length (Fit._records self))%nat
             /\ (242 <= length data)%nat)
  /\ (forall e, out.1 = Raise e ->
        out.2 = (self, fs)
        /\ (e = ValueError "No records to export" /\ Fit._records self = []
            \/ Fit._records self <> [] /\ encoding_error e
               /\ Fit._build_fit_file self = Raise e)).
Proof.
  intros out. subst out.
  split; [|split; [|split]].
  - intros Hnil. unfold Fit.export. rewrite Hnil. reflexivity.
  - intros Hne. split.
    + destruct (Fit._build_fit_file self) as [data|e] eqn:E.
      * rewrite (export_ok abspath self fs filename data Hne E). discriminate.
      * rewrite (export_raise abspath self fs filename e Hne E). cbn [fst].
        intros H. apply build_fit_file_err in E.
        apply (encoding_error_not_no_records e E). congruence.
    + intros Hv Hn. destruct (build_fit_file_ok self Hv Hn) as (data & Hd).
      exists data. split; [apply export_ok; assumption|]. split; [exact Hd|].
      apply build_fit_file_length. exact Hd.
  - intros path. unfold Fit.export.
    destruct (Fit._records self) as [|r rs] eqn:Er; [discriminate|].
    destruct (Fit._build_fit_file self) as [data|e] eqn:E; [|discriminate].
    cbn [fst snd]. intros [= <-]. split; [discriminate|]. split; [reflexivity|].
    exists data. split; [reflexivity|]. split; [reflexivity|].
    pose proof (build_fit_file_length self data E) as Hl. rewrite Er in Hl.
    split; [exact Hl|]. rewrite Hl. cbn [length]. lia.
  - intros e. unfold Fit.export.
    destruct (Fit._records self) as [|r rs] eqn:Er.
    + cbn [fst snd]. intros [= <-]. split; [reflexivity|]. left. split; reflexivity.
    + destruct (Fit._build_fit_file self) as [data|e'] eqn:E; [discriminate|].
      cbn [fst snd]. intros [= <-]. split; [reflexivity|]. right.
      split; [discriminate|]. split; [|reflexivity].
      apply (build_fit_file_err self e' E).
Qed.

Lemma export_requires_records_witness :
  Fit.export (fun p => p) (Fit.init "workouts") ∅ "ride"
  = (Raise (ValueError "No records to export"), (Fit.init "workouts", ∅))
  /\ exists data,
       Fit.export (fun p => p) one_record_session ∅ "ride"
       = (Ok "ride.fit",
          Fit.cleanup_backup one_record_session (<["ride.fit" := Fit.FitFile data]> ∅))
       /\ length data = 242%nat.
Proof.
  split.
  - exact (proj1 (export_requires_records (fun p => p) (Fit.init "workouts") ∅ "ride")
             eq_refl).
  - destruct (export_requires_records (fun p => p) one_record_session ∅ "ride")
      as (_ & Hsome & _).
    destruct Hsome as (_ & Hok); [vm_compute; discriminate|].
    destruct (Hok one_record_session_valid) as (data & Hex & _ & Hl).
    + apply List.Forall_cons; [|apply List.Forall_nil].
      repeat split; vm_compute; discriminate.
    + exists data. split; [exact Hex | exact Hl].
Defined.

(** A session recorded with the clock in milliseconds: the time 10^12 s is in
    the year 33658. *)
Definition milliseconds_session : Fit.FitExporter :=
  (Fit.add_record (Fit.init "workouts") ∅ "20260101_000000"
     1000000000000 140 200 90 (25 # 3)).2.1.

(** With at least one record, export can still raise a ValueError, that of
    [datetime.fromtimestamp]; nothing is written. *)
Lemma export_year_out_of_range :
  Fit.export (fun p => p) milliseconds_session ∅ "ride"
  = (Raise (ValueError "year 33658 is out of range"), (milliseconds_session, ∅)).
Proof. vm_compute. reflexivity. Qed.

(** A session whose single record has heart rate -1. *)
Definition negative_hr_session : Fit.FitExporter :=
  (Fit.add_record (Fit.init "workouts") ∅ "20260101_000000"
         1700000000 (-1) 200 90 (25 # 3)).2.1.

(** C7, as stated, fails: a session with one record does not always export.
    With heart rate -1 in that record export raises struct.error and writes
    nothing. *)
Lemma export_requires_records_counterexample :
  Fit.record_count negative_hr_session = 1%nat
  /\ Fit.export (fun p => p) negative_hr_session ∅ "ride"
     = (Raise StructError, (negative_hr_session, ∅)).
Proof.
  split; vm_compute; reflexivity.
Qed.

(* ===================================================================== *)
(** * Further properties of the code *)
(* ===================================================================== *)

(** ** ble_manager.py: ranges of the decoded samples *)

Definition bike_in_range (d : BLE.BikeData) : Prop :=
  0 <= BLE.power d <= 32767 /\ 0 <= BLE.cadence d <= 32767
  /\ (0 <= BLE.speed d <= 655.35)%Q.

Definition hr_in_range (d : BLE.HRData) : Prop := 0 <= BLE.heart_rate d <= 65535.

Definition event_in_range (e : BLE.event) : Prop :=
  match e with
  | BLE.BikeEvent d => bike_in_range d
  | BLE.HREvent d => hr_in_range d
  end.

Definition ble_in_range (self : BLE.BLEManager) : Prop :=
  bike_in_range (BLE._last_bike_data self) /\ hr_in_range (BLE._last_hr_data self).

Lemma notify_in_range (registered : bool) (e : BLE.event) :
  event_in_range e -> Forall event_in_range (BLE.notify registered e).
Proof.
  intros H. unfold BLE.notify. destruct registered; [|apply List.Forall_nil].
  apply List.Forall_cons; [exact H | apply List.Forall_nil].
Qed.

Lemma speed_in_range (v : Z) : 0 <= v < 65536 -> (0 <= inject_Z v / 100 <= 655.35)%Q.
Proof.
  intros Hv. split.
  - apply Qle_shift_div_l; [reflexivity|]. rewrite Qmult_0_l.
    unfold Qle; simpl. lia.
  - apply Qle_shift_div_r; [reflexivity|]. unfold Qle; simpl. lia.
Qed.

Lemma decode_indoor_bike_data_range (data : list byte) (now : Q) (d : BLE.BikeData) :
  BLE.decode_indoor_bike_data data now = Ok d -> bike_in_range d.
Proof.
  destruct data as [|b0 [|b1 rest]]; [discriminate | discriminate |].
  unfold BLE.decode_indoor_bike_data.
  change (unpack_H (slice (b0 :: b1 :: rest) 0 2))
    with (Ok (byte_val b0 + 256 * byte_val b1)).
  set (flags := byte_val b0 + 256 * byte_val b1).
  run_result.
  pose proof speed_in_range as Hsp.
  assert (Hz : (0 <= 0 <= 655.35)%Q) by (split; [apply Qle_refl | discriminate]).
  destruct (truthy (Z.land flags 2)), (truthy (Z.land flags 4)),
           (truthy (Z.land flags 8)), (truthy (Z.land flags 16)),
           (truthy (Z.land flags 32)), (truthy (Z.land flags 64));
    repeat read_field;
    intros Hd; apply Ok_inj in Hd; subst d;
    unfold bike_in_range; cbn [BLE.power BLE.cadence BLE.speed];
    (split; [lia|]);
    (split; [first [lia | Z.div_mod_to_equations; lia]|]);
    first [apply Hsp; lia | exact Hz].
Qed.

Lemma unpack_H_range (l : list byte) (v : Z) : unpack_H l = Ok v -> 0 <= v < 65536.
Proof.
  destruct l as [|lo [|hi [|]]]; try discriminate.
  cbn [unpack_H]. intros Hv. apply Ok_inj in Hv. subst v.
  pose proof (byte_val_range lo). pose proof (byte_val_range hi). lia.
Qed.

Lemma unpack_h_range (l : list byte) (v : Z) : unpack_h l = Ok v -> -32768 <= v < 32768.
Proof.
  unfold unpack_h. destruct (unpack_H l) as [u|] eqn:E; [|discriminate].
  apply unpack_H_range in E. rewrite bind_ok. unfold mret, result_ret.
  intros Hv. apply Ok_inj in Hv. subst v.
  destruct (32768 <=? u) eqn:C; [apply Z.leb_le in C | apply Z.leb_gt in C]; lia.
Qed.

Lemma index_range (data : list byte) (i : nat) (v : Z) : index data i = Ok v -> 0 <= v < 256.
Proof.
  unfold index. destruct (nth_error data i) as [b|]; [|discriminate].
  intros Hv. apply Ok_inj in Hv. subst v. apply byte_val_range.
Qed.

Lemma ble_init_in_range : ble_in_range BLE.init.
Proof.
  unfold ble_in_range, bike_in_range, hr_in_range. cbn.
  repeat split; first [lia | apply Qle_refl | discriminate].
Qed.

Lemma indoor_bike_in_range (self self' : BLE.BLEManager) (data : list byte)
    (now : Q) (evs : list BLE.event) :
  ble_in_range self ->
  BLE._handle_indoor_bike_data self data now = Ok (self', evs) ->
  ble_in_range self' /\ Forall event_in_range evs.
Proof.
  intros [Hb Hh]. unfold BLE._handle_indoor_bike_data.
  destruct (BLE.decode_indoor_bike_data data now) as [d|] eqn:E;
    [rewrite bind_ok | rewrite bind_raise; discriminate].
  apply decode_indoor_bike_data_range in E.
  unfold mret, result_ret. intros H. apply Ok_inj in H.
  injection H as <- <-. split; [split; assumption|].
  apply notify_in_range. exact E.
Qed.

Lemma cycling_power_in_range (self self' : BLE.BLEManager) (data : list byte)
    (now : Q) (evs : list BLE.event) :
  ble_in_range self ->
  BLE._handle_cycling_power self data now = Ok (self', evs) ->
  ble_in_range self' /\ Forall event_in_range evs.
Proof.
  intros [Hb Hh]. unfold BLE._handle_cycling_power.
  destruct (unpack_H (slice data 0 2)) as [flags|];
    [rewrite bind_ok | rewrite bind_raise; discriminate].
  destruct (unpack_h (slice data 2 4)) as [p|] eqn:E;
    [rewrite bind_ok | rewrite bind_raise; discriminate].
  apply unpack_h_range in E.
  unfold mret, result_ret. intros H. apply Ok_inj in H.
  injection H as <- <-.
  assert (Hd : bike_in_range
                 (BLE.mkBikeData (Z.max 0 p) (BLE.cadence (BLE._last_bike_data self))
                    (BLE.speed (BLE._last_bike_data self)) now)).
  { destruct Hb as (_ & Hc & Hs). unfold bike_in_range.
    cbn [BLE.power BLE.cadence BLE.speed]. split; [lia|]. split; assumption. }
  split; [split; assumption|]. apply notify_in_range. exact Hd.
Qed.

Lemma hr_measurement_in_range (self self' : BLE.BLEManager) (data : list byte)
    (now : Q) (evs : list BLE.event) :
  ble_in_range self ->
  BLE._handle_hr_measurement self data now = Ok (self', evs) ->
  ble_in_range self' /\ Forall event_in_range evs.
Proof.
  intros [Hb Hh]. unfold BLE._handle_hr_measurement.
  destruct (index data 0) as [flags|];
    [rewrite bind_ok | rewrite bind_raise; discriminate].
  destruct (if truthy (Z.land flags 1) then unpack_H (slice data 1 3) else index data 1)
    as [hr|] eqn:E; [rewrite bind_ok | rewrite bind_raise; discriminate].
  assert (Hr : 0 <= hr <= 65535).
  { destruct (truthy (Z.land flags 1)).
    - apply unpack_H_range in E. lia.
    - apply index_range in E. lia. }
  unfold mret, result_ret. intros H. apply Ok_inj in H.
  injection H as <- <-.
  split; [split; [exact Hb | exact Hr]|]. apply notify_in_range. exact Hr.
Qed.

(** X1.  The samples the three notification handlers cache and hand to the
    callbacks are always in range: power in 0..32767 W, cadence in
    0..32767 rpm, speed in 0..655.35 km/h, heart rate in 0..65535 bpm.  The
    cycling-power handler keeps the cached cadence and speed, so the ranges
    are an invariant of the manager under every frame that decodes. *)
Theorem handlers_keep_samples_in_range (self self' : BLE.BLEManager) (data : list byte)
    (now : Q) (evs : list BLE.event) :
  ble_in_range self ->
  BLE._handle_indoor_bike_data self data now = Ok (self', evs)
  \/ BLE._handle_cycling_power self data now = Ok (self', evs)
  \/ BLE._handle_hr_measurement self data now = Ok (self', evs) ->
  ble_in_range self' /\ Forall event_in_range evs.
Proof.
  intros Hin [H|[H|H]].
  - apply (indoor_bike_in_range self self' data now evs Hin H).
  - apply (cycling_power_in_range self self' data now evs Hin H).
  - apply (hr_measurement_in_range self self' data now evs Hin H).
Qed.

Lemma handlers_keep_samples_in_range_witness :
  ble_in_range (BLE.mkBLEManager true true
                  (BLE.mkBikeData 32767 0 (inject_Z 65535 / 100)%Q 0) (BLE.mkHRData 0 0))
  /\ Forall event_in_range
       [BLE.BikeEvent (BLE.mkBikeData 32767 0 (inject_Z 65535 / 100)%Q 0)].
Proof.
  apply (handlers_keep_samples_in_range
           (BLE.mkBLEManager true true BLE.BikeData_default BLE.HRData_default)
           _ [x40; x00; xff; xff; xff; x7f] 0 _).
  - unfold ble_in_range, bike_in_range, hr_in_range. cbn.
    repeat split; first [lia | apply Qle_refl | discriminate].
  - left. vm_compute. reflexivity.
Defined.

(** ** ble_manager.py: the ERG commands *)

Lemma unpack_h_pack_h (watts : Z) :
  -32768 <= watts <= 32767 ->
  pack_h watts = Ok (le_bytes2 (watts mod 65536))
  /\ unpack_h (le_bytes2 (watts mod 65536)) = Ok watts.
Proof.
  intros Hr. split.
  - unfold pack_h.
    destruct (-32768 <=? watts) eqn:E1; [|apply Z.leb_gt in E1; lia].
    destruct (watts <=? 32767) eqn:E2; [|apply Z.leb_gt in E2; lia].
    reflexivity.
  - unfold unpack_h.
    rewrite unpack_H_le_bytes2 by (apply Z.mod_pos_bound; lia).
    rewrite bind_ok. unfold mret, result_ret. f_equal.
    destruct (32768 <=? watts mod 65536) eqn:E;
      [apply Z.leb_le in E | apply Z.leb_gt in E];
      Z.div_mod_to_equations; lia.
Qed.

Lemma pack_h_out_of_range (watts : Z) :
  watts < -32768 \/ 32767 < watts -> pack_h watts = Raise StructError.
Proof.
  intros Hr. unfold pack_h.
  destruct (-32768 <=? watts) eqn:E1; [apply Z.leb_le in E1 | reflexivity].
  destruct (watts <=? 32767) eqn:E2; [apply Z.leb_le in E2; lia | reflexivity].
Qed.

(** The three bytes of a Set Target Power command. *)
Definition target_power_command (watts : Z) : list byte :=
  x05 :: le_bytes2 (watts mod 65536).

Lemma set_target_power_command (watts : Z) :
  -32768 <= watts <= 32767 ->
  (op ← pack_B BLE.FTMS_SET_TARGET_POWER; power ← pack_h watts; mret (op ++ power))
  = Ok (target_power_command watts).
Proof.
  intros Hr. destruct (unpack_h_pack_h watts Hr) as [-> _].
  reflexivity.
Qed.

(** The manager after it has asked for control where it lacked it. *)
Definition with_control (self : BLE.TrainerLink) (control_ok : bool) : BLE.TrainerLink :=
  if BLE._has_control self then self else fst (BLE._request_control self control_ok).

(** X2.  On a connected trainer, a target within the signed 16-bit range
    whose write goes through is sent as the three bytes 0x05, low, high, and
    the two power bytes decode (with the decoder of the notification
    handlers) to the watts that were asked for; the manager then reports ERG
    mode active at that target.  The command follows the request for control
    when control was missing and could be acquired. *)
Theorem set_target_power_round_trip (self : BLE.TrainerLink) (watts : Z)
    (control_ok : bool) :
  BLE.is_trainer_connected self = true ->
  -32768 <= watts <= 32767 ->
  exists lo hi : byte,
    unpack_h [lo; hi] = Ok watts
    /\ BLE.set_target_power self watts control_ok true
       = (BLE.mkTrainerLink (BLE.trainer_client self)
            (BLE._has_control self || control_ok) true watts
            (BLE.written self
             ++ (if BLE._has_control self then []
                 else if control_ok then [[x00]] else [])
             ++ [[x05; lo; hi]]),
          true).
Proof.
  intros Hc Hr.
  exists (byte_of_Z (Z.land (watts mod 65536) 255)),
         (byte_of_Z (Z.land (Z.shiftr (watts mod 65536) 8) 255)).
  split; [apply (unpack_h_pack_h watts Hr)|].
  unfold BLE.set_target_power. rewrite Hc. cbn [negb].
  rewrite (set_target_power_command watts Hr).
  unfold BLE._request_control. rewrite Hc. cbn [negb].
  change (pack_B BLE.FTMS_REQUEST_CONTROL) with (Ok [x00]).
  destruct (BLE._has_control self) eqn:Hh, control_ok;
    cbn [fst orb BLE.trainer_client BLE._has_control BLE.written app];
    rewrite ?Hh, ?app_nil_r, <- ?app_assoc; reflexivity.
Qed.

Lemma set_target_power_round_trip_witness :
  exists lo hi : byte,
    unpack_h [lo; hi] = Ok 140
    /\ BLE.set_target_power (BLE.mkTrainerLink (Some true) false false 0 []) 140 true true
       = (BLE.mkTrainerLink (Some true) true true 140 [[x00]; [x05; lo; hi]], true).
Proof.
  apply (set_target_power_round_trip
           (BLE.mkTrainerLink (Some true) false false 0 []) 140 true).
  - reflexivity.
  - lia.
Defined.

(** X3.  A target outside the signed 16-bit range, a trainer that is not
    connected, or a failed write make [set_target_power] return [False]
    without touching the ERG state: no Set Target Power command is written
    (at most the request for control is), and the reported mode and target
    stay as they were. *)
Theorem set_target_power_rejects (self : BLE.TrainerLink) (watts : Z)
    (control_ok power_ok : bool) :
  watts < -32768 \/ 32767 < watts \/ BLE.is_trainer_connected self = false
  \/ power_ok = false ->
  let out := BLE.set_target_power self watts control_ok power_ok in
  out.2 = false
  /\ BLE._erg_mode_active out.1 = BLE._erg_mode_active self
  /\ BLE._current_target_power out.1 = BLE._current_target_power self
  /\ BLE.trainer_client out.1 = BLE.trainer_client self
  /\ (BLE.written out.1 = BLE.written self
      \/ BLE.written out.1 = BLE.written self ++ [[x00]]).
Proof.
  intros H. cbv zeta. unfold BLE.set_target_power.
  destruct (BLE.is_trainer_connected self) eqn:Hc; cbn [negb];
    [|cbn [fst snd]; repeat split; try reflexivity; left; reflexivity].
  fold (with_control self control_ok).
  assert (Hw : BLE._erg_mode_active (with_control self control_ok)
               = BLE._erg_mode_active self
               /\ BLE._current_target_power (with_control self control_ok)
                  = BLE._current_target_power self
               /\ BLE.trainer_client (with_control self control_ok)
                  = BLE.trainer_client self
               /\ (BLE.written (with_control self control_ok) = BLE.written self
                   \/ BLE.written (with_control self control_ok)
                      = BLE.written self ++ [[x00]])).
  { unfold with_control, BLE._request_control. rewrite Hc. cbn [negb].
    change (pack_B BLE.FTMS_REQUEST_CONTROL) with (Ok [x00]).
    destruct (BLE._has_control self), control_ok; cbn;
      repeat split; try reflexivity; first [left; reflexivity | right; reflexivity]. }
  destruct (op ← pack_B BLE.FTMS_SET_TARGET_POWER; power ← pack_h watts; mret (op ++ power))
    as [command|e] eqn:E.
  - destruct power_ok.
    + exfalso. destruct H as [H|[H|[H|H]]]; try discriminate.
      * rewrite (pack_h_out_of_range watts) in E by (left; exact H).
        discriminate E.
      * rewrite (pack_h_out_of_range watts) in E by (right; exact H).
        discriminate E.
    + cbn [fst snd]. split; [reflexivity | exact Hw].
  - cbn [fst snd]. split; [reflexivity | exact Hw].
Qed.

Lemma set_target_power_rejects_witness :
  (BLE.set_target_power (BLE.mkTrainerLink (Some true) true true 150 [[x00]])
     40000 true true).2 = false
  /\ BLE._erg_mode_active
       (BLE.set_target_power (BLE.mkTrainerLink (Some true) true true 150 [[x00]])
          40000 true true).1 = true
  /\ BLE._current_target_power
       (BLE.set_target_power (BLE.mkTrainerLink (Some true) true true 150 [[x00]])
          40000 true true).1 = 150.
Proof.
  pose proof (set_target_power_rejects
                (BLE.mkTrainerLink (Some true) true true 150 [[x00]]) 40000 true true
                ltac:(right; left; lia)) as H.
  cbv zeta in H. destruct H as (H1 & H2 & H3 & _).
  split; [exact H1|]. split; [exact H2 | exact H3].
Defined.

(** The operations on the trainer link, and what the environment does to it. *)
Inductive link_op : Type :=
| OpConnect (address_set connect_ok subscribe_ok control_ok : bool)
| OpRequestControl (write_ok : bool)
| OpSetTargetPower (watts : Z) (control_ok power_ok : bool)
| OpStopErg (write_ok : bool)
| OpDisconnect (write_ok : bool)
| OpConnectionLost.

Definition run_link_op (self : BLE.TrainerLink) (o : link_op) : BLE.TrainerLink :=
  match o with
  | OpConnect a c s k => fst (BLE.connect_trainer self a c s k)
  | OpRequestControl ok => fst (BLE._request_control self ok)
  | OpSetTargetPower watts c p => fst (BLE.set_target_power self watts c p)
  | OpStopErg ok => fst (BLE.stop_erg_mode self ok)
  | OpDisconnect ok => BLE.disconnect_trainer self ok
  | OpConnectionLost =>
      BLE.mkTrainerLink (option_map (fun _ => false) (BLE.trainer_client self))
        (BLE._has_control self) (BLE._erg_mode_active self)
        (BLE._current_target_power self) (BLE.written self)
  end.

Definition is_control_request (command : list byte) : bool :=
  match command with
  | [b] => Byte.eqb b x00
  | _ => false
  end.

(** The last command written that is not a request for control. *)
Definition last_power_command (w : list (list byte)) : option (list byte) :=
  fold_left (fun acc c => if is_control_request c then acc else Some c) w None.

(** What the manager reports agrees with what the trainer was told last. *)
Definition link_consistent (self : BLE.TrainerLink) : Prop :=
  if BLE._erg_mode_active self
  then -32768 <= BLE._current_target_power self <= 32767
       /\ last_power_command (BLE.written self)
          = Some (target_power_command (BLE._current_target_power self))
  else BLE._current_target_power self = 0
       /\ (last_power_command (BLE.written self) = None
           \/ last_power_command (BLE.written self) = Some [x01]).

Lemma last_power_command_snoc (w : list (list byte)) (c : list byte) :
  last_power_command (w ++ [c])
  = if is_control_request c then last_power_command w else Some c.
Proof. unfold last_power_command. rewrite fold_left_app. reflexivity. Qed.

Lemma link_consistent_frame (self self' : BLE.TrainerLink) :
  BLE._erg_mode_active self' = BLE._erg_mode_active self ->
  BLE._current_target_power self' = BLE._current_target_power self ->
  last_power_command (BLE.written self') = last_power_command (BLE.written self) ->
  link_consistent self -> link_consistent self'.
Proof. unfold link_consistent. intros -> -> ->. exact id. Qed.

Lemma request_control_consistent (self : BLE.TrainerLink) (ok : bool) :
  link_consistent self -> link_consistent (fst (BLE._request_control self ok)).
Proof.
  unfold BLE._request_control.
  change (pack_B BLE.FTMS_REQUEST_CONTROL) with (Ok [x00]).
  destruct (negb _); [exact id|]. destruct ok; [|exact id].
  apply link_consistent_frame; cbn; try reflexivity.
  apply last_power_command_snoc.
Qed.

Lemma stop_erg_mode_consistent (self : BLE.TrainerLink) (ok : bool) :
  link_consistent self -> link_consistent (fst (BLE.stop_erg_mode self ok)).
Proof.
  unfold BLE.stop_erg_mode.
  change (pack_B BLE.FTMS_RESET) with (Ok [x01]).
  destruct (negb _); [exact id|]. destruct ok; [|exact id].
  intros _. unfold link_consistent. cbn. split; [reflexivity|].
  right. apply last_power_command_snoc.
Qed.

Lemma set_target_power_consistent (self : BLE.TrainerLink) (watts : Z) (c p : bool) :
  link_consistent self -> link_consistent (fst (BLE.set_target_power self watts c p)).
Proof.
  intros H. unfold BLE.set_target_power.
  destruct (negb _); [exact H|].
  fold (with_control self c).
  assert (Hw : link_consistent (with_control self c)).
  { unfold with_control. destruct (BLE._has_control self); [exact H|].
    apply request_control_consistent. exact H. }
  destruct (-32768 <=? watts) eqn:E1; [apply Z.leb_le in E1 | apply Z.leb_gt in E1].
  - destruct (watts <=? 32767) eqn:E2; [apply Z.leb_le in E2 | apply Z.leb_gt in E2].
    + rewrite (set_target_power_command watts) by lia.
      destruct p; [|exact Hw].
      unfold link_consistent. cbn. split; [lia|].
      apply last_power_command_snoc.
    + rewrite (pack_h_out_of_range watts) by lia. exact Hw.
  - rewrite (pack_h_out_of_range watts) by lia. exact Hw.
Qed.

Lemma run_link_op_consistent (self : BLE.TrainerLink) (o : link_op) :
  link_consistent self -> link_consistent (run_link_op self o).
Proof.
  intros H. destruct o as [a c s k|ok|watts c p|ok|ok|]; cbn [run_link_op].
  - unfold BLE.connect_trainer.
    destruct (negb a); [exact H|]. destruct (negb c); [exact H|].
    destruct (negb s); [exact H|].
    apply request_control_consistent. exact H.
  - apply request_control_consistent. exact H.
  - apply set_target_power_consistent. exact H.
  - apply stop_erg_mode_consistent. exact H.
  - unfold BLE.disconnect_trainer.
    assert (Hs : link_consistent
                   (if BLE._erg_mode_active self then fst (BLE.stop_erg_mode self ok)
                    else self)).
    { destruct (BLE._erg_mode_active self); [apply stop_erg_mode_consistent|]; exact H. }
    revert Hs. apply link_consistent_frame; reflexivity.
  - exact H.
Qed.

(** X4.  Along every sequence of connects, control requests, target settings,
    ERG stops, disconnects and connection losses, with writes that succeed or
    fail in any pattern, what the manager reports agrees with the last power
    command the trainer was sent: while it reports ERG mode active at target
    P (always within the signed 16-bit range), that command is Set Target
    Power P; while it reports ERG mode off, the target reads 0 and the
    command is Reset, or none was ever sent. *)
Theorem erg_state_tracks_commands (ops : list link_op) :
  link_consistent (fold_left run_link_op ops BLE.init_link).
Proof.
  assert (H0 : link_consistent BLE.init_link).
  { unfold link_consistent. cbn. split; [reflexivity | left; reflexivity]. }
  revert H0. generalize BLE.init_link. induction ops as [|o ops IH]; intros s Hs.
  - exact Hs.
  - cbn [fold_left]. apply IH. apply run_link_op_consistent. exact Hs.
Qed.

(** ** workout_manager.py: ramps *)

Lemma py_int_mono (q1 q2 : Q) : (q1 <= q2)%Q -> py_int q1 <= py_int q2.
Proof.
  intros H. unfold py_int. destruct q1 as [n1 d1], q2 as [n2 d2].
  unfold Qle in H. cbn [Qnum Qden] in *.
  rewrite <- (Z.quot_mul_cancel_r n1 (Zpos d1) (Zpos d2)) by lia.
  rewrite <- (Z.quot_mul_cancel_r n2 (Zpos d2) (Zpos d1)) by lia.
  rewrite (Z.mul_comm (Zpos d2) (Zpos d1)).
  apply Z.quot_le_mono; lia.
Qed.

Lemma py_int_inject_Z (a : Z) : py_int (inject_Z a) = a.
Proof. unfold py_int. cbn. apply Z.quot_1_r. Qed.

Lemma py_int_between (a b : Z) (q : Q) :
  (inject_Z a <= q <= inject_Z b)%Q -> a <= py_int q <= b.
Proof.
  intros [H1 H2]. apply py_int_mono in H1, H2.
  rewrite py_int_inject_Z in H1, H2. lia.
Qed.

(** How far a ramp has progressed: [min(1.0, elapsed / duration)]. *)
Definition progress (duration elapsed : Z) : Q :=
  Qmin2 1 (inject_Z elapsed / inject_Z duration)%Q.

Lemma progress_range (d t : Z) : 0 < d -> 0 <= t -> (0 <= progress d t <= 1)%Q.
Proof.
  intros Hd Ht. unfold progress, Qmin2.
  assert (Hq : (0 <= inject_Z t / inject_Z d)%Q).
  { apply Qle_shift_div_l.
    - change 0%Q with (inject_Z 0). rewrite <- Zlt_Qlt. exact Hd.
    - rewrite Qmult_0_l. change 0%Q with (inject_Z 0). rewrite <- Zle_Qle. exact Ht. }
  destruct (Qltb _ 1) eqn:E; Qltb_facts.
  - split; [exact Hq | apply Qlt_le_weak; exact E].
  - split; [discriminate | apply Qle_refl].
Qed.

Lemma progress_mono (d t t' : Z) : 0 < d -> t <= t' -> (progress d t <= progress d t')%Q.
Proof.
  intros Hd Ht. unfold progress, Qmin2.
  assert (Hq : (inject_Z t / inject_Z d <= inject_Z t' / inject_Z d)%Q).
  { apply Qmult_le_compat_r.
    - rewrite <- Zle_Qle. exact Ht.
    - apply Qinv_le_0_compat. change 0%Q with (inject_Z 0). rewrite <- Zle_Qle. lia. }
  destruct (Qltb (inject_Z t / inject_Z d) 1) eqn:E1,
           (Qltb (inject_Z t' / inject_Z d) 1) eqn:E2; Qltb_facts; try lra.
Qed.

Lemma progress_start (d : Z) : 0 < d -> (progress d 0 == 0)%Q.
Proof.
  intros Hd. unfold progress, Qmin2.
  assert (Hq : (inject_Z 0 / inject_Z d == 0)%Q).
  { unfold Qdiv. change (inject_Z 0) with 0%Q. apply Qmult_0_l. }
  destruct (Qltb _ 1) eqn:E; Qltb_facts; [exact Hq|]. rewrite Hq in E. lra.
Qed.

Lemma progress_end (d t : Z) : 0 < d -> d <= t -> (progress d t == 1)%Q.
Proof.
  intros Hd Ht. unfold progress, Qmin2.
  destruct (Qltb _ 1) eqn:E; Qltb_facts; [|reflexivity].
  exfalso.
  assert (Hd' : (0 < inject_Z d)%Q)
    by (change 0%Q with (inject_Z 0); rewrite <- Zlt_Qlt; exact Hd).
  assert (Ht' : (inject_Z d <= inject_Z t)%Q) by (rewrite <- Zle_Qle; exact Ht).
  assert (Hq : (inject_Z d * (inject_Z t / inject_Z d) == inject_Z t)%Q).
  { apply Qmult_div_r. intros H0. rewrite H0 in Hd'. apply (Qlt_irrefl _ Hd'). }
  assert (Hlt : (inject_Z d * (inject_Z t / inject_Z d) < inject_Z d * 1)%Q).
  { apply Qmult_lt_l; assumption. }
  rewrite Hq, Qmult_1_r in Hlt. apply (Qlt_not_le _ _ Hlt Ht').
Qed.

Lemma get_power_at_time_ramp (seg : Workout.WorkoutSegment) (t : Z) :
  0 < Workout.duration_seconds seg ->
  Workout.get_power_at_time seg t
  = Ok (if Workout.target_power_start seg =? Workout.target_power_end seg
        then Workout.target_power_start seg
        else py_int (inject_Z (Workout.target_power_start seg)
                     + inject_Z (Workout.target_power_end seg
                                 - Workout.target_power_start seg)
                       * progress (Workout.duration_seconds seg) t)%Q).
Proof.
  intros Hd. unfold Workout.get_power_at_time.
  destruct (_ =? _); [reflexivity|].
  destruct (Workout.duration_seconds seg =? 0) eqn:E; [apply Z.eqb_eq in E; lia|].
  reflexivity.
Qed.

Lemma get_power_at_time_zero (seg : Workout.WorkoutSegment) :
  0 < Workout.duration_seconds seg ->
  Workout.get_power_at_time seg 0 = Ok (Workout.target_power_start seg).
Proof.
  intros Hd. rewrite (get_power_at_time_ramp seg 0 Hd). f_equal.
  destruct (_ =? _); [reflexivity|].
  pose proof (progress_start (Workout.duration_seconds seg) Hd) as Hp.
  set (s := Workout.target_power_start seg).
  set (e := Workout.target_power_end seg).
  assert (H : s <= py_int (inject_Z s + inject_Z (e - s)
                           * progress (Workout.duration_seconds seg) 0) <= s); [|lia].
  apply py_int_between. rewrite Hp. split; lra.
Qed.

(** X5.  On a segment of positive duration, at every elapsed time from 0 on,
    [get_power_at_time] returns a power between the two ends of the ramp: the
    start power at 0 s, the end power from the segment's duration on, and in
    between a value that moves monotonically from the one to the other. *)
Theorem ramp_power_between_endpoints (seg : Workout.WorkoutSegment) (t : Z) :
  0 < Workout.duration_seconds seg -> 0 <= t ->
  let s := Workout.target_power_start seg in
  let e := Workout.target_power_end seg in
  exists p, Workout.get_power_at_time seg t = Ok p
    /\ Z.min s e <= p <= Z.max s e
    /\ (t = 0 -> p = s)
    /\ (Workout.duration_seconds seg <= t -> p = e)
    /\ forall t' p', t <= t' -> Workout.get_power_at_time seg t' = Ok p' ->
         (s <= e -> p <= p') /\ (e <= s -> p' <= p).
Proof.
  intros Hd Ht s e.
  rewrite (get_power_at_time_ramp seg t Hd). fold s e.
  eexists. split; [reflexivity|].
  set (d := Workout.duration_seconds seg) in *.
  assert (Hes : (inject_Z (e - s) == inject_Z e - inject_Z s)%Q).
  { unfold Z.sub. rewrite inject_Z_plus, inject_Z_opp. reflexivity. }
  assert (Hse : s <= e -> (inject_Z s <= inject_Z e)%Q) by (intros; rewrite <- Zle_Qle; lia).
  assert (Hes' : e <= s -> (inject_Z e <= inject_Z s)%Q) by (intros; rewrite <- Zle_Qle; lia).
  destruct (s =? e) eqn:Eq; [apply Z.eqb_eq in Eq | apply Z.eqb_neq in Eq].
  { split; [lia|]. split; [reflexivity|]. split; [lia|].
    intros t' p' Htt'. rewrite (get_power_at_time_ramp seg t' Hd). fold s e.
    apply Z.eqb_eq in Eq. rewrite Eq. intros Hp. apply Ok_inj in Hp. lia. }
  pose proof (progress_range d t Hd Ht) as [Hx0 Hx1].
  split.
  { destruct (Z.le_ge_cases s e) as [Hle|Hle].
    - rewrite Z.min_l, Z.max_r by lia. apply py_int_between.
      rewrite Hes. specialize (Hse Hle). split; nra.
    - rewrite Z.min_r, Z.max_l by lia. apply py_int_between.
      rewrite Hes. specialize (Hes' Hle). split; nra. }
  split.
  { intros ->. pose proof (progress_start d Hd) as Hp.
    assert (H : s <= py_int (inject_Z s + inject_Z (e - s) * progress d 0) <= s); [|lia].
    apply py_int_between. rewrite Hp. split; lra. }
  split.
  { intros Hend. pose proof (progress_end d t Hd Hend) as Hp.
    assert (H : e <= py_int (inject_Z s + inject_Z (e - s) * progress d t) <= e); [|lia].
    apply py_int_between. rewrite Hp, Hes. split; lra. }
  intros t' p' Htt'. rewrite (get_power_at_time_ramp seg t' Hd). fold s e d.
  apply Z.eqb_neq in Eq. rewrite Eq. intros Hp. apply Ok_inj in Hp. subst p'.
  pose proof (progress_mono d t t' Hd Htt') as Hm.
  split; intros Hle; apply py_int_mono; rewrite Hes.
  - specialize (Hse Hle). nra.
  - specialize (Hes' Hle). nra.
Qed.

Lemma ramp_power_between_endpoints_witness :
  exists p, Workout.get_power_at_time
              (Workout.mkSegment "Warmup" 300 86 139 Workout.WARMUP) 150 = Ok p
    /\ 86 <= p <= 139.
Proof.
  destruct (ramp_power_between_endpoints
              (Workout.mkSegment "Warmup" 300 86 139 Workout.WARMUP) 150
              ltac:(cbn; lia) ltac:(lia)) as (p & Hp & Hr & _).
  exists p. split; [exact Hp | exact Hr].
Defined.

(** ** workout_manager.py: the workout plans *)

(** What a plan is apart from its powers: names, durations, phases. *)
Definition skeleton (segs : list Workout.WorkoutSegment)
  : list (string * Z * Workout.WorkoutPhase) :=
  map (fun g => (Workout.name g, Workout.duration_seconds g, Workout.phase g)) segs.

Definition plan_ok (segs : list Workout.WorkoutSegment) : Prop :=
  segs <> [] /\ Forall (fun g => 0 < Workout.duration_seconds g) segs.

Lemma in_library (ty : string) :
  In ty Workout.WORKOUT_LIBRARY ->
  ty = "zone2"%string \/ ty = "vo2max"%string \/ ty = "sweet_spot"%string
  \/ ty = "tempo"%string.
Proof.
  intros [H|[H|[H|[H|[]]]]]; symmetry in H; auto.
Qed.

Lemma templates_ok (c : Workout.WorkoutConfig) :
  plan_ok (Workout.zone2_segments c) /\ plan_ok (Workout.vo2max_segments c)
  /\ plan_ok (Workout.sweet_spot_segments c) /\ plan_ok (Workout.tempo_segments c).
Proof.
  unfold plan_ok.
  repeat split; try discriminate;
    repeat (apply List.Forall_cons; [reflexivity|]); apply List.Forall_nil.
Qed.

Lemma build_workout_cases (s : Workout.WorkoutManager) (ty : string) :
  let c := Workout.config s in
  Workout._build_workout s ty
  = Workout.set_segments s ty
      (if String.eqb ty "zone2" then Workout.zone2_segments c
       else if String.eqb ty "vo2max" then Workout.vo2max_segments c
       else if String.eqb ty "sweet_spot" then Workout.sweet_spot_segments c
       else if String.eqb ty "tempo" then Workout.tempo_segments c
       else Workout.segments s).
Proof.
  cbv zeta. unfold Workout._build_workout.
  destruct (String.eqb ty "zone2"); [reflexivity|].
  destruct (String.eqb ty "vo2max"); [reflexivity|].
  destruct (String.eqb ty "sweet_spot"); [reflexivity|].
  destruct (String.eqb ty "tempo"); reflexivity.
Qed.

Lemma build_workout_plan_ok (s : Workout.WorkoutManager) (ty : string) :
  plan_ok (Workout.segments s) -> plan_ok (Workout.segments (Workout._build_workout s ty)).
Proof.
  intros H. rewrite build_workout_cases. cbv zeta. cbn [Workout.set_segments Workout.segments].
  destruct (templates_ok (Workout.config s)) as (H1 & H2 & H3 & H4).
  destruct (String.eqb ty "zone2"); [exact H1|].
  destruct (String.eqb ty "vo2max"); [exact H2|].
  destruct (String.eqb ty "sweet_spot"); [exact H3|].
  destruct (String.eqb ty "tempo"); [exact H4 | exact H].
Qed.

(** The plan [_build_workout] builds for a type of the library. *)
Definition template (ty : string) (c : Workout.WorkoutConfig)
  : list Workout.WorkoutSegment :=
  if String.eqb ty "zone2" then Workout.zone2_segments c
  else if String.eqb ty "vo2max" then Workout.vo2max_segments c
  else if String.eqb ty "sweet_spot" then Workout.sweet_spot_segments c
  else Workout.tempo_segments c.

Lemma set_workout_type_library (s : Workout.WorkoutManager) (ty : string) :
  In ty Workout.WORKOUT_LIBRARY ->
  Workout.set_workout_type s ty = Workout.set_segments s ty (template ty (Workout.config s)).
Proof.
  intros Hin. apply in_library in Hin.
  destruct Hin as [-> | [-> | [-> | ->]]]; reflexivity.
Qed.

Lemma template_ok (ty : string) (c : Workout.WorkoutConfig) : plan_ok (template ty c).
Proof.
  destruct (templates_ok c) as (H1 & H2 & H3 & H4). unfold template.
  destruct (String.eqb ty "zone2"); [exact H1|].
  destruct (String.eqb ty "vo2max"); [exact H2|].
  destruct (String.eqb ty "sweet_spot"); [exact H3 | exact H4].
Qed.

(** X6.  Selecting a workout of the library on any manager builds a plan whose
    names, durations and phases depend on the type only, not on the FTP:
    [set_ftp] changes its powers and nothing else.  Every segment has a
    positive duration, the plan opens with a warmup and closes with a
    cooldown, and its total duration is the one the library advertises for
    zone2 (60 min), sweet_spot (55 min) and tempo (45 min), while the vo2max
    plan lasts 37 minutes where the library says 35.  A type that is not in
    the library leaves the manager as it is. *)
Theorem library_plans (s : Workout.WorkoutManager) (ty : string) :
  (In ty Workout.WORKOUT_LIBRARY ->
   let s' := Workout.set_workout_type s ty in
   Workout._current_workout_type s' = ty
   /\ (forall ftp,
         skeleton (Workout.segments (Workout.set_ftp s' ftp))
         = skeleton (Workout.segments s')
         /\ Workout._current_workout_type (Workout.set_ftp s' ftp) = ty)
   /\ plan_ok (Workout.segments s')
   /\ (exists first_name d1 p1 p2,
         head (Workout.segments s')
         = Some (Workout.mkSegment first_name d1 p1 p2 Workout.WARMUP))
   /\ (exists last_name d1 p1 p2,
         last (Workout.segments s')
         = Some (Workout.mkSegment last_name d1 p1 p2 Workout.COOLDOWN))
   /\ exists minutes,
        Workout.library_duration_minutes ty = Some minutes
        /\ Workout.total_duration_seconds s'
           = if String.eqb ty "vo2max" then 60 * minutes + 120 else 60 * minutes)
  /\ (~ In ty Workout.WORKOUT_LIBRARY -> Workout.set_workout_type s ty = s).
Proof.
  split.
  - intros Hin s'. subst s'. rewrite (set_workout_type_library s ty Hin).
    split; [reflexivity|].
    split.
    { intros ftp. apply in_library in Hin.
      destruct Hin as [-> | [-> | [-> | ->]]]; split; reflexivity. }
    split; [apply template_ok|].
    apply in_library in Hin.
    destruct Hin as [-> | [-> | [-> | ->]]];
      (split; [repeat eexists; reflexivity|]);
      (split; [repeat eexists; reflexivity|]);
      eexists; split; reflexivity.
  - intros Hnot. unfold Workout.set_workout_type.
    destruct (existsb (String.eqb ty) Workout.WORKOUT_LIBRARY) eqn:E; [|reflexivity].
    exfalso. apply Hnot. apply existsb_exists in E. destruct E as (x & Hx & Heq).
    apply String.eqb_eq in Heq. subst x. exact Hx.
Qed.

Lemma library_plans_witness :
  Workout.total_duration_seconds
    (Workout.set_workout_type (Workout.init 215 124 143) "vo2max") = 2220
  /\ Workout.library_duration_minutes "vo2max" = Some 35.
Proof.
  destruct (proj1 (library_plans (Workout.init 215 124 143) "vo2max")
              ltac:(vm_compute; tauto))
    as (_ & _ & _ & _ & _ & m & Hm & Ht).
  cbv zeta in Ht. split; [|reflexivity].
  rewrite Ht. injection Hm as <-. reflexivity.
Defined.

(** ** workout_manager.py: a session never raises *)

(** What the operations keep: a nonempty plan of positive durations, and a
    segment start time while the workout runs. *)
Definition manager_ok (s : Workout.WorkoutManager) : Prop :=
  plan_ok (Workout.segments s)
  /\ (Workout._is_running s = true -> Workout.segment_start_time s <> None).

Lemma segment_at_ok (segs : list Workout.WorkoutSegment) (i : Z) :
  0 <= i < Z.of_nat (length segs) ->
  exists seg, Workout.segment_at segs i = Ok seg /\ In seg segs.
Proof.
  intros Hi. unfold Workout.segment_at.
  destruct (nth_error segs (Z.to_nat i)) as [seg|] eqn:E.
  - exists seg. split; [reflexivity|]. apply (nth_error_In _ _ E).
  - apply nth_error_None in E. lia.
Qed.

Lemma plan_ok_duration (segs : list Workout.WorkoutSegment) (seg : Workout.WorkoutSegment) :
  plan_ok segs -> In seg segs -> 0 < Workout.duration_seconds seg.
Proof.
  intros [_ H] Hin. rewrite List.Forall_forall in H. apply H. exact Hin.
Qed.

Lemma init_ok (ftp lo hi : Z) : manager_ok (Workout.init ftp lo hi).
Proof.
  split; [|discriminate]. apply (templates_ok (Workout.mkConfig ftp lo hi)).
Qed.

Lemma start_ok (s : Workout.WorkoutManager) (t1 t2 t3 : Q) :
  plan_ok (Workout.segments s) ->
  exists seg rest,
    Workout.segments s = seg :: rest
    /\ Workout.start s t1 t2 t3
       = Ok (Workout.mkManager (Workout.config s) (Workout.segments s) 0 (Some t1) (Some t2)
               (Workout.target_power_start seg) true (Workout._current_workout_type s)
               false (Workout.zone2_power (Workout.config s)) t3
               (Workout._hr_adjustment_interval s) (Workout._power_step s) [],
             [Workout.PhaseChange (Workout.phase seg) (Workout.name seg);
              Workout.PowerChange (Workout.target_power_start seg)]).
Proof.
  intros [Hne Hd]. unfold Workout.start.
  destruct (Workout.segments s) as [|seg rest] eqn:E; [contradiction|].
  exists seg, rest. split; [reflexivity|].
  change (Workout.segment_at (seg :: rest) 0) with (Ok seg). rewrite bind_ok.
  assert (Hp : Workout.get_power_at_time seg 0 = Ok (Workout.target_power_start seg)).
  { assert (Hdur : 0 < Workout.duration_seconds seg) by (inversion Hd; assumption).
    apply get_power_at_time_zero. exact Hdur. }
  rewrite Hp, bind_ok. reflexivity.
Qed.

Lemma retarget_ok (s : Workout.WorkoutManager) (seg : Workout.WorkoutSegment) (el : Q)
    (evs0 : list Workout.event) :
  0 < Workout.duration_seconds seg ->
  exists p,
    (if Workout._hr_target_mode s then Ok (Workout._current_adaptive_power s)
     else Workout.get_power_at_time seg (py_int el)) = Ok p
    /\ Workout.retarget s seg el evs0
       = if p =? Workout._last_target_power s then Ok (s, None, evs0)
         else Ok (Workout.set_last_target_power s p, Some p,
                  evs0 ++ [Workout.PowerChange p]).
Proof.
  intros Hd. unfold Workout.retarget.
  rewrite (get_power_at_time_ramp seg (py_int el) Hd).
  set (r := if Workout._hr_target_mode s then Ok (Workout._current_adaptive_power s)
            else Ok _).
  assert (Hr : exists p, r = Ok p) by (subst r; destruct (Workout._hr_target_mode s); eauto).
  destruct Hr as [p Hp]. exists p. split; [exact Hp|].
  rewrite Hp, bind_ok. destruct (p =? Workout._last_target_power s); reflexivity.
Qed.

(** The outcomes of [update] on a manager that is in order. *)
Inductive update_outcome (s : Workout.WorkoutManager) (now : Q)
  : Workout.WorkoutManager * option Z * list Workout.event -> Prop :=
| update_idle :
    Workout._is_running s = false \/ Workout.current_segment_index s < 0 ->
    update_outcome s now (s, None, [])
| update_overrun :
    Workout._is_running s = true ->
    0 <= Workout.current_segment_index s ->
    Z.of_nat (length (Workout.segments s)) <= Workout.current_segment_index s ->
    update_outcome s now
      (Workout.set_running s false, None,
       [Workout.WorkoutComplete; Workout.PhaseChange Workout.COMPLETED "Complete"])
| update_complete seg0 t0 :
    Workout._is_running s = true ->
    0 <= Workout.current_segment_index s ->
    Workout.segment_at (Workout.segments s) (Workout.current_segment_index s) = Ok seg0 ->
    Workout.segment_start_time s = Some t0 ->
    (inject_Z (Workout.duration_seconds seg0) <= now - t0)%Q ->
    Workout.current_segment_index s + 1 = Z.of_nat (length (Workout.segments s)) ->
    update_outcome s now
      (Workout.complete s (Workout.current_segment_index s + 1) now, None,
       [Workout.WorkoutComplete; Workout.PhaseChange Workout.COMPLETED "Complete"])
| update_advance seg0 t0 seg p :
    Workout._is_running s = true ->
    0 <= Workout.current_segment_index s ->
    Workout.segment_at (Workout.segments s) (Workout.current_segment_index s) = Ok seg0 ->
    Workout.segment_start_time s = Some t0 ->
    (inject_Z (Workout.duration_seconds seg0) <= now - t0)%Q ->
    Workout.segment_at (Workout.segments s) (Workout.current_segment_index s + 1) = Ok seg ->
    let arm := String.eqb (Workout._current_workout_type s) "zone2"
               && Workout.WorkoutPhase_eqb (Workout.phase seg) Workout.MAIN in
    let s1 := Workout.enter_segment s (Workout.current_segment_index s + 1) now arm in
    p = (if arm then Workout.zone2_power (Workout.config s)
         else Workout.target_power_start seg) ->
    update_outcome s now
      (if p =? Workout._last_target_power s
       then (s1, None, [Workout.PhaseChange (Workout.phase seg) (Workout.name seg)])
       else (Workout.set_last_target_power s1 p, Some p,
             [Workout.PhaseChange (Workout.phase seg) (Workout.name seg);
              Workout.PowerChange p]))
| update_hold seg t0 p :
    Workout._is_running s = true ->
    Workout.segment_at (Workout.segments s) (Workout.current_segment_index s) = Ok seg ->
    Workout.segment_start_time s = Some t0 ->
    (now - t0 < inject_Z (Workout.duration_seconds seg))%Q ->
    (if Workout._hr_target_mode s then Ok (Workout._current_adaptive_power s)
     else Workout.get_power_at_time seg (py_int (now - t0))) = Ok p ->
    update_outcome s now
      (if p =? Workout._last_target_power s then (s, None, [])
       else (Workout.set_last_target_power s p, Some p, [Workout.PowerChange p])).

Lemma update_ok (s : Workout.WorkoutManager) (now : Q) :
  manager_ok s ->
  exists out, Workout.update s now = Ok out /\ update_outcome s now out.
Proof.
  intros [Hplan Hstart]. unfold Workout.update.
  destruct (Workout._is_running s) eqn:Hrun; cbn [negb orb];
    [|eexists; split; [reflexivity|]; apply update_idle; left; exact Hrun].
  destruct (Workout.current_segment_index s <? 0) eqn:Hneg;
    [apply Z.ltb_lt in Hneg | apply Z.ltb_ge in Hneg].
  { eexists; split; [reflexivity|]. apply update_idle. right. exact Hneg. }
  destruct (Z.of_nat (length (Workout.segments s)) <=? Workout.current_segment_index s)
    eqn:Hlen; [apply Z.leb_le in Hlen | apply Z.leb_gt in Hlen].
  { eexists; split; [reflexivity|]. apply update_overrun; [exact Hrun | exact Hneg | exact Hlen]. }
  destruct (segment_at_ok (Workout.segments s) (Workout.current_segment_index s)
              ltac:(lia)) as (seg & Hseg & Hin).
  rewrite Hseg, bind_ok.
  destruct (Workout.segment_start_time s) as [t0|] eqn:Ht;
    [|exfalso; apply (Hstart eq_refl); reflexivity].
  rewrite bind_ok. cbv zeta.
  destruct (Qle_bool _ _) eqn:Hel.
  - apply Qle_bool_iff in Hel.
    destruct (Z.of_nat (length (Workout.segments s)) <=? Workout.current_segment_index s + 1)
      eqn:Hend; [apply Z.leb_le in Hend | apply Z.leb_gt in Hend].
    + eexists; split; [reflexivity|].
      apply (update_complete s now seg t0);
          [exact Hrun | exact Hneg | exact Hseg | exact Ht | exact Hel | lia].
    + destruct (segment_at_ok (Workout.segments s) (Workout.current_segment_index s + 1)
                  ltac:(lia)) as (seg' & Hseg' & Hin').
      rewrite Hseg', bind_ok.
      set (arm := String.eqb (Workout._current_workout_type s) "zone2"
                  && Workout.WorkoutPhase_eqb (Workout.phase seg') Workout.MAIN).
      set (s1 := Workout.enter_segment s (Workout.current_segment_index s + 1) now arm).
      pose proof (plan_ok_duration _ _ Hplan Hin') as Hd.
      destruct (retarget_ok s1 seg' 0
                  [Workout.PhaseChange (Workout.phase seg') (Workout.name seg')] Hd)
        as (p & Hp & ->).
      assert (Hp' : p = if arm then Workout.zone2_power (Workout.config s)
                        else Workout.target_power_start seg').
      { revert Hp. subst s1. cbn [Workout.enter_segment Workout._hr_target_mode
                                  Workout._current_adaptive_power].
        destruct arm.
        - intros H. apply Ok_inj in H. symmetry. exact H.
        - change (py_int 0) with 0. rewrite (get_power_at_time_zero seg' Hd).
          intros H. apply Ok_inj in H. symmetry. exact H. }
      change (Workout._last_target_power s1) with (Workout._last_target_power s).
      pose proof (update_advance s now seg t0 seg' p Hrun Hneg Hseg Ht Hel Hseg' Hp')
        as H.
      cbv zeta in H. fold arm s1 in H.
      eexists. split; [|exact H].
      destruct (p =? Workout._last_target_power s); reflexivity.
  - assert (Hlt : (now - t0 < inject_Z (Workout.duration_seconds seg))%Q).
    { apply Qnot_le_lt. intros H. apply Qle_bool_iff in H. congruence. }
    pose proof (plan_ok_duration _ _ Hplan Hin) as Hd.
    destruct (retarget_ok s seg (now - t0) [] Hd) as (p & Hp & ->).
    pose proof (update_hold s now seg t0 p Hrun Hseg Ht Hlt Hp) as H.
    eexists. split; [|exact H].
    destruct (p =? Workout._last_target_power s); reflexivity.
Qed.

Lemma update_outcome_ok (s : Workout.WorkoutManager) (now : Q)
    (out : Workout.WorkoutManager * option Z * list Workout.event) :
  manager_ok s -> update_outcome s now out -> manager_ok out.1.1.
Proof.
  intros [Hplan Hstart] H. destruct H.
  - split; assumption.
  - split; [exact Hplan | discriminate].
  - split; [exact Hplan | discriminate].
  - destruct (p =? Workout._last_target_power s);
      (split; [exact Hplan | discriminate]).
  - destruct (p =? Workout._last_target_power s); split; assumption.
Qed.

Lemma set_config_ok (s : Workout.WorkoutManager) (c : Workout.WorkoutConfig) :
  manager_ok s -> manager_ok (Workout.set_config s c).
Proof. exact id. Qed.

Lemma build_workout_ok (s : Workout.WorkoutManager) (ty : string) :
  manager_ok s -> manager_ok (Workout._build_workout s ty).
Proof.
  intros [Hp Hs]. split; [apply build_workout_plan_ok; exact Hp|].
  rewrite build_workout_cases. exact Hs.
Qed.

(** The public operations of the workout manager, with the clock readings
    they take. *)
Inductive workout_op : Type :=
| OpSetWorkoutType (workout_type : string)
| OpSetFtp (ftp : Z)
| OpSetHrZones (hr_low hr_high : Z)
| OpStart (t_workout t_segment t_adjust : Q)
| OpStop
| OpAddHrSample (hr : Z)
| OpGetHrAdjustedPower (now : Q)
| OpUpdate (now : Q).

Definition run_workout_op (s : Workout.WorkoutManager) (o : workout_op)
  : result Workout.WorkoutManager :=
  match o with
  | OpSetWorkoutType ty => Ok (Workout.set_workout_type s ty)
  | OpSetFtp ftp => Ok (Workout.set_ftp s ftp)
  | OpSetHrZones lo hi => Ok (Workout.set_hr_zones s lo hi)
  | OpStart t1 t2 t3 => out ← Workout.start s t1 t2 t3; mret out.1
  | OpStop => Ok (Workout.stop s)
  | OpAddHrSample hr => Ok (Workout.add_hr_sample s hr)
  | OpGetHrAdjustedPower now => Ok (Workout.get_hr_adjusted_power s now).1
  | OpUpdate now => out ← Workout.update s now; mret out.1.1
  end.

Definition run_workout (s : Workout.WorkoutManager) (ops : list workout_op)
  : result Workout.WorkoutManager :=
  fold_left (fun acc o => s ← acc; run_workout_op s o) ops (Ok s).

Lemma run_workout_op_ok (s : Workout.WorkoutManager) (o : workout_op) :
  manager_ok s -> exists s', run_workout_op s o = Ok s' /\ manager_ok s'.
Proof.
  intros H. destruct o as [ty|ftp|lo hi|t1 t2 t3| |hr|now|now]; cbn [run_workout_op].
  - eexists. split; [reflexivity|]. unfold Workout.set_workout_type.
    destruct (existsb _ _); [apply build_workout_ok|]; exact H.
  - eexists. split; [reflexivity|]. unfold Workout.set_ftp. cbv zeta.
    apply build_workout_ok, set_config_ok, H.
  - eexists. split; [reflexivity|]. apply set_config_ok, H.
  - destruct (start_ok s t1 t2 t3 (proj1 H)) as (seg & rest & _ & ->).
    rewrite bind_ok. eexists. split; [reflexivity|].
    split; [exact (proj1 H) | discriminate].
  - eexists. split; [reflexivity|]. split; [exact (proj1 H) | discriminate].
  - eexists. split; [reflexivity|]. unfold Workout.add_hr_sample.
    destruct (Workout._hr_target_mode s); exact H.
  - eexists. split; [reflexivity|]. unfold Workout.get_hr_adjusted_power.
    destruct (negb _ || _); [exact H|]. destruct (Qltb _ _); [exact H|].
    cbv zeta. destruct (negb _); exact H.
  - destruct (update_ok s now H) as (out & -> & Hout).
    rewrite bind_ok. eexists. split; [reflexivity|].
    apply (update_outcome_ok s now out H Hout).
Qed.

(** Numbers well inside the range of a float.  The code multiplies the FTP
    by a float, divides the sum of the heart-rate samples by their number
    and truncates a difference of clock readings; Python raises
    OverflowError where an integer does not fit a float or a float is
    infinite, which the exact arithmetic of the model does not do. *)
Definition float_safe (v : Z) : Prop := Z.abs v <= 2 ^ 1000.

Definition clock_safe (t : Q) : Prop := (Qabs t <= inject_Z (2 ^ 1000))%Q.

Definition op_float_safe (o : workout_op) : Prop :=
  match o with
  | OpSetFtp ftp => float_safe ftp
  | OpAddHrSample hr => float_safe hr
  | OpStart t_workout t_segment t_adjust =>
      clock_safe t_workout /\ clock_safe t_segment /\ clock_safe t_adjust
  | OpGetHrAdjustedPower now | OpUpdate now => clock_safe now
  | OpSetWorkoutType _ | OpSetHrZones _ _ | OpStop => True
  end.



(** A manager whose numbers a float can hold: the FTP, the powers of the
    plan and the start of the segment. *)
Definition manager_float_safe (s : Workout.WorkoutManager) : Prop :=
  float_safe (Workout.ftp (Workout.config s))
  /\ Forall (fun g => float_safe (Workout.target_power_start g)
                      /\ float_safe (Workout.target_power_end g))
       (Workout.segments s)
  /\ match Workout.segment_start_time s with
     | Some t0 => clock_safe t0
     | None => True
     end.



(** X9.  Starting any library workout, also after a change of FTP, opens with
    the warmup of the plan built for the current FTP: the phase callback gets
    (WARMUP, "Warmup"), then the power callback gets int(0.40 * FTP), which
    becomes the target; the manager runs at segment 0 with HR-target mode off
    and an empty HR window. *)
Theorem start_opens_with_warmup (s : Workout.WorkoutManager) (ty : string) (ftp : Z)
    (t1 t2 t3 : Q) :
  In ty Workout.WORKOUT_LIBRARY ->
  exists s1,
    Workout.start (Workout.set_ftp (Workout.set_workout_type s ty) ftp) t1 t2 t3
    = Ok (s1, [Workout.PhaseChange Workout.WARMUP "Warmup";
               Workout.PowerChange (py_int (inject_Z ftp * 0.40)%Q)])
    /\ Workout.target_power s1 = py_int (inject_Z ftp * 0.40)%Q
    /\ Workout.current_phase s1 = Workout.WARMUP
    /\ Workout.current_segment_name s1 = "Warmup"%string
    /\ Workout.is_running s1 = true
    /\ Workout._hr_target_mode s1 = false
    /\ Workout._hr_samples s1 = []
    /\ Workout.ftp (Workout.config s1) = ftp.
Proof.
  intros Hin. rewrite (set_workout_type_library s ty Hin).
  set (s0 := Workout.set_ftp _ ftp).
  assert (Hplan : plan_ok (Workout.segments s0)).
  { subst s0. unfold Workout.set_ftp. cbv zeta. apply build_workout_plan_ok.
    apply template_ok. }
  destruct (start_ok s0 t1 t2 t3 Hplan) as (seg & rest & Hsegs & ->).
  assert (Hseg : seg = Workout.mkSegment "Warmup" (5 * 60) (py_int (inject_Z ftp * 0.40)%Q)
                         (py_int (inject_Z ftp * 0.65)%Q) Workout.WARMUP
                 /\ Workout.ftp (Workout.config s0) = ftp).
  { apply in_library in Hin. subst s0.
    destruct Hin as [-> | [-> | [-> | ->]]];
      injection Hsegs as <- _; split; reflexivity. }
  destruct Hseg as [-> Hftp].
  eexists. split; [reflexivity|].
  split; [reflexivity|].
  split; [unfold Workout.current_phase; cbn [Workout.current_segment_index Workout.segments];
          rewrite Hsegs; reflexivity|].
  split; [unfold Workout.current_segment_name;
          cbn [Workout.current_segment_index Workout.segments];
          rewrite Hsegs; reflexivity|].
  repeat split; try reflexivity. exact Hftp.
Qed.

Lemma start_opens_with_warmup_witness :
  exists s1,
    Workout.start (Workout.set_ftp (Workout.set_workout_type (Workout.init 215 124 143)
                                      "tempo") 250) 0 0 0
    = Ok (s1, [Workout.PhaseChange Workout.WARMUP "Warmup"; Workout.PowerChange 100]).
Proof.
  destruct (start_opens_with_warmup (Workout.init 215 124 143) "tempo" 250 0 0 0
              ltac:(vm_compute; tauto)) as (s1 & H & _).
  exists s1. exact H.
Defined.

(** ** workout_manager.py: the HR window and the adjustment rate *)

Lemma lastn_all {A} (n : nat) (l : list A) : (length l <= n)%nat -> lastn n l = l.
Proof.
  intros H. unfold lastn. replace (length l - n)%nat with 0%nat by lia. reflexivity.
Qed.

Lemma lastn_length {A} (n : nat) (l : list A) : length (lastn n l) = Nat.min n (length l).
Proof. unfold lastn. rewrite length_skipn. lia. Qed.

Lemma lastn_app_lastn {A} (n : nat) (a b : list A) :
  lastn n (lastn n a ++ b) = lastn n (a ++ b).
Proof.
  destruct (Nat.le_gt_cases (length a) n) as [H|H].
  - rewrite (lastn_all n a H). reflexivity.
  - unfold lastn at 1 3. rewrite !length_app, lastn_length.
    rewrite Nat.min_l by lia. unfold lastn.
    replace (length a + length b - n)%nat with (length b + (length a - n))%nat by lia.
    rewrite <- skipn_skipn.
    rewrite (skipn_app (length a - n) a b).
    replace (length a - n - length a)%nat with 0%nat by lia.
    cbn [skipn]. f_equal. lia.
Qed.

Lemma add_hr_sample_armed (s : Workout.WorkoutManager) (hr : Z) :
  Workout._hr_target_mode s = true ->
  (length (Workout._hr_samples s) <= 30)%nat ->
  Workout.add_hr_sample s hr
  = Workout.set_hr_samples s (lastn 30 (Workout._hr_samples s ++ [hr])).
Proof.
  intros Hm Hl. unfold Workout.add_hr_sample. rewrite Hm. cbv zeta. f_equal.
  rewrite length_app. cbn [length].
  destruct (30 <? length (Workout._hr_samples s) + 1)%nat eqn:E;
    [apply Nat.ltb_lt in E | apply Nat.ltb_ge in E].
  - unfold lastn. rewrite length_app. cbn [length].
    replace (length (Workout._hr_samples s) + 1 - 30)%nat with 1%nat by lia.
    reflexivity.
  - symmetry. apply lastn_all. rewrite length_app. cbn [length]. lia.
Qed.

Lemma add_hr_samples_armed (hrs : list Z) (s : Workout.WorkoutManager) :
  Workout._hr_target_mode s = true ->
  (length (Workout._hr_samples s) <= 30)%nat ->
  fold_left Workout.add_hr_sample hrs s
  = Workout.set_hr_samples s (lastn 30 (Workout._hr_samples s ++ hrs)).
Proof.
  revert s. induction hrs as [|hr hrs IH]; intros s Hm Hl.
  - rewrite app_nil_r, lastn_all by exact Hl. destruct s; reflexivity.
  - cbn [fold_left]. rewrite (add_hr_sample_armed s hr Hm Hl).
    rewrite IH.
    + cbn [Workout.set_hr_samples Workout._hr_samples Workout.config Workout.segments
           Workout.current_segment_index Workout.workout_start_time
           Workout.segment_start_time Workout._last_target_power Workout._is_running
           Workout._current_workout_type Workout._hr_target_mode
           Workout._current_adaptive_power Workout._last_hr_adjustment_time
           Workout._hr_adjustment_interval Workout._power_step].
      rewrite lastn_app_lastn, <- app_assoc. reflexivity.
    + exact Hm.
    + cbn [Workout.set_hr_samples Workout._hr_samples]. rewrite lastn_length. lia.
Qed.

Lemma add_hr_samples_unarmed (hrs : list Z) (s : Workout.WorkoutManager) :
  Workout._hr_target_mode s = false -> fold_left Workout.add_hr_sample hrs s = s.
Proof.
  intros Hm. induction hrs as [|hr hrs IH]; [reflexivity|].
  cbn [fold_left]. unfold Workout.add_hr_sample at 2. rewrite Hm. exact IH.
Qed.

(** X10.  The HR window is a sliding window of the last 30 samples.  While
    HR-target mode is armed, feeding any samples leaves exactly the last 30
    of everything received, oldest first, and touches nothing else; while it
    is not armed, samples are dropped and the manager stays as it is. *)
Theorem hr_window_keeps_last_30 (s : Workout.WorkoutManager) (hrs : list Z) :
  (length (Workout._hr_samples s) <= 30)%nat ->
  let s' := fold_left Workout.add_hr_sample hrs s in
  (Workout._hr_target_mode s = true ->
   s' = Workout.set_hr_samples s (lastn 30 (Workout._hr_samples s ++ hrs))
   /\ (length (Workout._hr_samples s') <= 30)%nat
   /\ (30 <= length hrs -> Workout._hr_samples s' = lastn 30 hrs)%nat)
  /\ (Workout._hr_target_mode s = false -> s' = s).
Proof.
  intros Hl s'. subst s'. split.
  - intros Hm. rewrite (add_hr_samples_armed hrs s Hm Hl).
    split; [reflexivity|]. cbn [Workout.set_hr_samples Workout._hr_samples].
    split; [rewrite lastn_length; lia|].
    intros Hlong. unfold lastn. rewrite length_app.
    replace (length (Workout._hr_samples s) + length hrs - 30)%nat
      with ((length hrs - 30) + length (Workout._hr_samples s))%nat by lia.
    rewrite <- skipn_skipn. rewrite skipn_app, skipn_all, Nat.sub_diag. reflexivity.
  - apply add_hr_samples_unarmed.
Qed.

Lemma hr_window_keeps_last_30_witness :
  Workout._hr_samples (fold_left Workout.add_hr_sample (map Z.of_nat (seq 100 35)) zone2_armed)
  = map Z.of_nat (seq 105 30).
Proof.
  destruct (hr_window_keeps_last_30 zone2_armed (map Z.of_nat (seq 100 35))
              ltac:(vm_compute; lia)) as [H _].
  destruct (H ltac:(vm_compute; reflexivity)) as (_ & _ & H30).
  rewrite H30 by (vm_compute; lia). vm_compute. reflexivity.
Defined.

Lemma add_hr_samples_frame (hrs : list Z) (s : Workout.WorkoutManager) :
  Workout._last_hr_adjustment_time (fold_left Workout.add_hr_sample hrs s)
  = Workout._last_hr_adjustment_time s
  /\ Workout._hr_adjustment_interval (fold_left Workout.add_hr_sample hrs s)
     = Workout._hr_adjustment_interval s.
Proof.
  revert s. induction hrs as [|hr hrs IH]; intros s; [split; reflexivity|].
  cbn [fold_left]. destruct (IH (Workout.add_hr_sample s hr)) as [-> ->].
  unfold Workout.add_hr_sample. destruct (Workout._hr_target_mode s); split; reflexivity.
Qed.

(** X11.  Power adjustments are rate limited.  Once a call of
    [get_hr_adjusted_power] was due at clock reading [now] (whether or not it
    changed the power), every call made less than the adjustment interval
    (30 s) later returns None and leaves the manager untouched, whatever
    heart-rate samples arrived in between. *)
Theorem hr_adjustment_rate_limited (s : Workout.WorkoutManager) (now now' : Q)
    (hrs : list Z) :
  adjustment_due s now ->
  (now' - now < Workout._hr_adjustment_interval s)%Q ->
  let s1 := fst (Workout.get_hr_adjusted_power s now) in
  let s2 := fold_left Workout.add_hr_sample hrs s1 in
  Workout._last_hr_adjustment_time s1 = now
  /\ Workout.get_hr_adjusted_power s2 now' = (s2, None).
Proof.
  intros Hdue Hsoon s1 s2.
  assert (H1 : Workout._last_hr_adjustment_time s1 = now
               /\ Workout._hr_adjustment_interval s1 = Workout._hr_adjustment_interval s).
  { subst s1. rewrite (get_hr_adjusted_power_due s now Hdue). cbv zeta.
    destruct (_ =? _); split; reflexivity. }
  destruct H1 as [Ht Hi]. split; [exact Ht|].
  destruct (add_hr_samples_frame hrs s1) as [Ht2 Hi2]. fold s2 in Ht2, Hi2.
  unfold Workout.get_hr_adjusted_power.
  destruct (negb _ || _); [reflexivity|].
  rewrite Ht2, Hi2, Ht, Hi.
  assert (E : Qltb (now' - now) (Workout._hr_adjustment_interval s) = true)
    by (apply Qltb_lt; exact Hsoon).
  rewrite E. reflexivity.
Qed.

Lemma hr_adjustment_rate_limited_witness :
  Workout.get_hr_adjusted_power
    (fold_left Workout.add_hr_sample [150; 151]
       (fst (Workout.get_hr_adjusted_power (feed zone2_armed 150) 330))) 359
  = (fold_left Workout.add_hr_sample [150; 151]
       (fst (Workout.get_hr_adjusted_power (feed zone2_armed 150) 330)), None).
Proof.
  apply (hr_adjustment_rate_limited (feed zone2_armed 150) 330 359 [150; 151]).
  - split; [vm_compute; reflexivity|]. split; [vm_compute; lia|]. vm_compute. discriminate.
  - vm_compute. reflexivity.
Defined.

(** X12.  One adjustment moves the power by at most two steps.  With a
    nonnegative FTP and step, an adaptive power that lies in the band
    [zone2_low, zone2_high] is changed by [get_hr_adjusted_power] by at most
    2 * step watts (10 W), in whichever direction, and stays in the band. *)
Theorem hr_adjustment_step_bounded (s : Workout.WorkoutManager) (now : Q) (p : Z) :
  0 <= Workout.ftp (Workout.config s) ->
  0 <= Workout._power_step s ->
  Workout.zone2_low (Workout.config s) <= Workout._current_adaptive_power s
    <= Workout.zone2_high (Workout.config s) ->
  snd (Workout.get_hr_adjusted_power s now) = Some p ->
  Z.abs (p - Workout._current_adaptive_power s) <= 2 * Workout._power_step s
  /\ p <> Workout._current_adaptive_power s
  /\ Workout.zone2_low (Workout.config s) <= p <= Workout.zone2_high (Workout.config s)
  /\ Workout._current_adaptive_power (fst (Workout.get_hr_adjusted_power s now)) = p
  /\ Workout.target_power (fst (Workout.get_hr_adjusted_power s now)) = p.
Proof.
  intros Hftp Hstep Hband Hp.
  pose proof (get_hr_adjusted_power_not_due s now p Hp) as [_ Hs].
  apply get_hr_adjusted_power_some in Hp. destruct Hp as [Hp Hne].
  rewrite Hs. cbn [Workout.set_adjustment Workout._current_adaptive_power
                   Workout.target_power Workout._last_target_power].
  split; [|split; [exact Hne|split; [|split; reflexivity]]].
  - subst p. unfold Workout.adjusted_power. cbv zeta.
    repeat match goal with
           | |- context [if ?c then _ else _] => destruct c
           end; lia.
  - subst p. unfold Workout.adjusted_power. cbv zeta.
    apply clamp_in_band. apply zone2_band_ordered. exact Hftp.
Qed.

Lemma hr_adjustment_step_bounded_witness :
  Z.abs (129 - Workout._current_adaptive_power (feed zone2_armed 150)) <= 2 * 5.
Proof.
  pose proof (hr_adjustment_step_bounded (feed zone2_armed 150) 330 129
                ltac:(vm_compute; discriminate) ltac:(vm_compute; discriminate)
                ltac:(vm_compute; split; discriminate)
                ltac:(vm_compute; reflexivity)) as [H _].
  exact H.
Defined.

(** ** zone_analyzer.py: what the checks touch *)

(** The checks touch only the out-of-zone timer and the alert times. *)
Definition same_data (a a' : Zone.ZoneAnalyzer) : Prop :=
  Zone.zone2_low a' = Zone.zone2_low a
  /\ Zone.zone2_high a' = Zone.zone2_high a
  /\ Zone.hr_alert_delay a' = Zone.hr_alert_delay a
  /\ Zone._hr_history a' = Zone._hr_history a
  /\ Zone._power_history a' = Zone._power_history a
  /\ Zone._cadence_history a' = Zone._cadence_history a
  /\ Zone._timestamps a' = Zone._timestamps a
  /\ Zone._alert_cooldown a' = Zone._alert_cooldown a
  /\ Zone._time_in_zone a' = Zone._time_in_zone a
  /\ Zone._time_above a' = Zone._time_above a
  /\ Zone._time_below a' = Zone._time_below a
  /\ Zone._last_update_time a' = Zone._last_update_time a
  /\ Zone._workout_start a' = Zone._workout_start a.

Lemma same_data_refl (a : Zone.ZoneAnalyzer) : same_data a a.
Proof. repeat split; reflexivity. Qed.

Lemma same_data_trans (a b c : Zone.ZoneAnalyzer) :
  same_data a b -> same_data b c -> same_data a c.
Proof.
  unfold same_data.
  intros (H1 & H2 & H3 & H4 & H5 & H6 & H7 & H8 & H9 & H10 & H11 & H12 & H13)
         (G1 & G2 & G3 & G4 & G5 & G6 & G7 & G8 & G9 & G10 & G11 & G12 & G13).
  repeat split; congruence.
Qed.

(** One check at clock reading [now]: an alert it returns was allowed by the
    cooldown and is entered into the alert times at [now]; without an alert
    the alert times stay. *)
Definition alert_step (a : Zone.ZoneAnalyzer) (now : Q)
    (out : Zone.ZoneAnalyzer * option Zone.Alert) : Prop :=
  same_data a out.1
  /\ match out.2 with
     | None => Zone._last_alert_time out.1 = Zone._last_alert_time a
     | Some x =>
         Zone._can_alert a (Zone.type x) now = true
         /\ Zone._last_alert_time out.1 = <[Zone.type x := now]> (Zone._last_alert_time a)
     end.

Lemma alert_step_none (a : Zone.ZoneAnalyzer) (now : Q) : alert_step a now (a, None).
Proof. split; [apply same_data_refl | reflexivity]. Qed.

Lemma check_hr_zone_step (a : Zone.ZoneAnalyzer) (hr : Z) (now : Q) (alert_time : string -> Q) :
  alert_step a now (Zone._check_hr_zone a hr now alert_time)
  /\ forall x, (Zone._check_hr_zone a hr now alert_time).2 = Some x ->
       (Zone.type x = "hr_high"%string /\ Zone.zone2_high a < hr
        \/ Zone.type x = "hr_low"%string /\ hr <= Zone.zone2_high a /\ hr < Zone.zone2_low a
           /\ Zone.severity x = "warning"%string)
       /\ exists t0, Zone._hr_out_of_zone_start (Zone._check_hr_zone a hr now
           alert_time).1 = Some t0
            /\ (Zone.hr_alert_delay a <= now - t0)%Q
            /\ (Zone._hr_out_of_zone_start a = Some t0
                \/ Zone._hr_out_of_zone_start a = None /\ t0 = now).
Proof.
  unfold Zone._check_hr_zone. cbv zeta.
  destruct ((Zone.zone2_low a <=? hr) && (hr <=? Zone.zone2_high a)) eqn:Ez.
  { split; [split; [repeat split; reflexivity | reflexivity] | discriminate]. }
  set (start := match Zone._hr_out_of_zone_start a with None => now | Some t => t end).
  set (a1 := Zone.set_out_of_zone_start a (Some start)).
  assert (Hstart : Zone._hr_out_of_zone_start a = Some start
                   \/ Zone._hr_out_of_zone_start a = None /\ start = now).
  { subst start. destruct (Zone._hr_out_of_zone_start a); [left | right]; auto. }
  change (Zone.hr_alert_delay a1) with (Zone.hr_alert_delay a).
  destruct (Qltb (now - start) (Zone.hr_alert_delay a)) eqn:Ed.
  { split; [split; [repeat split; reflexivity | reflexivity] | discriminate]. }
  apply Qltb_ge in Ed.
  change (Zone.zone2_high a1) with (Zone.zone2_high a).
  change (Zone.zone2_high (Zone.set_last_alert a1 _ now)) with (Zone.zone2_high a).
  change (Zone.zone2_low (Zone.set_last_alert a1 _ now)) with (Zone.zone2_low a).
  change (Zone._can_alert a1) with (Zone._can_alert a).
  destruct (Zone.zone2_high a <? hr) eqn:Eh;
    [apply Z.ltb_lt in Eh | apply Z.ltb_ge in Eh].
  - destruct (Zone._can_alert a "hr_high" now) eqn:Ec; cbn [negb].
    + split.
      * split; [repeat split; reflexivity|]. cbn [snd fst Zone.type].
        split; [exact Ec | reflexivity].
      * cbn [fst snd]. intros x [= <-]. cbn [Zone.type Zone.severity]. split.
        -- left. split; [reflexivity | exact Eh].
        -- exists start. split; [reflexivity|]. split; [exact Ed | exact Hstart].
    + split; [split; [repeat split; reflexivity | reflexivity] | discriminate].
  - destruct (Zone._can_alert a "hr_low" now) eqn:Ec; cbn [negb].
    + split.
      * split; [repeat split; reflexivity|]. cbn [snd fst Zone.type].
        split; [exact Ec | reflexivity].
      * cbn [fst snd]. intros x [= <-]. cbn [Zone.type Zone.severity]. split.
        -- right. split; [reflexivity|]. split; [exact Eh|]. split; [|reflexivity].
           apply andb_false_iff in Ez. destruct Ez as [Ez|Ez];
             [apply Z.leb_gt in Ez | apply Z.leb_gt in Ez]; lia.
        -- exists start. split; [reflexivity|]. split; [exact Ed | exact Hstart].
    + split; [split; [repeat split; reflexivity | reflexivity] | discriminate].
Qed.

Lemma check_cardiac_drift_step (a : Zone.ZoneAnalyzer) (now : Q) (alert_time : string -> Q) :
  alert_step a now (Zone._check_cardiac_drift a now alert_time).
Proof.
  unfold Zone._check_cardiac_drift.
  destruct (Zone._can_alert a "cardiac_drift" now) eqn:Ec; cbn [negb];
    [|apply alert_step_none].
  cbv zeta.
  repeat match goal with
         | |- context [if ?c then _ else _] => destruct c
         end; try apply alert_step_none.
  all: split; [repeat split; reflexivity|]; cbn [snd fst Zone.type];
    split; [exact Ec | reflexivity].
Qed.

Lemma check_decoupling_step (a : Zone.ZoneAnalyzer) (now : Q) (alert_time : string -> Q) :
  alert_step a now (Zone._check_decoupling a now alert_time).
Proof.
  unfold Zone._check_decoupling.
  destruct (Zone._can_alert a "decoupling" now) eqn:Ec; cbn [negb];
    [|apply alert_step_none].
  cbv zeta.
  destruct_ifs; try apply alert_step_none.
  all: split; [repeat split; reflexivity|]; cbn [snd fst Zone.type];
    split; [exact Ec | reflexivity].
Qed.

Lemma check_decoupling_needs_history (a : Zone.ZoneAnalyzer) (now : Q)
    (alert_time : string -> Q) (x : Zone.Alert) :
  (Zone._check_decoupling a now alert_time).2 = Some x ->
  Zone.type x = "decoupling"%string
  /\ (600 < length (Zone._hr_history a))%nat
  /\ (600 < length (Zone._power_history a))%nat.
Proof.
  intros H. split; [apply (proj2 (check_decoupling_frame a now alert_time) x H)|].
  revert H. unfold Zone._check_decoupling.
  destruct (negb _); [discriminate|]. cbv zeta.
  destruct (600 <? length (Zone._hr_history a))%nat eqn:E1; [|discriminate].
  destruct (600 <? length (Zone._power_history a))%nat eqn:E2.
  - intros _. apply Nat.ltb_lt in E1, E2. split; assumption.
  - destruct (firstn 300 (lastn 600 (Zone._hr_history a))); discriminate.
Qed.

(** A main-phase update, step by step. *)
Lemma update_main_steps (a : Zone.ZoneAnalyzer) (hr power cadence : Z) (now : Q)
    (alert_time : string -> Q) :
  let a0 := Zone.record_sample a hr power cadence "main" now in
  exists a1 o1 a2 o2 a3 o3,
    Zone._check_hr_zone a0 hr now alert_time = (a1, o1)
    /\ alert_step a1 now (a2, o2)
    /\ (forall x, o2 = Some x ->
          Zone.type x = "cardiac_drift"%string /\ (300 < length (Zone._hr_history a0))%nat)
    /\ alert_step a2 now (a3, o3)
    /\ (forall x, o3 = Some x ->
          Zone.type x = "decoupling"%string
          /\ (600 < length (Zone._hr_history a0))%nat
          /\ (600 < length (Zone._power_history a0))%nat)
    /\ Zone._hr_out_of_zone_start a3 = Zone._hr_out_of_zone_start a1
    /\ Zone.update a hr power cadence "main" now alert_time
       = (a3, Zone.opt_list o1 ++ Zone.opt_list o2 ++ Zone.opt_list o3).
Proof.
  intros a0. unfold Zone.update. cbv zeta. fold a0.
  change (String.eqb "main" "main") with true. cbv iota.
  pose proof (check_hr_zone_step a0 hr now alert_time) as [[S1 _] _].
  destruct (Zone._check_hr_zone a0 hr now alert_time) as [a1 o1]. cbn [fst snd] in S1.
  destruct S1 as (_ & _ & _ & Hh1 & Hp1 & _).
  exists a1, o1.
  set (d := if (300 <? length (Zone._hr_history a1))%nat
            then Zone._check_cardiac_drift a1 now alert_time else (a1, None)).
  assert (Hd : alert_step a1 now d
               /\ (forall x, d.2 = Some x ->
                     Zone.type x = "cardiac_drift"%string
                     /\ (300 < length (Zone._hr_history a0))%nat)
               /\ Zone._hr_out_of_zone_start d.1 = Zone._hr_out_of_zone_start a1).
  { subst d. destruct (300 <? length (Zone._hr_history a1))%nat eqn:E.
    - split; [apply check_cardiac_drift_step|]. split.
      + intros x Hx. split; [apply (check_cardiac_drift_frame a1 now alert_time), Hx|].
        apply Nat.ltb_lt in E. rewrite <- Hh1. exact E.
      + apply check_cardiac_drift_frame.
    - split; [apply alert_step_none|]. split; [discriminate | reflexivity]. }
  destruct d as [a2 o2]. destruct Hd as (S2 & T2 & Z2). cbn [fst snd] in T2, Z2.
  exists a2, o2.
  pose proof S2 as [(_ & _ & _ & Hh2 & Hp2 & _) _]. cbn [fst] in Hh2, Hp2.
  set (e := if (300 <? length (Zone._hr_history a2))%nat
            then Zone._check_decoupling a2 now alert_time else (a2, None)).
  assert (He : alert_step a2 now e
               /\ (forall x, e.2 = Some x ->
                     Zone.type x = "decoupling"%string
                     /\ (600 < length (Zone._hr_history a0))%nat
                     /\ (600 < length (Zone._power_history a0))%nat)
               /\ Zone._hr_out_of_zone_start e.1 = Zone._hr_out_of_zone_start a2).
  { subst e. destruct (300 <? length (Zone._hr_history a2))%nat.
    - split; [apply check_decoupling_step|]. split.
      + intros x Hx. apply check_decoupling_needs_history in Hx.
        rewrite Hh2, Hh1, Hp2, Hp1 in Hx. exact Hx.
      + apply check_decoupling_frame.
    - split; [apply alert_step_none|]. split; [discriminate | reflexivity]. }
  destruct e as [a3 o3]. destruct He as (S3 & T3 & Z3). cbn [fst snd] in T3, Z3.
  exists a3, o3.
  split; [reflexivity|]. split; [exact S2|]. split; [exact T2|].
  split; [exact S3|]. split; [exact T3|]. split; [congruence | reflexivity].
Qed.

Lemma update_not_main (a : Zone.ZoneAnalyzer) (hr power cadence : Z) (phase : string)
    (now : Q) (alert_time : string -> Q) :
  phase <> "main"%string ->
  Zone.update a hr power cadence phase now alert_time
  = (Zone.record_sample a hr power cadence phase now, []).
Proof.
  intros H. unfold Zone.update. cbv zeta.
  destruct (String.eqb phase "main") eqn:E; [|reflexivity].
  apply String.eqb_eq in E. contradiction.
Qed.

(** ** zone_analyzer.py: phases, zone time, histories *)

(** X13.  Outside the main phase (warmup, cooldown, intervals, recovery, any
    other phase name) an update only records: it returns no alert, leaves the
    three zone-time totals, the out-of-zone timer and the alert times as they
    were, appends the sample to the histories and moves the last update time
    to the clock reading. *)
Theorem update_outside_main_phase (a : Zone.ZoneAnalyzer) (hr power cadence : Z)
    (phase : string) (now : Q) (alert_time : string -> Q) :
  phase <> "main"%string ->
  let out := Zone.update a hr power cadence phase now alert_time in
  out.2 = []
  /\ Zone._time_in_zone out.1 = Zone._time_in_zone a
  /\ Zone._time_above out.1 = Zone._time_above a
  /\ Zone._time_below out.1 = Zone._time_below a
  /\ Zone._hr_out_of_zone_start out.1 = Zone._hr_out_of_zone_start a
  /\ Zone._last_alert_time out.1 = Zone._last_alert_time a
  /\ Zone._last_update_time out.1 = Some now
  /\ Zone._hr_history out.1 = deque_append 3600 (Zone._hr_history a) hr
  /\ Zone._power_history out.1 = deque_append 3600 (Zone._power_history a) power
  /\ Zone._cadence_history out.1 = deque_append 3600 (Zone._cadence_history a) cadence
  /\ Zone._timestamps out.1 = deque_append 3600 (Zone._timestamps a) now.
Proof.
  intros Hphase out. subst out. rewrite (update_not_main _ _ _ _ _ _ _ Hphase).
  cbn [fst snd].
  assert (E : String.eqb phase "main" = false).
  { destruct (String.eqb phase "main") eqn:E; [|reflexivity].
    apply String.eqb_eq in E. contradiction. }
  unfold Zone.record_sample. cbv zeta. rewrite E.
  cbn [Zone._time_in_zone Zone._time_above Zone._time_below Zone._hr_out_of_zone_start
       Zone._last_alert_time Zone._last_update_time Zone._hr_history Zone._power_history
       Zone._cadence_history Zone._timestamps andb].
  destruct (Zone._last_update_time a); repeat split; reflexivity.
Qed.

Lemma update_outside_main_phase_witness :
  (Zone.update (analyzer_after_first 150) 150 200 90 "warmup" 1700000010
      (fun _ => 1700000010%Q)).2 = []
  /\ Zone._time_above
       (Zone.update (analyzer_after_first 150) 150 200 90 "warmup" 1700000010
           (fun _ => 1700000010%Q)).1
     = Zone._time_above (analyzer_after_first 150).
Proof.
  pose proof (update_outside_main_phase (analyzer_after_first 150) 150 200 90 "warmup"
                1700000010 (fun _ => 1700000010%Q) ltac:(discriminate)) as H.
  cbv zeta in H. destruct H as (H1 & _ & H2 & _). split; [exact H1 | exact H2].
Defined.

Lemma update_main_same_data (a : Zone.ZoneAnalyzer) (hr power cadence : Z) (now : Q)
    (alert_time : string -> Q) :
  same_data (Zone.record_sample a hr power cadence "main" now)
    (Zone.update a hr power cadence "main" now alert_time).1.
Proof.
  destruct (update_main_steps a hr power cadence now alert_time)
    as (a1 & o1 & a2 & o2 & a3 & o3 & H1 & [S2 _] & _ & [S3 _] & _ & _ & ->).
  pose proof (check_hr_zone_step (Zone.record_sample a hr power cadence "main" now) hr now
      alert_time)
    as [[S1 _] _].
  rewrite H1 in S1. cbn [fst] in *.
  eapply same_data_trans; [exact S1|]. eapply same_data_trans; [exact S2 | exact S3].
Qed.

(** X14.  Zone-time accounting in the main phase.  With ordered zone bounds,
    an update credits the time since the previous update to exactly one of
    the three totals, the one [get_zone_status] names for the heart rate, and
    leaves the other two; the very first update credits nothing.  So the
    three totals always add up to the main-phase time between updates. *)
Theorem zone_time_accounting (a : Zone.ZoneAnalyzer) (hr power cadence : Z) (now : Q)
    (alert_time : string -> Q) :
  Zone.zone2_low a <= Zone.zone2_high a ->
  let a' := (Zone.update a hr power cadence "main" now alert_time).1 in
  let credit (acc : Q) :=
    match Zone._last_update_time a with
    | Some t => (acc + (now - t))%Q
    | None => acc
    end in
  Zone._last_update_time a' = Some now
  /\ (Zone.get_zone_status a hr = ("IN ZONE 2", "green")%string
      /\ Zone.zone2_low a <= hr <= Zone.zone2_high a
      /\ Zone._time_in_zone a' = credit (Zone._time_in_zone a)
      /\ Zone._time_above a' = Zone._time_above a
      /\ Zone._time_below a' = Zone._time_below a
      \/ Zone.get_zone_status a hr = ("ABOVE ZONE 2", "red")%string
         /\ Zone.zone2_high a < hr
         /\ Zone._time_in_zone a' = Zone._time_in_zone a
         /\ Zone._time_above a' = credit (Zone._time_above a)
         /\ Zone._time_below a' = Zone._time_below a
      \/ Zone.get_zone_status a hr = ("BELOW ZONE 2", "blue")%string
         /\ hr < Zone.zone2_low a
         /\ Zone._time_in_zone a' = Zone._time_in_zone a
         /\ Zone._time_above a' = Zone._time_above a
         /\ Zone._time_below a' = credit (Zone._time_below a)).
Proof.
  intros Hzone a' credit.
  pose proof (update_main_same_data a hr power cadence now alert_time)
    as (_ & _ & _ & _ & _ & _ & _ & _ & Hin & Hab & Hbe & Hlu & _).
  fold a' in Hin, Hab, Hbe, Hlu. rewrite Hin, Hab, Hbe, Hlu. clear Hin Hab Hbe Hlu.
  unfold Zone.record_sample. cbv zeta.
  change (String.eqb "main" "main") with true.
  cbn [Zone._time_in_zone Zone._time_above Zone._time_below Zone._last_update_time andb].
  split; [reflexivity|].
  unfold Zone.get_zone_status, credit.
  destruct (hr <? Zone.zone2_low a) eqn:E1;
    [apply Z.ltb_lt in E1 | apply Z.ltb_ge in E1].
  - right; right.
    assert (E2 : (Zone.zone2_low a <=? hr) = false) by (apply Z.leb_gt; lia).
    assert (E3 : (Zone.zone2_high a <? hr) = false) by (apply Z.ltb_ge; lia).
    rewrite E2, E3. cbn [andb negb].
    destruct (Zone._last_update_time a); repeat split; try reflexivity; exact E1.
  - assert (E2 : (Zone.zone2_low a <=? hr) = true) by (apply Z.leb_le; lia).
    rewrite E2.
    destruct (Zone.zone2_high a <? hr) eqn:E3;
      [apply Z.ltb_lt in E3 | apply Z.ltb_ge in E3].
    + right; left.
      assert (E4 : (hr <=? Zone.zone2_high a) = false) by (apply Z.leb_gt; lia).
      rewrite E4. cbn [andb negb].
      destruct (Zone._last_update_time a); repeat split; try reflexivity; exact E3.
    + left.
      assert (E4 : (hr <=? Zone.zone2_high a) = true) by (apply Z.leb_le; lia).
      rewrite E4. cbn [andb negb].
      destruct (Zone._last_update_time a); repeat split; try reflexivity; lia.
Qed.

Lemma zone_time_accounting_witness :
  Zone._time_above (Zone.update (analyzer_after_first 150) 150 200 90 "main" 1700000010
      (fun _ => 1700000010%Q)).1
  = (Zone._time_above (analyzer_after_first 150)
     + (1700000010
        - default 0 (Zone._last_update_time (analyzer_after_first 150))))%Q.
Proof.
  pose proof (zone_time_accounting (analyzer_after_first 150) 150 200 90 1700000010
      (fun _ => 1700000010%Q)
                ltac:(vm_compute; discriminate)) as H.
  cbv zeta in H. destruct H as [_ [H|[H|H]]].
  - destruct H as (_ & [_ H] & _). vm_compute in H. exfalso. apply H. reflexivity.
  - destruct H as (_ & _ & _ & H & _). exact H.
  - destruct H as (_ & H & _). vm_compute in H. discriminate H.
Defined.

(** One reading handed to the analyzer: heart rate, power, cadence, the
    phase, the clock reading of the update and the readings made when it
    builds its alerts. *)
Record reading := mkReading {
  r_hr : Z;
  r_power : Z;
  r_cadence : Z;
  r_phase : string;
  r_now : Q;
  r_alert_time : string -> Q
}.

(** A sequence of updates; the alerts of all of them, in order. *)
Fixpoint run_updates (a : Zone.ZoneAnalyzer) (l : list reading)
  : Zone.ZoneAnalyzer * list Zone.Alert :=
  match l with
  | [] => (a, [])
  | r :: l' =>
      let out := Zone.update a (r_hr r) (r_power r) (r_cadence r) (r_phase r) (r_now r)
          (r_alert_time r) in
      let rest := run_updates out.1 l' in
      (rest.1, out.2 ++ rest.2)
  end.

Lemma deque_append_lastn {A} (n : nat) (d : list A) (x : A) :
  (length d <= n)%nat -> (0 < n)%nat -> deque_append n d x = lastn n (d ++ [x]).
Proof.
  intros Hl Hn. unfold deque_append, lastn. rewrite length_app. cbn [length].
  destruct (n <=? length d)%nat eqn:E; [apply Nat.leb_le in E | apply Nat.leb_gt in E].
  - replace (length d + 1 - n)%nat with 1%nat by lia.
    destruct d as [|y d]; [cbn in E; lia | reflexivity].
  - replace (length d + 1 - n)%nat with 0%nat by lia. reflexivity.
Qed.

Lemma update_histories (a : Zone.ZoneAnalyzer) (hr power cadence : Z) (phase : string)
    (now : Q) (alert_time : string -> Q) :
  let a' := (Zone.update a hr power cadence phase now alert_time).1 in
  Zone._hr_history a' = deque_append 3600 (Zone._hr_history a) hr
  /\ Zone._power_history a' = deque_append 3600 (Zone._power_history a) power
  /\ Zone._cadence_history a' = deque_append 3600 (Zone._cadence_history a) cadence
  /\ Zone._timestamps a' = deque_append 3600 (Zone._timestamps a) now.
Proof.
  cbv zeta. destruct (String.eqb phase "main") eqn:E.
  - apply String.eqb_eq in E. subst phase.
    pose proof (update_main_same_data a hr power cadence now alert_time)
      as (_ & _ & _ & -> & -> & -> & -> & _).
    repeat split; reflexivity.
  - rewrite update_not_main by (intros ->; discriminate E).
    repeat split; reflexivity.
Qed.

(** X15.  The four histories are aligned windows over the last hour of
    samples.  Starting from histories of at most 3600 entries, any sequence
    of updates (in any phases, at any clock readings) leaves in each history
    the last 3600 of the values it was given, oldest first: heart rates,
    powers, cadences and clock readings of the same updates. *)
Theorem histories_keep_last_3600 (a : Zone.ZoneAnalyzer) (l : list reading) :
  (length (Zone._hr_history a) <= 3600)%nat ->
  (length (Zone._power_history a) <= 3600)%nat ->
  (length (Zone._cadence_history a) <= 3600)%nat ->
  (length (Zone._timestamps a) <= 3600)%nat ->
  let a' := (run_updates a l).1 in
  Zone._hr_history a' = lastn 3600 (Zone._hr_history a ++ map r_hr l)
  /\ Zone._power_history a' = lastn 3600 (Zone._power_history a ++ map r_power l)
  /\ Zone._cadence_history a' = lastn 3600 (Zone._cadence_history a ++ map r_cadence l)
  /\ Zone._timestamps a' = lastn 3600 (Zone._timestamps a ++ map r_now l).
Proof.
  revert a. induction l as [|r l IH]; intros a H1 H2 H3 H4; cbv zeta.
  - cbn [run_updates fst map]. rewrite !app_nil_r, !lastn_all by assumption.
    repeat split; reflexivity.
  - cbn [run_updates fst map].
    destruct (update_histories a (r_hr r) (r_power r) (r_cadence r) (r_phase r) (r_now r)
        (r_alert_time r))
      as (E1 & E2 & E3 & E4).
    rewrite deque_append_lastn in E1 by lia. rewrite deque_append_lastn in E2 by lia.
    rewrite deque_append_lastn in E3 by lia. rewrite deque_append_lastn in E4 by lia.
    specialize (IH (Zone.update a (r_hr r) (r_power r) (r_cadence r) (r_phase r)
                      (r_now r) (r_alert_time r)).1).
    cbv zeta in IH. rewrite E1, E2, E3, E4 in IH.
    rewrite !lastn_app_lastn, <- !app_assoc in IH.
    apply IH; rewrite lastn_length; lia.
Qed.

Lemma histories_keep_last_3600_witness :
  Zone._hr_history
    (run_updates (Zone.init 124 143 5 10 10)
       [mkReading 150 200 90 "warmup" 1000 (fun _ => 1000%Q);
        mkReading 151 201 91 "main" 1001 (fun _ => 1001%Q)]).1
  = [150; 151].
Proof.
  destruct (histories_keep_last_3600 (Zone.init 124 143 5 10 10)
              [mkReading 150 200 90 "warmup" 1000 (fun _ => 1000%Q);
        mkReading 151 201 91 "main" 1001 (fun _ => 1001%Q)]
              ltac:(cbn; lia) ltac:(cbn; lia) ltac:(cbn; lia) ltac:(cbn; lia))
    as (H & _).
  rewrite H. reflexivity.
Defined.

(** ** zone_analyzer.py: cooldown, persistence, minimum history *)

(** Alerts with the clock reading of the update that returned them, newest
    first: each is more than [c] seconds after every older alert of its
    type. *)
Fixpoint spaced_newest (c : Q) (l : list (Q * Zone.Alert)) : Prop :=
  match l with
  | [] => True
  | y :: older =>
      (forall x, In x older -> Zone.type x.2 = Zone.type y.2 -> (c < y.1 - x.1)%Q)
      /\ spaced_newest c older
  end.

(** The alert times cover the alerts seen so far. *)
Definition alert_times_cover (a : Zone.ZoneAnalyzer) (seen : list (Q * Zone.Alert))
  : Prop :=
  forall x, In x seen ->
    exists t, Zone._last_alert_time a !! Zone.type x.2 = Some t /\ (x.1 <= t)%Q.

(** The alerts of an update made at clock reading [now]. *)
Definition at_time (now : Q) (alerts : list Zone.Alert) : list (Q * Zone.Alert) :=
  map (pair now) alerts.

Lemma alert_step_spaced (a a' : Zone.ZoneAnalyzer) (now : Q) (o : option Zone.Alert)
    (seen : list (Q * Zone.Alert)) :
  (0 <= Zone._alert_cooldown a)%Q ->
  alert_times_cover a seen -> spaced_newest (Zone._alert_cooldown a) seen ->
  alert_step a now (a', o) ->
  Zone._alert_cooldown a' = Zone._alert_cooldown a
  /\ alert_times_cover a' (at_time now (Zone.opt_list o) ++ seen)
  /\ spaced_newest (Zone._alert_cooldown a) (at_time now (Zone.opt_list o) ++ seen).
Proof.
  intros Hc Hcover Hsp [(_ & _ & _ & _ & _ & _ & _ & Hcool & _) Hstep].
  cbn [fst snd] in *. split; [exact Hcool|].
  destruct o as [z|]; cbn [Zone.opt_list at_time map app].
  2:{ split; [|exact Hsp]. intros x Hx. rewrite Hstep. apply Hcover, Hx. }
  destruct Hstep as (Hcan & Hlast).
  unfold Zone._can_alert in Hcan. apply Qltb_lt in Hcan.
  assert (Hold : forall x, In x seen -> Zone.type x.2 = Zone.type z ->
                   (Zone._alert_cooldown a < now - x.1)%Q).
  { intros x Hx Hty. destruct (Hcover x Hx) as (t & Ht & Hle).
    rewrite Hty in Ht. rewrite Ht in Hcan. cbn [default from_option id] in Hcan. lra. }
  split.
  - intros x [<-|Hx]; cbn [fst snd].
    + exists now. rewrite Hlast, lookup_insert_eq. split; [reflexivity|]. apply Qle_refl.
    + destruct (String.eqb (Zone.type x.2) (Zone.type z)) eqn:E.
      * apply String.eqb_eq in E. exists now. rewrite Hlast, E, lookup_insert_eq.
        split; [reflexivity|]. specialize (Hold x Hx E). lra.
      * apply String.eqb_neq in E. destruct (Hcover x Hx) as (t & Ht & Hle).
        exists t. rewrite Hlast, lookup_insert_ne by congruence. split; assumption.
  - cbn [spaced_newest]. split; [|exact Hsp].
    intros x Hx Hty. cbn [fst snd] in *. apply Hold; assumption.
Qed.

Lemma update_spaced (a : Zone.ZoneAnalyzer) (hr power cadence : Z) (phase : string)
    (now : Q) (alert_time : string -> Q) (seen : list (Q * Zone.Alert)) :
  (0 <= Zone._alert_cooldown a)%Q ->
  alert_times_cover a seen -> spaced_newest (Zone._alert_cooldown a) seen ->
  let out := Zone.update a hr power cadence phase now alert_time in
  Zone._alert_cooldown out.1 = Zone._alert_cooldown a
  /\ alert_times_cover out.1 (rev (at_time now out.2) ++ seen)
  /\ spaced_newest (Zone._alert_cooldown a) (rev (at_time now out.2) ++ seen).
Proof.
  intros Hc Hcover Hsp. cbv zeta. destruct (String.eqb phase "main") eqn:E.
  2:{ rewrite update_not_main by (intros ->; discriminate E).
      cbn [fst snd rev app at_time map].
      split; [reflexivity|]. split; [exact Hcover | exact Hsp]. }
  apply String.eqb_eq in E. subst phase.
  set (a0 := Zone.record_sample a hr power cadence "main" now).
  destruct (update_main_steps a hr power cadence now alert_time)
    as (a1 & o1 & a2 & o2 & a3 & o3 & H1 & S2 & _ & S3 & _ & _ & ->).
  fold a0 in H1.
  pose proof (check_hr_zone_step a0 hr now alert_time) as [S1 _]. rewrite H1 in S1.
  cbn [fst snd].
  assert (R : rev (at_time now (Zone.opt_list o1 ++ Zone.opt_list o2 ++ Zone.opt_list o3))
              ++ seen
              = at_time now (Zone.opt_list o3) ++ at_time now (Zone.opt_list o2)
                ++ at_time now (Zone.opt_list o1) ++ seen).
  { destruct o1, o2, o3; reflexivity. }
  rewrite R. clear R.
  change (Zone._alert_cooldown a) with (Zone._alert_cooldown a0) in *.
  assert (Hcover0 : alert_times_cover a0 seen) by exact Hcover.
  destruct (alert_step_spaced a0 a1 now o1 seen Hc Hcover0 Hsp S1) as (C1 & V1 & P1).
  rewrite <- C1 in Hc, P1.
  destruct (alert_step_spaced a1 a2 now o2 _ Hc V1 P1 S2) as (C2 & V2 & P2).
  rewrite <- C2 in Hc, P2.
  destruct (alert_step_spaced a2 a3 now o3 _ Hc V2 P2 S3) as (C3 & V3 & P3).
  split; [congruence|]. split; [exact V3|]. rewrite <- C1, <- C2. exact P3.
Qed.

(** A sequence of updates: every alert with the clock reading of the update
    that returned it, in order. *)
Fixpoint alert_log (a : Zone.ZoneAnalyzer) (l : list reading) : list (Q * Zone.Alert) :=
  match l with
  | [] => []
  | r :: l' =>
      let out := Zone.update a (r_hr r) (r_power r) (r_cadence r) (r_phase r) (r_now r)
                   (r_alert_time r) in
      at_time (r_now r) out.2 ++ alert_log out.1 l'
  end.

Lemma alert_log_alerts (l : list reading) (a : Zone.ZoneAnalyzer) :
  map snd (alert_log a l) = (run_updates a l).2.
Proof.
  revert a. induction l as [|r l IH]; intros a; [reflexivity|].
  cbn [alert_log run_updates snd]. rewrite map_app, IH. f_equal.
  unfold at_time. rewrite map_map. apply map_id.
Qed.

Lemma alert_log_spaced (l : list reading) (a : Zone.ZoneAnalyzer)
    (seen : list (Q * Zone.Alert)) :
  (0 <= Zone._alert_cooldown a)%Q ->
  alert_times_cover a seen -> spaced_newest (Zone._alert_cooldown a) seen ->
  spaced_newest (Zone._alert_cooldown a) (rev (alert_log a l) ++ seen).
Proof.
  revert a seen. induction l as [|r l IH]; intros a seen Hc Hcover Hsp.
  - exact Hsp.
  - cbn [alert_log].
    destruct (update_spaced a (r_hr r) (r_power r) (r_cadence r) (r_phase r) (r_now r)
                (r_alert_time r) seen Hc Hcover Hsp) as (C & V & P).
    cbv zeta in C, V, P.
    rewrite rev_app_distr, <- app_assoc. rewrite <- C.
    apply IH; rewrite ?C; assumption.
Qed.

Lemma spaced_newest_split (c : Q) (l1 l2 : list (Q * Zone.Alert)) (y x : Q * Zone.Alert) :
  spaced_newest c (l1 ++ y :: l2) -> In x l2 -> Zone.type x.2 = Zone.type y.2 ->
  (c < y.1 - x.1)%Q.
Proof.
  induction l1 as [|z l1 IH]; cbn [app spaced_newest].
  - intros [H _]. apply H.
  - intros [_ H]. apply IH, H.
Qed.

(** X16.  Alerts of one type are more than the cooldown apart.  Take any
    sequence of updates, in any phases and at any clock readings (even
    readings that go back).  Whenever an alert is followed, in the same or a
    later update, by an alert of the same type, the update that returned the
    later one read the clock more than [_alert_cooldown] (30 s) after the
    update that returned the earlier one; so no update returns two alerts of
    one type.  The readings are those the updates take on entry, which the
    cooldown test uses; the [timestamp] of an alert is a later reading of its
    own. *)
Theorem alerts_spaced_by_cooldown (a : Zone.ZoneAnalyzer) (l : list reading)
    (pre mid post : list (Q * Zone.Alert)) (tx ty : Q) (x y : Zone.Alert) :
  (0 <= Zone._alert_cooldown a)%Q ->
  alert_log a l = pre ++ (tx, x) :: mid ++ (ty, y) :: post ->
  Zone.type x = Zone.type y ->
  (Zone._alert_cooldown a < ty - tx)%Q
  /\ map snd (alert_log a l) = (run_updates a l).2.
Proof.
  intros Hc Hsplit Hty. split; [|apply alert_log_alerts].
  pose proof (alert_log_spaced l a [] Hc ltac:(intros ? []) I) as H.
  rewrite app_nil_r, Hsplit in H.
  assert (E : rev (pre ++ (tx, x) :: mid ++ (ty, y) :: post)
              = rev post ++ (ty, y) :: (rev mid ++ (tx, x) :: rev pre)).
  { rewrite rev_app_distr. cbn [rev]. rewrite rev_app_distr. cbn [rev].
    rewrite <- !app_assoc. reflexivity. }
  rewrite E in H.
  apply (spaced_newest_split _ _ _ (ty, y) (tx, x) H); [|exact Hty].
  apply in_or_app. right. left. reflexivity.
Qed.

Lemma alerts_spaced_by_cooldown_witness :
  alert_log (Zone.init 124 143 5 10 10)
    (map (fun i => mkReading 150 200 90 "main" (inject_Z (1000 + Z.of_nat i))
                     (fun _ => inject_Z (1000 + Z.of_nat i) + 0.001)%Q)
       (seq 0 42))
  = [(1010%Q, Zone.mkAlert "hr_high" (Zone.HrTooHigh 150 143) "warning" (1010 + 0.001));
     (1041%Q, Zone.mkAlert "hr_high" (Zone.HrTooHigh 150 143) "warning" (1041 + 0.001))]
  /\ (Zone._alert_cooldown (Zone.init 124 143 5 10 10) < 1041 - 1010)%Q.
Proof.
  split; [vm_compute; reflexivity|].
  apply (alerts_spaced_by_cooldown (Zone.init 124 143 5 10 10)
           (map (fun i => mkReading 150 200 90 "main" (inject_Z (1000 + Z.of_nat i))
                        (fun _ => inject_Z (1000 + Z.of_nat i) + 0.001)%Q)
              (seq 0 42))
           [] [] [] 1010 1041
           (Zone.mkAlert "hr_high" (Zone.HrTooHigh 150 143) "warning" (1010 + 0.001))
           (Zone.mkAlert "hr_high" (Zone.HrTooHigh 150 143) "warning" (1041 + 0.001))).
  - vm_compute. discriminate.
  - vm_compute. reflexivity.
  - reflexivity.
Defined.

Lemma record_sample_history_length (a : Zone.ZoneAnalyzer) (hr power cadence : Z)
    (phase : string) (now : Q) (n : nat) :
  (n < length (Zone._hr_history (Zone.record_sample a hr power cadence phase now)))%nat ->
  (n <= length (Zone._hr_history a))%nat.
Proof.
  cbn [Zone.record_sample Zone._hr_history]. unfold deque_append.
  destruct (3600 <=? length (Zone._hr_history a))%nat eqn:E; rewrite length_app; cbn [length].
  - destruct (Zone._hr_history a); cbn [tl length] in *; lia.
  - lia.
Qed.

(** X17.  The trend alerts need history.  Every alert of an update has one of
    the four types hr_high, hr_low, cardiac_drift, decoupling, and comes from
    a main-phase update.  A cardiac_drift alert is only returned by an update
    that found at least 300 samples stored (it is at least the 301st), a
    decoupling alert only by one that found at least 600. *)
Theorem trend_alerts_need_history (a : Zone.ZoneAnalyzer) (hr power cadence : Z)
    (phase : string) (now : Q) (alert_time : string -> Q) (x : Zone.Alert) :
  In x (Zone.update a hr power cadence phase now alert_time).2 ->
  phase = "main"%string
  /\ (Zone.type x = "hr_high"%string \/ Zone.type x = "hr_low"%string
      \/ Zone.type x = "cardiac_drift"%string /\ (300 <= length (Zone._hr_history a))%nat
      \/ Zone.type x = "decoupling"%string /\ (600 <= length (Zone._hr_history a))%nat).
Proof.
  intros Hin. destruct (String.eqb phase "main") eqn:E.
  2:{ rewrite update_not_main in Hin by (intros ->; discriminate E). destruct Hin. }
  apply String.eqb_eq in E. subst phase. split; [reflexivity|].
  destruct (update_main_steps a hr power cadence now alert_time)
    as (a1 & o1 & a2 & o2 & a3 & o3 & H1 & _ & T2 & _ & T3 & _ & Hup).
  rewrite Hup in Hin. cbn [snd] in Hin.
  pose proof (check_hr_zone_step (Zone.record_sample a hr power cadence "main" now) hr now
      alert_time)
    as [_ T1]. rewrite H1 in T1. cbn [snd] in T1.
  apply in_app_or in Hin. destruct Hin as [Hin|Hin].
  { destruct o1 as [x1|]; [|destruct Hin]. destruct Hin as [<-|[]].
    destruct (T1 x1 eq_refl) as [[[H _]|[H _]] _]; auto. }
  apply in_app_or in Hin. destruct Hin as [Hin|Hin].
  - destruct o2 as [x2|]; [|destruct Hin]. destruct Hin as [<-|[]].
    destruct (T2 x2 eq_refl) as [H L]. right; right; left. split; [exact H|].
    apply record_sample_history_length in L. exact L.
  - destruct o3 as [x3|]; [|destruct Hin]. destruct Hin as [<-|[]].
    destruct (T3 x3 eq_refl) as (H & L & _). right; right; right. split; [exact H|].
    apply record_sample_history_length in L. exact L.
Qed.

(** Ten seconds of main-phase samples at 150 bpm on the default zone. *)
Definition out_of_zone_analyzer : Zone.ZoneAnalyzer :=
  (run_updates (Zone.init 124 143 5 10 10)
     (map (fun i => mkReading 150 200 90 "main" (inject_Z (1000 + Z.of_nat i))
                        (fun _ => inject_Z (1000 + Z.of_nat i)))
        (seq 0 10))).1.

Lemma trend_alerts_need_history_witness :
  Zone.type (Zone.mkAlert "hr_high" (Zone.HrTooHigh 150 143) "warning" 1010)
  = "hr_high"%string
  \/ Zone.type (Zone.mkAlert "hr_high" (Zone.HrTooHigh 150 143) "warning" 1010)
     = "hr_low"%string
  \/ Zone.type (Zone.mkAlert "hr_high" (Zone.HrTooHigh 150 143) "warning" 1010)
     = "cardiac_drift"%string
     /\ (300 <= length (Zone._hr_history out_of_zone_analyzer))%nat
  \/ Zone.type (Zone.mkAlert "hr_high" (Zone.HrTooHigh 150 143) "warning" 1010)
     = "decoupling"%string
     /\ (600 <= length (Zone._hr_history out_of_zone_analyzer))%nat.
Proof.
  apply (trend_alerts_need_history out_of_zone_analyzer 150 200 90 "main" 1010 (fun _ => 1010%Q)).
  vm_compute. left. reflexivity.
Defined.

(** X18.  Zone alerts need persistence.  An hr_high or hr_low alert is only
    returned when the heart rate is outside the zone on that side and the
    out-of-zone timer, which the update keeps running, shows at least
    [hr_alert_delay] seconds; the timer was started by this update only if
    none was running.  An hr_low alert always has severity 'warning'. *)
Theorem zone_alert_requires_persistence (a : Zone.ZoneAnalyzer) (hr power cadence : Z)
    (phase : string) (now : Q) (alert_time : string -> Q) (x : Zone.Alert) :
  In x (Zone.update a hr power cadence phase now alert_time).2 ->
  Zone.type x = "hr_high"%string \/ Zone.type x = "hr_low"%string ->
  (Zone.type x = "hr_high"%string /\ Zone.zone2_high a < hr
   \/ Zone.type x = "hr_low"%string /\ hr <= Zone.zone2_high a /\ hr < Zone.zone2_low a
      /\ Zone.severity x = "warning"%string)
  /\ exists t0,
       Zone._hr_out_of_zone_start (Zone.update a hr power cadence phase now alert_time).1 = Some t0
       /\ (Zone.hr_alert_delay a <= now - t0)%Q
       /\ (Zone._hr_out_of_zone_start a = Some t0
           \/ Zone._hr_out_of_zone_start a = None /\ t0 = now).
Proof.
  intros Hin Hty. destruct (String.eqb phase "main") eqn:E.
  2:{ rewrite update_not_main in Hin by (intros ->; discriminate E). destruct Hin. }
  apply String.eqb_eq in E. subst phase.
  destruct (update_main_steps a hr power cadence now alert_time)
    as (a1 & o1 & a2 & o2 & a3 & o3 & H1 & _ & T2 & _ & T3 & Hz & Hup).
  rewrite Hup in Hin |- *. cbn [fst snd] in *.
  pose proof (check_hr_zone_step (Zone.record_sample a hr power cadence "main" now) hr now
      alert_time)
    as [_ T1]. rewrite H1 in T1. cbn [fst snd] in T1.
  apply in_app_or in Hin. destruct Hin as [Hin|Hin].
  { destruct o1 as [x1|]; [|destruct Hin]. destruct Hin as [<-|[]].
    destruct (T1 x1 eq_refl) as [Hside (t0 & Ht0 & Hd & Hs)].
    split; [exact Hside|]. exists t0. rewrite Hz. split; [exact Ht0|].
    split; [exact Hd | exact Hs]. }
  exfalso. apply in_app_or in Hin. destruct Hin as [Hin|Hin].
  - destruct o2 as [x2|]; [|destruct Hin]. destruct Hin as [<-|[]].
    destruct (T2 x2 eq_refl) as [H _]. rewrite H in Hty. destruct Hty; discriminate.
  - destruct o3 as [x3|]; [|destruct Hin]. destruct Hin as [<-|[]].
    destruct (T3 x3 eq_refl) as [H _]. rewrite H in Hty. destruct Hty; discriminate.
Qed.

Lemma zone_alert_requires_persistence_witness :
  exists t0,
    Zone._hr_out_of_zone_start (Zone.update out_of_zone_analyzer 150 200 90 "main" 1010
        (fun _ => 1010%Q)).1
    = Some t0
    /\ (Zone.hr_alert_delay out_of_zone_analyzer <= 1010 - t0)%Q.
Proof.
  destruct (zone_alert_requires_persistence out_of_zone_analyzer 150 200 90 "main" 1010
      (fun _ => 1010%Q)
              (Zone.mkAlert "hr_high" (Zone.HrTooHigh 150 143) "warning" 1010)
              ltac:(vm_compute; left; reflexivity) ltac:(left; reflexivity))
    as (_ & t0 & H1 & H2 & _).
  exists t0. split; [exact H1 | exact H2].
Defined.

(** ** zone_analyzer.py: the drift of the statistics and of the alert *)

Lemma check_hr_zone_drift_threshold (a : Zone.ZoneAnalyzer) (hr : Z) (now : Q)
    (alert_time : string -> Q) :
  Zone.drift_threshold (Zone._check_hr_zone a hr now alert_time).1 = Zone.drift_threshold a.
Proof.
  unfold Zone._check_hr_zone. cbv zeta.
  repeat match goal with
         | |- context [if ?c then _ else _] => destruct c
         end; reflexivity.
Qed.

Lemma update_main_drift (a : Zone.ZoneAnalyzer) (hr power cadence : Z) (now : Q)
    (alert_time : string -> Q)
    (x : Zone.Alert) :
  In x (Zone.update a hr power cadence "main" now alert_time).2 ->
  Zone.type x = "cardiac_drift"%string ->
  exists a1,
    same_data (Zone.record_sample a hr power cadence "main" now) a1
    /\ Zone.drift_threshold a1 = Zone.drift_threshold a
    /\ (300 < length (Zone._hr_history a1))%nat
    /\ (Zone._check_cardiac_drift a1 now alert_time).2 = Some x
    /\ same_data a1 (Zone.update a hr power cadence "main" now alert_time).1.
Proof.
  unfold Zone.update. cbv zeta.
  change (String.eqb "main" "main") with true. cbv iota.
  set (a0 := Zone.record_sample a hr power cadence "main" now).
  pose proof (check_hr_zone_step a0 hr now alert_time) as [[S1 _] T1].
  pose proof (check_hr_zone_drift_threshold a0 hr now alert_time) as D1.
  destruct (Zone._check_hr_zone a0 hr now alert_time) as [a1 o1]. cbn [fst snd] in S1, T1, D1.
  destruct (300 <? length (Zone._hr_history a1))%nat eqn:E.
  - pose proof (check_cardiac_drift_step a1 now alert_time) as [S2 _].
    pose proof (check_cardiac_drift_frame a1 now alert_time) as (_ & Hh & _ & _).
    destruct (Zone._check_cardiac_drift a1 now alert_time) as [a2 o2] eqn:E2. cbn [fst snd] in *.
    rewrite Hh, E.
    pose proof (check_decoupling_step a2 now alert_time) as [S3 _].
    pose proof (check_decoupling_frame a2 now alert_time) as [_ T3].
    destruct (Zone._check_decoupling a2 now alert_time) as [a3 o3]. cbn [fst snd] in *.
    intros Hin Hty. exists a1. split; [exact S1|]. split; [exact D1|].
    split; [apply Nat.ltb_lt; exact E|].
    split; [|eapply same_data_trans; eassumption].
    apply in_app_or in Hin. destruct Hin as [Hin|Hin].
    { destruct o1 as [x1|]; [|destruct Hin]. destruct Hin as [<-|[]].
      destruct (T1 x1 eq_refl) as [[[H _]|[H _]] _]; rewrite H in Hty; discriminate. }
    apply in_app_or in Hin. destruct Hin as [Hin|Hin].
    + destruct o2 as [x2|]; [|destruct Hin]. destruct Hin as [<-|[]].
      rewrite E2. reflexivity.
    + destruct o3 as [x3|]; [|destruct Hin]. destruct Hin as [<-|[]].
      rewrite (T3 x3 eq_refl) in Hty. discriminate.
  - cbn [Zone._hr_history]. rewrite E. intros Hin Hty. exfalso.
    rewrite app_nil_r in Hin.
    destruct o1 as [x1|]; [|destruct Hin]. destruct Hin as [<-|[]].
    destruct (T1 x1 eq_refl) as [[[H _]|[H _]] _]; rewrite H in Hty; discriminate.
Qed.

Lemma mean_or_0_nonzero (l : list Z) :
  Qeqb (Zone.mean_or_0 l) 0 = false -> Zone.np_mean l = Some (Zone.mean_or_0 l).
Proof. destruct l; [discriminate | reflexivity]. Qed.

Lemma np_mean_nonempty (l : list Z) :
  l <> [] -> Zone.np_mean l = Some (Zone.mean_or_0 l).
Proof. destruct l; [contradiction | reflexivity]. Qed.

Lemma Qeqb_false_pos (q : Q) : (0 <= q)%Q -> Qeqb q 0 = false -> Qltb 0 q = true.
Proof.
  intros Hq Hne. apply Qltb_lt. apply Qle_lt_or_eq in Hq. destruct Hq as [H|H]; [exact H|].
  exfalso. unfold Qeqb in Hne. symmetry in H. apply Qeq_bool_iff in H. congruence.
Qed.

Lemma mean_or_0_nonneg (l : list Z) :
  Forall (fun x => 0 <= x) l -> (0 <= Zone.mean_or_0 l)%Q.
Proof.
  intros H. destruct l; [apply Qle_refl|]. apply mean_nonneg. exact H.
Qed.

Lemma get_stats_same_data (a a' : Zone.ZoneAnalyzer) :
  same_data a a' -> Zone.get_stats a' = Zone.get_stats a.
Proof.
  intros (_ & _ & _ & Hh & Hp & Hc & _ & _ & Hi & Ha & Hb & _ & _).
  unfold Zone.get_stats. rewrite Hh, Hp, Hc, Hi, Ha, Hb. reflexivity.
Qed.

Lemma check_cardiac_drift_stats (a : Zone.ZoneAnalyzer) (now : Q)
    (alert_time : string -> Q) (x : Zone.Alert) :
  (300 < length (Zone._hr_history a))%nat ->
  length (Zone._power_history a) = length (Zone._hr_history a) ->
  Forall (fun h => 0 <= h) (Zone._hr_history a) ->
  (Zone._check_cardiac_drift a now alert_time).2 = Some x ->
  exists d, Zone.cardiac_drift_percent (Zone.get_stats a) = Some d
            /\ Zone.msg x = Zone.CardiacDrift d
            /\ (Zone.drift_threshold a < d)%Q.
Proof.
  intros Hn Hlen Hnn. unfold Zone._check_cardiac_drift, Zone.get_stats.
  cbn [Zone.cardiac_drift_percent].
  destruct (negb _); [discriminate|]. cbv zeta.
  assert (E300 : (300 <? length (Zone._hr_history a))%nat = true)
    by (apply Nat.ltb_lt; exact Hn).
  rewrite E300.
  set (half := (length (Zone._hr_history a) / 2)%nat).
  assert (Hhalf : (half < length (Zone._hr_history a))%nat)
    by (apply Nat.div_lt; lia).
  set (fh := firstn half (Zone._hr_history a)).
  set (fp := firstn half (Zone._power_history a)).
  set (sh := skipn half (Zone._hr_history a)).
  set (sp := skipn half (Zone._power_history a)).
  assert (Hsh : sh <> []).
  { intros H. apply (f_equal (@length Z)) in H. subst sh.
    rewrite length_skipn in H. cbn [length] in H. lia. }
  assert (Hsp : sp <> []).
  { intros H. apply (f_equal (@length Z)) in H. subst sp.
    rewrite length_skipn, Hlen in H. cbn [length] in H. lia. }
  assert (Hfh : (0 <= Zone.mean_or_0 fh)%Q)
    by (apply mean_or_0_nonneg; subst fh; apply Forall_take; exact Hnn).
  destruct (Qeqb (Zone.mean_or_0 fh) 0) eqn:E1; [discriminate|].
  destruct (Qeqb (Zone.mean_or_0 fp) 0) eqn:E2; [discriminate|].
  cbn [orb].
  unfold Zone.half_efficiency.
  rewrite (mean_or_0_nonzero fh E1), (mean_or_0_nonzero fp E2).
  rewrite (Qeqb_false_pos _ Hfh E1).
  rewrite (np_mean_nonempty sh Hsh), (np_mean_nonempty sp Hsp).
  destruct (Qltb 0 (Zone.mean_or_0 fp / Zone.mean_or_0 fh)) eqn:E3; [|discriminate].
  destruct (Qltb 0 (Zone.mean_or_0 sh)) eqn:E4.
  - destruct (Qltb (Zone.drift_threshold a) _) eqn:E5; [|discriminate].
    cbn [snd]. intros [= <-]. eexists. split; [reflexivity|].
    split; [reflexivity|]. apply Qltb_lt. exact E5.
  - destruct (Qltb (Zone.drift_threshold a) _) eqn:E5; [|discriminate].
    cbn [snd]. intros [= <-]. eexists. split; [reflexivity|].
    split; [reflexivity|]. apply Qltb_lt. exact E5.
Qed.

(** X27.  The drift of an alert is the drift of the statistics.  When a
    main-phase update returns a cardiac_drift alert, on an analyzer whose
    power history is as long as its heart-rate history and whose heart rates
    are not negative, the percentage in the alert is the
    [cardiac_drift_percent] that [get_stats] reports right after, and it
    exceeds the drift threshold. *)
Theorem drift_alert_matches_stats (a : Zone.ZoneAnalyzer) (hr power cadence : Z)
    (now : Q) (alert_time : string -> Q) (x : Zone.Alert) :
  length (Zone._power_history a) = length (Zone._hr_history a) ->
  Forall (fun h => 0 <= h) (hr :: Zone._hr_history a) ->
  In x (Zone.update a hr power cadence "main" now alert_time).2 ->
  Zone.type x = "cardiac_drift"%string ->
  exists d,
    Zone.cardiac_drift_percent (Zone.get_stats (Zone.update a hr power cadence "main" now
        alert_time).1)
    = Some d
    /\ Zone.msg x = Zone.CardiacDrift d
    /\ (Zone.drift_threshold a < d)%Q.
Proof.
  intros Hlen Hnn Hin Hty.
  destruct (update_main_drift a hr power cadence now alert_time x Hin Hty)
    as (a1 & S1 & Hthr & Hn & Hx & S3).
  rewrite (get_stats_same_data a1 _ S3).
  pose proof S1 as (_ & _ & _ & Hh & Hp & _). 
  cbn [Zone.record_sample Zone._hr_history Zone._power_history] in Hh, Hp.
  rewrite <- Hthr.
  apply (check_cardiac_drift_stats a1 now alert_time x Hn); [| |exact Hx].
  - rewrite Hh, Hp. unfold deque_append. rewrite Hlen.
    destruct (3600 <=? length (Zone._hr_history a))%nat; rewrite !length_app; cbn [length].
    + destruct (Zone._hr_history a), (Zone._power_history a); cbn [length tl] in *; lia.
    + lia.
  - rewrite Hh. unfold deque_append. inversion Hnn as [|? ? H0 Hrest]; subst.
    destruct (3600 <=? _)%nat; apply Forall_app; split;
      try (apply List.Forall_cons; [exact H0 | apply List.Forall_nil]); try exact Hrest.
    destruct (Zone._hr_history a); [apply List.Forall_nil|].
    inversion Hrest; assumption.
Qed.

(** Five minutes of samples taken outside the main phase, at 200 W: 150 at
    100 bpm, then 150 at 130 bpm. *)
Definition drifting : Zone.ZoneAnalyzer :=
  (run_updates (Zone.init 124 143 5 10 10)
     (map (fun i => mkReading (if (i <? 150)%nat then 100 else 130) 200 90 "warmup"
                      (inject_Z (1000 + Z.of_nat i)) (fun _ => inject_Z (1000 + Z.of_nat i)))
        (seq 0 300))).1.

Lemma drift_alert_matches_stats_witness :
  exists d,
    Zone.cardiac_drift_percent
      (Zone.get_stats (Zone.update drifting 130 200 90 "main" 1300 (fun _ => 1300%Q)).1) = Some d
    /\ (Zone.drift_threshold drifting < d)%Q.
Proof.
  destruct (drift_alert_matches_stats drifting 130 200 90 1300 (fun _ => 1300%Q)
              (hd (Zone.mkAlert "" (Zone.CardiacDrift 0) "" 0)
                 (Zone.update drifting 130 200 90 "main" 1300 (fun _ => 1300%Q)).2))
    as (d & Hd & _ & Ht).
  - vm_compute. reflexivity.
  - apply List.Forall_forall. intros h Hh. apply Z.leb_le. revert h Hh.
    apply forallb_forall. vm_compute. reflexivity.
  - vm_compute. left. reflexivity.
  - vm_compute. reflexivity.
  - exists d. split; [exact Hd | exact Ht].
Defined.

(** ** fit_exporter.py: the checksum *)

Lemma land_land_255_15 (c : Z) : Z.land (Z.land c 255) 15 = Z.land c 15.
Proof. rewrite <- Z.land_assoc. reflexivity. Qed.

Lemma shiftr_land_255_4 (c : Z) :
  Z.land (Z.shiftr (Z.land c 255) 4) 15 = Z.land (Z.shiftr c 4) 15.
Proof. rewrite Z.shiftr_land, <- Z.land_assoc. reflexivity. Qed.

Lemma lxor_cancel (a t : Z) : Z.lxor (Z.lxor a t) t = a.
Proof. rewrite Z.lxor_assoc, Z.lxor_nilpotent, Z.lxor_0_r. reflexivity. Qed.

(** Feeding its own low byte to a checksum shifts the checksum right by a
    byte. *)
Lemma crc_byte_own_low (c : Z) :
  0 <= c < 65536 -> Fit.crc_byte c (Z.land c 255) = Z.shiftr c 8.
Proof.
  intros Hc. unfold Fit.crc_byte. cbv zeta.
  rewrite land_land_255_15, shiftr_land_255_4.
  assert (H4 : 0 <= Z.shiftr c 4 < 4096).
  { rewrite Z.shiftr_div_pow2 by lia. change (2 ^ 4) with 16.
    split; [apply Z.div_pos; lia | apply Z.div_lt_upper_bound; lia]. }
  rewrite (land_fff_small (Z.shiftr c 4) H4).
  rewrite lxor_cancel.
  rewrite lxor_cancel.
  rewrite Z.shiftr_shiftr by lia. change (4 + 4) with 8.
  apply land_fff_small.
  rewrite Z.shiftr_div_pow2 by lia. change (2 ^ 8) with 256.
  split; [apply Z.div_pos; lia | apply Z.div_lt_upper_bound; lia].
Qed.

Lemma calculate_crc_app (a b : list byte) :
  Fit._calculate_crc (a ++ b)
  = fold_left (fun crc x => Fit.crc_byte crc (byte_val x)) b (Fit._calculate_crc a).
Proof. unfold Fit._calculate_crc. apply fold_left_app. Qed.

(** A buffer followed by its own checksum, little endian, checks to zero. *)
Lemma crc_residue (data : list byte) :
  Fit._calculate_crc (data ++ le_bytes2 (Fit._calculate_crc data)) = 0.
Proof.
  rewrite calculate_crc_app.
  pose proof (calculate_crc_range data) as Hr.
  set (c := Fit._calculate_crc data) in *.
  unfold le_bytes2. cbn [fold_left].
  assert (Hlo : 0 <= Z.land c 255 <= 255).
  { change 255 with (Z.ones 8) at 1 2. rewrite Z.land_ones by lia.
    pose proof (Z.mod_pos_bound c (2 ^ 8) ltac:(lia)). change (2 ^ 8) with 256 in *.
    change (Z.ones 8) with 255. lia. }
  assert (H8 : 0 <= Z.shiftr c 8 < 256).
  { rewrite Z.shiftr_div_pow2 by lia. change (2 ^ 8) with 256.
    split; [apply Z.div_pos; lia | apply Z.div_lt_upper_bound; lia]. }
  assert (Hhi : Z.land (Z.shiftr c 8) 255 = Z.shiftr c 8).
  { change 255 with (Z.ones 8). rewrite Z.land_ones by lia. apply Z.mod_small. exact H8. }
  rewrite Hhi, !byte_val_of_Z by lia.
  rewrite (crc_byte_own_low c Hr).
  rewrite <- Hhi at 2. rewrite crc_byte_own_low by lia.
  rewrite Z.shiftr_shiftr by lia. change (8 + 8) with 16.
  rewrite Z.shiftr_div_pow2 by lia. apply Z.div_small. change (2 ^ 16) with 65536. lia.
Qed.

(** X19.  Every file [_build_fit_file] produces passes the check a FIT reader
    makes: the checksum run over the whole file, trailing checksum included,
    is 0, and so is the checksum run over the 14-byte header with its own
    checksum field. *)
Theorem exported_file_checks_to_zero (self : Fit.FitExporter) (file : list byte) :
  Fit._build_fit_file self = Ok file ->
  Fit._calculate_crc file = 0 /\ Fit._calculate_crc (firstn 14 file) = 0.
Proof.
  intros H. apply build_fit_file_inv in H. destruct H as (body & _ & ->).
  split; [apply crc_residue|].
  rewrite <- !app_assoc.
  set (h12 := header12 (Z.of_nat (length body))).
  rewrite app_assoc.
  rewrite (take_app_length' (h12 ++ le_bytes2 (Fit._calculate_crc h12)) _ 14)
    by reflexivity.
  apply crc_residue.
Qed.

Lemma exported_file_checks_to_zero_witness :
  exists file, Fit._build_fit_file one_record_session = Ok file
               /\ Fit._calculate_crc file = 0.
Proof.
  destruct (Fit._build_fit_file one_record_session) as [file|] eqn:E;
    [|vm_compute in E; discriminate E].
  exists file. split; [reflexivity|].
  apply (exported_file_checks_to_zero one_record_session file E).
Defined.

(** ** fit_exporter.py: the size of the file *)

(** Whatever [r] returns has [n] bytes. *)
Definition sized (n : nat) (r : result (list byte)) : Prop :=
  forall b, r = Ok b -> length b = n.

Lemma sized_packs (ns : list nat) (l : list (result (list byte))) :
  Forall2 sized ns l -> sized (list_sum ns) (packs l).
Proof.
  induction 1 as [|n r ns l Hr _ IH]; intros b H.
  - rewrite packs_nil in H. apply Ok_inj in H. subst b. reflexivity.
  - apply packs_cons_inv in H. destruct H as (b1 & b2 & H1 & H2 & ->).
    rewrite length_app, (Hr b1 H1), (IH b2 H2). reflexivity.
Qed.

Lemma sized_packs_map {A} (n : nat) (f : A -> result (list byte)) (l : list A) :
  (forall x, sized n (f x)) -> sized (n * length l) (packs (map f l)).
Proof.
  intros Hf. induction l as [|x l IH]; intros b H.
  - cbn [map] in H. rewrite packs_nil in H. apply Ok_inj in H. subst b.
    cbn [length]. lia.
  - cbn [map] in H. apply packs_cons_inv in H. destruct H as (b1 & b2 & H1 & H2 & ->).
    rewrite length_app, (Hf x b1 H1), (IH b2 H2). cbn [length]. lia.
Qed.

Lemma sized_pack_B (v : Z) : sized 1 (pack_B v).
Proof. intros b. unfold pack_B. destruct (_ && _); [|discriminate]. intros [= <-]. reflexivity. Qed.

Lemma sized_pack_H (v : Z) : sized 2 (pack_H v).
Proof. intros b. unfold pack_H. destruct (_ && _); [|discriminate]. intros [= <-]. reflexivity. Qed.

Lemma sized_pack_I (v : Z) : sized 4 (pack_I v).
Proof. intros b. unfold pack_I. destruct (_ && _); [|discriminate]. intros [= <-]. reflexivity. Qed.

Lemma sized_Ok (b : list byte) : sized (length b) (Ok b).
Proof. intros b' [= <-]. reflexivity. Qed.

Ltac sized_list :=
  repeat first [ apply List.Forall2_nil | apply List.Forall2_cons
               | apply sized_pack_B | apply sized_pack_H | apply sized_pack_I ].

Lemma sized_pack_BBB (a b c : Z) : sized 3 (pack_BBB a b c).
Proof. apply (sized_packs [1; 1; 1]%nat). sized_list. Qed.

Lemma sized_definition_header (a b c : Z) : sized 6 (Fit.definition_header a b c).
Proof. apply (sized_packs [1; 1; 1; 2; 1]%nat). sized_list. Qed.

(** A definition message followed by its data message. *)
Ltac sized_message nd n :=
  let b := fresh "b" in
  let H := fresh "H" in
  intros b H;
  repeat (apply bind_inv in H; destruct H as (? & ? & H); cbv zeta in H);
  unfold mret, result_ret in H; apply Ok_inj in H; subst b;
  rewrite length_app;
  match goal with
  | Hd : packs _ = Ok ?d, Hx : packs _ = Ok ?x |- (length ?d + length ?x)%nat = _ =>
      apply (sized_packs nd) in Hd;
      [ apply (sized_packs n) in Hx; [rewrite Hd, Hx; reflexivity | sized_list]
      | repeat first [ apply List.Forall2_nil | apply List.Forall2_cons
                     | apply sized_definition_header | apply sized_pack_BBB ] ]
  end.

Lemma sized_build_file_id : sized 28 Fit._build_file_id.
Proof.
  unfold Fit._build_file_id.
  sized_message [6; 3; 3; 3; 3]%nat [1; 1; 2; 2; 4]%nat.
Qed.

Lemma sized_build_record_definition : sized 21 Fit._build_record_definition.
Proof.
  unfold Fit._build_record_definition. apply (sized_packs [6; 3; 3; 3; 3; 3]%nat).
  repeat first [ apply List.Forall2_nil | apply List.Forall2_cons
               | apply sized_definition_header | apply sized_pack_BBB ].
Qed.

Lemma sized_build_record_data (r : Fit.FitRecord) : sized 11 (Fit._build_record_data r).
Proof.
  unfold Fit._build_record_data. intros b H.
  apply bind_inv in H. destruct H as (t & _ & H).
  apply (sized_packs [1; 4; 1; 1; 2; 2]%nat) in H; [exact H | sized_list].
Qed.

Lemma sized_build_event (self : Fit.FitExporter) (event_type event : Z) :
  sized 22 (Fit._build_event self event_type event).
Proof.
  unfold Fit._build_event.
  sized_message [6; 3; 3; 3]%nat [1; 4; 1; 1]%nat.
Qed.

Lemma sized_build_lap (self : Fit.FitExporter) : sized 44 (Fit._build_lap self).
Proof.
  unfold Fit._build_lap.
  sized_message [6; 3; 3; 3; 3; 3; 3]%nat [1; 4; 4; 4; 4; 1; 2]%nat.
Qed.

Lemma sized_build_session (self : Fit.FitExporter) : sized 48 (Fit._build_session self).
Proof.
  unfold Fit._build_session.
  sized_message [6; 3; 3; 3; 3; 3; 3; 3]%nat [1; 4; 4; 4; 4; 1; 1; 2]%nat.
Qed.

Lemma sized_build_activity (self : Fit.FitExporter) : sized 30 (Fit._build_activity self).
Proof.
  unfold Fit._build_activity.
  sized_message [6; 3; 3; 3; 3]%nat [1; 4; 4; 2; 1]%nat.
Qed.

Lemma sized_build_data_records (self : Fit.FitExporter) :
  sized (215 + 11 * length (Fit._records self)) (Fit._build_data_records self).
Proof.
  unfold Fit._build_data_records. intros b H.
  apply packs_app_inv in H. destruct H as (b1 & b2 & H1 & H & ->).
  apply packs_app_inv in H. destruct H as (b3 & b4 & H3 & H4 & ->).
  apply (sized_packs [28; 22; 21]%nat) in H1;
    [|exact (List.Forall2_cons _ _ sized_build_file_id
               (List.Forall2_cons _ _ (sized_build_event self 0 0)
                  (List.Forall2_cons _ _ sized_build_record_definition
                     (List.Forall2_nil _))))].
  apply (sized_packs_map 11 _ _ sized_build_record_data) in H3.
  apply (sized_packs [22; 44; 48; 30]%nat) in H4;
    [|exact (List.Forall2_cons _ _ (sized_build_event self 1 0)
               (List.Forall2_cons _ _ (sized_build_lap self)
                  (List.Forall2_cons _ _ (sized_build_session self)
                     (List.Forall2_cons _ _ (sized_build_activity self)
                        (List.Forall2_nil _)))))].
  rewrite !length_app, H1, H3, H4. unfold list_sum. cbn [fold_right]. lia.
Qed.

(** X20.  The size of an exported file is fixed by the number of records:
    14 bytes of header, 215 bytes of file-id, event, definition, lap, session
    and activity messages, 11 bytes for each record, and 2 bytes of checksum.
    The data-size field of the header holds 215 + 11 * n. *)
Theorem exported_file_size (self : Fit.FitExporter) (file : list byte) :
  Fit._build_fit_file self = Ok file ->
  length file = (231 + 11 * length (Fit._records self))%nat
  /\ slice file 4 8 = le_bytes4 (215 + 11 * Z.of_nat (length (Fit._records self))).
Proof.
  intros H. apply build_fit_file_inv in H. destruct H as (body & Hb & ->).
  apply sized_build_data_records in Hb. split.
  - rewrite !length_app, Hb, header12_length. unfold le_bytes2. cbn [length]. lia.
  - replace (215 + 11 * Z.of_nat (length (Fit._records self)))
      with (Z.of_nat (length body)) by lia.
    unfold header12. reflexivity.
Qed.

Lemma exported_file_size_witness :
  exists file, Fit._build_fit_file one_record_session = Ok file
               /\ length file = 242%nat.
Proof.
  destruct (Fit._build_fit_file one_record_session) as [file|] eqn:E;
    [|vm_compute in E; discriminate E].
  exists file. split; [reflexivity|].
  apply (exported_file_size one_record_session file E).
Defined.

(** ** fit_exporter.py: recording and backups *)

(** One call of [add_record]: the wall-clock stamp it may use for the name of
    the backup file, and the sample. *)
Record sample := mkSample {
  s_stamp : string;
  s_timestamp : Q;
  s_heart_rate : Z;
  s_power : Z;
  s_cadence : Z;
  s_speed : Q
}.

Definition record_of (s : sample) : Fit.FitRecord :=
  Fit.mkFitRecord (s_timestamp s) (s_heart_rate s) (s_power s) (s_cadence s) (s_speed s).

Definition add_record_of (st : Fit.FitExporter * gmap string Fit.file_content) (s : sample)
  : result unit * (Fit.FitExporter * gmap string Fit.file_content) :=
  Fit.add_record st.1 st.2 (s_stamp s) (s_timestamp s) (s_heart_rate s) (s_power s)
    (s_cadence s) (s_speed s).

(** The state a call of [add_record] leaves, whether it returns or raises. *)
Definition add_sample (st : Fit.FitExporter * gmap string Fit.file_content) (s : sample)
  : Fit.FitExporter * gmap string Fit.file_content :=
  (add_record_of st s).2.

(** Calls of [add_record] one after the other: the state they leave, and the
    outcome of each. *)
Definition add_samples (st : Fit.FitExporter * gmap string Fit.file_content)
    (l : list sample) : Fit.FitExporter * gmap string Fit.file_content :=
  fold_left add_sample l st.

Fixpoint add_outcomes (st : Fit.FitExporter * gmap string Fit.file_content)
    (l : list sample) : list (result unit) :=
  match l with
  | [] => []
  | s :: l' => (add_record_of st s).1 :: add_outcomes (add_sample st s) l'
  end.

(** The three ways of [add_record]: a session under way, the first record
    with a backup directory, the first record without one. *)
Lemma add_record_started (e : Fit.FitExporter) (fs : gmap string Fit.file_content)
    (stamp : string) (ts : Q) (hr power cadence : Z) (speed : Q) (t0 : Q) :
  Fit._start_time e = Some t0 ->
  Fit.add_record e fs stamp ts hr power cadence speed
  = (Ok tt,
     let e' := Fit.mkExporter (Fit._records e ++ [Fit.mkFitRecord ts hr power cadence speed])
                 (Some t0) (Some ts) (Fit._backup_dir e) (Fit._backup_file e)
                 (Fit._last_backup_count e) in
     if (30 <=? length (Fit._records e') - Fit._last_backup_count e')%nat
     then Fit._save_backup e' fs else (e', fs)).
Proof.
  intros H. unfold Fit.add_record. rewrite H. cbv beta iota zeta. rewrite H. reflexivity.
Qed.

Lemma add_record_first (e : Fit.FitExporter) (fs : gmap string Fit.file_content)
    (stamp : string) (ts : Q) (hr power cadence : Z) (speed : Q) :
  Fit._start_time e = None -> Fit._backup_dir e <> ""%string ->
  Fit.add_record e fs stamp ts hr power cadence speed
  = (Ok tt,
     let e' := Fit.mkExporter (Fit._records e ++ [Fit.mkFitRecord ts hr power cadence speed])
                 (Some ts) (Some ts) (Fit._backup_dir e)
                 (Some (Fit.path_join (Fit._backup_dir e) (".backup_" +:+ stamp +:+ ".json")))
                 (Fit._last_backup_count e) in
     if (30 <=? length (Fit._records e') - Fit._last_backup_count e')%nat
     then Fit._save_backup e' fs else (e', fs)).
Proof.
  intros H Hdir. unfold Fit.add_record, Fit.makedirs. rewrite H.
  cbn [Fit.set_start_time Fit._backup_dir].
  destruct (String.eqb (Fit._backup_dir e) "") eqn:E;
    [apply String.eqb_eq in E; contradiction | reflexivity].
Qed.

Lemma add_record_no_directory (e : Fit.FitExporter) (fs : gmap string Fit.file_content)
    (stamp : string) (ts : Q) (hr power cadence : Z) (speed : Q) :
  Fit._start_time e = None -> Fit._backup_dir e = ""%string ->
  Fit.add_record e fs stamp ts hr power cadence speed
  = (Raise FileNotFoundError, (Fit.set_start_time e ts, fs)).
Proof.
  intros H Hdir. unfold Fit.add_record, Fit.makedirs. rewrite H.
  cbn [Fit.set_start_time Fit._backup_dir]. rewrite Hdir. reflexivity.
Qed.

(** The backup file of a session whose first sample carries [stamp]. *)
Definition backup_path (dir stamp : string) : string :=
  Fit.path_join dir (".backup_" +:+ stamp +:+ ".json").

Lemma backup_path_nonempty (dir stamp : string) :
  Fit.nonempty_path (Some (backup_path dir stamp)) = Some (backup_path dir stamp).
Proof.
  unfold Fit.nonempty_path, backup_path, Fit.path_join.
  destruct dir as [|c dir]; [reflexivity|].
  change (String.eqb (String c dir) "") with false. cbv iota.
  destruct (endswith (String c dir) "/"); reflexivity.
Qed.

(** A session in progress: [recs] are its records, [fs0] the file system it
    started on, and the last backup holds the first [30 * k] records. *)
Definition recording (path : string) (fs0 : gmap string Fit.file_content)
    (recs : list Fit.FitRecord) (st : Fit.FitExporter * gmap string Fit.file_content)
  : Prop :=
  recs <> []
  /\ Fit._records st.1 = recs
  /\ Fit._start_time st.1 = option_map Fit.timestamp (head recs)
  /\ Fit._end_time st.1 = option_map Fit.timestamp (last recs)
  /\ Fit._backup_file st.1 = Some path
  /\ exists k : nat,
       Fit._last_backup_count st.1 = (30 * k)%nat
       /\ (30 * k <= length recs < 30 * k + 30)%nat
       /\ st.2 = match k with
                 | O => fs0
                 | S _ =>
                     <[path := Fit.BackupJson (option_map Fit.timestamp (head recs))
                                 (option_map Fit.timestamp (last (firstn (30 * k) recs)))
                                 (firstn (30 * k) recs)]> fs0
                 end.

Lemma save_backup_writes (e : Fit.FitExporter) (fs : gmap string Fit.file_content)
    (path : string) :
  Fit.nonempty_path (Fit._backup_file e) = Some path ->
  Fit._records e <> [] ->
  Fit._save_backup e fs
  = (Fit.mkExporter (Fit._records e) (Fit._start_time e) (Fit._end_time e)
       (Fit._backup_dir e) (Fit._backup_file e) (length (Fit._records e)),
     <[path := Fit.BackupJson (Fit._start_time e) (Fit._end_time e) (Fit._records e)]> fs).
Proof.
  intros Hp Hr. unfold Fit._save_backup. rewrite Hp.
  destruct (Fit._records e); [contradiction | reflexivity].
Qed.

Lemma recording_first (dir : string) (fs : gmap string Fit.file_content) (s : sample) :
  dir <> ""%string ->
  (add_record_of (Fit.init dir, fs) s).1 = Ok tt
  /\ recording (backup_path dir (s_stamp s)) fs [record_of s]
       (add_sample (Fit.init dir, fs) s).
Proof.
  intros Hdir. unfold add_sample, add_record_of. cbn [fst snd].
  rewrite add_record_first by first [reflexivity | exact Hdir].
  split; [reflexivity|]. cbn.
  repeat split; try reflexivity; try discriminate.
  exists 0%nat. cbn. repeat split; lia.
Qed.

Lemma recording_step (path : string) (fs0 : gmap string Fit.file_content)
    (recs : list Fit.FitRecord) (st : Fit.FitExporter * gmap string Fit.file_content)
    (s : sample) :
  Fit.nonempty_path (Some path) = Some path ->
  recording path fs0 recs st ->
  (add_record_of st s).1 = Ok tt
  /\ recording path fs0 (recs ++ [record_of s]) (add_sample st s).
Proof.
  intros Hpath (Hne & Hrecs & Hstart & Hend & Hfile & k & Hcount & Hk & Hfs).
  destruct st as [e fs]. cbn [fst snd] in *.
  destruct recs as [|r0 recs]; [contradiction|].
  set (rs := r0 :: recs) in *.
  unfold add_sample, add_record_of. cbn [fst snd].
  cbn [head option_map rs] in Hstart.
  rewrite (add_record_started e fs _ _ _ _ _ _ _ Hstart).
  split; [reflexivity|]. cbn [snd]. cbv zeta.
  rewrite Hrecs, Hfile, Hcount.
  fold (record_of s).
  cbn [Fit._records Fit._last_backup_count].
  rewrite length_app. cbn [length]. fold rs.
  destruct (30 <=? length rs + 1 - 30 * k)%nat eqn:E;
    [apply Nat.leb_le in E | apply Nat.leb_gt in E].
  - (* the backup is written *)
    rewrite (save_backup_writes _ fs path)
      by first [ exact Hpath
               | intros H; apply app_eq_nil in H; destruct H; discriminate ].
    cbn [Fit._backup_file Fit._records Fit._start_time Fit._end_time Fit._backup_dir].
    split; [intros H; apply app_eq_nil in H; destruct H; discriminate|].
    cbn [fst snd Fit._records Fit._start_time Fit._end_time Fit._backup_file
         Fit._last_backup_count].
    split; [reflexivity|]. split; [reflexivity|].
    split; [rewrite last_snoc; reflexivity|]. split; [reflexivity|].
    exists (S k). rewrite !length_app. cbn [length].
    assert (Hlen : (length rs + 1 = 30 * S k)%nat) by lia.
    split; [exact Hlen|]. split; [lia|].
    rewrite <- Hlen.
    replace (length rs + 1)%nat with (length (rs ++ [record_of s]))
      by (rewrite length_app; reflexivity).
    rewrite firstn_all, last_snoc. cbn [option_map].
    rewrite Hfs. destruct k; [reflexivity|]. apply insert_insert_eq.
  - split; [intros H; apply app_eq_nil in H; destruct H; discriminate|].
    cbn [fst snd Fit._records Fit._start_time Fit._end_time Fit._backup_file
         Fit._last_backup_count].
    split; [reflexivity|]. split; [reflexivity|].
    split; [rewrite last_snoc; reflexivity|]. split; [reflexivity|].
    exists k. rewrite !length_app. cbn [length].
    split; [reflexivity|]. split; [lia|].
    rewrite Hfs. destruct k as [|k']; [reflexivity|].
    rewrite firstn_app.
    replace (30 * S k' - length rs)%nat with 0%nat by lia.
    cbn [firstn]. rewrite app_nil_r. reflexivity.
Qed.

Lemma recording_samples (path : string) (fs0 : gmap string Fit.file_content)
    (l : list sample) (recs : list Fit.FitRecord)
    (st : Fit.FitExporter * gmap string Fit.file_content) :
  Fit.nonempty_path (Some path) = Some path ->
  recording path fs0 recs st ->
  add_outcomes st l = repeat (Ok tt) (length l)
  /\ recording path fs0 (recs ++ map record_of l) (add_samples st l).
Proof.
  intros Hpath. revert recs st. induction l as [|s l IH]; intros recs st H.
  - cbn [map add_samples fold_left]. rewrite app_nil_r. split; [reflexivity | exact H].
  - cbn [map add_samples add_outcomes fold_left length repeat].
    replace (recs ++ record_of s :: map record_of l)
      with ((recs ++ [record_of s]) ++ map record_of l)
      by (rewrite <- app_assoc; reflexivity).
    destruct (recording_step path fs0 recs st s Hpath H) as [Hout Hrec].
    destruct (IH _ _ Hrec) as [Houts Hrecs].
    rewrite Hout, Houts. split; [reflexivity | exact Hrecs].
Qed.

Lemma last_map_record_of (l : list sample) :
  last (map record_of l) = option_map record_of (last l).
Proof.
  induction l as [|x l IH]; [reflexivity|].
  destruct l as [|y l]; [reflexivity|]. exact IH.
Qed.

(** A session that has a start time but no backup file: samples are appended
    and nothing is written. *)
Lemma add_sample_without_backup_file
    (st : Fit.FitExporter * gmap string Fit.file_content) (s : sample) :
  Fit._start_time st.1 <> None -> Fit._backup_file st.1 = None ->
  (add_record_of st s).1 = Ok tt
  /\ Fit._start_time (add_sample st s).1 = Fit._start_time st.1
  /\ Fit._end_time (add_sample st s).1 = Some (s_timestamp s)
  /\ Fit._backup_file (add_sample st s).1 = None
  /\ Fit._last_backup_count (add_sample st s).1 = Fit._last_backup_count st.1
  /\ Fit._records (add_sample st s).1 = Fit._records st.1 ++ [record_of s]
  /\ (add_sample st s).2 = st.2.
Proof.
  intros Hs Hb. destruct st as [e fs]. cbn [fst snd] in *.
  unfold add_sample, add_record_of. cbn [fst snd].
  destruct (Fit._start_time e) as [t|] eqn:Et; [|contradiction].
  rewrite (add_record_started e fs _ _ _ _ _ _ _ Et). cbn [fst snd]. cbv zeta.
  rewrite Hb. fold (record_of s).
  destruct (30 <=? _)%nat.
  - unfold Fit._save_backup. cbn. repeat split; reflexivity.
  - cbn. repeat split; reflexivity.
Qed.

Lemma add_samples_without_backup_file (l : list sample)
    (st : Fit.FitExporter * gmap string Fit.file_content) :
  Fit._start_time st.1 <> None -> Fit._backup_file st.1 = None ->
  add_outcomes st l = repeat (Ok tt) (length l)
  /\ (add_samples st l).2 = st.2
  /\ Fit._backup_file (add_samples st l).1 = None
  /\ Fit._records (add_samples st l).1 = Fit._records st.1 ++ map record_of l
  /\ Fit._start_time (add_samples st l).1 = Fit._start_time st.1
  /\ Fit._last_backup_count (add_samples st l).1 = Fit._last_backup_count st.1
  /\ Fit._end_time (add_samples st l).1
     = match last l with
       | Some s => Some (s_timestamp s)
       | None => Fit._end_time st.1
       end.
Proof.
  revert st. induction l as [|s l IH]; intros st Hs Hb.
  - cbn [add_samples add_outcomes fold_left map length repeat last].
    rewrite app_nil_r. repeat split. exact Hb.
  - cbn [add_samples add_outcomes fold_left map length repeat].
    destruct (add_sample_without_backup_file st s Hs Hb)
      as (Ho & Hs' & He' & Hb' & Hc' & Hr' & Hf').
    assert (Hs2 : Fit._start_time (add_sample st s).1 <> None) by (rewrite Hs'; exact Hs).
    destruct (IH (add_sample st s) Hs2 Hb') as (I0 & I1 & I2 & I3 & I4 & I5 & I6).
    unfold add_samples in I1, I2, I3, I4, I5, I6.
    rewrite Ho, I0, I1, I2, I3, I4, I5, I6, Hf', Hr', Hs', Hc', He', <- app_assoc.
    repeat split. rewrite last_cons. destruct (last l); reflexivity.
Qed.

(** X21.  A recording session and its backups, on a file system that lets the
    directory be created and accepts the writes.  On an exporter with a backup
    directory every call of [add_record] returns: the samples are kept in
    order; the first sets the start time and names the backup file, the last
    sets the end time.  A backup is written at every 30th record, so with n
    records the backup file holds the first 30 * k of them,
    30 * k <= n < 30 * k + 30, with the session's start time and the time of
    the last record it holds; before the 30th record nothing is written.
    On an exporter whose backup directory is the empty string the first call
    raises FileNotFoundError ([os.makedirs]) after it has set the start time:
    that sample is lost, the later ones are recorded, and no backup file is
    ever named or written. *)
Theorem session_is_backed_up_every_30_records (dir : string)
    (fs : gmap string Fit.file_content) (s : sample) (l : list sample) :
  let st := add_samples (Fit.init dir, fs) (s :: l) in
  let outcomes := add_outcomes (Fit.init dir, fs) (s :: l) in
  let recs := map record_of (s :: l) in
  let path := backup_path dir (s_stamp s) in
  (dir <> ""%string ->
   outcomes = repeat (Ok tt) (S (length l))
   /\ Fit._records st.1 = recs
   /\ Fit.record_count st.1 = S (length l)
   /\ Fit._start_time st.1 = Some (s_timestamp s)
   /\ Fit._end_time st.1 = option_map s_timestamp (last (s :: l))
   /\ Fit._backup_file st.1 = Some path
   /\ exists k : nat,
        Fit._last_backup_count st.1 = (30 * k)%nat
        /\ (30 * k <= S (length l) < 30 * k + 30)%nat
        /\ st.2 = match k with
                  | O => fs
                  | S _ =>
                      <[path := Fit.BackupJson (Some (s_timestamp s))
                                  (option_map Fit.timestamp (last (firstn (30 * k) recs)))
                                  (firstn (30 * k) recs)]> fs
                  end)
  /\ (dir = ""%string ->
      outcomes = Raise FileNotFoundError :: repeat (Ok tt) (length l)
      /\ Fit._records st.1 = map record_of l
      /\ Fit.record_count st.1 = length l
      /\ Fit._start_time st.1 = Some (s_timestamp s)
      /\ Fit._end_time st.1 = option_map s_timestamp (last l)
      /\ Fit._backup_file st.1 = None
      /\ Fit._last_backup_count st.1 = 0%nat
      /\ st.2 = fs).
Proof.
  cbv zeta. split.
  - intros Hdir.
    destruct (recording_first dir fs s Hdir) as [Hout Hfirst].
    pose proof (recording_samples (backup_path dir (s_stamp s)) fs l [record_of s]
                  (add_sample (Fit.init dir, fs) s)
                  (backup_path_nonempty dir (s_stamp s)) Hfirst) as [Houts H].
    change (add_samples (add_sample (Fit.init dir, fs) s) l)
      with (add_samples (Fit.init dir, fs) (s :: l)) in H.
    change ([record_of s] ++ map record_of l) with (map record_of (s :: l)) in H.
    destruct H as (_ & Hrecs & Hstart & Hend & Hfile & k & Hcount & Hk & Hfs).
    split; [cbn [add_outcomes repeat]; rewrite Hout, Houts; reflexivity|].
    split; [exact Hrecs|].
    split; [unfold Fit.record_count; rewrite Hrecs, length_map; reflexivity|].
    split; [exact Hstart|].
    split.
    { rewrite Hend, last_map_record_of. destruct (last (s :: l)); reflexivity. }
    split; [exact Hfile|].
    exists k. rewrite length_map in Hk. cbn [length] in Hk.
    split; [exact Hcount|]. split; [exact Hk | exact Hfs].
  - intros ->.
    assert (Est : add_sample (Fit.init "", fs) s
                  = (Fit.set_start_time (Fit.init "") (s_timestamp s), fs)) by reflexivity.
    assert (Eout : (add_record_of (Fit.init "", fs) s).1 = Raise FileNotFoundError)
      by reflexivity.
    cbn [add_samples add_outcomes fold_left]. rewrite Est, Eout.
    destruct (add_samples_without_backup_file l
                (Fit.set_start_time (Fit.init "") (s_timestamp s), fs)
                ltac:(discriminate) eq_refl) as (I0 & I1 & I2 & I3 & I4 & I5 & I6).
    unfold add_samples in I1, I2, I3, I4, I5, I6. cbn [fst snd] in *.
    split; [rewrite I0; reflexivity|].
    split; [exact I3|].
    split; [unfold Fit.record_count; rewrite I3; cbn; apply length_map|].
    split; [exact I4|].
    split; [rewrite I6; destruct (last l); reflexivity|].
    split; [exact I2|]. split; [exact I5 | exact I1].
Qed.

(** Thirty-one samples on the directory "workouts": the backup holds the
    first thirty.  One sample on the empty directory: the call raises and
    nothing is recorded. *)
Lemma session_is_backed_up_every_30_records_witness :
  Fit._last_backup_count
    (add_samples (Fit.init "workouts", ∅)
       (repeat (mkSample "20260101_000000" 1700000000 140 200 90 (25 # 3)) 31)).1
  = 30%nat
  /\ add_outcomes (Fit.init "", ∅)
       [mkSample "20260101_000000" 1700000000 140 200 90 (25 # 3)]
     = [Raise FileNotFoundError]
  /\ Fit.record_count
       (add_samples (Fit.init "", ∅)
          [mkSample "20260101_000000" 1700000000 140 200 90 (25 # 3)]).1
     = 0%nat.
Proof.
  split; [vm_compute; reflexivity|].
  destruct (session_is_backed_up_every_30_records "" ∅
              (mkSample "20260101_000000" 1700000000 140 200 90 (25 # 3)) [])
    as [_ H].
  cbv zeta in H. destruct (H eq_refl) as (H1 & _ & H3 & _).
  split; [exact H1 | exact H3].
Defined.

Lemma build_fit_file_ext (e1 e2 : Fit.FitExporter) :
  Fit._records e1 = Fit._records e2 ->
  Fit._start_time e1 = Fit._start_time e2 ->
  Fit._end_time e1 = Fit._end_time e2 ->
  Fit._build_fit_file e1 = Fit._build_fit_file e2.
Proof.
  intros Hr Hs He.
  assert (Hel : Fit.elapsed_ms e1 = Fit.elapsed_ms e2)
    by (unfold Fit.elapsed_ms; rewrite Hs, He; reflexivity).
  assert (Hev : forall t ev, Fit._build_event e1 t ev = Fit._build_event e2 t ev)
    by (intros; unfold Fit._build_event; rewrite Hs, He; reflexivity).
  unfold Fit._build_fit_file, Fit._build_data_records, Fit._build_lap, Fit._build_session,
    Fit._build_activity.
  rewrite Hr, Hs, He, Hel, !Hev. reflexivity.
Qed.

(** X22.  A backup restores the session.  After [_save_backup] has written a
    session that has records and a backup file name, [load_backup] on that
    file returns [True] on any exporter and gives it the records, start time
    and end time of the session, so that it exports to the very same file
    contents.  Loading a path that holds no backup (nothing, or an exported
    FIT file) returns [False] and changes nothing. *)
Theorem backup_restores_session (self other : Fit.FitExporter)
    (fs : gmap string Fit.file_content) (path : string) :
  Fit.nonempty_path (Fit._backup_file self) = Some path ->
  Fit._records self <> [] ->
  let fs' := (Fit._save_backup self fs).2 in
  let restored := Fit.load_backup other fs' path in
  restored.2 = true
  /\ Fit._records restored.1 = Fit._records self
  /\ Fit._start_time restored.1 = Fit._start_time self
  /\ Fit._end_time restored.1 = Fit._end_time self
  /\ Fit._build_fit_file restored.1 = Fit._build_fit_file self
  /\ (forall p, match fs' !! p with Some (Fit.BackupJson _ _ _) => False | _ => True end ->
                Fit.load_backup other fs' p = (other, false)).
Proof.
  intros Hp Hr. cbv zeta. rewrite (save_backup_writes self fs path Hp Hr). cbn [snd].
  unfold Fit.load_backup at 1 2 3 4 5. rewrite lookup_insert_eq. cbn [fst snd].
  split; [reflexivity|]. split; [reflexivity|]. split; [reflexivity|].
  split; [reflexivity|].
  split; [apply build_fit_file_ext; reflexivity|].
  intros p Hnone. unfold Fit.load_backup.
  destruct (_ !! p) as [[data|s e r]|]; [reflexivity | contradiction | reflexivity].
Qed.

Lemma backup_restores_session_witness :
  (Fit.load_backup (Fit.init "elsewhere")
     (Fit._save_backup one_record_session ∅).2 "workouts/.backup_20260101_000000.json").2
  = true
  /\ Fit._records
       (Fit.load_backup (Fit.init "elsewhere")
          (Fit._save_backup one_record_session ∅).2
          "workouts/.backup_20260101_000000.json").1
     = Fit._records one_record_session.
Proof.
  pose proof (backup_restores_session one_record_session (Fit.init "elsewhere") ∅
                "workouts/.backup_20260101_000000.json"
                ltac:(vm_compute; reflexivity) ltac:(vm_compute; discriminate)) as H.
  cbv zeta in H. destruct H as (H1 & H2 & _). split; [exact H1 | exact H2].
Defined.

(** X23.  [clear] starts over.  It returns the exporter to the state of a new
    one on the same backup directory and removes the backup file of the
    session, leaving every other file alone; an export right after it raises
    ValueError("No records to export") and writes nothing. *)
Theorem clear_starts_over (abspath : string -> string) (self : Fit.FitExporter)
    (fs : gmap string Fit.file_content) (filename : string) :
  let out := Fit.clear self fs in
  out.1 = Fit.init (Fit._backup_dir self)
  /\ Fit.record_count out.1 = 0%nat
  /\ (forall path, Fit.nonempty_path (Fit._backup_file self) = Some path ->
        out.2 !! path = None /\ forall p, p <> path -> out.2 !! p = fs !! p)
  /\ (Fit.nonempty_path (Fit._backup_file self) = None -> out.2 = fs)
  /\ Fit.export abspath out.1 out.2 filename
     = (Raise (ValueError "No records to export"), out).
Proof.
  cbv zeta. unfold Fit.clear, Fit.cleanup_backup.
  cbn [fst snd Fit._records Fit._start_time Fit._end_time Fit._backup_dir
       Fit._backup_file].
  split; [reflexivity|]. split; [reflexivity|].
  split.
  { intros path ->. split; [apply lookup_delete_eq|].
    intros p Hp. apply lookup_delete_ne. congruence. }
  split; [intros ->; reflexivity|].
  reflexivity.
Qed.

Lemma build_fit_file_start_time (self : Fit.FitExporter) (file : list byte) :
  Fit._build_fit_file self = Ok file -> Fit._start_time self <> None.
Proof.
  intros H. apply build_fit_file_inv in H. destruct H as (body & Hb & _).
  unfold Fit._build_data_records in Hb.
  apply packs_app_inv in Hb. destruct Hb as (b1 & b1' & H1 & _).
  apply packs_cons_inv in H1. destruct H1 as (b2 & b2' & _ & H2 & _).
  apply packs_cons_inv in H2. destruct H2 as (b3 & b3' & H3 & _).
  unfold Fit._build_event in H3.
  apply bind_inv in H3. destruct H3 as (d & _ & H4).
  apply bind_inv in H4. destruct H4 as (t & Ht & _).
  change (0 =? 0) with true in Ht. cbv iota in Ht.
  intros Hnone. rewrite Hnone in Ht. discriminate Ht.
Qed.

(** X24.  After an export the backups stop.  A successful [export] drops the
    name of the backup file but keeps the records and the start time, so the
    samples added afterwards, however many, are appended to the records and
    never written to a backup: the file system stays as the export left it
    until [clear] starts a new session. *)
Theorem no_backup_after_export (abspath : string -> string) (self e1 : Fit.FitExporter)
    (fs fs1 : gmap string Fit.file_content) (filename path : string) (l : list sample) :
  Fit.export abspath self fs filename = (Ok path, (e1, fs1)) ->
  let st := add_samples (e1, fs1) l in
  st.2 = fs1
  /\ Fit._backup_file st.1 = None
  /\ Fit._last_backup_count e1 = 0%nat
  /\ Fit._records st.1 = Fit._records self ++ map record_of l.
Proof.
  intros Hex. cbv zeta.
  assert (H1 : Fit._start_time e1 <> None /\ Fit._backup_file e1 = None
               /\ Fit._last_backup_count e1 = 0%nat
               /\ Fit._records e1 = Fit._records self).
  { revert Hex. unfold Fit.export.
    destruct (Fit._records self) as [|r rs] eqn:Er; [discriminate|].
    destruct (Fit._build_fit_file self) as [data|e] eqn:Ed; [|discriminate].
    apply build_fit_file_start_time in Ed.
    unfold Fit.cleanup_backup. intros [= _ <- _].
    cbn. repeat split; try reflexivity; [exact Ed | exact Er]. }
  destruct H1 as (Hs & Hb & Hc & Hr).
  destruct (add_samples_without_backup_file l (e1, fs1) Hs Hb) as (_ & I1 & I2 & I3 & _).
  cbn [fst snd] in I1, I3.
  split; [exact I1|]. split; [exact I2|]. split; [exact Hc|].
  rewrite I3, Hr. reflexivity.
Qed.

Lemma no_backup_after_export_witness :
  (add_samples
     (Fit.export (fun p => p) one_record_session
        (Fit._save_backup one_record_session ∅).2 "ride").2
     (repeat (mkSample "20260101_000100" 1700000001 141 201 91 (25 # 3)) 60)).2
  = (Fit.export (fun p => p) one_record_session
       (Fit._save_backup one_record_session ∅).2 "ride").2.2.
Proof.
  destruct (Fit.export (fun p => p) one_record_session
              (Fit._save_backup one_record_session ∅).2 "ride") as [[path|e] [e1 fs1]] eqn:E.
  - cbn [snd].
    apply (no_backup_after_export (fun p => p) one_record_session e1 _ fs1 "ride" path
             (repeat (mkSample "20260101_000100" 1700000001 141 201 91 (25 # 3)) 60) E).
  - exfalso. vm_compute in E. discriminate E.
Defined.

(** ** app.py: from notifications to the exported file *)

Definition app_in_range (app : App.App) : Prop :=
  ble_in_range (App.ble_manager app)
  /\ Forall nonneg_record (Fit._records (App.fit_exporter app)).

Lemma add_record_records (e : Fit.FitExporter) (fs : gmap string Fit.file_content)
    (stamp : string) (ts : Q) (hr power cadence : Z) (speed : Q) :
  Fit._records (Fit.add_record e fs stamp ts hr power cadence speed).2.1
  = Fit._records e ++ [Fit.mkFitRecord ts hr power cadence speed]
  \/ Fit._records (Fit.add_record e fs stamp ts hr power cadence speed).2.1
     = Fit._records e.
Proof.
  unfold Fit.add_record, Fit.makedirs.
  destruct (Fit._start_time e); cbn [Fit.set_start_time Fit._backup_dir];
    [|destruct (String.eqb (Fit._backup_dir e) ""); [right; reflexivity|]];
    left; cbv zeta iota beta;
    (destruct (30 <=? _)%nat; [|reflexivity]);
    unfold Fit._save_backup; cbn [snd fst];
    cbn [Fit._backup_file Fit._records Fit._start_time Fit._end_time Fit._backup_dir
         Fit.set_backup_file Fit.set_start_time];
    destruct (Fit.nonempty_path _); try reflexivity;
    destruct (Fit._records e ++ _); reflexivity.
Qed.

Lemma add_record_in_range (e : Fit.FitExporter) (fs : gmap string Fit.file_content)
    (stamp : string) (ts : Q) (hr power cadence : Z) (speed : Q) :
  Forall nonneg_record (Fit._records e) ->
  nonneg_record (Fit.mkFitRecord ts hr power cadence speed) ->
  Forall nonneg_record
    (Fit._records (Fit.add_record e fs stamp ts hr power cadence speed).2.1).
Proof.
  intros Hrec Hr.
  destruct (add_record_records e fs stamp ts hr power cadence speed) as [-> | ->];
    [|exact Hrec].
  apply Forall_app. split; [exact Hrec|].
  apply List.Forall_cons; [exact Hr | apply List.Forall_nil].
Qed.

Lemma on_bike_data_in_range (app : App.App) (stamp : string) (d : BLE.BikeData) :
  app_in_range app -> bike_in_range d -> app_in_range (App.on_bike_data app stamp d).2.
Proof.
  intros [Hble Hrec] (Hp & Hc & Hs). unfold App.on_bike_data.
  destruct (App.workout_active app); [|split; assumption].
  pose proof (add_record_in_range (App.fit_exporter app) (App.files app) stamp
                (BLE.timestamp d) (BLE.heart_rate (BLE._last_hr_data (App.ble_manager app)))
                (BLE.power d) (BLE.cadence d) (BLE.speed d / 3.6)%Q Hrec) as Hr.
  destruct (Fit.add_record _ _ _ _ _ _ _ _) as [outcome [fit fs]]. cbn [fst snd] in *.
  split; [exact Hble|]. cbn [App.fit_exporter]. apply Hr.
  destruct Hble as [_ Hh]. unfold hr_in_range in Hh.
  unfold nonneg_record. cbn [Fit.heart_rate Fit.cadence Fit.power Fit.speed].
  repeat split; try lia.
  apply Qle_shift_div_l; [reflexivity|]. rewrite Qmult_0_l. apply Hs.
Qed.

Lemma on_hr_data_in_range (app : App.App) (stamp : string) (now : Q)
    (alert_time : string -> Q) (d : BLE.HRData) :
  app_in_range app -> hr_in_range d ->
  app_in_range (App.on_hr_data app stamp now alert_time d).2.1.
Proof.
  intros [Hble Hrec] Hh. unfold App.on_hr_data.
  destruct (App.workout_active app); [|split; assumption].
  destruct (Zone.update _ _ _ _ _ _ _) as [analyzer alerts].
  destruct (BLE.power (BLE._last_bike_data (App.ble_manager app)) =? 0).
  - pose proof (add_record_in_range (App.fit_exporter app) (App.files app) stamp
                  (BLE.hr_timestamp d) (BLE.heart_rate d) 0 0 0 Hrec) as Hr.
    destruct (Fit.add_record _ _ _ _ _ _ _ _) as [outcome [fit fs]]. cbn [fst snd] in *.
    split; [exact Hble|]. cbn [fst App.fit_exporter]. apply Hr.
    unfold hr_in_range in Hh. unfold nonneg_record.
    cbn [Fit.heart_rate Fit.cadence Fit.power Fit.speed].
    repeat split; try lia. apply Qle_refl.
  - split; assumption.
Qed.

Lemma deliver_in_range (app : App.App) (stamp : string) (t1 t2 : Q)
    (alert_time : string -> Q) (n : App.notification) :
  app_in_range app ->
  app_in_range (App.deliver app stamp t1 t2 alert_time n).2.1.
Proof.
  intros [Hble Hrec]. unfold App.deliver.
  set (h := match n with
            | App.IndoorBikeData data => _
            | App.CyclingPowerMeasurement data => _
            | App.HeartRateMeasurement data => _
            end).
  destruct h as [[ble events]|e] eqn:Hh; [|split; assumption].
  assert (Hr : ble_in_range ble /\ Forall event_in_range events).
  { subst h. destruct n as [data|data|data].
    - apply (indoor_bike_in_range _ _ data t1 _ Hble Hh).
    - apply (cycling_power_in_range _ _ data t1 _ Hble Hh).
    - apply (hr_measurement_in_range _ _ data t1 _ Hble Hh). }
  destruct Hr as [Hble' Hev].
  assert (Hfold : forall evs acc,
            Forall event_in_range evs -> app_in_range acc.2.1 ->
            app_in_range
              (fold_left (fun acc e =>
                            match acc.1 with
                            | Raise _ => acc
                            | Ok _ =>
                                let '(outcome, (app, alerts)) :=
                                  App.on_event acc.2.1 stamp t2 alert_time e in
                                (outcome, (app, acc.2.2 ++ alerts))
                            end) evs acc).2.1).
  { induction evs as [|e evs IH]; intros acc Hevs Hacc; [exact Hacc|].
    cbn [fold_left]. apply IH; [inversion Hevs; assumption|].
    inversion Hevs as [|? ? He _]; subst.
    destruct acc.1; [|exact Hacc].
    destruct e as [d|d]; cbn [App.on_event event_in_range] in *.
    - pose proof (on_bike_data_in_range acc.2.1 stamp d Hacc He) as Hx.
      destruct (App.on_bike_data acc.2.1 stamp d). exact Hx.
    - pose proof (on_hr_data_in_range acc.2.1 stamp t2 alert_time d Hacc He) as Hx.
      destruct (App.on_hr_data acc.2.1 stamp t2 alert_time d) as [o [a' al]]. exact Hx. }
  apply (Hfold events (Ok tt, (App.with_ble app ble, [])) Hev (conj Hble' Hrec)).
Qed.

(** One delivery: the stamp and the clock readings that go with a
    notification. *)
Record delivery := mkDelivery {
  d_stamp : string;
  d_handler_time : Q;
  d_update_time : Q;
  d_alert_time : string -> Q;
  d_frame : App.notification
}.

(** Notifications delivered one after the other: the state they leave,
    whether a delivery returns or raises. *)
Definition deliver_all (app : App.App) (l : list delivery) : App.App :=
  fold_left (fun app d =>
               (App.deliver app (d_stamp d) (d_handler_time d) (d_update_time d)
                  (d_alert_time d) (d_frame d)).2.1) l app.

Lemma deliver_all_in_range (l : list delivery) (app : App.App) :
  app_in_range app -> app_in_range (deliver_all app l).
Proof.
  revert app. induction l as [|d l IH]; intros app H; [exact H|].
  cbn [deliver_all fold_left]. apply IH. apply deliver_in_range. exact H.
Qed.

(** X25.  What the application records can be encoded.  Starting with cached
    samples in range and records without negative fields (as after
    [handle_start_workout]), whatever notifications arrive, in whatever
    order and however malformed, every record the callbacks add has a
    nonnegative heart rate, power, cadence and speed.  So no field makes
    [struct.pack] fail: an export of the recorded session succeeds whenever
    it has a record and its times fit the FIT fields. *)
Theorem recorded_samples_always_encode (abspath : string -> string) (app : App.App)
    (l : list delivery) (filename : string) :
  ble_in_range (App.ble_manager app) ->
  Forall nonneg_record (Fit._records (App.fit_exporter app)) ->
  let app' := deliver_all app l in
  let fit := App.fit_exporter app' in
  ble_in_range (App.ble_manager app')
  /\ Forall nonneg_record (Fit._records fit)
  /\ (valid_timing fit -> Fit._records fit <> [] ->
      exists data,
        Fit._build_fit_file fit = Ok data
        /\ Fit.export abspath fit (App.files app') filename
           = (Ok (abspath (fit_name filename)),
              Fit.cleanup_backup fit
                (<[fit_name filename := Fit.FitFile data]> (App.files app')))).
Proof.
  intros Hble Hrec. cbv zeta.
  destruct (deliver_all_in_range l app (conj Hble Hrec)) as [Hble' Hrec'].
  split; [exact Hble'|]. split; [exact Hrec'|].
  intros Hv Hne. destruct (build_fit_file_ok _ Hv Hrec') as (data & Hd).
  exists data. split; [exact Hd|]. apply export_ok; assumption.
Qed.

(** A workout in progress with nothing recorded yet. *)
Definition app_started : App.App :=
  App.mkApp true (BLE.mkBLEManager true true BLE.BikeData_default BLE.HRData_default)
    zone2_started (Zone.init 124 143 5 10 10) (Fit.init "workouts") ∅.

Lemma recorded_samples_always_encode_witness :
  Forall nonneg_record
    (Fit._records
       (App.fit_exporter
          (deliver_all app_started
             [mkDelivery "20260101_000000" 1700000000 1700000000 (fun _ => 1700000000%Q)
                (App.HeartRateMeasurement [x00; x8c]);
              mkDelivery "20260101_000000" 1700000001 1700000001 (fun _ => 1700000001%Q)
                (App.IndoorBikeData [x44; x00; xb8; x0b; xb4; x00; xc8; x00]);
              mkDelivery "20260101_000000" 1700000002 1700000002 (fun _ => 1700000002%Q)
                (App.CyclingPowerMeasurement [x00])]))).
Proof.
  apply (recorded_samples_always_encode (fun p => p) app_started _ "ride").
  - unfold ble_in_range, bike_in_range, hr_in_range. cbn.
    repeat split; first [lia | apply Qle_refl | discriminate].
  - apply List.Forall_nil.
Defined.

Lemma phase_value_main (p : Workout.WorkoutPhase) :
  p <> Workout.MAIN -> Workout.phase_value p <> "main"%string.
Proof. destruct p; intros H; try discriminate. contradiction. Qed.

Lemma current_phase_in_plan (s : Workout.WorkoutManager) :
  Workout.current_phase s = Workout.NOT_STARTED
  \/ Workout.current_phase s = Workout.COMPLETED
  \/ exists seg, In seg (Workout.segments s) /\ Workout.current_phase s = Workout.phase seg.
Proof.
  unfold Workout.current_phase.
  destruct (_ <? 0); [left; reflexivity|].
  destruct (_ <=? _); [right; left; reflexivity|].
  destruct (nth_error _ _) as [seg|] eqn:E; [|right; left; reflexivity].
  right; right. exists seg. split; [apply (nth_error_In _ _ E) | reflexivity].
Qed.

(** X26.  Zone monitoring follows the workout phase.  While the current
    segment of the workout manager is not a MAIN segment, a heart-rate sample
    raises no alert and adds nothing to the three zone-time totals, whatever
    the heart rate.  The VO2max plan has no MAIN segment (its work segments
    are INTERVAL), so during a VO2max workout the analyzer never alerts. *)
Theorem zone_monitoring_follows_phase (app : App.App) (stamp : string) (now : Q)
    (alert_time : string -> Q) (data : BLE.HRData) :
  Workout.current_phase (App.workout_manager app) <> Workout.MAIN
  \/ (exists c, Workout.segments (App.workout_manager app) = Workout.vo2max_segments c) ->
  let out := (App.on_hr_data app stamp now alert_time data).2 in
  out.2 = []
  /\ Zone._time_in_zone (App.zone_analyzer out.1) = Zone._time_in_zone (App.zone_analyzer app)
  /\ Zone._time_above (App.zone_analyzer out.1) = Zone._time_above (App.zone_analyzer app)
  /\ Zone._time_below (App.zone_analyzer out.1) = Zone._time_below (App.zone_analyzer app).
Proof.
  intros H. cbv zeta.
  assert (Hphase : Workout.current_phase (App.workout_manager app) <> Workout.MAIN).
  { destruct H as [H|[c Hc]]; [exact H|].
    destruct (current_phase_in_plan (App.workout_manager app)) as [E|[E|(seg & Hin & E)]];
      rewrite E; try discriminate.
    rewrite Hc in Hin. clear -Hin.
    unfold Workout.vo2max_segments in Hin. cbn [app flat_map Z.ltb Z.compare Pos.compare
                                                 Pos.compare_cont] in Hin.
    cbn [In] in Hin.
    repeat (destruct Hin as [<-|Hin]; [discriminate|]). destruct Hin. }
  apply phase_value_main in Hphase.
  unfold App.on_hr_data.
  destruct (App.workout_active app); [|repeat split; reflexivity].
  rewrite (update_not_main _ _ _ _ _ _ _ Hphase).
  assert (E : String.eqb (Workout.phase_value
                            (Workout.current_phase (App.workout_manager app))) "main"
              = false).
  { destruct (String.eqb _ "main") eqn:E; [|reflexivity].
    apply String.eqb_eq in E. contradiction. }
  destruct (if BLE.power _ =? 0 then _ else _) as [outcome [fit fs]].
  cbn [fst snd App.zone_analyzer].
  unfold Zone.record_sample. cbv zeta. rewrite E.
  cbn [Zone._time_in_zone Zone._time_above Zone._time_below andb].
  destruct (Zone._last_update_time (App.zone_analyzer app)); repeat split; reflexivity.
Qed.

Lemma zone_monitoring_follows_phase_witness :
  (App.on_hr_data app_started "20260101_000000" 1700000000 (fun _ => 1700000000%Q)
     (BLE.mkHRData 190 1700000000)).2.2
  = [].
Proof.
  apply (zone_monitoring_follows_phase app_started "20260101_000000" 1700000000
           (fun _ => 1700000000%Q) (BLE.mkHRData 190 1700000000)).
  left. vm_compute. discriminate.
Defined.
